(** * Event enrichment, angle classification and priority scoring

    A shallow embedding of the deterministic core of the social content
    engine: the row join and field extraction of [data_processing.py] and
    [social_content_generator.py], the angle classifier and priority scorer
    of [batch_processor.py], the response parser and error classification
    of [ai_contextualizer.py], and the display score of [streamlit_app.py];
    then the batch loop, the filter, the posting schedule and the export
    of [batch_processor.py], its metadata, the loading of the four views
    and the quality report of [data_processing.py], the content loop of
    the pipeline and the distributions of the dashboard.  The warehouse
    connection, the text-generation endpoint, the clock, the calendar and
    the rounding of the metadata are parameters.

    Python values are modelled with explicit dynamic types where the source
    is dynamic (warehouse rows) and with records where it builds
    dictionaries of a fixed shape (enriched events).  Exceptions are an
    error monad.  Floats are rationals extended with NaN and the two
    infinities; arithmetic on finite floats is exact in the model. *)

From Stdlib Require Import ZArith QArith String Ascii List Bool Lia.
From Stdlib Require Import Numbers.DecimalString.
From stdpp Require Import base option gmap strings.
Import ListNotations.

Local Open Scope Z_scope.
Local Open Scope string_scope.
Local Open Scope list_scope.

(** ** The Python runtime *)

Module Py.

(** Exceptions that the modelled code can raise or catch. [Exception] is
    any other subclass of Python's [Exception], with its message. *)
Inductive exn : Type :=
| KeyError (key : string)
| ValueError
| TypeError
| OverflowError
| Exception (msg : string).

Inductive result (A : Type) : Type :=
| Ok (a : A)
| Raise (e : exn).
Arguments Ok {A} a.
Arguments Raise {A} e.

Definition bind {A B : Type} (m : result A) (k : A -> result B) : result B :=
  match m with
  | Ok a => k a
  | Raise e => Raise e
  end.

(** [try: ... except (ValueError, TypeError): handler] *)
Definition catches_value_type (e : exn) : bool :=
  match e with
  | ValueError | TypeError => true
  | _ => false
  end.

Definition try_except_value_type {A : Type} (m : result A) (handler : A) : result A :=
  match m with
  | Ok a => Ok a
  | Raise e => if catches_value_type e then Ok handler else Raise e
  end.

(** A Python float: a finite value, NaN, or an infinity. *)
Inductive pyfloat : Type :=
| Finite (q : Q)
| NaN
| Inf (negative : bool).

(** A Python scalar, as held by a warehouse row or an event field. *)
Inductive value : Type :=
| VNone
| VBool (b : bool)
| VInt (z : Z)
| VFloat (f : pyfloat)
| VStr (s : string).

(** Comparison of a float with a rational constant. Every comparison
    with NaN is false. *)
Definition float_ge (f : pyfloat) (c : Q) : bool :=
  match f with
  | Finite q => Qle_bool c q
  | NaN => false
  | Inf negative => negb negative
  end.

Definition float_gt (f : pyfloat) (c : Q) : bool :=
  match f with
  | Finite q => negb (Qle_bool q c)
  | NaN => false
  | Inf negative => negb negative
  end.

Definition float_le (f : pyfloat) (c : Q) : bool :=
  match f with
  | Finite q => Qle_bool q c
  | NaN => false
  | Inf negative => negative
  end.

Definition float_eq (f g : pyfloat) : bool :=
  match f, g with
  | Finite p, Finite q => Qeq_bool p q
  | Inf m, Inf n => Bool.eqb m n
  | _, _ => false
  end.

(** The numeric reading of a scalar: bools and ints compare by value
    with floats; [None] and strings are not numbers. *)
Definition as_number (v : value) : option pyfloat :=
  match v with
  | VBool b => Some (Finite (if b then 1%Q else 0%Q))
  | VInt z => Some (Finite (inject_Z z))
  | VFloat f => Some f
  | VNone | VStr _ => None
  end.

(** [v >= c], [v > c], [v <= c] against a numeric literal: a
    [TypeError] when [v] is [None] or a string. *)
Definition ge (v : value) (c : Q) : result bool :=
  match as_number v with
  | Some f => Ok (float_ge f c)
  | None => Raise TypeError
  end.

Definition gt (v : value) (c : Q) : result bool :=
  match as_number v with
  | Some f => Ok (float_gt f c)
  | None => Raise TypeError
  end.

Definition le (v : value) (c : Q) : result bool :=
  match as_number v with
  | Some f => Ok (float_le f c)
  | None => Raise TypeError
  end.

(** [x * k] for a float [x] and an int [k]. *)
Definition float_mul_int (f : pyfloat) (k : Z) : pyfloat :=
  match f with
  | Finite q => Finite (q * inject_Z k)
  | NaN => NaN
  | Inf negative =>
      if Z.eqb k 0 then NaN
      else Inf (if Z.ltb k 0 then negb negative else negative)
  end.

Fixpoint repeat_str (s : string) (n : nat) : string :=
  match n with
  | O => EmptyString
  | S n' => String.append s (repeat_str s n')
  end.

(** [v * k] for an int literal [k]: a string is repeated. *)
Definition mul_int (v : value) (k : Z) : result value :=
  match v with
  | VNone => Raise TypeError
  | VBool b => Ok (VInt ((if b then 1 else 0) * k))
  | VInt z => Ok (VInt (z * k))
  | VFloat f => Ok (VFloat (float_mul_int f k))
  | VStr s => Ok (VStr (repeat_str s (Z.to_nat k)))
  end.

(** [v + k] for an int [k]. *)
Definition add_int (v : value) (k : Z) : result value :=
  match v with
  | VNone | VStr _ => Raise TypeError
  | VBool b => Ok (VInt ((if b then 1 else 0) + k))
  | VInt z => Ok (VInt (z + k))
  | VFloat (Finite q) => Ok (VFloat (Finite (q + inject_Z k)))
  | VFloat f => Ok (VFloat f)
  end.

(** [a / b] on two ints, [b] not zero: true division, a float. *)
Definition int_truediv (a b : Z) : value :=
  VFloat (Finite (inject_Z a / inject_Z b)).

(** [int(x)] on a finite float truncates toward zero. *)
Definition trunc (q : Q) : Z := Z.quot (Qnum q) (Zpos (Qden q)).

(** The builtins whose text formats are not reproduced here: parsing a
    string as a float or an int, and printing a finite float. *)
Class Builtins : Type := {
  float_of_str : string -> option pyfloat;
  int_of_str : string -> option Z;
  repr_float : Q -> string
}.

Section Conversions.
Context `{Builtins}.

(** [float(v)] *)
Definition float (v : value) : result value :=
  match v with
  | VNone => Raise TypeError
  | VBool b => Ok (VFloat (Finite (if b then 1%Q else 0%Q)))
  | VInt z => Ok (VFloat (Finite (inject_Z z)))
  | VFloat f => Ok (VFloat f)
  | VStr s =>
      match float_of_str s with
      | Some f => Ok (VFloat f)
      | None => Raise ValueError
      end
  end.

(** [int(v)] *)
Definition int (v : value) : result value :=
  match v with
  | VNone => Raise TypeError
  | VBool b => Ok (VInt (if b then 1 else 0))
  | VInt z => Ok (VInt z)
  | VFloat (Finite q) => Ok (VInt (trunc q))
  | VFloat NaN => Raise ValueError
  | VFloat (Inf _) => Raise OverflowError
  | VStr s =>
      match int_of_str s with
      | Some z => Ok (VInt z)
      | None => Raise ValueError
      end
  end.

(** [str(v)] *)
Definition str (v : value) : string :=
  match v with
  | VNone => "None"
  | VBool b => if b then "True" else "False"
  | VInt z => NilZero.string_of_int (Z.to_int z)
  | VFloat (Finite q) => repr_float q
  | VFloat NaN => "nan"
  | VFloat (Inf negative) => if negative then "-inf" else "inf"
  | VStr s => s
  end.
End Conversions.

(** Truth value of a scalar: [bool(v)]. NaN is true. *)
Definition truthy (v : value) : bool :=
  match v with
  | VNone => false
  | VBool b => b
  | VInt z => negb (Z.eqb z 0)
  | VFloat (Finite q) => negb (Qeq_bool q 0)
  | VFloat _ => true
  | VStr s => negb (String.eqb s "")
  end.

(** [v == 'literal'] for a string literal. *)
Definition eq_str (v : value) (literal : string) : bool :=
  match v with
  | VStr s => String.eqb s literal
  | _ => false
  end.

(** [not l] on a list. *)
Definition is_empty {A : Type} (l : list A) : bool :=
  match l with
  | [] => true
  | _ :: _ => false
  end.

(** [v is None] on a scalar. *)
Definition eq_None (v : value) : bool :=
  match v with
  | VNone => true
  | _ => false
  end.

(** [x is not None] *)
Definition is_not_None {A : Type} (x : option A) : bool :=
  match x with
  | Some _ => true
  | None => false
  end.

(** [sum([b1, b2, b3])] on booleans. *)
Definition sum_bools (bs : list bool) : Z :=
  fold_right (fun (b : bool) acc => (if b then 1 else 0) + acc) 0 bs.

(** [bool(v)], which never raises. *)
Definition bool_ (v : value) : result value := Ok (VBool (truthy v)).

(** Strings. A string is the UTF-8 encoding of a Python string: a
    character is one byte, or a leading byte followed by one to three
    continuation bytes. *)

(** A byte that continues a character. *)
Definition continuation (c : ascii) : bool :=
  let n := nat_of_ascii c in
  Nat.leb 128 n && Nat.ltb n 192.

(** [len(s)]: the number of characters. *)
Fixpoint len (s : string) : nat :=
  match s with
  | EmptyString => O
  | String c s' => if continuation c then len s' else S (len s')
  end.

(** [s[:n]]: the first [n] characters. *)
Fixpoint take_chars (n : nat) (s : string) : string :=
  match s with
  | EmptyString => EmptyString
  | String c s' =>
      if continuation c then String c (take_chars n s')
      else
        match n with
        | O => EmptyString
        | S n' => String c (take_chars n' s')
        end
  end.

(** The white space of [str.strip]: the characters of one byte, U+0009
    to U+000D and U+001C to U+0020; *)
Definition isspace (c : ascii) : bool :=
  let n := nat_of_ascii c in
  ((9 <=? n)%nat && (n <=? 13)%nat) || ((28 <=? n)%nat && (n <=? 32)%nat).

(** of two bytes, U+0085 and U+00A0; *)
Definition isspace2 (c1 c2 : ascii) : bool :=
  let n1 := nat_of_ascii c1 in
  let n2 := nat_of_ascii c2 in
  Nat.eqb n1 194 && (Nat.eqb n2 133 || Nat.eqb n2 160).

(** and of three bytes, U+1680, U+2000 to U+200A, U+2028, U+2029,
    U+202F, U+205F and U+3000. *)
Definition isspace3 (c1 c2 c3 : ascii) : bool :=
  let n1 := nat_of_ascii c1 in
  let n2 := nat_of_ascii c2 in
  let n3 := nat_of_ascii c3 in
  (Nat.eqb n1 225 && Nat.eqb n2 154 && Nat.eqb n3 128)
  || (Nat.eqb n1 226 && Nat.eqb n2 128
      && ((Nat.leb 128 n3 && Nat.leb n3 138)
          || Nat.eqb n3 168 || Nat.eqb n3 169 || Nat.eqb n3 175))
  || (Nat.eqb n1 226 && Nat.eqb n2 129 && Nat.eqb n3 159)
  || (Nat.eqb n1 227 && Nat.eqb n2 128 && Nat.eqb n3 128).

Fixpoint lstrip (s : string) : string :=
  match s with
  | EmptyString => EmptyString
  | String c1 s1 =>
      if isspace c1 then lstrip s1
      else
        match s1 with
        | EmptyString => s
        | String c2 s2 =>
            if isspace2 c1 c2 then lstrip s2
            else
              match s2 with
              | EmptyString => s
              | String c3 s3 => if isspace3 c1 c2 c3 then lstrip s3 else s
              end
        end
  end.

(** A suffix is dropped when it is white space only. A suffix that
    starts inside a character starts with a continuation byte, which
    starts no white space. *)
Fixpoint rstrip (s : string) : string :=
  match s with
  | EmptyString => EmptyString
  | String c s' =>
      if String.eqb (lstrip s) EmptyString then EmptyString
      else String c (rstrip s')
  end.

Definition strip (s : string) : string := rstrip (lstrip s).

(** [s.lower()] on the characters whose lower case has an ASCII letter:
    the ASCII capitals, U+0130 (a small i and U+0307) and U+212A (a small
    k). The other characters stay as they are, so [contains] of an ASCII
    text in a lowered string is the test of Python. *)
Definition lower_char (c : ascii) : ascii :=
  let n := nat_of_ascii c in
  if ((65 <=? n)%nat && (n <=? 90)%nat) then ascii_of_nat (n + 32) else c.

Definition is_capital_i_dot (c1 c2 : ascii) : bool :=
  Nat.eqb (nat_of_ascii c1) 196 && Nat.eqb (nat_of_ascii c2) 176.

Definition is_kelvin (c1 c2 c3 : ascii) : bool :=
  Nat.eqb (nat_of_ascii c1) 226 && Nat.eqb (nat_of_ascii c2) 132
  && Nat.eqb (nat_of_ascii c3) 170.

Fixpoint lower (s : string) : string :=
  match s with
  | EmptyString => EmptyString
  | String c1 s1 =>
      match s1 with
      | EmptyString => String (lower_char c1) EmptyString
      | String c2 s2 =>
          if is_capital_i_dot c1 c2 then
            String "i" (String (ascii_of_nat 204) (String (ascii_of_nat 135) (lower s2)))
          else
            match s2 with
            | EmptyString => String (lower_char c1) (lower s1)
            | String c3 s3 =>
                if is_kelvin c1 c2 c3 then String "k" (lower s3)
                else String (lower_char c1) (lower s1)
            end
      end
  end.

(** [needle in hay] *)
Fixpoint contains (needle hay : string) : bool :=
  String.prefix needle hay ||
  match hay with
  | EmptyString => false
  | String _ hay' => contains needle hay'
  end.

(** [s.split(sep)] for a one-character separator. *)
Fixpoint split (sep : ascii) (s : string) : list string :=
  match s with
  | EmptyString => [EmptyString]
  | String c s' =>
      if Ascii.eqb c sep then EmptyString :: split sep s'
      else match split sep s' with
           | [] => [String c EmptyString]
           | w :: ws => String c w :: ws
           end
  end.

Definition newline : ascii := ascii_of_nat 10.

(** [d.get(key, default)] on a dictionary field that may be absent. *)
Definition dict_get {A : Type} (field : option A) (default : A) : A :=
  match field with
  | Some v => v
  | None => default
  end.

End Py.

Declare Scope py_scope.
Delimit Scope py_scope with py.
Notation "x ← y ; z" := (Py.bind y (fun x => z))
  (at level 20, y at level 100, z at level 200, only parsing) : py_scope.
Notation "'mret' x" := (Py.Ok x) (at level 10, x at next level, only parsing) : py_scope.
Local Open Scope py_scope.


(** ** Enriched events

    The dictionaries built by the two extractors. A field that is [None]
    here is a key that the dictionary does not have; a key holding
    Python's [None] is [Some VNone]. *)

Module Event.
Import Py.

Record career_dict : Type := {
  vs_career_avg_multiple : option value;
  vs_career_best_ratio : option value;
  career_total_events : option value;
  career_first_year : option value;
  career_last_year : option value;
  career_total_gms : option value;
  career_best_event_gms : option value
}.

Record tour_dict : Type := {
  tour_name : option value;
  vs_tour_avg_multiple : option value;
  tour_total_events : option value;
  tour_total_gms : option value
}.

Record genre_dict : Type := {
  vs_genre_avg_multiple : option value;
  genre_percentile_bucket : option value;
  vs_ytd_avg_multiple : option value
}.

Record trend_dict : Type := {
  gms_multiple : option value;
  is_gms_spike : option value;
  performance_category : option value;
  price_appreciation_pct : option value
}.

Record country_dict : Type := {
  country : value;
  percentage : value
}.

Record geographic_dict : Type := {
  top_buyer_countries : option (list country_dict);
  unique_buyer_countries : option value;
  international_appeal_score : option value
}.

Record pricing_dict : Type := {
  lifetime_avg_cost : option value;
  min_ticket_cost : option value;
  max_ticket_cost : option value;
  recent_7d_avg_cost : option value;
  prior_23d_avg_cost : option value
}.

Record market_dict : Type := {
  ytd_overall_rank : option value;
  ytd_genre_rank : option value;
  ytd_overall_tier : option value;
  ytd_genre_tier : option value;
  last_7d_market_share_pct : option value;
  ytd_market_share_pct : option value;
  premium_multiple : option value
}.

Record completeness_dict : Type := {
  has_historical_context : option bool;
  has_trend_analysis : option bool;
  has_market_positioning : option bool;
  completeness_score : option value
}.

Record event : Type := {
  event_id : option string;
  event_name : option string;
  artist_name : option string;
  classified_artist_name : option string;
  genre : option string;
  subgenre : option string;
  venue_city : option string;
  venue_country : option string;
  event_date : option string;
  rank : option value;
  total_gms : option value;
  recent_7d_gms : option value;
  total_tickets : option value;
  avg_ticket_cost : option value;
  gms_per_ticket : option value;
  international_pct : option value;
  sales_window_days : option value;
  career_context : option career_dict;
  tour_context : option tour_dict;
  genre_context : option genre_dict;
  trend_insights : option trend_dict;
  geographic_insights : option geographic_dict;
  pricing_insights : option pricing_dict;
  market_position : option market_dict;
  data_timestamp : option string;
  data_completeness : option completeness_dict
}.

(** The empty dictionary [{}] at each group type. *)
Definition no_career : career_dict :=
  Build_career_dict None None None None None None None.
Definition no_tour : tour_dict := Build_tour_dict None None None None.
Definition no_genre : genre_dict := Build_genre_dict None None None.
Definition no_trend : trend_dict := Build_trend_dict None None None None.
Definition no_geographic : geographic_dict := Build_geographic_dict None None None.
Definition no_pricing : pricing_dict := Build_pricing_dict None None None None None.
Definition no_market : market_dict :=
  Build_market_dict None None None None None None None.
Definition no_completeness : completeness_dict :=
  Build_completeness_dict None None None None.

End Event.

(** ** Warehouse tables

    A [DataFrame] is a header and rows of cells, one cell per column;
    iterating it yields one [Series] per row, a map from column name to
    cell. Column names are distinct. *)

Module Pandas.
Import Py.

Record DataFrame : Type := {
  columns : list string;
  cells : list (list value)
}.

Abbreviation Series := (gmap string value).

(** [pd.DataFrame()] *)
Definition empty_frame : DataFrame := {| columns := []; cells := [] |}.

(** [df.empty]: some axis has length zero. *)
Definition empty (df : DataFrame) : bool :=
  (Nat.eqb (length (columns df)) 0) || (Nat.eqb (length (cells df)) 0).

Definition series_of (df : DataFrame) (row : list value) : Series :=
  list_to_map (zip (columns df) row).

(** The rows of [df.iterrows()], in order. *)
Definition iterrows (df : DataFrame) : list Series :=
  map (series_of df) (cells df).

(** [row[column]] *)
Definition getitem (row : Series) (column : string) : result value :=
  match row !! column with
  | Some v => Ok v
  | None => Raise (KeyError column)
  end.

(** [row.get(column, default)] *)
Definition get (row : Series) (column : string) (default : value) : value :=
  match row !! column with
  | Some v => v
  | None => default
  end.

(** Element-wise [==] of a column cell with a scalar: numbers compare by
    value, strings by content; a missing cell ([None], NaN) equals
    nothing. *)
Definition cell_eq (a b : value) : bool :=
  match a, b with
  | VStr s, VStr t => String.eqb s t
  | _, _ =>
      match as_number a, as_number b with
      | Some f, Some g => float_eq f g
      | _, _ => false
      end
  end.

(** [bool(df)]: pandas refuses to give a frame a truth value. *)
Definition truth_value (df : DataFrame) : result bool := Raise ValueError.

End Pandas.

(** ** data_processing.py *)

Module DataProcessing.
Import Py Pandas Event.

Section WithBuiltins.
Context `{Builtins}.

(** [_find_matching_row] *)
Definition _find_matching_row (df : DataFrame) (event_id : value)
  : result (option Series) :=
  if empty df then Ok None
  else if bool_decide ("EVENT_ID" ∈ columns df) then
    let matches :=
      filter (fun row => cell_eq (get row "EVENT_ID" VNone) event_id = true)
             (iterrows df) in
    Ok (head matches)
  else Raise (KeyError "EVENT_ID").

(** [safe_get(row, column, default, convert_func)], the helper local to
    [_build_event_object]. [convert_func = None] is [None] here. *)
Definition safe_get (row : option Series) (column : string) (default : value)
    (convert_func : option (value -> result value)) : result value :=
  match row with
  | None => Ok default
  | Some r =>
      let v := get r column default in
      match v with
      | VNone => Ok default
      | _ =>
          match convert_func with
          | Some convert => try_except_value_type (convert v) default
          | None => Ok v
          end
      end
  end.

(** [get_artist_name], local to [_build_event_object]. *)
Definition get_artist_name (base_row : Series) : string :=
  let classified := get base_row "CLASSIFIED_ARTIST_NAME" VNone in
  let category := get base_row "EVENT_CATEGORY_NAME" (VStr "Unknown") in
  match classified with
  | VNone => str category
  | _ =>
      if eq_str classified "None"
         || String.eqb (strip (str classified)) ""
      then str category
      else str classified
  end.

(** [f'TOP_BUYER_COUNTRY_{i}'] followed by a suffix. *)
Definition top_buyer_column (i : Z) (suffix : string) : string :=
  String.append "TOP_BUYER_COUNTRY_" (String.append (str (VInt i)) suffix).

(** The list comprehension over [range(1, 4)] that builds
    ['top_buyer_countries']. *)
Fixpoint top_buyer_countries_of (trend_row : option Series) (slots : list Z)
  : result (list country_dict) :=
  match slots with
  | [] => Ok []
  | i :: slots' =>
      present ← safe_get trend_row (top_buyer_column i "") VNone None;
      if truthy present then
        c ← safe_get trend_row (top_buyer_column i "") (VStr "") None;
        p ← safe_get trend_row (top_buyer_column i "_PCT") (VInt 0) (Some float);
        pct ← mul_int p 100;
        rest ← top_buyer_countries_of trend_row slots';
        mret ({| country := c; percentage := pct |} :: rest)
      else top_buyer_countries_of trend_row slots'
  end.

(** [_build_event_object] *)
Definition _build_event_object (base_row : Series)
    (hist_row trend_row market_row : option Series) : result event :=
  v_event_id ← getitem base_row "EVENT_ID";
  v_event_name ← getitem base_row "EVENT_NAME";
  v_genre ← getitem base_row "EVENT_PARENT_CATEGORY_NAME";
  v_venue_city ← getitem base_row "VENUE_CITY";
  v_venue_country ← getitem base_row "VENUE_COUNTRY_NAME";
  v_event_date ← getitem base_row "EVENT_DATE";
  v_rank ← getitem base_row "RECENT_GMS_RANK";
  rank_ ← int v_rank;
  (* Performance metrics *)
  total_gms_ ← safe_get (Some base_row) "TOTAL_GMS" (VInt 0) (Some float);
  recent_7d_gms_ ← safe_get (Some base_row) "RECENT_7D_GMS" (VInt 0) (Some float);
  total_tickets_ ← safe_get (Some base_row) "TOTAL_TICKETS_SOLD" (VInt 0) (Some int);
  avg_ticket_cost_ ← safe_get (Some base_row) "AVG_TICKET_COST" (VInt 0) (Some float);
  gms_per_ticket_ ← safe_get (Some base_row) "GMS_PER_TICKET" (VInt 0) (Some float);
  intl ← safe_get (Some base_row) "INTERNATIONAL_GMS_PCT" (VInt 0) (Some float);
  international_pct_ ← mul_int intl 100;
  (* Career context *)
  vs_career_avg_multiple_ ← safe_get hist_row "VS_CAREER_AVG_MULTIPLE" (VInt 1) (Some float);
  vs_career_best_ratio_ ← safe_get hist_row "VS_CAREER_BEST_RATIO" (VInt 0) (Some float);
  career_total_events_ ← safe_get hist_row "CAREER_TOTAL_EVENTS" (VInt 0) (Some int);
  career_first_year_ ← safe_get hist_row "CAREER_FIRST_YEAR" (VInt 0) (Some int);
  career_total_gms_ ← safe_get hist_row "CAREER_TOTAL_GMS" (VInt 0) (Some float);
  (* Tour context *)
  tour_name_ ← safe_get hist_row "TOUR_NAME" (VStr "") None;
  vs_tour_avg_multiple_ ← safe_get hist_row "VS_TOUR_AVG_MULTIPLE" (VInt 1) (Some float);
  tour_total_events_ ← safe_get hist_row "TOUR_TOTAL_EVENTS" (VInt 0) (Some int);
  tour_total_gms_ ← safe_get hist_row "TOUR_TOTAL_GMS" (VInt 0) (Some float);
  (* Genre context *)
  vs_genre_avg_multiple_ ← safe_get hist_row "VS_GENRE_AVG_MULTIPLE" (VInt 1) (Some float);
  genre_percentile_bucket_ ← safe_get hist_row "GENRE_PERCENTILE_BUCKET" (VStr "Unknown") None;
  vs_ytd_avg_multiple_ ← safe_get hist_row "VS_YTD_AVG_MULTIPLE" (VInt 1) (Some float);
  (* Trend insights *)
  gms_multiple_ ← safe_get trend_row "GMS_MULTIPLE" (VInt 1) (Some float);
  is_gms_spike_ ← safe_get trend_row "IS_GMS_SPIKE" (VBool false) (Some bool_);
  performance_category_ ← safe_get trend_row "PERFORMANCE_CATEGORY" (VStr "Normal") None;
  price ← safe_get trend_row "PRICE_APPRECIATION_PCT" (VInt 0) (Some float);
  price_appreciation_pct_ ← mul_int price 100;
  (* Geographic insights *)
  top_buyer_countries_ ← top_buyer_countries_of trend_row [1; 2; 3];
  (* Market positioning *)
  ytd_overall_rank_ ← safe_get market_row "YTD_OVERALL_RANK" (VInt 999) (Some int);
  ytd_genre_rank_ ← safe_get market_row "YTD_GENRE_RANK" (VInt 999) (Some int);
  ytd_overall_tier_ ← safe_get market_row "YTD_OVERALL_TIER" (VStr "Unknown") None;
  ytd_genre_tier_ ← safe_get market_row "YTD_GENRE_TIER" (VStr "Unknown") None;
  share ← safe_get market_row "LAST_7D_MARKET_SHARE_PCT" (VInt 0) (Some float);
  last_7d_market_share_pct_ ← mul_int share 100;
  premium_multiple_ ← safe_get market_row "PREMIUM_MULTIPLE" (VInt 1) (Some float);
  mret {|
    event_id := Some (str v_event_id);
    event_name := Some (str v_event_name);
    artist_name := Some (str (get base_row "EVENT_CATEGORY_NAME" (VStr "Unknown")));
    classified_artist_name := Some (get_artist_name base_row);
    genre := Some (str v_genre);
    subgenre := Some (str (get base_row "SUBGENRE" (VStr "")));
    venue_city := Some (str v_venue_city);
    venue_country := Some (str v_venue_country);
    event_date := Some (str v_event_date);
    rank := Some rank_;
    total_gms := Some total_gms_;
    recent_7d_gms := Some recent_7d_gms_;
    total_tickets := Some total_tickets_;
    avg_ticket_cost := Some avg_ticket_cost_;
    gms_per_ticket := Some gms_per_ticket_;
    international_pct := Some international_pct_;
    sales_window_days := None;
    career_context := Some {|
      vs_career_avg_multiple := Some vs_career_avg_multiple_;
      vs_career_best_ratio := Some vs_career_best_ratio_;
      career_total_events := Some career_total_events_;
      career_first_year := Some career_first_year_;
      career_last_year := None;
      career_total_gms := Some career_total_gms_;
      career_best_event_gms := None |};
    tour_context := Some {|
      tour_name := Some tour_name_;
      vs_tour_avg_multiple := Some vs_tour_avg_multiple_;
      tour_total_events := Some tour_total_events_;
      tour_total_gms := Some tour_total_gms_ |};
    genre_context := Some {|
      vs_genre_avg_multiple := Some vs_genre_avg_multiple_;
      genre_percentile_bucket := Some genre_percentile_bucket_;
      vs_ytd_avg_multiple := Some vs_ytd_avg_multiple_ |};
    trend_insights := Some {|
      gms_multiple := Some gms_multiple_;
      is_gms_spike := Some is_gms_spike_;
      performance_category := Some performance_category_;
      price_appreciation_pct := Some price_appreciation_pct_ |};
    geographic_insights := Some {|
      top_buyer_countries := Some top_buyer_countries_;
      unique_buyer_countries := None;
      international_appeal_score := None |};
    pricing_insights := None;
    market_position := Some {|
      ytd_overall_rank := Some ytd_overall_rank_;
      ytd_genre_rank := Some ytd_genre_rank_;
      ytd_overall_tier := Some ytd_overall_tier_;
      ytd_genre_tier := Some ytd_genre_tier_;
      last_7d_market_share_pct := Some last_7d_market_share_pct_;
      ytd_market_share_pct := None;
      premium_multiple := Some premium_multiple_ |};
    data_timestamp := None;
    data_completeness := Some {|
      has_historical_context := Some (is_not_None hist_row);
      has_trend_analysis := Some (is_not_None trend_row);
      has_market_positioning := Some (is_not_None market_row);
      completeness_score := Some (int_truediv
        (sum_bools [is_not_None hist_row; is_not_None trend_row;
                    is_not_None market_row]) 3) |}
  |}.

(** The body of the [for _, row in base_df.iterrows()] loop of
    [process_event_data]. *)
Definition process_row (hist_df trend_df market_df : DataFrame) (row : Series)
  : result event :=
  event_id ← getitem row "EVENT_ID";
  hist_match ← _find_matching_row hist_df event_id;
  trend_match ← _find_matching_row trend_df event_id;
  market_match ← _find_matching_row market_df event_id;
  _build_event_object row hist_match trend_match market_match.

(** The loop itself: [processed_events] is the accumulator; an
    exception in the body leaves the loop and the function. *)
Fixpoint process_rows (hist_df trend_df market_df : DataFrame)
    (rows : list Series) (processed_events : list event) : result (list event) :=
  match rows with
  | [] => Ok processed_events
  | row :: rows' =>
      event_obj ← process_row hist_df trend_df market_df row;
      process_rows hist_df trend_df market_df rows' (processed_events ++ [event_obj])
  end.

(** [process_event_data]. The guard applies [not] to the frame that
    [raw_data.get('base_events')] returns. *)
Definition process_event_data (raw_data : gmap string DataFrame)
  : result (list event) :=
  no_base ←
    match raw_data !! "base_events" with
    | None => Ok true
    | Some df => t ← truth_value df; mret (negb t)
    end;
  let base_empty :=
    match raw_data !! "base_events" with
    | Some df => empty df
    | None => true
    end in
  if no_base || base_empty then Ok []
  else
    let base_df := dict_get (raw_data !! "base_events") empty_frame in
    let hist_df := dict_get (raw_data !! "historical_context") empty_frame in
    let trend_df := dict_get (raw_data !! "trend_analysis") empty_frame in
    let market_df := dict_get (raw_data !! "market_rankings") empty_frame in
    process_rows hist_df trend_df market_df (iterrows base_df) [].
End WithBuiltins.
End DataProcessing.

(** ** social_content_generator.py *)

Module SocialContentGenerator.
Import Py Pandas Event.

Section WithBuiltins.
Context `{Builtins}.

(** [_get_matching_row] *)
Definition _get_matching_row (df : DataFrame) (event_id : value)
  : result (option Series) :=
  if empty df then Ok None
  else if bool_decide ("EVENT_ID" ∈ columns df) then
    let matching :=
      filter (fun row => cell_eq (get row "EVENT_ID" VNone) event_id = true)
             (iterrows df) in
    Ok (head matching)
  else Raise (KeyError "EVENT_ID").

(** [_safe_float(value, default)] *)
Definition _safe_float (v : value) (default : value) : result value :=
  try_except_value_type
    (match v with
     | VNone => Ok default
     | _ => float v
     end) default.

(** [_safe_int(value, default)] *)
Definition _safe_int (v : value) (default : value) : result value :=
  try_except_value_type
    (match v with
     | VNone => Ok default
     | _ => int v
     end) default.

(** The defaults of the two signatures, [0.0] and [0]. *)
Definition float_default : value := VFloat (Finite 0).
Definition int_default : value := VInt 0.

(** [str(row.get(column, '')) if row.get(column) else None] *)
Definition str_or_None (row : Series) (column : string) : value :=
  if truthy (get row column VNone)
  then VStr (str (get row column (VStr "")))
  else VNone.

(** [_extract_career_context] *)
Definition _extract_career_context (hist_row : option Series) : result career_dict :=
  match hist_row with
  | None => Ok no_career
  | Some row =>
      a ← _safe_float (get row "VS_CAREER_AVG_MULTIPLE" VNone) float_default;
      b ← _safe_float (get row "VS_CAREER_BEST_RATIO" VNone) float_default;
      c ← _safe_int (get row "CAREER_TOTAL_EVENTS" VNone) int_default;
      d ← _safe_int (get row "CAREER_FIRST_YEAR" VNone) int_default;
      e ← _safe_int (get row "CAREER_LAST_YEAR" VNone) int_default;
      f ← _safe_float (get row "CAREER_TOTAL_GMS" VNone) float_default;
      g ← _safe_float (get row "CAREER_BEST_EVENT_GMS" VNone) float_default;
      mret {|
        vs_career_avg_multiple := Some a;
        vs_career_best_ratio := Some b;
        career_total_events := Some c;
        career_first_year := Some d;
        career_last_year := Some e;
        career_total_gms := Some f;
        career_best_event_gms := Some g |}
  end.

(** [_extract_tour_context] *)
Definition _extract_tour_context (hist_row : option Series) : result tour_dict :=
  match hist_row with
  | None => Ok no_tour
  | Some row =>
      a ← _safe_float (get row "VS_TOUR_AVG_MULTIPLE" VNone) float_default;
      b ← _safe_int (get row "TOUR_TOTAL_EVENTS" VNone) int_default;
      c ← _safe_float (get row "TOUR_TOTAL_GMS" VNone) float_default;
      mret {|
        tour_name := Some (str_or_None row "TOUR_NAME");
        vs_tour_avg_multiple := Some a;
        tour_total_events := Some b;
        tour_total_gms := Some c |}
  end.

(** [_extract_genre_context] *)
Definition _extract_genre_context (hist_row : option Series) : result genre_dict :=
  match hist_row with
  | None => Ok no_genre
  | Some row =>
      a ← _safe_float (get row "VS_GENRE_AVG_MULTIPLE" VNone) float_default;
      b ← _safe_float (get row "VS_YTD_AVG_MULTIPLE" VNone) float_default;
      mret {|
        vs_genre_avg_multiple := Some a;
        genre_percentile_bucket := Some (str_or_None row "GENRE_PERCENTILE_BUCKET");
        vs_ytd_avg_multiple := Some b |}
  end.

(** [_extract_trend_insights] *)
Definition _extract_trend_insights (trend_row : option Series) : result trend_dict :=
  match trend_row with
  | None => Ok no_trend
  | Some row =>
      a ← _safe_float (get row "GMS_MULTIPLE" VNone) float_default;
      p ← _safe_float (get row "PRICE_APPRECIATION_PCT" (VInt 0)) float_default;
      pct ← mul_int p 100;
      mret {|
        gms_multiple := Some a;
        is_gms_spike := Some (VBool (truthy (get row "IS_GMS_SPIKE" (VBool false))));
        performance_category :=
          Some (VStr (str (get row "PERFORMANCE_CATEGORY" (VStr "Normal"))));
        price_appreciation_pct := Some pct |}
  end.

Definition top_buyer_column (i : Z) (suffix : string) : string :=
  String.append "TOP_BUYER_COUNTRY_" (String.append (str (VInt i)) suffix).

(** The [for i in range(1, 4)] loop of [_extract_geographic_insights];
    [top_countries] is the list being appended to. *)
Fixpoint top_countries_loop (row : Series) (slots : list Z)
    (top_countries : list country_dict) : result (list country_dict) :=
  match slots with
  | [] => Ok top_countries
  | i :: slots' =>
      let country_ := get row (top_buyer_column i "") VNone in
      let pct := get row (top_buyer_column i "_PCT") VNone in
      if truthy country_ && negb (eq_None pct) then
        p ← _safe_float pct float_default;
        p100 ← mul_int p 100;
        top_countries_loop row slots'
          (top_countries ++ [{| country := VStr (str country_); percentage := p100 |}])
      else top_countries_loop row slots' top_countries
  end.

(** [_extract_geographic_insights] *)
Definition _extract_geographic_insights (trend_row : option Series)
  : result geographic_dict :=
  match trend_row with
  | None => Ok no_geographic
  | Some row =>
      top_countries ← top_countries_loop row [1; 2; 3] [];
      u ← _safe_int (get row "UNIQUE_BUYER_COUNTRIES" VNone) int_default;
      mret {|
        top_buyer_countries := Some top_countries;
        unique_buyer_countries := Some u;
        international_appeal_score := Some (VInt (Z.of_nat (length top_countries))) |}
  end.

(** [_extract_pricing_insights] *)
Definition _extract_pricing_insights (trend_row : option Series)
  : result pricing_dict :=
  match trend_row with
  | None => Ok no_pricing
  | Some row =>
      a ← _safe_float (get row "LIFETIME_AVG_TICKET_COST" VNone) float_default;
      b ← _safe_float (get row "MIN_TICKET_COST" VNone) float_default;
      c ← _safe_float (get row "MAX_TICKET_COST" VNone) float_default;
      d ← _safe_float (get row "RECENT_7D_AVG_COST" VNone) float_default;
      e ← _safe_float (get row "PRIOR_23D_AVG_COST" VNone) float_default;
      mret {|
        lifetime_avg_cost := Some a;
        min_ticket_cost := Some b;
        max_ticket_cost := Some c;
        recent_7d_avg_cost := Some d;
        prior_23d_avg_cost := Some e |}
  end.

(** [_extract_market_position] *)
Definition _extract_market_position (market_row : option Series)
  : result market_dict :=
  match market_row with
  | None => Ok no_market
  | Some row =>
      a ← _safe_int (get row "YTD_OVERALL_RANK" VNone) int_default;
      b ← _safe_int (get row "YTD_GENRE_RANK" VNone) int_default;
      s7 ← _safe_float (get row "LAST_7D_MARKET_SHARE_PCT" (VInt 0)) float_default;
      s7pct ← mul_int s7 100;
      sy ← _safe_float (get row "YTD_MARKET_SHARE_PCT" (VInt 0)) float_default;
      sypct ← mul_int sy 100;
      pm ← _safe_float (get row "PREMIUM_MULTIPLE" VNone) float_default;
      mret {|
        ytd_overall_rank := Some a;
        ytd_genre_rank := Some b;
        ytd_overall_tier := Some (str_or_None row "YTD_OVERALL_TIER");
        ytd_genre_tier := Some (str_or_None row "YTD_GENRE_TIER");
        last_7d_market_share_pct := Some s7pct;
        ytd_market_share_pct := Some sypct;
        premium_multiple := Some pm |}
  end.

(** [_assess_data_completeness] *)
Definition _assess_data_completeness (hist_row trend_row market_row : option Series)
  : completeness_dict :=
  {| has_historical_context := Some (is_not_None hist_row);
     has_trend_analysis := Some (is_not_None trend_row);
     has_market_positioning := Some (is_not_None market_row);
     completeness_score := Some (int_truediv
       (sum_bools [is_not_None hist_row; is_not_None trend_row;
                   is_not_None market_row]) 3) |}.

(** The body of the [for idx, base_row in base_df.iterrows()] loop of
    [structure_event_data]. [now] is [datetime.now().isoformat()]. *)
Definition structure_row (hist_df trend_df market_df : DataFrame) (now : string)
    (base_row : Series) : result event :=
  event_id_ ← getitem base_row "EVENT_ID";
  hist_row ← _get_matching_row hist_df event_id_;
  trend_row ← _get_matching_row trend_df event_id_;
  market_row ← _get_matching_row market_df event_id_;
  v_event_name ← getitem base_row "EVENT_NAME";
  v_genre ← getitem base_row "EVENT_PARENT_CATEGORY_NAME";
  v_venue_city ← getitem base_row "VENUE_CITY";
  v_venue_country ← getitem base_row "VENUE_COUNTRY_NAME";
  v_event_date ← getitem base_row "EVENT_DATE";
  v_rank ← getitem base_row "RECENT_GMS_RANK";
  rank_ ← int v_rank;
  v_total_gms ← getitem base_row "TOTAL_GMS";
  total_gms_ ← _safe_float v_total_gms float_default;
  v_recent ← getitem base_row "RECENT_7D_GMS";
  recent_7d_gms_ ← _safe_float v_recent float_default;
  v_tickets ← getitem base_row "TOTAL_TICKETS_SOLD";
  total_tickets_ ← _safe_int v_tickets int_default;
  v_cost ← getitem base_row "AVG_TICKET_COST";
  avg_ticket_cost_ ← _safe_float v_cost float_default;
  v_per_ticket ← getitem base_row "GMS_PER_TICKET";
  gms_per_ticket_ ← _safe_float v_per_ticket float_default;
  v_intl ← getitem base_row "INTERNATIONAL_GMS_PCT";
  intl ← _safe_float v_intl (VInt 0);
  international_pct_ ← mul_int intl 100;
  sales_window_days_ ← _safe_int (get base_row "TOTAL_SALES_WINDOW_DAYS" (VInt 0)) int_default;
  career ← _extract_career_context hist_row;
  tour ← _extract_tour_context hist_row;
  genre_ ← _extract_genre_context hist_row;
  trend ← _extract_trend_insights trend_row;
  geographic ← _extract_geographic_insights trend_row;
  pricing ← _extract_pricing_insights trend_row;
  market ← _extract_market_position market_row;
  mret {|
    event_id := Some (str event_id_);
    event_name := Some (str v_event_name);
    artist_name := Some (str (get base_row "EVENT_CATEGORY_NAME" (VStr "Unknown")));
    classified_artist_name :=
      Some (str (get base_row "CLASSIFIED_ARTIST_NAME"
                   (get base_row "EVENT_CATEGORY_NAME" (VStr "Unknown"))));
    genre := Some (str v_genre);
    subgenre := Some (str (get base_row "SUBGENRE" (VStr "")));
    venue_city := Some (str v_venue_city);
    venue_country := Some (str v_venue_country);
    event_date := Some (str v_event_date);
    rank := Some rank_;
    total_gms := Some total_gms_;
    recent_7d_gms := Some recent_7d_gms_;
    total_tickets := Some total_tickets_;
    avg_ticket_cost := Some avg_ticket_cost_;
    gms_per_ticket := Some gms_per_ticket_;
    international_pct := Some international_pct_;
    sales_window_days := Some sales_window_days_;
    career_context := Some career;
    tour_context := Some tour;
    genre_context := Some genre_;
    trend_insights := Some trend;
    geographic_insights := Some geographic;
    pricing_insights := Some pricing;
    market_position := Some market;
    data_timestamp := Some now;
    data_completeness := Some (_assess_data_completeness hist_row trend_row market_row)
  |}.

(** The loop: [structured_events] is the accumulator; an exception in
    the body leaves the loop and the function. *)
Fixpoint structure_rows (hist_df trend_df market_df : DataFrame) (now : string)
    (rows : list Series) (structured_events : list event) : result (list event) :=
  match rows with
  | [] => Ok structured_events
  | base_row :: rows' =>
      event_data ← structure_row hist_df trend_df market_df now base_row;
      structure_rows hist_df trend_df market_df now rows'
        (structured_events ++ [event_data])
  end.

(** [structure_event_data] *)
Definition structure_event_data (dataframes : gmap string DataFrame) (now : string)
  : result (list event) :=
  match dataframes !! "base_events" with
  | None => Raise (KeyError "base_events")
  | Some base_df =>
      if empty base_df then Ok []
      else
        let hist_df := dict_get (dataframes !! "historical_context") empty_frame in
        let trend_df := dict_get (dataframes !! "trend_analysis") empty_frame in
        let market_df := dict_get (dataframes !! "market_rankings") empty_frame in
        structure_rows hist_df trend_df market_df now (iterrows base_df) []
  end.
End WithBuiltins.

(** [identify_content_angles] *)
Definition identify_content_angles (event_data : event) : result (list string) :=
  let angles : list string := [] in
  (* Career spike angle *)
  let career_multiple :=
    dict_get (vs_career_avg_multiple (dict_get (career_context event_data) no_career))
             (VInt 0) in
  angles ←
    (c5 ← ge career_multiple 5;
     if c5 then mret (angles ++ ["major_spike"])
     else
       c3 ← ge career_multiple 3;
       if c3 then mret (angles ++ ["significant_spike"])
       else
         c2 ← ge career_multiple 2;
         if c2 then mret (angles ++ ["notable_performance"]) else mret angles);
  (* International appeal angle *)
  angles ←
    (i40 ← gt (dict_get (international_pct event_data) (VInt 0)) 40;
     if i40 then mret (angles ++ ["international_phenomenon"])
     else
       i25 ← gt (dict_get (international_pct event_data) (VInt 0)) 25;
       if i25 then mret (angles ++ ["international_appeal"]) else mret angles);
  (* Market leadership angle *)
  let genre_rank :=
    dict_get (ytd_genre_rank (dict_get (market_position event_data) no_market))
             (VInt 999) in
  angles ←
    (g3 ← le genre_rank 3;
     if g3 then mret (angles ++ ["genre_leader"])
     else
       g10 ← le genre_rank 10;
       if g10 then mret (angles ++ ["top_performer"]) else mret angles);
  (* Pricing momentum angle *)
  let price_appreciation :=
    dict_get (price_appreciation_pct (dict_get (trend_insights event_data) no_trend))
             (VInt 0) in
  angles ←
    (p30 ← gt price_appreciation 30;
     if p30 then mret (angles ++ ["pricing_surge"])
     else
       p15 ← gt price_appreciation 15;
       if p15 then mret (angles ++ ["demand_indicator"]) else mret angles);
  (* Tour context angle *)
  angles ←
    (if truthy (dict_get (tour_name (dict_get (tour_context event_data) no_tour)) VNone)
     then
       let tour_multiple :=
         dict_get (vs_tour_avg_multiple (dict_get (tour_context event_data) no_tour))
                  (VInt 0) in
       t ← gt tour_multiple 1.5;
       if t then mret (angles ++ ["tour_standout"]) else mret angles
     else mret angles);
  (* Default angles if nothing stands out *)
  angles ←
    (if is_empty angles then
       r5 ← le (dict_get (rank event_data) (VInt 10)) 5;
       if r5 then mret (angles ++ ["top_performance"])
       else mret (angles ++ ["trending_event"])
     else mret angles);
  mret (take 3 angles).

(** The [display_name] expression of [generate_content_for_events] and
    of the dry run: the classified name unless it is one of
    ['Unknown', 'None', None, 'nan'], else the category name. *)
Definition display_name (event : event) : result string :=
  match classified_artist_name event with
  | None => Raise (KeyError "classified_artist_name")
  | Some classified =>
      if negb (existsb (String.eqb classified) ["Unknown"; "None"; "nan"])
      then Ok classified
      else
        match artist_name event with
        | Some name => Ok name
        | None => Raise (KeyError "artist_name")
        end
  end.

End SocialContentGenerator.

(** ** batch_processor.py *)

Module BatchProcessor.
Import Py Event.

(** [_identify_content_angles] *)
Definition _identify_content_angles (event : event) : result (list string) :=
  let angles : list string := [] in
  (* Performance spike angles *)
  let career_multiple :=
    dict_get (vs_career_avg_multiple (dict_get (career_context event) no_career))
             (VInt 0) in
  angles ←
    (c5 ← ge career_multiple 5;
     if c5 then mret (angles ++ ["major_spike"])
     else
       c3 ← ge career_multiple 3;
       if c3 then mret (angles ++ ["significant_spike"])
       else
         c2 ← ge career_multiple 2;
         if c2 then mret (angles ++ ["notable_performance"]) else mret angles);
  (* International appeal angles *)
  let intl_pct := dict_get (international_pct event) (VInt 0) in
  angles ←
    (i40 ← gt intl_pct 40;
     if i40 then mret (angles ++ ["international_phenomenon"])
     else
       i25 ← gt intl_pct 25;
       if i25 then mret (angles ++ ["international_appeal"]) else mret angles);
  (* Market ranking angles *)
  let genre_rank :=
    dict_get (ytd_genre_rank (dict_get (market_position event) no_market))
             (VInt 999) in
  angles ←
    (g3 ← le genre_rank 3;
     if g3 then mret (angles ++ ["genre_leader"])
     else
       g10 ← le genre_rank 10;
       if g10 then mret (angles ++ ["top_performer"]) else mret angles);
  (* Pricing trend angles *)
  let price_appreciation :=
    dict_get (price_appreciation_pct (dict_get (trend_insights event) no_trend))
             (VInt 0) in
  angles ←
    (p30 ← gt price_appreciation 30;
     if p30 then mret (angles ++ ["pricing_surge"])
     else
       p15 ← gt price_appreciation 15;
       if p15 then mret (angles ++ ["demand_indicator"]) else mret angles);
  (* Tour context angles *)
  let tour_multiple :=
    dict_get (vs_tour_avg_multiple (dict_get (tour_context event) no_tour)) (VInt 0) in
  angles ←
    (t ← gt tour_multiple 1.5;
     if t && truthy (dict_get (tour_name (dict_get (tour_context event) no_tour)) VNone)
     then mret (angles ++ ["tour_standout"])
     else mret angles);
  (* Default angles for high-ranking events *)
  if is_empty angles then
    r5 ← le (dict_get (rank event) (VInt 10)) 5;
    if r5 then mret (angles ++ ["top_performance"])
    else mret (angles ++ ["trending_event"])
  else mret angles.

Definition high_impact_angles : list string :=
  ["major_spike"; "international_phenomenon"; "genre_leader"; "pricing_surge"].

(** [angle in high_impact_angles] *)
Definition str_in (s : string) (l : list string) : bool :=
  existsb (String.eqb s) l.

(** [_calculate_content_priority] *)
Definition _calculate_content_priority (event : event) (angle : string) : result Z :=
  let priority := 5 in
  (* Boost for high-performing events *)
  let rank_ := dict_get (rank event) (VInt 10) in
  priority ←
    (r3 ← le rank_ 3;
     if r3 then mret (priority + 3)
     else
       r5 ← le rank_ 5;
       if r5 then mret (priority + 2)
       else
         r10 ← le rank_ 10;
         if r10 then mret (priority + 1) else mret priority);
  (* Boost for compelling angles *)
  let priority :=
    if str_in angle high_impact_angles then priority + 2 else priority in
  (* Boost for complete data *)
  let data_score :=
    dict_get (completeness_score (dict_get (data_completeness event) no_completeness))
             (VInt 0) in
  priority ←
    (d ← ge data_score 0.8;
     if d then mret (priority + 1) else mret priority);
  (* Boost for high career multiples *)
  let career_multiple :=
    dict_get (vs_career_avg_multiple (dict_get (career_context event) no_career))
             (VInt 1) in
  priority ←
    (c5 ← ge career_multiple 5;
     if c5 then mret (priority + 2)
     else
       c3 ← ge career_multiple 3;
       if c3 then mret (priority + 1) else mret priority);
  mret (Z.min priority 10).

End BatchProcessor.

(** ** ai_contextualizer.py *)

Module AIContextualizer.
Import Py Event.

(** The outcome of [self.client.chat.completions.create(...)] followed by
    [response.choices[0].message.content]: the text of the reply, or an
    exception [e] of class [Exception] with [str(e) = error_msg]. *)
Inductive completion : Type :=
| Completed (content : string)
| Failed (error_msg : string).

(** A [ContentGenerator]: the configured model, the prompt templates
    ([angle_templates.get(angle, default)] applied to the event and the
    platform), the system prompt, and the text-generation endpoint. The
    prompt texts are not reproduced. *)
Record ContentGenerator : Type := {
  model : string;
  template_func : string -> event -> string -> result string;
  _get_system_prompt : string -> string;
  chat_completions_create : string -> string -> string -> completion
}.

Record debug_dict : Type := {
  original_error : string;
  model_used : string;
  debug_platform : string;
  content_angle : string;
  event_artist : string;
  likely_cause : string
}.

(** The dictionary returned by [create_social_post]; the keys ['error']
    and ['debug_info'] exist only on a failure. *)
Record post : Type := {
  visual_text : string;
  caption : string;
  platform : string;
  error : option bool;
  debug_info : option debug_dict
}.

Inductive section : Type :=
| visual
| caption_section.

(** The three locals of the parsing loop. *)
Record parser_state : Type := {
  visual_text_acc : string;
  caption_acc : string;
  current_section : option section
}.

Definition visual_headers : list string :=
  ["visual text:"; "on-screen text:"; "asset text:"].
Definition caption_headers : list string :=
  ["caption:"; "description:"; "post caption:"].

(** [any(header in line.lower() for header in headers)] *)
Definition any_header (headers : list string) (line : string) : bool :=
  existsb (fun header => contains header (lower line)) headers.

(** One iteration of [for line in lines]. *)
Definition parse_line (st : parser_state) (line : string) : parser_state :=
  let line := strip line in
  if String.eqb line "" then st
  else if any_header visual_headers line then
    {| visual_text_acc := visual_text_acc st;
       caption_acc := caption_acc st;
       current_section := Some visual |}
  else if any_header caption_headers line then
    {| visual_text_acc := visual_text_acc st;
       caption_acc := caption_acc st;
       current_section := Some caption_section |}
  else
    match current_section st with
    | Some visual =>
        {| visual_text_acc := visual_text_acc st +:+ line +:+ " ";
           caption_acc := caption_acc st;
           current_section := current_section st |}
    | Some caption_section =>
        {| visual_text_acc := visual_text_acc st;
           caption_acc := caption_acc st +:+ line +:+ " ";
           current_section := current_section st |}
    | None =>
        if String.eqb (visual_text_acc st) "" && (len line <? 100)%nat then
          {| visual_text_acc := line;
             caption_acc := caption_acc st;
             current_section := current_section st |}
        else
          {| visual_text_acc := visual_text_acc st;
             caption_acc := caption_acc st +:+ line +:+ " ";
             current_section := current_section st |}
    end.

Definition initial_state : parser_state :=
  {| visual_text_acc := ""; caption_acc := ""; current_section := None |}.

(** [_parse_dual_content] *)
Definition _parse_dual_content (content : string) (platform_ : string) : post :=
  let lines := split newline (strip content) in
  let st := fold_left parse_line lines initial_state in
  {| visual_text := strip (visual_text_acc st);
     caption := strip (caption_acc st);
     platform := platform_;
     error := None;
     debug_info := None |}.

(** [create_social_post] *)
Definition create_social_post (self : ContentGenerator) (event_data : event)
    (content_angle_ : string) (platform_ : string) : result post :=
  prompt ← template_func self content_angle_ event_data platform_;
  match chat_completions_create self (model self)
          (_get_system_prompt self platform_) prompt with
  | Completed content =>
      let content := strip content in
      Ok (_parse_dual_content content platform_)
  | Failed error_msg =>
      let '(user_msg, cause) :=
        if contains "rate_limit" (lower error_msg) then
          ("Rate limit exceeded. Please wait a moment and try again.",
           "API rate limit hit - too many requests")
        else if contains "invalid_api_key" (lower error_msg)
                || contains "unauthorized" (lower error_msg) then
          ("Invalid API key. Please check your OpenAI API key in Snowflake secrets.",
           "API key not set properly in Snowflake")
        else if contains "model" (lower error_msg)
                && contains "does not exist" (lower error_msg) then
          ("Model '" +:+ model self
             +:+ "' not available. Check your OpenAI plan or use a different model.",
           "Model " +:+ model self +:+ " not accessible with your API key")
        else if contains "connection" (lower error_msg)
                || contains "network" (lower error_msg) then
          ("Network connection error. Snowflake may be blocking external API calls.",
           "Network restrictions in Snowflake environment")
        else if contains "timeout" (lower error_msg) then
          ("Request timeout. This may indicate network restrictions.",
           "API call timed out - possible network restrictions")
        else if contains "billing" (lower error_msg)
                || contains "quota" (lower error_msg) then
          ("Billing or quota issue. Check your OpenAI account status.",
           "OpenAI account billing or usage limits")
        else
          ("OpenAI API error: " +:+ error_msg,
           "Unknown error - check OpenAI status") in
      Ok {| visual_text := "❌ " +:+ user_msg;
            caption := "❌ " +:+ user_msg;
            platform := platform_;
            error := Some true;
            debug_info := Some {|
              original_error := error_msg;
              model_used := model self;
              debug_platform := platform_;
              content_angle := content_angle_;
              event_artist := dict_get (classified_artist_name event_data) "Unknown";
              likely_cause := cause |} |}
  end.

End AIContextualizer.

(** ** streamlit_app.py *)

Module StreamlitApp.
Import Py.

(** The two keys of a content item that the dashboard score reads. *)
Record content_item : Type := {
  data_quality_score : option value;
  content_angle : option string
}.

Definition angle_scores : list (string * Z) :=
  [ ("major_spike", 5); ("significant_spike", 4); ("genre_leader", 4);
    ("international_phenomenon", 4); ("tour_standout", 3); ("top_performer", 3);
    ("international_appeal", 2); ("pricing_surge", 2); ("notable_performance", 2);
    ("demand_indicator", 1); ("top_performance", 1); ("trending_event", 1) ].

(** [d.get(key, default)] on a dictionary literal. *)
Fixpoint lookup_default (d : list (string * Z)) (key : string) (default : Z) : Z :=
  match d with
  | [] => default
  | (k, v) :: d' => if String.eqb k key then v else lookup_default d' key default
  end.

(** [calculate_priority_score], the score shown on the dashboard. *)
Definition calculate_priority_score `{Builtins} (item : content_item) : result Z :=
  base_score ← mul_int (dict_get (data_quality_score item) (VInt 0)) 5;
  let angle_score :=
    lookup_default angle_scores (dict_get (content_angle item) "trending_event") 1 in
  total ← add_int base_score angle_score;
  truncated ← int total;
  match truncated with
  | VInt z => Ok (Z.min 10 z)
  | _ => Raise TypeError
  end.

End StreamlitApp.

(** ** Events that differ in one field *)

Module Update.
Import Py Event.

(** The dictionary [{}]. *)
Definition empty_event : event :=
  Build_event None None None None None None None None None None None None None
              None None None None None None None None None None None None None.

(** [event] with ['rank'] replaced. *)
Definition with_rank (e : event) (r : option value) : event :=
  Build_event (event_id e) (event_name e) (artist_name e) (classified_artist_name e)
    (genre e) (subgenre e) (venue_city e) (venue_country e) (event_date e)
    r (total_gms e) (recent_7d_gms e) (total_tickets e) (avg_ticket_cost e)
    (gms_per_ticket e) (international_pct e) (sales_window_days e)
    (career_context e) (tour_context e) (genre_context e) (trend_insights e)
    (geographic_insights e) (pricing_insights e) (market_position e)
    (data_timestamp e) (data_completeness e).

(** [event] with ['international_pct'] replaced. *)
Definition with_international_pct (e : event) (p : option value) : event :=
  Build_event (event_id e) (event_name e) (artist_name e) (classified_artist_name e)
    (genre e) (subgenre e) (venue_city e) (venue_country e) (event_date e)
    (rank e) (total_gms e) (recent_7d_gms e) (total_tickets e) (avg_ticket_cost e)
    (gms_per_ticket e) p (sales_window_days e)
    (career_context e) (tour_context e) (genre_context e) (trend_insights e)
    (geographic_insights e) (pricing_insights e) (market_position e)
    (data_timestamp e) (data_completeness e).

(** [event] with ['career_context']['vs_career_avg_multiple'] replaced. *)
Definition with_career_multiple (e : event) (m : option value) : event :=
  let c := dict_get (career_context e) no_career in
  Build_event (event_id e) (event_name e) (artist_name e) (classified_artist_name e)
    (genre e) (subgenre e) (venue_city e) (venue_country e) (event_date e)
    (rank e) (total_gms e) (recent_7d_gms e) (total_tickets e) (avg_ticket_cost e)
    (gms_per_ticket e) (international_pct e) (sales_window_days e)
    (Some (Build_career_dict m (vs_career_best_ratio c) (career_total_events c)
             (career_first_year c) (career_last_year c) (career_total_gms c)
             (career_best_event_gms c)))
    (tour_context e) (genre_context e) (trend_insights e)
    (geographic_insights e) (pricing_insights e) (market_position e)
    (data_timestamp e) (data_completeness e).

(** [event] with ['market_position']['ytd_genre_rank'] replaced. *)
Definition with_genre_rank (e : event) (r : option value) : event :=
  let m := dict_get (market_position e) no_market in
  Build_event (event_id e) (event_name e) (artist_name e) (classified_artist_name e)
    (genre e) (subgenre e) (venue_city e) (venue_country e) (event_date e)
    (rank e) (total_gms e) (recent_7d_gms e) (total_tickets e) (avg_ticket_cost e)
    (gms_per_ticket e) (international_pct e) (sales_window_days e)
    (career_context e) (tour_context e) (genre_context e) (trend_insights e)
    (geographic_insights e) (pricing_insights e)
    (Some (Build_market_dict (ytd_overall_rank m) r (ytd_overall_tier m)
             (ytd_genre_tier m) (last_7d_market_share_pct m)
             (ytd_market_share_pct m) (premium_multiple m)))
    (data_timestamp e) (data_completeness e).

(** [event] with ['trend_insights']['price_appreciation_pct'] replaced. *)
Definition with_price_appreciation (e : event) (p : option value) : event :=
  let t := dict_get (trend_insights e) no_trend in
  Build_event (event_id e) (event_name e) (artist_name e) (classified_artist_name e)
    (genre e) (subgenre e) (venue_city e) (venue_country e) (event_date e)
    (rank e) (total_gms e) (recent_7d_gms e) (total_tickets e) (avg_ticket_cost e)
    (gms_per_ticket e) (international_pct e) (sales_window_days e)
    (career_context e) (tour_context e) (genre_context e)
    (Some (Build_trend_dict (gms_multiple t) (is_gms_spike t)
             (performance_category t) p))
    (geographic_insights e) (pricing_insights e) (market_position e)
    (data_timestamp e) (data_completeness e).

(** [event] with the name and the multiple of ['tour_context'] replaced. *)
Definition with_tour (e : event) (name multiple : option value) : event :=
  let t := dict_get (tour_context e) no_tour in
  Build_event (event_id e) (event_name e) (artist_name e) (classified_artist_name e)
    (genre e) (subgenre e) (venue_city e) (venue_country e) (event_date e)
    (rank e) (total_gms e) (recent_7d_gms e) (total_tickets e) (avg_ticket_cost e)
    (gms_per_ticket e) (international_pct e) (sales_window_days e)
    (career_context e)
    (Some (Build_tour_dict name multiple (tour_total_events t) (tour_total_gms t)))
    (genre_context e) (trend_insights e)
    (geographic_insights e) (pricing_insights e) (market_position e)
    (data_timestamp e) (data_completeness e).

(** [event] with ['data_completeness']['completeness_score'] replaced. *)
Definition with_completeness_score (e : event) (s : option value) : event :=
  let d := dict_get (data_completeness e) no_completeness in
  Build_event (event_id e) (event_name e) (artist_name e) (classified_artist_name e)
    (genre e) (subgenre e) (venue_city e) (venue_country e) (event_date e)
    (rank e) (total_gms e) (recent_7d_gms e) (total_tickets e) (avg_ticket_cost e)
    (gms_per_ticket e) (international_pct e) (sales_window_days e)
    (career_context e) (tour_context e) (genre_context e) (trend_insights e)
    (geographic_insights e) (pricing_insights e) (market_position e)
    (data_timestamp e)
    (Some (Build_completeness_dict (has_historical_context d) (has_trend_analysis d)
             (has_market_positioning d) s)).

(** The fields the classifier and the scorer read, with the defaults of
    their [.get] calls. *)
Definition rank_of (e : event) : value := dict_get (rank e) (VInt 10).
Definition international_pct_of (e : event) : value :=
  dict_get (international_pct e) (VInt 0).
Definition career_multiple_of (default : value) (e : event) : value :=
  dict_get (vs_career_avg_multiple (dict_get (career_context e) no_career)) default.
Definition genre_rank_of (e : event) : value :=
  dict_get (ytd_genre_rank (dict_get (market_position e) no_market)) (VInt 999).
Definition price_appreciation_of (e : event) : value :=
  dict_get (price_appreciation_pct (dict_get (trend_insights e) no_trend)) (VInt 0).
Definition tour_multiple_of (e : event) : value :=
  dict_get (vs_tour_avg_multiple (dict_get (tour_context e) no_tour)) (VInt 0).
Definition tour_name_of (e : event) : value :=
  dict_get (tour_name (dict_get (tour_context e) no_tour)) VNone.
Definition completeness_score_of (e : event) : value :=
  dict_get (completeness_score (dict_get (data_completeness e) no_completeness)) (VInt 0).

End Update.

(** ** The rules as the specification words them *)

Module Spec.
Import Py.

(** Priority adjustments. *)
Definition rank_bonus (r : pyfloat) : Z :=
  if float_le r 3 then 3
  else if float_le r 5 then 2
  else if float_le r 10 then 1
  else 0.

Definition angle_bonus (angle : string) : Z :=
  if bool_decide (angle ∈ ["major_spike"; "international_phenomenon";
                           "genre_leader"; "pricing_surge"])
  then 2 else 0.

Definition completeness_bonus (s : pyfloat) : Z :=
  if float_ge s 0.8 then 1 else 0.

Definition career_bonus (m : pyfloat) : Z :=
  if float_ge m 5 then 2
  else if float_ge m 3 then 1
  else 0.

Definition priority (r : pyfloat) (angle : string) (s m : pyfloat) : Z :=
  Z.min 10 (5 + rank_bonus r + angle_bonus angle + completeness_bonus s + career_bonus m).

(** The numbers the angle classifier looks at. *)
Record readings : Type := {
  career_multiple : pyfloat;
  international : pyfloat;
  genre_rank : pyfloat;
  price_appreciation : pyfloat;
  tour_multiple : pyfloat;
  tour_named : bool;
  event_rank : pyfloat
}.

(** The rule table: the categories in evaluation order, each with its
    thresholds from the highest to the lowest. *)
Definition rule : Type := (readings -> bool) * string.

Definition rule_table : list (list rule) :=
  [ [ (fun x => float_ge (career_multiple x) 5, "major_spike");
      (fun x => float_ge (career_multiple x) 3, "significant_spike");
      (fun x => float_ge (career_multiple x) 2, "notable_performance") ];
    [ (fun x => float_gt (international x) 40, "international_phenomenon");
      (fun x => float_gt (international x) 25, "international_appeal") ];
    [ (fun x => float_le (genre_rank x) 3, "genre_leader");
      (fun x => float_le (genre_rank x) 10, "top_performer") ];
    [ (fun x => float_gt (price_appreciation x) 30, "pricing_surge");
      (fun x => float_gt (price_appreciation x) 15, "demand_indicator") ];
    [ (fun x => float_gt (tour_multiple x) 1.5 && tour_named x, "tour_standout") ] ].

(** At most one label per category: that of the first rule that matches. *)
Definition first_match (x : readings) (category : list rule) : list string :=
  match List.find (fun r : rule => fst r x) category with
  | Some r => [snd r]
  | None => []
  end.

Definition table_labels (x : readings) : list string :=
  concat (map (first_match x) rule_table).

Definition fallback (x : readings) : string :=
  if float_le (event_rank x) 5 then "top_performance" else "trending_event".

Definition classify (x : readings) : list string :=
  match table_labels x with
  | [] => [fallback x]
  | labels => labels
  end.

(** The readings of an event, with the classifier's defaults for absent
    keys; [None] when a field that is compared is not a number. *)
Definition readings_of (e : Event.event) : option readings :=
  match as_number (Update.career_multiple_of (VInt 0) e),
        as_number (Update.international_pct_of e),
        as_number (Update.genre_rank_of e),
        as_number (Update.price_appreciation_of e),
        as_number (Update.tour_multiple_of e),
        as_number (Update.rank_of e) with
  | Some c, Some i, Some g, Some p, Some t, Some r =>
      Some {| career_multiple := c; international := i; genre_rank := g;
              price_appreciation := p; tour_multiple := t;
              tour_named := truthy (Update.tour_name_of e); event_rank := r |}
  | _, _, _, _, _, _ => None
  end.

(** Percentages. The cell a field is read from: absent when the row is
    absent or has no such column. *)
Definition source_cell (row : option Pandas.Series) (column : string) : option value :=
  match row with
  | Some r => r !! column
  | None => None
  end.

(** A source fraction in [0,1], or no value at all. *)
Definition unit_fraction (cell : option value) : Prop :=
  match cell with
  | None | Some VNone => True
  | Some v => exists q : Q, as_number v = Some (Finite q) /\ (0 <= q <= 1)%Q
  end.

(** A number in [0,100]. *)
Definition percent (p : value) : Prop :=
  exists q : Q, as_number p = Some (Finite q) /\ (0 <= q <= 100)%Q.

(** A percentage field: in [0,100] when the dictionary has the key. *)
Definition percentage_field (field : option value) : Prop :=
  match field with
  | Some p => percent p
  | None => True
  end.

(** [field] holds the number in [cell] multiplied by 100, once; and it
    is a percentage when the cell is a fraction. *)
Definition scaled_once (cell field : option value) : Prop :=
  (forall (v : value) (f : pyfloat),
      cell = Some v -> as_number v = Some f ->
      field = Some (VFloat (float_mul_int f 100))) /\
  (unit_fraction cell -> percentage_field field).

(** Artist display name: the classified-artist column when it is not
    null, not empty after trimming and not one of the texts "None" and
    "nan"; otherwise the category column; "Unknown" when that column is
    absent. *)
Definition is_null (v : value) : bool :=
  match v with
  | VNone | VFloat NaN => true
  | _ => false
  end.

Definition category_name `{Builtins} (row : Pandas.Series) : string :=
  match row !! "EVENT_CATEGORY_NAME" with
  | Some c => str c
  | None => "Unknown"
  end.

Definition artist_display_name `{Builtins} (row : Pandas.Series) : string :=
  match row !! "CLASSIFIED_ARTIST_NAME" with
  | Some v =>
      if negb (is_null v) && negb (String.eqb (strip (str v)) "")
         && negb (eq_str v "None") && negb (eq_str v "nan")
      then str v
      else category_name row
  | None => category_name row
  end.

(** Error handling. The base columns that [_build_event_object] reads
    by subscript. *)
Definition subscript_columns : list string :=
  ["EVENT_ID"; "EVENT_NAME"; "EVENT_PARENT_CATEGORY_NAME"; "VENUE_CITY";
   "VENUE_COUNTRY_NAME"; "EVENT_DATE"; "RECENT_GMS_RANK"].

(** The optional cells that [_build_event_object] converts with [int]. *)
Definition int_cells (base_row : Pandas.Series)
    (hist_row market_row : option Pandas.Series) : list (option value) :=
  [ base_row !! "TOTAL_TICKETS_SOLD";
    source_cell hist_row "CAREER_TOTAL_EVENTS";
    source_cell hist_row "CAREER_FIRST_YEAR";
    source_cell hist_row "TOUR_TOTAL_EVENTS";
    source_cell market_row "YTD_OVERALL_RANK";
    source_cell market_row "YTD_GENRE_RANK" ].

(** Not an infinite float. *)
Definition finite_cell (cell : option value) : Prop :=
  forall negative : bool, cell <> Some (VFloat (Inf negative)).

(** Failures of the text-generation call: the fixed causes, and the
    ordered rules on the lowercased error text; the first rule that
    matches wins, no match is [Unknown]. *)
Inductive cause : Type :=
| RateLimit
| InvalidKey
| ModelUnavailable
| Network
| Timeout
| Billing
| Unknown.

Definition cause_rules : list ((string -> bool) * cause) :=
  [ (contains "rate_limit", RateLimit);
    (fun t => contains "invalid_api_key" t || contains "unauthorized" t, InvalidKey);
    (fun t => contains "model" t && contains "does not exist" t, ModelUnavailable);
    (fun t => contains "connection" t || contains "network" t, Network);
    (contains "timeout", Timeout);
    (fun t => contains "billing" t || contains "quota" t, Billing) ].

Definition classify_error (error_msg : string) : cause :=
  match List.find (fun r : (string -> bool) * cause => fst r (lower error_msg))
                  cause_rules with
  | Some r => snd r
  | None => Unknown
  end.

(** The fixed user-facing message of each cause. *)
Definition user_message (model_ error_msg : string) (c : cause) : string :=
  match c with
  | RateLimit => "Rate limit exceeded. Please wait a moment and try again."
  | InvalidKey =>
      "Invalid API key. Please check your OpenAI API key in Snowflake secrets."
  | ModelUnavailable =>
      "Model '" +:+ model_
        +:+ "' not available. Check your OpenAI plan or use a different model."
  | Network =>
      "Network connection error. Snowflake may be blocking external API calls."
  | Timeout => "Request timeout. This may indicate network restrictions."
  | Billing => "Billing or quota issue. Check your OpenAI account status."
  | Unknown => "OpenAI API error: " +:+ error_msg
  end.

(** The response parser. The lines that count: trimmed, blank ones
    dropped. *)
Definition effective_lines (content : string) : list string :=
  List.filter (fun l => negb (String.eqb l ""))
              (map strip (split newline (strip content))).

Definition is_visual_header (line : string) : bool :=
  AIContextualizer.any_header AIContextualizer.visual_headers line.

Definition is_caption_header (line : string) : bool :=
  AIContextualizer.any_header AIContextualizer.caption_headers line.

Definition is_header (line : string) : bool :=
  is_visual_header line || is_caption_header line.

(** The lines that follow a header of kind [sec], up to the next header;
    [cur] is the kind of the last header seen so far. *)
Fixpoint following (cur : option AIContextualizer.section) (lines : list string)
    (sec : AIContextualizer.section) : list string :=
  match lines with
  | [] => []
  | l :: ls =>
      if is_visual_header l then following (Some AIContextualizer.visual) ls sec
      else if is_caption_header l then
        following (Some AIContextualizer.caption_section) ls sec
      else
        match cur, sec with
        | Some AIContextualizer.visual, AIContextualizer.visual
        | Some AIContextualizer.caption_section, AIContextualizer.caption_section =>
            l :: following cur ls sec
        | _, _ => following cur ls sec
        end
  end.

(** The lines before the first header. *)
Fixpoint leading (lines : list string) : list string :=
  match lines with
  | [] => []
  | l :: ls => if is_header l then [] else l :: leading ls
  end.

(** Shorter than 100 characters. *)
Definition short (line : string) : bool := (len line <? 100)%nat.

(** The first short line, and the lines that remain without it. *)
Definition first_short (lines : list string) : string :=
  match List.find short lines with
  | Some l => l
  | None => ""
  end.

Fixpoint remaining (lines : list string) : list string :=
  match lines with
  | [] => []
  | l :: ls => if short l then ls else l :: remaining ls
  end.

(** Lines joined, each followed by a space. *)
Fixpoint joined (lines : list string) : string :=
  match lines with
  | [] => ""
  | l :: ls => l +:+ " " +:+ joined ls
  end.

(** One iteration of the parsing loop on a line that is already trimmed
    and not blank. *)
Definition accumulate (st : AIContextualizer.parser_state) (line : string)
  : AIContextualizer.parser_state :=
  if is_visual_header line then
    {| AIContextualizer.visual_text_acc := AIContextualizer.visual_text_acc st;
       AIContextualizer.caption_acc := AIContextualizer.caption_acc st;
       AIContextualizer.current_section := Some AIContextualizer.visual |}
  else if is_caption_header line then
    {| AIContextualizer.visual_text_acc := AIContextualizer.visual_text_acc st;
       AIContextualizer.caption_acc := AIContextualizer.caption_acc st;
       AIContextualizer.current_section := Some AIContextualizer.caption_section |}
  else
    match AIContextualizer.current_section st with
    | Some AIContextualizer.visual =>
        {| AIContextualizer.visual_text_acc :=
             AIContextualizer.visual_text_acc st +:+ line +:+ " ";
           AIContextualizer.caption_acc := AIContextualizer.caption_acc st;
           AIContextualizer.current_section := AIContextualizer.current_section st |}
    | Some AIContextualizer.caption_section =>
        {| AIContextualizer.visual_text_acc := AIContextualizer.visual_text_acc st;
           AIContextualizer.caption_acc :=
             AIContextualizer.caption_acc st +:+ line +:+ " ";
           AIContextualizer.current_section := AIContextualizer.current_section st |}
    | None =>
        if String.eqb (AIContextualizer.visual_text_acc st) "" && short line then
          {| AIContextualizer.visual_text_acc := line;
             AIContextualizer.caption_acc := AIContextualizer.caption_acc st;
             AIContextualizer.current_section := AIContextualizer.current_section st |}
        else
          {| AIContextualizer.visual_text_acc := AIContextualizer.visual_text_acc st;
             AIContextualizer.caption_acc :=
               AIContextualizer.caption_acc st +:+ line +:+ " ";
             AIContextualizer.current_section := AIContextualizer.current_section st |}
    end.

End Spec.

(** ** Concrete events and inputs used in the statements *)

Module Examples.
Import Py Event Update.

(** [rank=3], completeness [1.0], career multiple [6.0]. *)
Definition boundary_event : event :=
  with_rank
    (with_completeness_score
       (with_career_multiple empty_event (Some (VFloat (Finite 6))))
       (Some (VFloat (Finite 1))))
    (Some (VInt 3)).

(** [career_multiple=6.0, international_pct=50, ytd_genre_rank=2,
    price_appreciation_pct=35, tour_multiple=2.0, tour_name="X"]. *)
Definition five_angle_event : event :=
  with_tour
    (with_price_appreciation
       (with_genre_rank
          (with_international_pct
             (with_career_multiple empty_event (Some (VFloat (Finite 6))))
             (Some (VInt 50)))
          (Some (VInt 2)))
       (Some (VInt 35)))
    (Some (VStr "X")) (Some (VFloat (Finite 2))).

(** A runtime in which no string reads as a number; the example rows
    hold their numbers as numbers. *)
Definition plain_builtins : Builtins :=
  {| float_of_str := fun _ => None;
     int_of_str := fun _ => None;
     repr_float := fun _ => "" |}.

(** A base row with every column the extractors read by subscript. *)
Definition base_row_1 : Pandas.Series :=
  list_to_map
    [ ("EVENT_ID", VStr "E1"); ("EVENT_NAME", VStr "Opening Night");
      ("EVENT_CATEGORY_NAME", VStr "Concerts");
      ("CLASSIFIED_ARTIST_NAME", VStr "The Band");
      ("EVENT_PARENT_CATEGORY_NAME", VStr "Rock");
      ("VENUE_CITY", VStr "Austin"); ("VENUE_COUNTRY_NAME", VStr "US");
      ("EVENT_DATE", VStr "2025-08-01"); ("RECENT_GMS_RANK", VInt 1);
      ("TOTAL_GMS", VFloat (Finite 1000)); ("RECENT_7D_GMS", VFloat (Finite 100));
      ("TOTAL_TICKETS_SOLD", VInt 10); ("AVG_TICKET_COST", VFloat (Finite 100));
      ("GMS_PER_TICKET", VFloat (Finite 100));
      ("INTERNATIONAL_GMS_PCT", VFloat (Finite (1 # 2))) ].

(** [base_row_1] with another classified artist name. *)
Definition named_row (classified : value) : Pandas.Series :=
  <["CLASSIFIED_ARTIST_NAME" := classified]> base_row_1.

(** A no-break space, U+00A0: one character of two bytes, white space
    for [str.strip]. *)
Definition no_break_space : string :=
  String (ascii_of_nat 194) (String (ascii_of_nat 160) EmptyString).

(** [base_row_1] as a second event whose rank cell is NULL (NaN). *)
Definition columns_1 : list string :=
  ["EVENT_ID"; "EVENT_NAME"; "EVENT_CATEGORY_NAME"; "CLASSIFIED_ARTIST_NAME";
   "EVENT_PARENT_CATEGORY_NAME"; "VENUE_CITY"; "VENUE_COUNTRY_NAME"; "EVENT_DATE";
   "RECENT_GMS_RANK"; "TOTAL_GMS"; "RECENT_7D_GMS"; "TOTAL_TICKETS_SOLD";
   "AVG_TICKET_COST"; "GMS_PER_TICKET"; "INTERNATIONAL_GMS_PCT"].

Definition cells_of (event_id_ : string) (rank_ : value) : list value :=
  [VStr event_id_; VStr "Opening Night"; VStr "Concerts"; VStr "The Band";
   VStr "Rock"; VStr "Austin"; VStr "US"; VStr "2025-08-01"; rank_;
   VFloat (Finite 1000); VFloat (Finite 100); VInt 10; VFloat (Finite 100);
   VFloat (Finite 100); VFloat (Finite (1 # 2))].

(** A base table of two events; the rank of the first is NULL. *)
Definition base_two_rows : Pandas.DataFrame :=
  {| Pandas.columns := columns_1;
     Pandas.cells := [cells_of "E0" (VFloat NaN); cells_of "E1" (VInt 1)] |}.

(** The same table without its first row. *)
Definition base_second_row : Pandas.DataFrame :=
  {| Pandas.columns := columns_1;
     Pandas.cells := [cells_of "E1" (VInt 1)] |}.

(** A base table that has no event-name column. *)
Definition base_without_name : Pandas.DataFrame :=
  {| Pandas.columns := ["EVENT_ID"; "RECENT_GMS_RANK"];
     Pandas.cells := [[VStr "E1"; VInt 1]; [VStr "E2"; VInt 2]] |}.

Definition frames (base_df : Pandas.DataFrame) : gmap string Pandas.DataFrame :=
  {[ "base_events" := base_df ]}.

(** A generator whose endpoint always fails with the given message. *)
Definition failing_generator (error_msg : string) : AIContextualizer.ContentGenerator :=
  {| AIContextualizer.model := "gpt-4o";
     AIContextualizer.template_func := fun _ _ _ => Ok "prompt";
     AIContextualizer._get_system_prompt := fun _ => "system";
     AIContextualizer.chat_completions_create := fun _ _ _ =>
       AIContextualizer.Failed error_msg |}.

Definition lines_of (lines : list string) : string :=
  fold_right (fun l acc => l +:+ String newline acc) "" lines.

(** A reply with both headers, and a reply with none. *)
Definition headed_response : string :=
  lines_of ["VISUAL TEXT:"; "  Sold out in minutes"; "";
            "Caption:"; "The Band takes Austin by storm"].

Definition plain_response : string :=
  lines_of ["Sold out in minutes"; "The Band takes Austin by storm";
            "Tickets moved fast"].

(** A musical note, U+1F3B5: one character of four bytes. *)
Definition note : string :=
  string_of_list_ascii (map ascii_of_nat [240; 159; 142; 181]%nat).

(** A response without headers whose first line has 30 characters in
    120 bytes. *)
Definition notes_line : string := repeat_str note 30.

Definition notes_response : string :=
  lines_of [notes_line; "The Band takes Austin by storm"].

End Examples.

(** ** More of the Python runtime *)

Module PyMore.
Import Py.

(** [d[key]] on a dictionary field that may be absent. *)
Definition subscript {A : Type} (field : option A) (key : string) : result A :=
  match field with
  | Some v => Ok v
  | None => Raise (KeyError key)
  end.

(** [l[:n]]: a negative [n] counts from the end. *)
Definition slice_to {A : Type} (l : list A) (n : Z) : list A :=
  if Z.leb 0 n then take (Z.to_nat n) l
  else take (length l - Z.to_nat (- n)) l.

(** A list comprehension [[x for x in l if p(x)]] whose condition can
    raise: the first exception leaves the comprehension. *)
Fixpoint filter_raising {A : Type} (p : A -> result bool) (l : list A) : result (list A) :=
  match l with
  | [] => Ok []
  | x :: l' =>
      keep ← p x;
      rest ← filter_raising p l';
      mret (if keep then x :: rest else rest)
  end.

(** [[f(x) for x in l]] where [f] can raise. *)
Fixpoint map_raising {A B : Type} (f : A -> result B) (l : list A) : result (list B) :=
  match l with
  | [] => Ok []
  | x :: l' =>
      y ← f x;
      rest ← map_raising f l';
      mret (y :: rest)
  end.

(** [sorted(l, key=key, reverse=True)] for integer keys. The sort is
    stable, also when reversed: items with equal keys keep their order.
    A stable sort has one result, which insertion from the right gives. *)
Fixpoint insert_desc {A : Type} (key : A -> Z) (x : A) (l : list A) : list A :=
  match l with
  | [] => [x]
  | y :: l' => if Z.ltb (key x) (key y) then y :: insert_desc key x l' else x :: l
  end.

Definition sorted_desc {A : Type} (key : A -> Z) (l : list A) : list A :=
  fold_right (insert_desc key) [] l.

(** [s.replace(old, new)] for a one-character [old]. *)
Fixpoint replace_char (old : ascii) (new : string) (s : string) : string :=
  match s with
  | EmptyString => EmptyString
  | String c s' =>
      if Ascii.eqb c old then new +:+ replace_char old new s'
      else String c (replace_char old new s')
  end.

(** [d.get(key)] on a dictionary literal with string keys. *)
Fixpoint lookup {A : Type} (d : list (string * A)) (key : string) : option A :=
  match d with
  | [] => None
  | (k, v) :: d' => if String.eqb k key then Some v else lookup d' key
  end.

(** [f + g] on floats. *)
Definition float_add (f g : pyfloat) : pyfloat :=
  match f, g with
  | Finite p, Finite q => Finite (p + q)
  | NaN, _ | _, NaN => NaN
  | Inf m, Inf n => if Bool.eqb m n then Inf m else NaN
  | Inf m, Finite _ | Finite _, Inf m => Inf m
  end.

(** [a + v] for a number [a]: two ints add to an int, otherwise the sum
    is a float; a [TypeError] when [v] is [None] or a string. *)
Definition add_to_number (a v : value) : result value :=
  match a, v with
  | VInt x, VInt y => Ok (VInt (x + y))
  | VInt x, VBool b => Ok (VInt (x + (if b then 1 else 0)))
  | _, _ =>
      match as_number a, as_number v with
      | Some f, Some g => Ok (VFloat (float_add f g))
      | _, _ => Raise TypeError
      end
  end.

(** [x / n] for a number [x] and a positive int [n]. *)
Definition truediv_int (x : value) (n : Z) : result value :=
  match x with
  | VInt z => Ok (int_truediv z n)
  | VBool b => Ok (int_truediv (if b then 1 else 0) n)
  | VFloat (Finite q) => Ok (VFloat (Finite (q / inject_Z n)))
  | VFloat f => Ok (VFloat f)
  | VNone | VStr _ => Raise TypeError
  end.

(** [len(set(l))] *)
Definition count_distinct `{EqDecision A} (l : list A) : Z :=
  Z.of_nat (length (remove_dups l)).

(** [d[key] = d.get(key, 0) + 1] on a dictionary that keeps the order
    in which its keys were first set. *)
Fixpoint count_key `{EqDecision K} (d : list (K * Z)) (key : K) : list (K * Z) :=
  match d with
  | [] => [(key, 1)]
  | (k, n) :: d' =>
      if decide (k = key) then (k, n + 1) :: d' else (k, n) :: count_key d' key
  end.

End PyMore.

(** ** Content items

    The dictionaries that content generation builds, one per event and
    angle. As for events, a field that is [None] is a key that the
    dictionary does not have. *)

Module Metrics.
Import Py.

(** ['event_metrics']. The key ['recent_7d_gms'] is read by
    [_generate_content_metadata]; no code of the repository sets it. *)
Record metrics_dict : Type := {
  rank : option value;
  international_pct : option value;
  vs_career_avg_multiple : option value;
  genre_rank : option value;
  performance_category : option value;
  genre_percentile : option value;
  recent_7d_gms : option value
}.

End Metrics.

Module ContentItem.
Import Py.

Record content_item : Type := {
  event_id : option string;
  artist_name : option string;
  event_name : option string;
  venue_location : option string;
  genre : option string;
  rank : option value;
  content_angle : option string;
  platform : option string;
  visual_text : option string;
  caption : option string;
  generated_at : option string;
  event_metrics : option Metrics.metrics_dict;
  data_quality_score : option value;
  content_priority : option Z;
  event_data : option Event.event;
  content : option string
}.

End ContentItem.

(** The dictionary that [export_for_zapier] returns. *)
Module Zapier.
Import Py.

Record metrics : Type := {
  rank : value;
  international_pct : value;
  career_multiple : value;
  performance_category : value
}.

Record zapier_post : Type := {
  id : string;
  artist_name : string;
  event_name : string;
  venue_location : string;
  visual_text : string;
  caption : string;
  content_angle : string;
  priority_score : Z;
  platform : string;
  hashtags : list string;
  post_metrics : metrics
}.

Record webhook_data : Type := {
  timestamp : string;
  content_count : Z;
  posts : list zapier_post
}.

End Zapier.

(** The dictionary that [create_posting_schedule] returns. *)
Module Schedule.
Import Py.

Record scheduled_post : Type := {
  post_time : string;
  content_id : string;
  artist : string;
  event : string;
  angle : string;
  priority : Z;
  content_preview : string
}.

Record posting_schedule : Type := {
  schedule : gmap string (list scheduled_post);
  total_days : Z;
  total_posts : Z;
  posts_per_day : Z;
  start_date : string
}.

End Schedule.

(** The dictionary that [_generate_content_metadata] returns. *)
Module Metadata.
Import Py.

Record top_event : Type := {
  artist : string;
  event : string;
  gms : value
}.

Record batch_summary : Type := {
  total_content_items : Z;
  unique_events : Z;
  unique_artists : Z;
  processing_duration : option string
}.

Record quality_metrics : Type := {
  average_content_priority : value;
  average_data_quality_score : value;
  high_priority_items : Z;
  high_priority_percentage : value
}.

Record content_distribution : Type := {
  by_angle : list (string * Z);
  by_priority : list (Z * Z);
  by_genre : list (string * Z)
}.

Record metadata : Type := {
  generation_timestamp : string;
  summary : batch_summary;
  quality : quality_metrics;
  distribution : content_distribution;
  top_events_by_gms : list top_event;
  recommended_posting_order : list string
}.

End Metadata.

(** ** batch_processor.py: generation, filtering and export *)

Module Batch.
Import Py PyMore.

(** The clock of a run: what [time.sleep(delay)] does with a delay, the
    text of [datetime.now().isoformat()] when the item of the [i]-th
    event and [j]-th angle is built, and at the start of the batch. *)
Class Clock : Type := {
  sleep : value -> result unit;
  now : nat -> nat -> string;
  started : string
}.

(** The attributes of a [BatchProcessor]. *)
Record processor : Type := {
  max_workers : Z;
  rate_limit_delay : value;
  processed_count : Z;
  error_count : Z;
  start_time : option string
}.

(** [BatchProcessor(max_workers, rate_limit_delay)] *)
Definition __init__ (max_workers_ : Z) (rate_limit_delay_ : value) : processor :=
  {| max_workers := max_workers_;
     rate_limit_delay := rate_limit_delay_;
     processed_count := 0;
     error_count := 0;
     start_time := None |}.

(** The body of the [try] in the angle loop of [_process_single_event]:
    the call of the generator, then the dictionary literal. *)
Definition content_item_of (content_generator : AIContextualizer.ContentGenerator)
    (event : Event.event) (angle : string) (generated_at_ : string)
  : result ContentItem.content_item :=
  content_result ← AIContextualizer.create_social_post content_generator event angle "tiktok";
  event_id_ ← subscript (Event.event_id event) "event_id";
  artist_name_ ← subscript (Event.classified_artist_name event) "classified_artist_name";
  event_name_ ← subscript (Event.event_name event) "event_name";
  venue_city_ ← subscript (Event.venue_city event) "venue_city";
  venue_country_ ← subscript (Event.venue_country event) "venue_country";
  genre_ ← subscript (Event.genre event) "genre";
  rank_ ← subscript (Event.rank event) "rank";
  metrics_rank ← subscript (Event.rank event) "rank";
  metrics_international_pct ← subscript (Event.international_pct event) "international_pct";
  content_priority_ ← BatchProcessor._calculate_content_priority event angle;
  mret {|
    ContentItem.event_id := Some event_id_;
    ContentItem.artist_name := Some artist_name_;
    ContentItem.event_name := Some event_name_;
    ContentItem.venue_location := Some (venue_city_ +:+ ", " +:+ venue_country_);
    ContentItem.genre := Some genre_;
    ContentItem.rank := Some rank_;
    ContentItem.content_angle := Some angle;
    ContentItem.platform := Some (AIContextualizer.platform content_result);
    ContentItem.visual_text := Some (AIContextualizer.visual_text content_result);
    ContentItem.caption := Some (AIContextualizer.caption content_result);
    ContentItem.generated_at := Some generated_at_;
    ContentItem.event_metrics := Some {|
      Metrics.rank := Some metrics_rank;
      Metrics.international_pct := Some metrics_international_pct;
      Metrics.vs_career_avg_multiple :=
        Some (dict_get (Event.vs_career_avg_multiple
                          (dict_get (Event.career_context event) Event.no_career))
                       (VInt 1));
      Metrics.genre_rank :=
        Some (dict_get (Event.ytd_genre_rank
                          (dict_get (Event.market_position event) Event.no_market))
                       VNone);
      Metrics.performance_category :=
        Some (dict_get (Event.performance_category
                          (dict_get (Event.trend_insights event) Event.no_trend))
                       (VStr "Normal"));
      Metrics.genre_percentile :=
        Some (dict_get (Event.genre_percentile_bucket
                          (dict_get (Event.genre_context event) Event.no_genre))
                       (VStr "Unknown"));
      Metrics.recent_7d_gms := None |};
    ContentItem.data_quality_score :=
      Some (dict_get (Event.completeness_score
                        (dict_get (Event.data_completeness event) Event.no_completeness))
                     (VInt 0));
    ContentItem.content_priority := Some content_priority_;
    ContentItem.event_data := None;
    ContentItem.content := None |}.

(** The loop [for angle in selected_angles]: an exception in the body is
    caught and the angle is skipped. [j] counts the angles. *)
Fixpoint angle_loop (content_generator : AIContextualizer.ContentGenerator)
    (event : Event.event) (generated_at_ : nat -> string) (j : nat)
    (selected_angles : list string) (content_items : list ContentItem.content_item)
  : list ContentItem.content_item :=
  match selected_angles with
  | [] => content_items
  | angle :: rest =>
      match content_item_of content_generator event angle (generated_at_ j) with
      | Ok content_item =>
          angle_loop content_generator event generated_at_ (S j) rest
            (content_items ++ [content_item])
      | Raise _ =>
          angle_loop content_generator event generated_at_ (S j) rest content_items
      end
  end.

(** [_process_single_event] *)
Definition _process_single_event (content_generator : AIContextualizer.ContentGenerator)
    (event : Event.event) (max_content : Z) (generated_at_ : nat -> string)
  : result (list ContentItem.content_item) :=
  angles ← BatchProcessor._identify_content_angles event;
  let selected_angles := slice_to angles max_content in
  mret (angle_loop content_generator event generated_at_ 0 selected_angles []).

(** The reads of [_print_batch_summary]; what it prints is not modelled. *)
Fixpoint _print_batch_summary (content : list ContentItem.content_item) : result unit :=
  match content with
  | [] => Ok tt
  | item :: rest =>
      angle ← subscript (ContentItem.content_angle item) "content_angle";
      priority ← subscript (ContentItem.content_priority item) "content_priority";
      _print_batch_summary rest
  end.

(** The locals and counters that the event loop of
    [process_events_batch] updates. *)
Record batch_state : Type := {
  all_content : list ContentItem.content_item;
  processed : Z;
  errors : Z
}.

Section WithClock.
Context `{Clock}.

(** One iteration of [for i, event in enumerate(events, 1)]; [total] is
    [len(events)]. The [try] covers the generation, the two updates and
    the sleep; its handler counts an error. *)
Definition batch_step (content_generator : AIContextualizer.ContentGenerator)
    (delay : value) (max_content_per_event : Z) (total : nat)
    (st : batch_state) (i : nat) (event : Event.event) : batch_state :=
  match _process_single_event content_generator event max_content_per_event (now i) with
  | Ok event_content =>
      let st' := {| all_content := all_content st ++ event_content;
                    processed := processed st + 1;
                    errors := errors st |} in
      if (i <? total)%nat then
        match sleep delay with
        | Ok _ => st'
        | Raise _ => {| all_content := all_content st';
                        processed := processed st';
                        errors := errors st' + 1 |}
        end
      else st'
  | Raise _ =>
      {| all_content := all_content st;
         processed := processed st;
         errors := errors st + 1 |}
  end.

Fixpoint batch_loop (content_generator : AIContextualizer.ContentGenerator)
    (delay : value) (max_content_per_event : Z) (total : nat)
    (st : batch_state) (i : nat) (events : list Event.event) : batch_state :=
  match events with
  | [] => st
  | event :: rest =>
      batch_loop content_generator delay max_content_per_event total
        (batch_step content_generator delay max_content_per_event total st i event)
        (S i) rest
  end.

(** [process_events_batch]: the outcome of the call and the processor
    after it. *)
Definition process_events_batch (self : processor) (events : list Event.event)
    (content_generator : AIContextualizer.ContentGenerator) (max_content_per_event : Z)
  : result (list ContentItem.content_item) * processor :=
  let st := batch_loop content_generator (rate_limit_delay self) max_content_per_event
              (length events)
              {| all_content := []; processed := 0; errors := 0 |} 1%nat events in
  let self' := {| max_workers := max_workers self;
                  rate_limit_delay := rate_limit_delay self;
                  processed_count := processed st;
                  error_count := errors st;
                  start_time := Some started |} in
  (_ ← _print_batch_summary (all_content st); mret (all_content st), self').
End WithClock.

(** [sorted(content, key=lambda x: x['content_priority'], reverse=True)]:
    the keys are read first, in list order. *)
Definition sorted_by_priority (content : list ContentItem.content_item)
  : result (list ContentItem.content_item) :=
  keyed ← map_raising
            (fun item =>
               priority ← subscript (ContentItem.content_priority item) "content_priority";
               mret (priority, item)) content;
  mret (map snd (sorted_desc fst keyed)).

(** [filter_content_by_criteria]; [None] is the default of [max_items]
    and of [preferred_angles]. *)
Definition filter_content_by_criteria (content : list ContentItem.content_item)
    (min_priority : Z) (max_items : option Z) (preferred_angles : option (list string))
  : result (list ContentItem.content_item) :=
  let filtered := content in
  (* Filter by minimum priority *)
  filtered ← filter_raising
               (fun item =>
                  priority ← subscript (ContentItem.content_priority item) "content_priority";
                  mret (Z.leb min_priority priority)) filtered;
  (* Filter by preferred angles if specified *)
  filtered ←
    match preferred_angles with
    | Some (angle0 :: angles) =>
        filter_raising
          (fun item =>
             angle ← subscript (ContentItem.content_angle item) "content_angle";
             mret (existsb (String.eqb angle) (angle0 :: angles))) filtered
    | Some [] | None => Ok filtered
    end;
  (* Sort by priority (highest first) *)
  filtered ← sorted_by_priority filtered;
  (* Limit number of items *)
  mret (match max_items with
        | Some m =>
            if negb (Z.eqb m 0) && Z.ltb m (Z.of_nat (length filtered))
            then slice_to filtered m else filtered
        | None => filtered
        end).

Definition angle_hashtags : list (string * list string) :=
  [ ("major_spike", ["#trending"; "#breakingnews"]);
    ("international_phenomenon", ["#global"; "#international"]);
    ("genre_leader", ["#leader"; "#dominating"]);
    ("pricing_surge", ["#demand"; "#hottickets"]);
    ("tour_standout", ["#tour"; "#standout"]) ].

(** [_generate_hashtags] *)
Definition _generate_hashtags (content_item : ContentItem.content_item)
  : result (list string) :=
  let hashtags := ["#livemusic"; "#concerts"] in
  (* Add genre-based hashtags *)
  genre_ ← subscript (ContentItem.genre content_item) "genre";
  let genre := replace_char " " "" (lower genre_) in
  let hashtags :=
    if negb (String.eqb genre "") then hashtags ++ ["#" +:+ genre] else hashtags in
  (* Add angle-based hashtags *)
  angle ← subscript (ContentItem.content_angle content_item) "content_angle";
  let hashtags :=
    match lookup angle_hashtags angle with
    | Some tags => hashtags ++ tags
    | None => hashtags
    end in
  (* Add artist name hashtag (cleaned) *)
  artist_ ← subscript (ContentItem.artist_name content_item) "artist_name";
  let artist := replace_char "&" "and" (replace_char " " "" artist_) in
  let hashtags :=
    if (len artist <=? 20)%nat then hashtags ++ ["#" +:+ artist]
    else hashtags in
  mret (slice_to hashtags 8).

(** The dictionary literal of one post in [export_for_zapier]. *)
Definition zapier_post_of (item : ContentItem.content_item) : result Zapier.zapier_post :=
  id_event ← subscript (ContentItem.event_id item) "event_id";
  id_angle ← subscript (ContentItem.content_angle item) "content_angle";
  artist_name_ ← subscript (ContentItem.artist_name item) "artist_name";
  event_name_ ← subscript (ContentItem.event_name item) "event_name";
  venue_location_ ← subscript (ContentItem.venue_location item) "venue_location";
  visual_text_ ← subscript (ContentItem.visual_text item) "visual_text";
  caption_ ← subscript (ContentItem.caption item) "caption";
  content_angle_ ← subscript (ContentItem.content_angle item) "content_angle";
  priority_score_ ← subscript (ContentItem.content_priority item) "content_priority";
  platform_ ← subscript (ContentItem.platform item) "platform";
  hashtags_ ← _generate_hashtags item;
  m ← subscript (ContentItem.event_metrics item) "event_metrics";
  rank_ ← subscript (Metrics.rank m) "rank";
  m ← subscript (ContentItem.event_metrics item) "event_metrics";
  international_pct_ ← subscript (Metrics.international_pct m) "international_pct";
  m ← subscript (ContentItem.event_metrics item) "event_metrics";
  career_multiple_ ← subscript (Metrics.vs_career_avg_multiple m) "vs_career_avg_multiple";
  m ← subscript (ContentItem.event_metrics item) "event_metrics";
  performance_category_ ← subscript (Metrics.performance_category m) "performance_category";
  mret {|
    Zapier.id := id_event +:+ "_" +:+ id_angle;
    Zapier.artist_name := artist_name_;
    Zapier.event_name := event_name_;
    Zapier.venue_location := venue_location_;
    Zapier.visual_text := visual_text_;
    Zapier.caption := caption_;
    Zapier.content_angle := content_angle_;
    Zapier.priority_score := priority_score_;
    Zapier.platform := platform_;
    Zapier.hashtags := hashtags_;
    Zapier.post_metrics := {|
      Zapier.rank := rank_;
      Zapier.international_pct := international_pct_;
      Zapier.career_multiple := career_multiple_;
      Zapier.performance_category := performance_category_ |} |}.

(** [export_for_zapier]; [timestamp_] is [datetime.now().isoformat()].
    The posts are appended in the order of [top_content]. *)
Definition export_for_zapier (content : list ContentItem.content_item) (max_items : Z)
    (timestamp_ : string) : result Zapier.webhook_data :=
  sorted_content ← sorted_by_priority content;
  let top_content := slice_to sorted_content max_items in
  posts_ ← map_raising zapier_post_of top_content;
  mret {| Zapier.timestamp := timestamp_;
          Zapier.content_count := Z.of_nat (length top_content);
          Zapier.posts := posts_ |}.

(** The builtins of [_generate_content_metadata] whose results are not
    reproduced: [round(x, ndigits)], [sorted(..., reverse=True)] on the
    ['gms'] values, which can be of any type, the text of the duration
    since [start_time], and of [datetime.now().isoformat()]. *)
Class Reporting : Type := {
  round_ : value -> Z -> result value;
  sorted_by_gms : list Metadata.top_event -> result (list Metadata.top_event);
  duration_text : string;
  generation_time : string
}.

(** The loop of [_generate_content_metadata] over the three
    distributions. *)
Fixpoint distributions_loop (content : list ContentItem.content_item)
    (st : list (string * Z) * list (Z * Z) * list (string * Z))
  : result (list (string * Z) * list (Z * Z) * list (string * Z)) :=
  match content with
  | [] => Ok st
  | item :: rest =>
      let '(angles_distribution, priority_distribution, genre_distribution) := st in
      (* Angle distribution *)
      angle ← subscript (ContentItem.content_angle item) "content_angle";
      let angles_distribution := count_key angles_distribution angle in
      (* Priority distribution *)
      priority ← subscript (ContentItem.content_priority item) "content_priority";
      let priority_distribution := count_key priority_distribution priority in
      (* Genre distribution *)
      genre_ ← subscript (ContentItem.genre item) "genre";
      let genre_distribution := count_key genre_distribution genre_ in
      distributions_loop rest
        (angles_distribution, priority_distribution, genre_distribution)
  end.

(** [sum(item['data_quality_score'] for item in content)]: each score is
    read and added before the next one is read. *)
Fixpoint sum_scores (content : list ContentItem.content_item) (acc : value)
  : result value :=
  match content with
  | [] => Ok acc
  | item :: rest =>
      score ← subscript (ContentItem.data_quality_score item) "data_quality_score";
      acc ← add_to_number acc score;
      sum_scores rest acc
  end.

(** The dictionary literal of the list of top events. *)
Definition top_event_of (item : ContentItem.content_item) : result Metadata.top_event :=
  artist_ ← subscript (ContentItem.artist_name item) "artist_name";
  event_ ← subscript (ContentItem.event_name item) "event_name";
  m ← subscript (ContentItem.event_metrics item) "event_metrics";
  gms_ ← subscript (Metrics.recent_7d_gms m) "recent_7d_gms";
  mret {| Metadata.artist := artist_; Metadata.event := event_; Metadata.gms := gms_ |}.

Section WithReporting.
Context `{Reporting}.

(** [_generate_content_metadata]; [None] is the empty dictionary that it
    returns for an empty content. The counts of a distribution are
    sorted by a stable sort; the priorities are distinct keys, so that
    sorting the pairs in reverse sorts them by priority. *)
Definition _generate_content_metadata (self : processor)
    (content : list ContentItem.content_item) : result (option Metadata.metadata) :=
  if is_empty content then Ok None
  else
    (* Basic counts *)
    let total_items := Z.of_nat (length content) in
    event_ids ← map_raising
                  (fun item => subscript (ContentItem.event_id item) "event_id") content;
    let unique_events_ := count_distinct event_ids in
    artists ← map_raising
                (fun item => subscript (ContentItem.artist_name item) "artist_name")
                content;
    let unique_artists_ := count_distinct artists in
    (* Content analysis *)
    distributions ← distributions_loop content ([], [], []);
    let '(angles_distribution, priority_distribution, genre_distribution) :=
      distributions in
    (* Quality metrics *)
    priorities ← map_raising
                   (fun item =>
                      subscript (ContentItem.content_priority item) "content_priority")
                   content;
    let avg_priority := int_truediv (fold_left Z.add priorities 0) total_items in
    scores_total ← sum_scores content (VInt 0);
    avg_data_quality ← truediv_int scores_total total_items;
    high ← filter_raising
             (fun item =>
                priority ← subscript (ContentItem.content_priority item) "content_priority";
                mret (Z.leb 8 priority)) content;
    let high_priority_items_ := Z.of_nat (length high) in
    (* Top performers *)
    top_events ← map_raising top_event_of content;
    top_events ← sorted_by_gms top_events;
    let top_events_by_gms_ := slice_to top_events 5 in
    average_content_priority_ ← round_ avg_priority 2;
    average_data_quality_score_ ← round_ avg_data_quality 2;
    share ← mul_int (int_truediv high_priority_items_ total_items) 100;
    high_priority_percentage_ ← round_ share 1;
    recommended ← map_raising
                    (fun item => subscript (ContentItem.event_id item) "event_id")
                    (slice_to content 10);
    mret (Some {|
      Metadata.generation_timestamp := generation_time;
      Metadata.summary := {|
        Metadata.total_content_items := total_items;
        Metadata.unique_events := unique_events_;
        Metadata.unique_artists := unique_artists_;
        Metadata.processing_duration :=
          match start_time self with
          | Some _ => Some duration_text
          | None => None
          end |};
      Metadata.quality := {|
        Metadata.average_content_priority := average_content_priority_;
        Metadata.average_data_quality_score := average_data_quality_score_;
        Metadata.high_priority_items := high_priority_items_;
        Metadata.high_priority_percentage := high_priority_percentage_ |};
      Metadata.distribution := {|
        Metadata.by_angle := sorted_desc snd angles_distribution;
        Metadata.by_priority := sorted_desc fst priority_distribution;
        Metadata.by_genre := sorted_desc snd genre_distribution |};
      Metadata.top_events_by_gms := top_events_by_gms_;
      Metadata.recommended_posting_order := recommended |}).

(** [save_content_with_metadata] up to the file that it writes: the
    [output_data] that it dumps, the metadata and the sorted content. *)
Definition save_content_with_metadata (self : processor)
    (content : list ContentItem.content_item)
  : result (option Metadata.metadata * list ContentItem.content_item) :=
  (* Sort content by priority (highest first) *)
  sorted_content ← sorted_by_priority content;
  (* Generate metadata *)
  metadata ← _generate_content_metadata self sorted_content;
  mret (metadata, sorted_content).
End WithReporting.

(** The dates of [create_posting_schedule]: [strftime d format], the
    outcome of [d + timedelta(hours=n)] and of [d + timedelta(days=n)]
    (an [OverflowError] past the last date), and [datetime.now()]. *)
Class Calendar : Type := {
  datetime : Type;
  strftime : datetime -> string -> string;
  add_hours : datetime -> Z -> result datetime;
  add_days : datetime -> Z -> result datetime;
  datetime_now : datetime
}.

Section WithCalendar.
Context `{Calendar}.

(** One iteration of [for i, item in enumerate(sorted_content)]. *)
Definition schedule_step (posts_per_day_ : Z)
    (st : gmap string (list Schedule.scheduled_post) * datetime)
    (item : ContentItem.content_item)
  : result (gmap string (list Schedule.scheduled_post) * datetime) :=
  let '(schedule_, current_date) := st in
  let day_key := strftime current_date "%Y-%m-%d" in
  let schedule_ :=
    match schedule_ !! day_key with
    | None => <[day_key := []]> schedule_
    | Some _ => schedule_
    end in
  (* Add item to current day *)
  let day := dict_get (schedule_ !! day_key) [] in
  post_date ← add_hours current_date (Z.of_nat (length day) * 8);
  id_event ← subscript (ContentItem.event_id item) "event_id";
  id_angle ← subscript (ContentItem.content_angle item) "content_angle";
  artist_ ← subscript (ContentItem.artist_name item) "artist_name";
  event_ ← subscript (ContentItem.event_name item) "event_name";
  angle_ ← subscript (ContentItem.content_angle item) "content_angle";
  priority_ ← subscript (ContentItem.content_priority item) "content_priority";
  content_ ← subscript (ContentItem.content item) "content";
  let content_preview_ :=
    if (100 <? len content_)%nat
    then take_chars 100 content_ +:+ "..."
    else content_ in
  let day := day ++ [{| Schedule.post_time := strftime post_date "%H:%M";
                        Schedule.content_id := id_event +:+ "_" +:+ id_angle;
                        Schedule.artist := artist_;
                        Schedule.event := event_;
                        Schedule.angle := angle_;
                        Schedule.priority := priority_;
                        Schedule.content_preview := content_preview_ |}] in
  let schedule_ := <[day_key := day]> schedule_ in
  (* Move to next day if we've reached the daily limit *)
  if Z.leb posts_per_day_ (Z.of_nat (length day)) then
    current_date ← add_days current_date 1;
    mret (schedule_, current_date)
  else mret (schedule_, current_date).

Fixpoint schedule_loop (posts_per_day_ : Z)
    (st : gmap string (list Schedule.scheduled_post) * datetime)
    (sorted_content : list ContentItem.content_item)
  : result (gmap string (list Schedule.scheduled_post) * datetime) :=
  match sorted_content with
  | [] => Ok st
  | item :: rest =>
      st' ← schedule_step posts_per_day_ st item;
      schedule_loop posts_per_day_ st' rest
  end.

(** [create_posting_schedule]; [None] is the empty dictionary that it
    returns for an empty content, and the default of [start_date]. *)
Definition create_posting_schedule (content : list ContentItem.content_item)
    (posts_per_day_ : Z) (start_date_ : option datetime)
  : result (option Schedule.posting_schedule) :=
  if is_empty content then Ok None
  else
    let start_date_ := dict_get start_date_ datetime_now in
    (* Sort content by priority *)
    sorted_content ← sorted_by_priority content;
    st ← schedule_loop posts_per_day_ (∅, start_date_) sorted_content;
    mret (Some {| Schedule.schedule := fst st;
                  Schedule.total_days := Z.of_nat (size (fst st));
                  Schedule.total_posts := Z.of_nat (length sorted_content);
                  Schedule.posts_per_day := posts_per_day_;
                  Schedule.start_date := strftime start_date_ "%Y-%m-%d" |}).
End WithCalendar.

End Batch.

(** ** Loading the four warehouse views *)

Module Warehouse.
Import Py.

(** [execute_query]: the outcome of the [k]-th query of a run, a frame
    or any exception. *)
Class Connection : Type := {
  execute_query : nat -> string -> result Pandas.DataFrame
}.

Definition views : list (string * string) :=
  [ ("base_events", "adhoc.maggieli.top_events_last_7_days");
    ("historical_context", "adhoc.maggieli.top_events_historical_context");
    ("trend_analysis", "adhoc.maggieli.top_events_trend_analysis");
    ("market_rankings", "adhoc.maggieli.top_events_market_rankings") ].

(** The query text of [get_top_events_data], an f-string. *)
Definition connector_query (view_path : string) : string :=
  "SELECT * FROM " +:+ view_path +:+ " ORDER BY recent_gms_rank".

(** The query texts of [query_top_events_views], triple-quoted literals
    that differ in the view. *)
Definition pipeline_query (view_path : string) : string :=
  String newline
    ("                SELECT * FROM " +:+ view_path +:+ " "
     +:+ String newline
           ("                ORDER BY recent_gms_rank"
            +:+ String newline "            ")).

Section WithConnection.
Context `{Connection}.

(** The [try] of both loops: a query that raises leaves an empty frame
    under the name of the view. *)
Definition load_view (k : nat) (query : string) : Pandas.DataFrame :=
  match execute_query k query with
  | Ok df => df
  | Raise _ => Pandas.empty_frame
  end.

Fixpoint load_views (query_of : string -> string) (k : nat)
    (views_ : list (string * string)) (results : gmap string Pandas.DataFrame)
  : gmap string Pandas.DataFrame :=
  match views_ with
  | [] => results
  | (view_name, view_path) :: rest =>
      load_views query_of (S k) rest
        (<[view_name := load_view k (query_of view_path)]> results)
  end.

(** [SnowflakeConnector.get_top_events_data] *)
Definition get_top_events_data : gmap string Pandas.DataFrame :=
  load_views connector_query 0 views ∅.

(** [SocialContentPipeline.query_top_events_views] *)
Definition query_top_events_views : gmap string Pandas.DataFrame :=
  load_views pipeline_query 0 views ∅.
End WithConnection.

End Warehouse.

(** ** social_content_generator.py: content for the structured events *)

Module Pipeline.
Import Py PyMore.

(** The body of the [try] in the angle loop of
    [generate_content_for_events]: the call of the generator, for
    Twitter, then the dictionary literal. *)
Definition content_item_of (content_generator : AIContextualizer.ContentGenerator)
    (event : Event.event) (angle : string) (generated_at_ : string)
  : result ContentItem.content_item :=
  content ← AIContextualizer.create_social_post content_generator event angle "twitter";
  event_id_ ← subscript (Event.event_id event) "event_id";
  artist_name_ ← subscript (Event.classified_artist_name event) "classified_artist_name";
  event_name_ ← subscript (Event.event_name event) "event_name";
  completeness ← subscript (Event.data_completeness event) "data_completeness";
  score ← subscript (Event.completeness_score completeness) "completeness_score";
  mret {|
    ContentItem.event_id := Some event_id_;
    ContentItem.artist_name := Some artist_name_;
    ContentItem.event_name := Some event_name_;
    ContentItem.venue_location := None;
    ContentItem.genre := None;
    ContentItem.rank := None;
    ContentItem.content_angle := Some angle;
    ContentItem.platform := Some "tiktok";
    ContentItem.visual_text := Some (AIContextualizer.visual_text content);
    ContentItem.caption := Some (AIContextualizer.caption content);
    ContentItem.generated_at := Some generated_at_;
    ContentItem.event_metrics := None;
    ContentItem.data_quality_score := Some score;
    ContentItem.content_priority := None;
    ContentItem.event_data := Some event;
    ContentItem.content := None |}.

(** The loop [for angle in angles]: an exception in the body is caught
    and the angle is skipped. [j] counts the angles. *)
Fixpoint angle_loop (content_generator : AIContextualizer.ContentGenerator)
    (event : Event.event) (generated_at_ : nat -> string) (j : nat)
    (angles : list string) (all_content : list ContentItem.content_item)
  : list ContentItem.content_item :=
  match angles with
  | [] => all_content
  | angle :: rest =>
      match content_item_of content_generator event angle (generated_at_ j) with
      | Ok content_item =>
          angle_loop content_generator event generated_at_ (S j) rest
            (all_content ++ [content_item])
      | Raise _ =>
          angle_loop content_generator event generated_at_ (S j) rest all_content
      end
  end.

(** The loop [for event in events]; the name that it prints and the
    classifier are outside the [try]. [now i j] is the text of
    [datetime.now().isoformat()] at the [j]-th angle of the [i]-th event. *)
Fixpoint event_loop (content_generator : AIContextualizer.ContentGenerator)
    (now : nat -> nat -> string) (i : nat) (events : list Event.event)
    (all_content : list ContentItem.content_item)
  : result (list ContentItem.content_item) :=
  match events with
  | [] => Ok all_content
  | event :: rest =>
      display_name ← SocialContentGenerator.display_name event;
      event_name_ ← subscript (Event.event_name event) "event_name";
      angles ← SocialContentGenerator.identify_content_angles event;
      event_loop content_generator now (S i) rest
        (angle_loop content_generator event (now i) 0 angles all_content)
  end.

(** [generate_content_for_events] *)
Definition generate_content_for_events
    (content_generator : AIContextualizer.ContentGenerator)
    (now : nat -> nat -> string) (events : list Event.event)
  : result (list ContentItem.content_item) :=
  event_loop content_generator now 0 events [].

End Pipeline.

(** ** streamlit_app.py: the distributions of the export *)

Module Dashboard.
Import Py.

(** [distribution[key] = distribution.get(key, 0) + 1] *)
Definition count_one `{Countable K} (distribution : gmap K Z) (key : K) : gmap K Z :=
  <[key := dict_get (distribution !! key) 0 + 1]> distribution.

(** [calculate_angle_distribution] *)
Definition calculate_angle_distribution (content_data : list StreamlitApp.content_item)
  : gmap string Z :=
  fold_left
    (fun distribution item =>
       let angle := dict_get (StreamlitApp.content_angle item) "unknown" in
       count_one distribution angle)
    content_data ∅.

(** The loop of [calculate_priority_distribution]: a score that raises
    leaves the loop and the function. *)
Fixpoint priority_distribution_loop `{Builtins} (content_data : list StreamlitApp.content_item)
    (distribution : gmap Z Z) : result (gmap Z Z) :=
  match content_data with
  | [] => Ok distribution
  | item :: rest =>
      score ← StreamlitApp.calculate_priority_score item;
      priority_distribution_loop rest (count_one distribution score)
  end.

(** [calculate_priority_distribution] *)
Definition calculate_priority_distribution `{Builtins}
    (content_data : list StreamlitApp.content_item) : result (gmap Z Z) :=
  priority_distribution_loop content_data ∅.

End Dashboard.

(** ** data_processing.py: the quality report *)

Module DataQuality.
Import Py PyMore.

(** The two dictionaries that [validate_data_quality] returns. *)
Inductive report : Type :=
| Error (message : string)
| Success (total_events complete_data_events : Z) (average_completeness_score : value)
          (events_missing_required_fields : Z) (data_quality_score : value).

(** [e['data_completeness']['completeness_score']] *)
Definition completeness_of (e : Event.event) : result value :=
  d ← subscript (Event.data_completeness e) "data_completeness";
  subscript (Event.completeness_score d) "completeness_score".

(** [v == c] for a float literal [c]: numbers compare by value, [None]
    and strings equal no number. *)
Definition eq_float (v : value) (c : Q) : bool :=
  match as_number v with
  | Some f => float_eq f (Finite c)
  | None => false
  end.

(** [v * c] for a positive float literal [c]. *)
Definition mul_float (v : value) (c : Q) : result value :=
  match as_number v with
  | Some (Finite q) => Ok (VFloat (Finite (q * c)))
  | Some f => Ok (VFloat f)
  | None => Raise TypeError
  end.

(** [sum(e['data_completeness']['completeness_score'] for e in events)]:
    each score is read and added before the next one is read. *)
Fixpoint sum_completeness (events : list Event.event) (acc : value) : result value :=
  match events with
  | [] => Ok acc
  | e :: rest =>
      score ← completeness_of e;
      acc ← add_to_number acc score;
      sum_completeness rest acc
  end.

(** [not e.get(field)] on a field that holds a string. *)
Definition no_text (field : option string) : bool :=
  match field with
  | Some s => String.eqb s ""
  | None => true
  end.

(** [any(not e.get(field) for field in required_fields)] *)
Definition missing_required (e : Event.event) : bool :=
  no_text (Event.event_id e)
  || no_text (Event.classified_artist_name e)
  || negb (truthy (dict_get (Event.total_gms e) VNone))
  || negb (truthy (dict_get (Event.recent_7d_gms e) VNone)).

(** [validate_data_quality] *)
Definition validate_data_quality (events : list Event.event) : result report :=
  if is_empty events then Ok (Error "No events to validate")
  else
    let total_events := Z.of_nat (length events) in
    complete ← filter_raising
                 (fun e => score ← completeness_of e; mret (eq_float score 1)) events;
    let complete_data_events := Z.of_nat (length complete) in
    total ← sum_completeness events (VInt 0);
    avg_completeness ← truediv_int total total_events;
    (* Check for required fields *)
    let missing_required_ := Z.of_nat (length (List.filter missing_required events)) in
    weighted ← mul_float avg_completeness 0.7;
    present ← mul_float (int_truediv (total_events - missing_required_) total_events) 0.3;
    data_quality_score_ ← add_to_number weighted present;
    mret (Success total_events complete_data_events avg_completeness missing_required_
                  data_quality_score_).

End DataQuality.

(** ** Notions used in the statements about content items *)

Module Notions.
Import Py PyMore.

(** Highest key first: no item has a higher key than an earlier one. *)
Fixpoint descending {A : Type} (key : A -> Z) (l : list A) : Prop :=
  match l with
  | [] => True
  | x :: l' => Forall (fun b => key b <= key x) l' /\ descending key l'
  end.

(** The truth of a condition that did not raise. *)
Definition holds {A : Type} (p : A -> result bool) (x : A) : bool :=
  match p x with
  | Ok b => b
  | Raise _ => false
  end.

(** The priority of an item, 0 for an item that has none. *)
Definition priority_of (item : ContentItem.content_item) : Z :=
  dict_get (ContentItem.content_priority item) 0.

(** An item with every key that the summary, the filter and the export
    read. *)
Definition exportable (item : ContentItem.content_item) : Prop :=
  is_Some (ContentItem.event_id item) /\
  is_Some (ContentItem.artist_name item) /\
  is_Some (ContentItem.event_name item) /\
  is_Some (ContentItem.venue_location item) /\
  is_Some (ContentItem.genre item) /\
  is_Some (ContentItem.content_angle item) /\
  is_Some (ContentItem.platform item) /\
  is_Some (ContentItem.visual_text item) /\
  is_Some (ContentItem.caption item) /\
  is_Some (ContentItem.content_priority item) /\
  exists m : Metrics.metrics_dict,
    ContentItem.event_metrics item = Some m /\
    is_Some (Metrics.rank m) /\
    is_Some (Metrics.international_pct m) /\
    is_Some (Metrics.vs_career_avg_multiple m) /\
    is_Some (Metrics.performance_category m).

(** An event with every key that the item literal reads by subscript. *)
Definition has_item_keys (event : Event.event) : Prop :=
  is_Some (Event.event_id event) /\
  is_Some (Event.classified_artist_name event) /\
  is_Some (Event.event_name event) /\
  is_Some (Event.venue_city event) /\
  is_Some (Event.venue_country event) /\
  is_Some (Event.genre event) /\
  is_Some (Event.rank event) /\
  is_Some (Event.international_pct event).

(** The classifier returns on the event. *)
Definition classifies (event : Event.event) : bool :=
  match BatchProcessor._identify_content_angles event with
  | Ok _ => true
  | Raise _ => false
  end.

(** The items of the events from the [i]-th on, an event whose
    processing raises giving none. *)
Fixpoint batch_contents `{Batch.Clock} (content_generator : AIContextualizer.ContentGenerator)
    (max_content_per_event : Z) (i : nat) (events : list Event.event)
  : list ContentItem.content_item :=
  match events with
  | [] => []
  | event :: rest =>
      match Batch._process_single_event content_generator event max_content_per_event
              (Batch.now i) with
      | Ok event_content => event_content
      | Raise _ => []
      end ++ batch_contents content_generator max_content_per_event (S i) rest
  end.

(** The base columns that the row body of [structure_event_data] reads
    by subscript, in the order in which it reads them. *)
Definition pipeline_subscript_columns : list string :=
  ["EVENT_ID"; "EVENT_NAME"; "EVENT_PARENT_CATEGORY_NAME"; "VENUE_CITY";
   "VENUE_COUNTRY_NAME"; "EVENT_DATE"; "RECENT_GMS_RANK"; "TOTAL_GMS";
   "RECENT_7D_GMS"; "TOTAL_TICKETS_SOLD"; "AVG_TICKET_COST"; "GMS_PER_TICKET";
   "INTERNATIONAL_GMS_PCT"].

(** The cells that it converts with [_safe_int]. *)
Definition pipeline_int_cells (base_row : Pandas.Series)
    (hist_row trend_row market_row : option Pandas.Series) : list (option value) :=
  [ base_row !! "TOTAL_TICKETS_SOLD";
    base_row !! "TOTAL_SALES_WINDOW_DAYS";
    Spec.source_cell hist_row "CAREER_TOTAL_EVENTS";
    Spec.source_cell hist_row "CAREER_FIRST_YEAR";
    Spec.source_cell hist_row "CAREER_LAST_YEAR";
    Spec.source_cell hist_row "TOUR_TOTAL_EVENTS";
    Spec.source_cell trend_row "UNIQUE_BUYER_COUNTRIES";
    Spec.source_cell market_row "YTD_OVERALL_RANK";
    Spec.source_cell market_row "YTD_GENRE_RANK" ].

(** The angles that the pipeline classifier gives an event, none when it
    raises. *)
Definition pipeline_angles (event : Event.event) : list string :=
  match SocialContentGenerator.identify_content_angles event with
  | Ok angles => angles
  | Raise _ => []
  end.

(** The reads of [generate_content_for_events] outside its [try]
    return. *)
Definition announced (event : Event.event) : Prop :=
  (exists name, SocialContentGenerator.display_name event = Ok name) /\
  is_Some (Event.event_name event) /\
  exists angles, SocialContentGenerator.identify_content_angles event = Ok angles.

(** The items of the events from the [i]-th on, in the pipeline. *)
Fixpoint pipeline_contents (content_generator : AIContextualizer.ContentGenerator)
    (now : nat -> nat -> string) (i : nat) (events : list Event.event)
  : list ContentItem.content_item :=
  match events with
  | [] => []
  | event :: rest =>
      Pipeline.angle_loop content_generator event (now i) 0 (pipeline_angles event) []
      ++ pipeline_contents content_generator now (S i) rest
  end.

(** An event with every key that the item literal of the pipeline reads
    by subscript. *)
Definition has_pipeline_keys (event : Event.event) : Prop :=
  is_Some (Event.event_id event) /\
  is_Some (Event.classified_artist_name event) /\
  is_Some (Event.event_name event) /\
  exists d, Event.data_completeness event = Some d /\
            is_Some (Event.completeness_score d).

(** An item whose metrics lack the key ['recent_7d_gms']. *)
Definition no_gms (item : ContentItem.content_item) : Prop :=
  forall m, ContentItem.event_metrics item = Some m -> Metrics.recent_7d_gms m = None.

(** An item whose data quality score is a number. *)
Definition scored (item : ContentItem.content_item) : Prop :=
  exists v f, ContentItem.data_quality_score item = Some v /\ as_number v = Some f.

(** The sum of the counts of a distribution. *)
Definition pair_total {K : Type} (d : list (K * Z)) : Z :=
  fold_right (fun kv acc => snd kv + acc) 0 d.

(** The sum of a measure over the values of a dictionary. *)
Definition map_total `{Countable K} {V : Type} (f : V -> Z) (m : gmap K V) : Z :=
  map_fold (fun _ v acc => f v + acc) 0 m.

(** The number of occurrences of a key in a list. *)
Definition occurrences `{EqDecision K} (key : K) (keys : list K) : Z :=
  Z.of_nat (length (filter (fun k => k = key) keys)).

(** A top-buyer slot that [_extract_geographic_insights] lists: the
    country cell is true and the share cell is not [None]. *)
Definition listed `{Builtins} (row : Pandas.Series) (i : Z) : bool :=
  truthy (Pandas.get row (SocialContentGenerator.top_buyer_column i "") VNone)
  && negb (eq_None (Pandas.get row (SocialContentGenerator.top_buyer_column i "_PCT") VNone)).

End Notions.

(** ** Concrete items, clocks and calendars used in the statements *)

Module Samples.
Import Py.

(** A clock whose sleep always returns. *)
Definition steady_clock : Batch.Clock :=
  {| Batch.sleep := fun _ => Ok tt;
     Batch.now := fun _ _ => "2025-08-01T00:00:00";
     Batch.started := "2025-08-01T00:00:00" |}.

(** A calendar that counts hours from a first midnight: a day is the
    number of its midnight, a time the hour of the day. *)
Definition hour_calendar : Batch.Calendar :=
  {| Batch.datetime := Z;
     Batch.strftime := fun d format =>
       if String.eqb format "%H:%M"
       then NilZero.string_of_int (Z.to_int (d mod 24)) +:+ ":00"
       else "day " +:+ NilZero.string_of_int (Z.to_int (d / 24));
     Batch.add_hours := fun d n => Ok (d + n);
     Batch.add_days := fun d n => Ok (d + 24 * n);
     Batch.datetime_now := 0 |}.

(** An item as the batch processor builds it, with the ['content'] key
    when a text is given. *)
Definition item_of (angle : string) (priority : Z) (content_ : option string)
  : ContentItem.content_item :=
  {| ContentItem.event_id := Some "E1";
     ContentItem.artist_name := Some "The Band";
     ContentItem.event_name := Some "Opening Night";
     ContentItem.venue_location := Some "Austin, US";
     ContentItem.genre := Some "Rock";
     ContentItem.rank := Some (VInt 1);
     ContentItem.content_angle := Some angle;
     ContentItem.platform := Some "tiktok";
     ContentItem.visual_text := Some "Sold out in minutes";
     ContentItem.caption := Some "The Band takes Austin by storm";
     ContentItem.generated_at := Some "2025-08-01T00:00:00";
     ContentItem.event_metrics := Some {|
       Metrics.rank := Some (VInt 1);
       Metrics.international_pct := Some (VFloat (Finite 50));
       Metrics.vs_career_avg_multiple := Some (VInt 1);
       Metrics.genre_rank := Some VNone;
       Metrics.performance_category := Some (VStr "Normal");
       Metrics.genre_percentile := Some (VStr "Unknown");
       Metrics.recent_7d_gms := None |};
     ContentItem.data_quality_score := Some (VFloat (Finite 0));
     ContentItem.content_priority := Some priority;
     ContentItem.event_data := None;
     ContentItem.content := content_ |}.

Definition three_items : list ContentItem.content_item :=
  [ item_of "top_performer" 6 None; item_of "major_spike" 9 None;
    item_of "tour_standout" 7 None ].

(** Two items that have the ['content'] key. *)
Definition two_texts : list ContentItem.content_item :=
  [ item_of "top_performer" 6 (Some "Sold out in minutes");
    item_of "major_spike" 9 (Some "The Band takes Austin by storm") ].

(** A trend row whose first top-buyer country is NULL (NaN) with a
    share, and whose second is named. *)
Definition trend_row_1 : Pandas.Series :=
  list_to_map
    [ ("TOP_BUYER_COUNTRY_1", VFloat NaN);
      ("TOP_BUYER_COUNTRY_1_PCT", VFloat (Finite (1 # 2)));
      ("TOP_BUYER_COUNTRY_2", VStr "Canada");
      ("TOP_BUYER_COUNTRY_2_PCT", VFloat (Finite (1 # 4)));
      ("UNIQUE_BUYER_COUNTRIES", VInt 2) ].

(** An item whose metrics have the key ['recent_7d_gms']. *)
Definition with_gms (item : ContentItem.content_item) (gms_ : value)
  : ContentItem.content_item :=
  {| ContentItem.event_id := ContentItem.event_id item;
     ContentItem.artist_name := ContentItem.artist_name item;
     ContentItem.event_name := ContentItem.event_name item;
     ContentItem.venue_location := ContentItem.venue_location item;
     ContentItem.genre := ContentItem.genre item;
     ContentItem.rank := ContentItem.rank item;
     ContentItem.content_angle := ContentItem.content_angle item;
     ContentItem.platform := ContentItem.platform item;
     ContentItem.visual_text := ContentItem.visual_text item;
     ContentItem.caption := ContentItem.caption item;
     ContentItem.generated_at := ContentItem.generated_at item;
     ContentItem.event_metrics := Some {|
       Metrics.rank := Some (VInt 1);
       Metrics.international_pct := Some (VFloat (Finite 50));
       Metrics.vs_career_avg_multiple := Some (VInt 1);
       Metrics.genre_rank := Some VNone;
       Metrics.performance_category := Some (VStr "Normal");
       Metrics.genre_percentile := Some (VStr "Unknown");
       Metrics.recent_7d_gms := Some gms_ |};
     ContentItem.data_quality_score := ContentItem.data_quality_score item;
     ContentItem.content_priority := ContentItem.content_priority item;
     ContentItem.event_data := ContentItem.event_data item;
     ContentItem.content := ContentItem.content item |}.

Definition two_with_gms : list ContentItem.content_item :=
  [ with_gms (item_of "major_spike" 9 None) (VFloat (Finite 100));
    with_gms (item_of "top_performer" 6 None) (VFloat (Finite 50)) ].

(** A reporting runtime that rounds nothing and leaves the order of the
    top events as it is. *)
Definition plain_reporting : Batch.Reporting :=
  {| Batch.round_ := fun x _ => Ok x;
     Batch.sorted_by_gms := fun l => Ok l;
     Batch.duration_text := "0:00:01";
     Batch.generation_time := "2025-08-01T00:00:00" |}.

End Samples.

(** * Properties *)

Import Py Event Update.

(** ** Priority scorer *)

Lemma str_in_elem_of (s : string) (l : list string) :
  BatchProcessor.str_in s l = bool_decide (s ∈ l).
Proof.
  unfold BatchProcessor.str_in.
  induction l as [|x l IH].
  - symmetry. apply bool_decide_eq_false_2, not_elem_of_nil.
  - cbn [existsb]. rewrite IH. destruct (String.eqb_spec s x) as [->|Hne].
    + symmetry. apply bool_decide_eq_true_2. rewrite elem_of_cons. by left.
    + apply bool_decide_ext. rewrite elem_of_cons. tauto.
Qed.

(** The scorer computes the closed formula whenever the three fields it
    compares are numbers. *)
Lemma priority_formula (e : event) (angle : string) (r s m : pyfloat) :
  as_number (rank_of e) = Some r ->
  as_number (completeness_score_of e) = Some s ->
  as_number (career_multiple_of (VInt 1) e) = Some m ->
  BatchProcessor._calculate_content_priority e angle = Ok (Spec.priority r angle s m).
Proof.
  intros Hr Hs Hm.
  unfold BatchProcessor._calculate_content_priority, Spec.priority.
  unfold rank_of, completeness_score_of, career_multiple_of in *.
  rewrite str_in_elem_of.
  unfold le, ge. rewrite Hr, Hs, Hm. cbn [bind].
  unfold Spec.rank_bonus, Spec.angle_bonus, Spec.completeness_bonus, Spec.career_bonus,
    BatchProcessor.high_impact_angles.
  destruct (float_le r 3); simpl;
    [| destruct (float_le r 5); simpl; [| destruct (float_le r 10); simpl]];
    destruct (bool_decide _); simpl;
    destruct (float_ge s 0.8); simpl;
    (destruct (float_ge m 5); simpl; [| destruct (float_ge m 3); simpl]);
    f_equal; lia.
Qed.

Lemma rank_bonus_antitone (q1 q2 : Q) :
  (q1 <= q2)%Q -> Spec.rank_bonus (Finite q2) <= Spec.rank_bonus (Finite q1).
Proof.
  intros Hle. unfold Spec.rank_bonus, float_le.
  destruct (Qle_bool q2 3) eqn:H23.
  - apply Qle_bool_iff in H23.
    assert (H13 : Qle_bool q1 3 = true) by (apply Qle_bool_iff; eapply Qle_trans; eauto).
    rewrite H13. lia.
  - destruct (Qle_bool q2 5) eqn:H25.
    + apply Qle_bool_iff in H25.
      assert (H15 : Qle_bool q1 5 = true) by (apply Qle_bool_iff; eapply Qle_trans; eauto).
      destruct (Qle_bool q1 3); [lia|]. rewrite H15. lia.
    + destruct (Qle_bool q2 10) eqn:H210.
      * apply Qle_bool_iff in H210.
        assert (H110 : Qle_bool q1 10 = true)
          by (apply Qle_bool_iff; eapply Qle_trans; eauto).
        destruct (Qle_bool q1 3); [lia|]. destruct (Qle_bool q1 5); [lia|].
        rewrite H110. lia.
      * destruct (Qle_bool q1 3); [lia|]. destruct (Qle_bool q1 5); [lia|].
        destruct (Qle_bool q1 10); lia.
Qed.

Lemma career_bonus_monotone (q1 q2 : Q) :
  (q1 <= q2)%Q -> Spec.career_bonus (Finite q1) <= Spec.career_bonus (Finite q2).
Proof.
  intros Hle. unfold Spec.career_bonus, float_ge.
  destruct (Qle_bool 5 q1) eqn:H51.
  - apply Qle_bool_iff in H51.
    assert (H52 : Qle_bool 5 q2 = true) by (apply Qle_bool_iff; eapply Qle_trans; eauto).
    rewrite H52. lia.
  - destruct (Qle_bool 3 q1) eqn:H31.
    + apply Qle_bool_iff in H31.
      assert (H32 : Qle_bool 3 q2 = true) by (apply Qle_bool_iff; eapply Qle_trans; eauto).
      destruct (Qle_bool 5 q2); [lia|]. rewrite H32. lia.
    + destruct (Qle_bool 5 q2); [lia|]. destruct (Qle_bool 3 q2); lia.
Qed.

Lemma bonus_bounds (r s m : pyfloat) (angle : string) :
  0 <= Spec.rank_bonus r <= 3 /\ 0 <= Spec.angle_bonus angle <= 2 /\
  0 <= Spec.completeness_bonus s <= 1 /\ 0 <= Spec.career_bonus m <= 2.
Proof.
  unfold Spec.rank_bonus, Spec.angle_bonus, Spec.completeness_bonus, Spec.career_bonus.
  repeat split;
    repeat match goal with |- context [if ?b then _ else _] => destruct b end; lia.
Qed.

(** C9. Between two events that differ only in rank, the one with the
    lower rank number has a priority at least as high; between two events
    that differ only in career multiple, the one with the higher multiple
    has a priority at least as high. Angle and completeness are fixed. *)
Theorem C9_priority_monotone (e : event) (angle : string) (v1 v2 : value)
    (q1 q2 : Q) :
  as_number v1 = Some (Finite q1) ->
  as_number v2 = Some (Finite q2) ->
  (q1 <= q2)%Q ->
  (forall s m : pyfloat,
      as_number (completeness_score_of e) = Some s ->
      as_number (career_multiple_of (VInt 1) e) = Some m ->
      exists p1 p2 : Z,
        BatchProcessor._calculate_content_priority (with_rank e (Some v1)) angle
        = Ok p1 /\
        BatchProcessor._calculate_content_priority (with_rank e (Some v2)) angle
        = Ok p2 /\
        p2 <= p1) /\
  (forall r s : pyfloat,
      as_number (rank_of e) = Some r ->
      as_number (completeness_score_of e) = Some s ->
      exists p1 p2 : Z,
        BatchProcessor._calculate_content_priority
          (with_career_multiple e (Some v1)) angle = Ok p1 /\
        BatchProcessor._calculate_content_priority
          (with_career_multiple e (Some v2)) angle = Ok p2 /\
        p1 <= p2).
Proof.
  intros H1 H2 Hle. split.
  - intros s m Hs Hm.
    exists (Spec.priority (Finite q1) angle s m), (Spec.priority (Finite q2) angle s m).
    split; [by apply priority_formula|]. split; [by apply priority_formula|].
    unfold Spec.priority. pose proof (rank_bonus_antitone q1 q2 Hle). lia.
  - intros r s Hr Hs.
    exists (Spec.priority r angle s (Finite q1)), (Spec.priority r angle s (Finite q2)).
    split; [by apply priority_formula|]. split; [by apply priority_formula|].
    unfold Spec.priority. pose proof (career_bonus_monotone q1 q2 Hle). lia.
Qed.

Lemma C9_priority_monotone_witness :
  (exists p1 p2 : Z,
      BatchProcessor._calculate_content_priority
        (with_rank Examples.boundary_event (Some (VInt 4))) "top_performer" = Ok p1 /\
      BatchProcessor._calculate_content_priority
        (with_rank Examples.boundary_event (Some (VInt 11))) "top_performer" = Ok p2 /\
      p2 <= p1) /\
  (exists p1 p2 : Z,
      BatchProcessor._calculate_content_priority
        (with_career_multiple Examples.boundary_event (Some (VInt 4))) "top_performer"
        = Ok p1 /\
      BatchProcessor._calculate_content_priority
        (with_career_multiple Examples.boundary_event (Some (VInt 11))) "top_performer"
        = Ok p2 /\
      p1 <= p2).
Proof.
  assert (Hle : (inject_Z 4 <= inject_Z 11)%Q) by (unfold Qle; simpl; lia).
  destruct (C9_priority_monotone Examples.boundary_event "top_performer"
              (VInt 4) (VInt 11) (inject_Z 4) (inject_Z 11) eq_refl eq_refl Hle)
    as [Hrank Hcareer].
  split.
  - exact (Hrank (Finite 1) (Finite 6) eq_refl eq_refl).
  - exact (Hcareer (Finite 3) (Finite 1) eq_refl eq_refl).
Defined.

(** ** Angle classifier *)

Lemma readings_of_Some (e : event) (x : Spec.readings) :
  Spec.readings_of e = Some x ->
  as_number (career_multiple_of (VInt 0) e) = Some (Spec.career_multiple x) /\
  as_number (international_pct_of e) = Some (Spec.international x) /\
  as_number (genre_rank_of e) = Some (Spec.genre_rank x) /\
  as_number (price_appreciation_of e) = Some (Spec.price_appreciation x) /\
  as_number (tour_multiple_of e) = Some (Spec.tour_multiple x) /\
  as_number (rank_of e) = Some (Spec.event_rank x) /\
  truthy (tour_name_of e) = Spec.tour_named x.
Proof.
  unfold Spec.readings_of. intros Hx.
  destruct (as_number (career_multiple_of (VInt 0) e)); [|discriminate].
  destruct (as_number (international_pct_of e)); [|discriminate].
  destruct (as_number (genre_rank_of e)); [|discriminate].
  destruct (as_number (price_appreciation_of e)); [|discriminate].
  destruct (as_number (tour_multiple_of e)); [|discriminate].
  destruct (as_number (rank_of e)); [|discriminate].
  injection Hx as <-. repeat split.
Qed.

Ltac case_thresholds :=
  repeat match goal with
         | |- context [float_ge ?f ?c] => destruct (float_ge f c)
         | |- context [float_gt ?f ?c] => destruct (float_gt f c)
         | |- context [float_le ?f ?c] => destruct (float_le f c)
         end.

(** The batch classifier evaluates the rule table, then the fallback. *)
Lemma batch_classifier_table (e : event) (x : Spec.readings) :
  Spec.readings_of e = Some x ->
  BatchProcessor._identify_content_angles e = Ok (Spec.classify x).
Proof.
  intros Hx. apply readings_of_Some in Hx as (Hc & Hi & Hg & Hp & Ht & Hr & Hn).
  unfold BatchProcessor._identify_content_angles.
  unfold career_multiple_of, international_pct_of, genre_rank_of,
    price_appreciation_of, tour_multiple_of, rank_of, tour_name_of in *.
  unfold ge, gt, le. rewrite Hc, Hi, Hg, Hp, Ht, Hr, Hn.
  unfold Spec.classify, Spec.table_labels, Spec.fallback, Spec.rule_table,
    Spec.first_match.
  cbn [bind map List.find fst snd concat].
  destruct x as [c i g p t n r]; cbn [Spec.career_multiple Spec.international
    Spec.genre_rank Spec.price_appreciation Spec.tour_multiple Spec.tour_named
    Spec.event_rank].
  destruct n; case_thresholds; reflexivity.
Qed.

(** The pipeline classifier does the same and keeps the first three. *)
Lemma pipeline_classifier_table (e : event) (x : Spec.readings) :
  Spec.readings_of e = Some x ->
  SocialContentGenerator.identify_content_angles e = Ok (take 3 (Spec.classify x)).
Proof.
  intros Hx. apply readings_of_Some in Hx as (Hc & Hi & Hg & Hp & Ht & Hr & Hn).
  unfold SocialContentGenerator.identify_content_angles.
  unfold career_multiple_of, international_pct_of, genre_rank_of,
    price_appreciation_of, tour_multiple_of, rank_of, tour_name_of in *.
  unfold ge, gt, le. rewrite Hc, Hi, Hg, Hp, Ht, Hr, Hn.
  unfold Spec.classify, Spec.table_labels, Spec.fallback, Spec.rule_table,
    Spec.first_match.
  cbn [bind map List.find fst snd concat].
  destruct x as [c i g p t n r]; cbn [Spec.career_multiple Spec.international
    Spec.genre_rank Spec.price_appreciation Spec.tour_multiple Spec.tour_named
    Spec.event_rank].
  destruct n; case_thresholds; reflexivity.
Qed.

Lemma first_match_at_most_one (x : Spec.readings) (category : list Spec.rule) :
  (length (Spec.first_match x category) <= 1)%nat.
Proof.
  unfold Spec.first_match. destruct (List.find _ category); simpl; lia.
Qed.

(** C1 (as stated, for the pipeline classifier): on the five-angle event
    [identify_content_angles] returns three labels, not the five. *)
Lemma C1_pipeline_returns_three :
  SocialContentGenerator.identify_content_angles Examples.five_angle_event
    = Ok ["major_spike"; "international_phenomenon"; "genre_leader"] /\
  SocialContentGenerator.identify_content_angles Examples.five_angle_event
    <> Ok ["major_spike"; "international_phenomenon"; "genre_leader";
           "pricing_surge"; "tour_standout"].
Proof.
  split; [reflexivity|]. intros Heq. vm_compute in Heq. discriminate Heq.
Qed.

(** ** Inverting a chain of binds *)

Lemma bind_Ok {A B : Type} (m : result A) (k : A -> result B) (b : B) :
  bind m k = Ok b -> exists a, m = Ok a /\ k a = Ok b.
Proof. destruct m as [a|e]; simpl; [eauto | discriminate]. Qed.

Lemma bind_Raise {A B : Type} (m : result A) (k : A -> result B) (e : exn) :
  bind m k = Raise e -> m = Raise e \/ exists a, m = Ok a /\ k a = Raise e.
Proof. destruct m as [a|e']; simpl; [eauto | intros [= ->]; by left]. Qed.

Ltac inv_bind H :=
  match type of H with
  | bind _ _ = Ok _ =>
      let a := fresh "v" in
      let Ha := fresh "Hv" in
      apply bind_Ok in H as (a & Ha & H)
  end.

(** ** Completeness scorer *)

Lemma build_event_completeness `{Builtins} (base_row : Pandas.Series)
    (hist_row trend_row market_row : option Pandas.Series) (e : event) :
  DataProcessing._build_event_object base_row hist_row trend_row market_row = Ok e ->
  data_completeness e
  = Some (SocialContentGenerator._assess_data_completeness hist_row trend_row market_row).
Proof.
  unfold DataProcessing._build_event_object. intros He.
  repeat inv_bind He. injection He as <-. reflexivity.
Qed.

(** C8. For every combination of present and absent historical, trend
    and market rows, the completeness score is the number of rows present
    divided by 3, one of 0, 1/3, 2/3 and 1; the three presence booleans
    say which rows are present; and the whole group depends only on which
    rows are present. Both extractors build the same group. *)
Theorem C8_completeness_score (hist_row trend_row market_row : option Pandas.Series) :
  let d := SocialContentGenerator._assess_data_completeness
             hist_row trend_row market_row in
  let n := Z.b2z (is_not_None hist_row) + Z.b2z (is_not_None trend_row)
           + Z.b2z (is_not_None market_row) in
  has_historical_context d = Some (is_not_None hist_row) /\
  has_trend_analysis d = Some (is_not_None trend_row) /\
  has_market_positioning d = Some (is_not_None market_row) /\
  (exists q : Q,
      completeness_score d = Some (VFloat (Finite q)) /\
      (q == inject_Z n / 3)%Q /\
      (q == 0 \/ q == 1 # 3 \/ q == 2 # 3 \/ q == 1)%Q) /\
  (forall h t m : option Pandas.Series,
      is_not_None h = is_not_None hist_row ->
      is_not_None t = is_not_None trend_row ->
      is_not_None m = is_not_None market_row ->
      SocialContentGenerator._assess_data_completeness h t m = d) /\
  (forall (B : Builtins) (base_row : Pandas.Series) (e : event),
      DataProcessing._build_event_object base_row hist_row trend_row market_row = Ok e ->
      data_completeness e = Some d).
Proof.
  intros d n. repeat split.
  - exists (inject_Z n / 3)%Q. split; [|split; [reflexivity|]].
    + subst d n. unfold SocialContentGenerator._assess_data_completeness, int_truediv.
      cbn [completeness_score]. do 3 f_equal.
      destruct hist_row, trend_row, market_row; reflexivity.
    + subst n. destruct hist_row, trend_row, market_row; cbn;
        [ do 3 right | do 2 right; left | do 2 right; left | right; left
        | do 2 right; left | right; left | right; left | left ]; reflexivity.
  - intros h t m Hh Ht Hm. subst d.
    unfold SocialContentGenerator._assess_data_completeness.
    by rewrite Hh, Ht, Hm.
  - intros B base_row e He. by apply build_event_completeness in He.
Qed.

Lemma C8_completeness_score_witness :
  SocialContentGenerator._assess_data_completeness (Some {[ "EVENT_ID" := VInt 1 ]}) None None
  = SocialContentGenerator._assess_data_completeness (Some ∅) None None.
Proof.
  symmetry.
  apply (C8_completeness_score (Some ∅) None None); reflexivity.
Defined.

(** ** Percentages *)

Lemma fraction_times_100 (q : Q) :
  (0 <= q <= 1)%Q -> (0 <= q * inject_Z 100 <= 100)%Q.
Proof.
  intros [H0 H1]. split.
  - apply Qmult_le_0_compat; [exact H0 | discriminate].
  - apply Qle_trans with (1 * inject_Z 100)%Q; [|discriminate].
    apply Qmult_le_compat_r; [exact H1 | discriminate].
Qed.

Lemma percent_zero_int : Spec.percent (VInt 0).
Proof. exists (inject_Z 0). split; [reflexivity|]. split; discriminate. Qed.

Lemma percent_zero_float : Spec.percent (VFloat (Finite (0 * inject_Z 100))).
Proof. eexists. split; [reflexivity|]. split; discriminate. Qed.
Lemma float_number `{Builtins} (v : value) (f : pyfloat) :
  as_number v = Some f -> float v = Ok (VFloat f).
Proof.
  destruct v as [|b|z|g|s]; simpl; intros [= <-]; try reflexivity.
Qed.

Lemma percent_of_fraction (q : Q) :
  (0 <= q <= 1)%Q -> Spec.percent (VFloat (float_mul_int (Finite q) 100)).
Proof.
  intros Hq. exists (q * inject_Z 100)%Q. split; [reflexivity|].
  by apply fraction_times_100.
Qed.

(** A cell converted by [float] (or replaced by a zero default when the
    conversion fails), then multiplied by 100. *)
Lemma converted_cell_scaled `{Builtins} (cell : value) (default v p : value) :
  cell <> VNone ->
  try_except_value_type (float cell) default = Ok v ->
  mul_int v 100 = Ok p ->
  Spec.scaled_once (Some cell) (Some p).
Proof.
  intros Hcell Hv Hp. split.
  - intros v' f [= <-] Hf. rewrite (float_number _ _ Hf) in Hv.
    injection Hv as <-. simpl in Hp. by injection Hp as <-.
  - intros Hfrac. simpl. destruct cell as [|b|z|g|s]; try done.
    + destruct Hfrac as (q & Hq & Hrange).
      rewrite (float_number _ _ Hq) in Hv. injection Hv as <-.
      simpl in Hp. injection Hp as <-. by apply percent_of_fraction.
    + destruct Hfrac as (q & Hq & Hrange).
      rewrite (float_number _ _ Hq) in Hv. injection Hv as <-.
      simpl in Hp. injection Hp as <-. by apply percent_of_fraction.
    + destruct Hfrac as (q & Hq & Hrange).
      rewrite (float_number _ _ Hq) in Hv. injection Hv as <-.
      simpl in Hp. injection Hp as <-. by apply percent_of_fraction.
    + destruct Hfrac as (q & Hq & _). discriminate Hq.
Qed.

Lemma safe_get_pct `{Builtins} (row : option Pandas.Series) (column : string)
    (v p : value) :
  DataProcessing.safe_get row column (VInt 0) (Some float) = Ok v ->
  mul_int v 100 = Ok p ->
  Spec.scaled_once (Spec.source_cell row column) (Some p).
Proof.
  unfold DataProcessing.safe_get, Pandas.get, Spec.source_cell.
  destruct row as [r|].
  - destruct (r !! column) as [cell|] eqn:Hcell.
    + destruct cell as [|b|z|g|s];
        [ intros [= <-] [= <-]; split; [intros v f [= <-]; discriminate|];
          intros _; apply percent_zero_int
        | intros Hv Hp; eapply (converted_cell_scaled _ (VInt 0) v p); [done|exact Hv|exact Hp] .. ].
    + simpl. intros [= <-] [= <-]. split; [discriminate|].
      intros _. apply percent_zero_float.
  - intros [= <-] [= <-]. split; [discriminate|].
    intros _. apply percent_zero_int.
Qed.

Lemma top_buyer_countries_percent `{Builtins} (trend_row : option Pandas.Series)
    (slots : list Z) (l : list country_dict) :
  DataProcessing.top_buyer_countries_of trend_row slots = Ok l ->
  (forall i, i ∈ slots ->
     Spec.unit_fraction
       (Spec.source_cell trend_row (DataProcessing.top_buyer_column i "_PCT"))) ->
  Forall (fun c => Spec.percent (percentage c)) l.
Proof.
  revert l. induction slots as [|i slots IH]; intros l Hl Hfrac.
  - injection Hl as <-. constructor.
  - cbn [DataProcessing.top_buyer_countries_of] in Hl.
    inv_bind Hl. destruct (truthy v).
    + repeat inv_bind Hl. injection Hl as <-. constructor.
      * cbn [percentage].
        match goal with
        | H1 : DataProcessing.safe_get _ _ (VInt 0) (Some float) = Ok ?a,
          H2 : mul_int ?a 100 = Ok ?p |- _ =>
            destruct (safe_get_pct _ _ _ _ H1 H2) as [_ Hr]
        end.
        apply Hr. apply Hfrac. rewrite elem_of_cons. by left.
      * eapply IH; [eassumption|]. intros j Hj. apply Hfrac.
        rewrite elem_of_cons. by right.
    + eapply IH; [eassumption|]. intros j Hj. apply Hfrac.
      rewrite elem_of_cons. by right.
Qed.

Lemma safe_float_value_pct `{Builtins} (cell default v p : value) :
  default = VInt 0 \/ default = SocialContentGenerator.float_default ->
  SocialContentGenerator._safe_float cell default = Ok v ->
  mul_int v 100 = Ok p ->
  Spec.scaled_once (Some cell) (Some p).
Proof.
  intros Hd Hv Hp. unfold SocialContentGenerator._safe_float in Hv.
  destruct cell as [|b|z|g|s];
    [| eapply (converted_cell_scaled _ default v p); [done|exact Hv|exact Hp] ..].
  simpl in Hv. injection Hv as <-. split; [intros v f [= <-]; discriminate|].
  intros _. destruct Hd as [-> | ->]; simpl in Hp; injection Hp as <-.
  - apply percent_zero_int.
  - apply percent_zero_float.
Qed.

Lemma safe_float_get_pct `{Builtins} (row : Pandas.Series) (column : string)
    (v p : value) :
  SocialContentGenerator._safe_float (Pandas.get row column (VInt 0))
    SocialContentGenerator.float_default = Ok v ->
  mul_int v 100 = Ok p ->
  Spec.scaled_once (row !! column) (Some p).
Proof.
  unfold Pandas.get. destruct (row !! column) as [cell|] eqn:Hcell.
  - apply safe_float_value_pct. by right.
  - simpl. intros [= <-] [= <-]. split; [discriminate|].
    intros _. apply percent_zero_float.
Qed.

Lemma top_countries_loop_percent `{Builtins} (row : Pandas.Series)
    (slots : list Z) (acc l : list country_dict) :
  SocialContentGenerator.top_countries_loop row slots acc = Ok l ->
  Forall (fun c => Spec.percent (percentage c)) acc ->
  (forall i, i ∈ slots ->
     Spec.unit_fraction (row !! SocialContentGenerator.top_buyer_column i "_PCT")) ->
  Forall (fun c => Spec.percent (percentage c)) l.
Proof.
  revert acc l. induction slots as [|i slots IH]; intros acc l Hl Hacc Hfrac.
  - by injection Hl as <-.
  - cbn [SocialContentGenerator.top_countries_loop] in Hl.
    destruct (truthy _ && negb _) eqn:Hcond.
    + repeat inv_bind Hl. eapply IH; [eassumption| |].
      * apply Forall_app. split; [exact Hacc|]. constructor; [|constructor].
        cbn [percentage].
        apply andb_prop in Hcond as [_ Hpct].
        match goal with
        | H1 : SocialContentGenerator._safe_float ?c _ = Ok ?a,
          H2 : mul_int ?a 100 = Ok ?p |- _ =>
            destruct (safe_float_value_pct c _ a p (or_intror eq_refl) H1 H2) as [_ Hr]
        end.
        apply Hr.
        specialize (Hfrac i). rewrite elem_of_cons in Hfrac.
        specialize (Hfrac (or_introl eq_refl)).
        unfold Pandas.get in *.
        destruct (row !! SocialContentGenerator.top_buyer_column i "_PCT") as [cell|];
          [exact Hfrac | discriminate Hpct].
      * intros j Hj. apply Hfrac. rewrite elem_of_cons. by right.
    + eapply IH; [eassumption|exact Hacc|]. intros j Hj. apply Hfrac.
      rewrite elem_of_cons. by right.
Qed.

Lemma extract_trend_pct `{Builtins} (trend_row : option Pandas.Series) (t : trend_dict) :
  SocialContentGenerator._extract_trend_insights trend_row = Ok t ->
  Spec.scaled_once (Spec.source_cell trend_row "PRICE_APPRECIATION_PCT")
                   (price_appreciation_pct t).
Proof.
  unfold SocialContentGenerator._extract_trend_insights. destruct trend_row as [row|].
  - intros Ht. repeat inv_bind Ht. injection Ht as <-. cbn [price_appreciation_pct].
    eapply safe_float_get_pct; eassumption.
  - intros [= <-]. split; [discriminate|]. done.
Qed.

Lemma extract_market_pct `{Builtins} (market_row : option Pandas.Series) (m : market_dict) :
  SocialContentGenerator._extract_market_position market_row = Ok m ->
  Spec.scaled_once (Spec.source_cell market_row "LAST_7D_MARKET_SHARE_PCT")
                   (last_7d_market_share_pct m) /\
  Spec.scaled_once (Spec.source_cell market_row "YTD_MARKET_SHARE_PCT")
                   (ytd_market_share_pct m).
Proof.
  unfold SocialContentGenerator._extract_market_position. destruct market_row as [row|].
  - intros Hm. repeat inv_bind Hm. injection Hm as <-.
    cbn [last_7d_market_share_pct ytd_market_share_pct].
    split; eapply safe_float_get_pct; eassumption.
  - intros [= <-]. split; (split; [discriminate|]; done).
Qed.

Lemma extract_geographic_pct `{Builtins} (trend_row : option Pandas.Series)
    (g : geographic_dict) :
  SocialContentGenerator._extract_geographic_insights trend_row = Ok g ->
  (forall i, i ∈ [1; 2; 3] ->
     Spec.unit_fraction
       (Spec.source_cell trend_row (SocialContentGenerator.top_buyer_column i "_PCT"))) ->
  Forall (fun c => Spec.percent (percentage c)) (dict_get (top_buyer_countries g) []).
Proof.
  unfold SocialContentGenerator._extract_geographic_insights.
  destruct trend_row as [row|].
  - intros Hg Hfrac. repeat inv_bind Hg. injection Hg as <-.
    cbn [top_buyer_countries dict_get].
    eapply top_countries_loop_percent; [eassumption|constructor|exact Hfrac].
  - intros [= <-] _. constructor.
Qed.

Lemma build_event_percentages `{Builtins} (base_row : Pandas.Series)
    (hist_row trend_row market_row : option Pandas.Series) (e : event) :
  DataProcessing._build_event_object base_row hist_row trend_row market_row = Ok e ->
  Spec.scaled_once (base_row !! "INTERNATIONAL_GMS_PCT") (international_pct e) /\
  Spec.scaled_once (Spec.source_cell trend_row "PRICE_APPRECIATION_PCT")
    (price_appreciation_pct (dict_get (trend_insights e) no_trend)) /\
  Spec.scaled_once (Spec.source_cell market_row "LAST_7D_MARKET_SHARE_PCT")
    (last_7d_market_share_pct (dict_get (market_position e) no_market)) /\
  ((forall i, i ∈ [1; 2; 3] ->
      Spec.unit_fraction
        (Spec.source_cell trend_row (DataProcessing.top_buyer_column i "_PCT"))) ->
   Forall (fun c => Spec.percent (percentage c))
     (dict_get (top_buyer_countries (dict_get (geographic_insights e) no_geographic)) [])).
Proof.
  unfold DataProcessing._build_event_object. intros He.
  repeat inv_bind He. injection He as <-.
  cbn [international_pct trend_insights market_position geographic_insights dict_get
       price_appreciation_pct last_7d_market_share_pct top_buyer_countries].
  repeat split;
    try (eapply (safe_get_pct (Some base_row)); eassumption);
    try (eapply safe_get_pct; eassumption);
    try (eapply (proj2 (safe_get_pct (Some base_row) _ _ _ _ _)); eassumption);
    try (eapply (proj2 (safe_get_pct _ _ _ _ _ _)); eassumption).
  intros Hfrac. eapply top_buyer_countries_percent; eassumption.
Qed.

Lemma structure_row_percentages `{Builtins} (hist_df trend_df market_df : Pandas.DataFrame)
    (now : string) (base_row : Pandas.Series) (e : event) :
  SocialContentGenerator.structure_row hist_df trend_df market_df now base_row = Ok e ->
  exists (event_id_ : value) (trend_row market_row : option Pandas.Series),
    Pandas.getitem base_row "EVENT_ID" = Ok event_id_ /\
    SocialContentGenerator._get_matching_row trend_df event_id_ = Ok trend_row /\
    SocialContentGenerator._get_matching_row market_df event_id_ = Ok market_row /\
    Spec.scaled_once (base_row !! "INTERNATIONAL_GMS_PCT") (international_pct e) /\
    Spec.scaled_once (Spec.source_cell trend_row "PRICE_APPRECIATION_PCT")
      (price_appreciation_pct (dict_get (trend_insights e) no_trend)) /\
    Spec.scaled_once (Spec.source_cell market_row "LAST_7D_MARKET_SHARE_PCT")
      (last_7d_market_share_pct (dict_get (market_position e) no_market)) /\
    Spec.scaled_once (Spec.source_cell market_row "YTD_MARKET_SHARE_PCT")
      (ytd_market_share_pct (dict_get (market_position e) no_market)) /\
    ((forall i, i ∈ [1; 2; 3] ->
        Spec.unit_fraction
          (Spec.source_cell trend_row
             (SocialContentGenerator.top_buyer_column i "_PCT"))) ->
     Forall (fun c => Spec.percent (percentage c))
       (dict_get (top_buyer_countries (dict_get (geographic_insights e) no_geographic))
                 [])).
Proof.
  unfold SocialContentGenerator.structure_row. intros He.
  inv_bind He. rename v into event_id_. rename Hv into Hid.
  inv_bind He. rename v into hist_row. rename Hv into Hhist.
  inv_bind He. rename v into trend_row. rename Hv into Htrend.
  inv_bind He. rename v into market_row. rename Hv into Hmarket.
  repeat inv_bind He. injection He as <-.
  exists event_id_, trend_row, market_row.
  cbn [international_pct trend_insights market_position geographic_insights dict_get].
  split; [exact Hid|]. split; [exact Htrend|]. split; [exact Hmarket|].
  split.
  { match goal with
    | Hg : Pandas.getitem base_row "INTERNATIONAL_GMS_PCT" = Ok ?c,
      H1 : SocialContentGenerator._safe_float ?c (VInt 0) = Ok ?a,
      H2 : mul_int ?a 100 = Ok ?p |- _ =>
        unfold Pandas.getitem in Hg;
        destruct (base_row !! "INTERNATIONAL_GMS_PCT") as [cell|]; [|discriminate Hg];
        injection Hg as ->;
        exact (safe_float_value_pct c _ a p (or_introl eq_refl) H1 H2)
    end. }
  split; [by apply extract_trend_pct|].
  split; [by apply extract_market_pct|].
  split; [by apply extract_market_pct|].
  by apply extract_geographic_pct.
Qed.

(** C5. Each percentage field that an extractor builds holds its source
    fraction multiplied by 100 once: the international-buyer percentage,
    the price-appreciation percentage, the last-7-day market-share
    percentage and, in the pipeline extractor, the year-to-date
    market-share percentage (the [data_processing] extractor builds no
    such field). Whenever a source value lies in [0,1] or is missing, the
    field lies in [0,100]; so do the top-buyer-country percentages. *)
Theorem C5_percentages_scaled_once `{Builtins}
    (hist_df trend_df market_df : Pandas.DataFrame) (now : string)
    (base_row : Pandas.Series) (hist_row trend_row market_row : option Pandas.Series) :
  (forall e : event,
      DataProcessing._build_event_object base_row hist_row trend_row market_row = Ok e ->
      is_Some (international_pct e) /\
      Spec.scaled_once (base_row !! "INTERNATIONAL_GMS_PCT") (international_pct e) /\
      Spec.scaled_once (Spec.source_cell trend_row "PRICE_APPRECIATION_PCT")
        (price_appreciation_pct (dict_get (trend_insights e) no_trend)) /\
      Spec.scaled_once (Spec.source_cell market_row "LAST_7D_MARKET_SHARE_PCT")
        (last_7d_market_share_pct (dict_get (market_position e) no_market)) /\
      ytd_market_share_pct (dict_get (market_position e) no_market) = None /\
      ((forall i, i ∈ [1; 2; 3] ->
          Spec.unit_fraction
            (Spec.source_cell trend_row (DataProcessing.top_buyer_column i "_PCT"))) ->
       Forall (fun c => Spec.percent (percentage c))
         (dict_get (top_buyer_countries
                      (dict_get (geographic_insights e) no_geographic)) []))) /\
  (forall e : event,
      SocialContentGenerator.structure_row hist_df trend_df market_df now base_row
      = Ok e ->
      exists (event_id_ : value) (trend_row' market_row' : option Pandas.Series),
        Pandas.getitem base_row "EVENT_ID" = Ok event_id_ /\
        SocialContentGenerator._get_matching_row trend_df event_id_ = Ok trend_row' /\
        SocialContentGenerator._get_matching_row market_df event_id_ = Ok market_row' /\
        is_Some (international_pct e) /\
        Spec.scaled_once (base_row !! "INTERNATIONAL_GMS_PCT") (international_pct e) /\
        Spec.scaled_once (Spec.source_cell trend_row' "PRICE_APPRECIATION_PCT")
          (price_appreciation_pct (dict_get (trend_insights e) no_trend)) /\
        Spec.scaled_once (Spec.source_cell market_row' "LAST_7D_MARKET_SHARE_PCT")
          (last_7d_market_share_pct (dict_get (market_position e) no_market)) /\
        Spec.scaled_once (Spec.source_cell market_row' "YTD_MARKET_SHARE_PCT")
          (ytd_market_share_pct (dict_get (market_position e) no_market)) /\
        ((forall i, i ∈ [1; 2; 3] ->
            Spec.unit_fraction
              (Spec.source_cell trend_row'
                 (SocialContentGenerator.top_buyer_column i "_PCT"))) ->
         Forall (fun c => Spec.percent (percentage c))
           (dict_get (top_buyer_countries
                        (dict_get (geographic_insights e) no_geographic)) []))).
Proof.
  split.
  - intros e He.
    pose proof (build_event_percentages _ _ _ _ _ He) as (Hi & Hp & Hl & Ht).
    unfold DataProcessing._build_event_object in He.
    repeat inv_bind He. injection He as <-.
    split; [by eexists|]. do 3 (split; [assumption|]). split; [reflexivity|exact Ht].
  - intros e He.
    destruct (structure_row_percentages _ _ _ _ _ _ He)
      as (i & t & m & Hid & Ht & Hm & Hrest).
    exists i, t, m. do 3 (split; [assumption|]). split; [|exact Hrest].
    unfold SocialContentGenerator.structure_row in He.
    repeat inv_bind He. injection He as <-. by eexists.
Qed.

Lemma C5_percentages_scaled_once_witness :
  exists e1 e2 : event,
    @DataProcessing._build_event_object Examples.plain_builtins
      Examples.base_row_1 None None None = Ok e1 /\
    @SocialContentGenerator.structure_row Examples.plain_builtins
      Pandas.empty_frame Pandas.empty_frame Pandas.empty_frame "2025-08-01T00:00:00"
      Examples.base_row_1 = Ok e2 /\
    international_pct e1 = Some (VFloat (Finite ((1 # 2) * inject_Z 100))) /\
    international_pct e2 = Some (VFloat (Finite ((1 # 2) * inject_Z 100))).
Proof.
  destruct (@DataProcessing._build_event_object Examples.plain_builtins
              Examples.base_row_1 None None None) as [e1|] eqn:H1;
    [|vm_compute in H1; discriminate H1].
  destruct (@SocialContentGenerator.structure_row Examples.plain_builtins
              Pandas.empty_frame Pandas.empty_frame Pandas.empty_frame
              "2025-08-01T00:00:00" Examples.base_row_1) as [e2|] eqn:H2;
    [|vm_compute in H2; discriminate H2].
  exists e1, e2. split; [reflexivity|]. split; [reflexivity|].
  destruct (@C5_percentages_scaled_once Examples.plain_builtins
              Pandas.empty_frame Pandas.empty_frame Pandas.empty_frame
              "2025-08-01T00:00:00" Examples.base_row_1 None None None)
    as [Hdata Hpipe].
  destruct (Hdata e1 H1) as (_ & [Hs1 _] & _).
  destruct (Hpipe e2 H2) as (i & t & m & _ & _ & _ & _ & [Hs2 _] & _).
  split.
  - apply (Hs1 (VFloat (Finite (1 # 2))) (Finite (1 # 2))); reflexivity.
  - apply (Hs2 (VFloat (Finite (1 # 2))) (Finite (1 # 2))); reflexivity.
Defined.

(** ** Artist display name *)

(** C4 (as stated): the pipeline extractor stores the text of the
    classified-artist cell, so a null one gives the field "None", where
    the claim gives the category name; and the display name derived from
    the field is the category name for a classified name "Unknown",
    where the claim gives "Unknown". *)
Lemma C4_sentinels_kept :
  (exists e : event,
      @SocialContentGenerator.structure_row Examples.plain_builtins
        Pandas.empty_frame Pandas.empty_frame Pandas.empty_frame "2025-08-01T00:00:00"
        (Examples.named_row VNone) = Ok e /\
      classified_artist_name e = Some "None") /\
  @Spec.artist_display_name Examples.plain_builtins (Examples.named_row VNone)
    = "Concerts" /\
  (exists e : event,
      @SocialContentGenerator.structure_row Examples.plain_builtins
        Pandas.empty_frame Pandas.empty_frame Pandas.empty_frame "2025-08-01T00:00:00"
        (Examples.named_row (VStr "Unknown")) = Ok e /\
      classified_artist_name e = Some "Unknown" /\
      SocialContentGenerator.display_name e = Ok "Concerts") /\
  @Spec.artist_display_name Examples.plain_builtins
      (Examples.named_row (VStr "Unknown")) = "Unknown".
Proof.
  split; [eexists; split; [vm_compute; reflexivity|reflexivity]|].
  split; [reflexivity|].
  split; [eexists; split; [vm_compute; reflexivity|split; reflexivity]|].
  reflexivity.
Qed.

(** Two sentinels that one site misses and its siblings handle, left out
    of C4: [get_artist_name] keeps a classified name "nan", which the
    display sites replace by the category name; and the display name of
    the pipeline keeps an empty classified name, which [get_artist_name]
    replaces by the category name. *)
Lemma artist_name_sentinels_missed :
  @DataProcessing.get_artist_name Examples.plain_builtins
      (Examples.named_row (VStr "nan")) = "nan" /\
  (exists e : event,
      @SocialContentGenerator.structure_row Examples.plain_builtins
        Pandas.empty_frame Pandas.empty_frame Pandas.empty_frame "2025-08-01T00:00:00"
        (Examples.named_row (VStr "nan")) = Ok e /\
      SocialContentGenerator.display_name e = Ok "Concerts") /\
  (exists e : event,
      @SocialContentGenerator.structure_row Examples.plain_builtins
        Pandas.empty_frame Pandas.empty_frame Pandas.empty_frame "2025-08-01T00:00:00"
        (Examples.named_row (VStr "")) = Ok e /\
      SocialContentGenerator.display_name e = Ok "") /\
  @DataProcessing.get_artist_name Examples.plain_builtins
      (Examples.named_row (VStr "")) = "Concerts".
Proof.
  split; [reflexivity|].
  split; [eexists; split; [vm_compute; reflexivity|reflexivity]|].
  split; [eexists; split; [vm_compute; reflexivity|reflexivity]|].
  reflexivity.
Qed.

Lemma get_artist_name_spec `{Builtins} (row : Pandas.Series) :
  (forall v, row !! "CLASSIFIED_ARTIST_NAME" = Some v ->
             v <> VFloat NaN /\ v <> VStr "nan") ->
  DataProcessing.get_artist_name row = Spec.artist_display_name row.
Proof.
  intros Hnan.
  unfold DataProcessing.get_artist_name, Spec.artist_display_name, Spec.category_name,
    Pandas.get.
  destruct (row !! "EVENT_CATEGORY_NAME") as [c|];
    (destruct (row !! "CLASSIFIED_ARTIST_NAME") as [v|] eqn:Hv; [|reflexivity]);
  clear Hv;
  (destruct (Hnan v eq_refl) as [Hn1 Hn2];
   destruct v as [|b|z|f|s]; try reflexivity;
   [ cbn [Spec.is_null eq_str negb andb orb]; rewrite andb_true_r;
     by destruct (String.eqb _ "")
   | cbn [Spec.is_null eq_str negb andb orb]; rewrite andb_true_r;
     by destruct (String.eqb _ "")
   | destruct f as [q| |n]; [|done|];
     cbn [Spec.is_null eq_str negb andb orb]; rewrite andb_true_r;
     by destruct (String.eqb _ "")
   | cbn [Spec.is_null eq_str negb andb orb str];
     assert (Hs : String.eqb s "nan" = false)
       by (apply String.eqb_neq; congruence);
     rewrite Hs; cbn [negb]; rewrite andb_true_r;
     destruct (String.eqb s "None"), (String.eqb (strip s) ""); reflexivity ]).
Qed.

Lemma structure_row_names `{Builtins} (hist_df trend_df market_df : Pandas.DataFrame)
    (now : string) (row : Pandas.Series) (e : event) :
  SocialContentGenerator.structure_row hist_df trend_df market_df now row = Ok e ->
  classified_artist_name e
  = Some (match row !! "CLASSIFIED_ARTIST_NAME" with
          | Some v => str v
          | None => Spec.category_name row
          end) /\
  artist_name e = Some (Spec.category_name row).
Proof.
  unfold SocialContentGenerator.structure_row. intros He.
  repeat inv_bind He. injection He as <-.
  cbn [classified_artist_name artist_name]. unfold Pandas.get, Spec.category_name.
  destruct (row !! "CLASSIFIED_ARTIST_NAME"), (row !! "EVENT_CATEGORY_NAME"); done.
Qed.

(** C4 (amended). In [data_processing], for every base row whose
    classified-artist cell is neither NaN nor the text "nan", the artist
    name is the classified-artist column when that is not null, not empty
    after trimming and not the text "None"; otherwise the category column;
    "Unknown" when that column is absent. In the pipeline extractor the
    field is the text of the classified-artist column whenever the row has
    that column, else the category name; when that text is not empty
    after trimming, the display name derived from it is the text itself,
    unless it is "Unknown", "None" or "nan", and then the category name.
    Trimming removes the white space of [str.strip]. *)
Theorem C4_artist_display_name `{Builtins}
    (hist_df trend_df market_df : Pandas.DataFrame) (now : string)
    (row : Pandas.Series) :
  ((forall v, row !! "CLASSIFIED_ARTIST_NAME" = Some v ->
              v <> VFloat NaN /\ v <> VStr "nan") ->
   DataProcessing.get_artist_name row = Spec.artist_display_name row /\
   (forall (hist_row trend_row market_row : option Pandas.Series) (e : event),
       DataProcessing._build_event_object row hist_row trend_row market_row = Ok e ->
       classified_artist_name e = Some (Spec.artist_display_name row))) /\
  (forall e : event,
      SocialContentGenerator.structure_row hist_df trend_df market_df now row = Ok e ->
      exists text : string,
        text = match row !! "CLASSIFIED_ARTIST_NAME" with
               | Some v => str v
               | None => Spec.category_name row
               end /\
        classified_artist_name e = Some text /\
        (String.eqb (strip text) "" = false ->
         SocialContentGenerator.display_name e
         = Ok (if bool_decide (text ∈ ["Unknown"; "None"; "nan"])
               then Spec.category_name row else text))).
Proof.
  split.
  - intros Hnan. split; [by apply get_artist_name_spec|].
    intros hist_row trend_row market_row e He.
    unfold DataProcessing._build_event_object in He.
    repeat inv_bind He. injection He as <-. cbn [classified_artist_name].
    f_equal. by apply get_artist_name_spec.
  - intros e He. apply structure_row_names in He as [Hc Ha].
    eexists. split; [reflexivity|]. split; [exact Hc|]. intros _.
    unfold SocialContentGenerator.display_name. rewrite Hc, Ha.
    set (text := match row !! "CLASSIFIED_ARTIST_NAME" with
                 | Some v => str v | None => Spec.category_name row end).
    change (existsb (String.eqb text) ["Unknown"; "None"; "nan"])
      with (BatchProcessor.str_in text ["Unknown"; "None"; "nan"]).
    rewrite str_in_elem_of. by destruct (bool_decide _).
Qed.

Lemma C4_artist_display_name_witness :
  @DataProcessing.get_artist_name Examples.plain_builtins Examples.base_row_1
  = "The Band" /\
  @DataProcessing.get_artist_name Examples.plain_builtins
    (Examples.named_row (VStr "   ")) = "Concerts" /\
  @DataProcessing.get_artist_name Examples.plain_builtins
    (Examples.named_row (VStr Examples.no_break_space)) = "Concerts" /\
  (exists e : event,
      @SocialContentGenerator.structure_row Examples.plain_builtins
        Pandas.empty_frame Pandas.empty_frame Pandas.empty_frame "2025-08-01T00:00:00"
        Examples.base_row_1 = Ok e /\
      SocialContentGenerator.display_name e = Ok "The Band").
Proof.
  split; [|split; [|split]].
  - refine (proj1 (proj1 (@C4_artist_display_name Examples.plain_builtins
                            Pandas.empty_frame Pandas.empty_frame Pandas.empty_frame
                            "now" Examples.base_row_1) _)).
    intros v Hv. vm_compute in Hv. injection Hv as <-. split; discriminate.
  - refine (proj1 (proj1 (@C4_artist_display_name Examples.plain_builtins
                            Pandas.empty_frame Pandas.empty_frame Pandas.empty_frame
                            "now" (Examples.named_row (VStr "   "))) _)).
    intros v Hv. vm_compute in Hv. injection Hv as <-. split; discriminate.
  - refine (proj1 (proj1 (@C4_artist_display_name Examples.plain_builtins
                            Pandas.empty_frame Pandas.empty_frame Pandas.empty_frame
                            "now"
                            (Examples.named_row (VStr Examples.no_break_space))) _)).
    intros v Hv. vm_compute in Hv. injection Hv as <-. split; discriminate.
  - destruct (@SocialContentGenerator.structure_row Examples.plain_builtins
                Pandas.empty_frame Pandas.empty_frame Pandas.empty_frame
                "2025-08-01T00:00:00" Examples.base_row_1) as [e|] eqn:He;
      [|vm_compute in He; discriminate He].
    exists e. split; [reflexivity|].
    destruct (proj2 (@C4_artist_display_name Examples.plain_builtins
                       Pandas.empty_frame Pandas.empty_frame Pandas.empty_frame
                       "2025-08-01T00:00:00" Examples.base_row_1) e He)
      as (text & Htext & _ & Hdisplay).
    subst text. rewrite Hdisplay; [|vm_compute; reflexivity].
    vm_compute. reflexivity.
Defined.

(** ** Errors in extraction *)

Section SafeGet.
Context `{Builtins}.

Lemma float_raises_caught (v : value) (e : exn) :
  float v = Raise e -> catches_value_type e = true.
Proof.
  destruct v as [|b|z|f|s]; simpl; try discriminate.
  - by intros [= <-].
  - destruct (float_of_str s); [discriminate | by intros [= <-]].
Qed.

Lemma float_result (v w : value) : float v = Ok w -> exists f, w = VFloat f.
Proof.
  destruct v as [|b|z|f|s]; simpl; try discriminate; try (intros [= <-]; eauto).
  destruct (float_of_str s); [intros [= <-]; eauto | discriminate].
Qed.

Lemma int_raises (v : value) (e : exn) :
  int v = Raise e ->
  catches_value_type e = true \/
  (e = OverflowError /\ exists negative, v = VFloat (Inf negative)).
Proof.
  destruct v as [|b|z|f|s]; simpl; try discriminate.
  - intros [= <-]. by left.
  - destruct f as [q| |n]; [discriminate | intros [= <-]; by left |].
    intros [= <-]. right. eauto.
  - destruct (int_of_str s); [discriminate | intros [= <-]; by left].
Qed.

Lemma safe_get_no_row (column : string) (default : value)
    (convert_func : option (value -> result value)) :
  DataProcessing.safe_get None column default convert_func = Ok default.
Proof. reflexivity. Qed.

Lemma safe_get_null (row : Pandas.Series) (column : string) (default : value)
    (convert_func : option (value -> result value)) :
  row !! column = Some VNone ->
  DataProcessing.safe_get (Some row) column default convert_func = Ok default.
Proof.
  intros Hc. unfold DataProcessing.safe_get, Pandas.get. by rewrite Hc.
Qed.

Lemma safe_get_no_column (row : Pandas.Series) (column : string) (default : value)
    (convert_func : option (value -> result value)) :
  row !! column = None ->
  DataProcessing.safe_get (Some row) column default convert_func
  = match default, convert_func with
    | VNone, _ | _, None => Ok default
    | _, Some convert => try_except_value_type (convert default) default
    end.
Proof.
  intros Hc. unfold DataProcessing.safe_get, Pandas.get. rewrite Hc.
  by destruct default, convert_func.
Qed.

Lemma safe_get_caught (row : Pandas.Series) (column : string) (default v : value)
    (convert : value -> result value) (e : exn) :
  row !! column = Some v ->
  convert v = Raise e ->
  catches_value_type e = true ->
  DataProcessing.safe_get (Some row) column default (Some convert) = Ok default.
Proof.
  intros Hc Hconv Hcatch. unfold DataProcessing.safe_get, Pandas.get. rewrite Hc.
  destruct v; try reflexivity; by rewrite Hconv; simpl; rewrite Hcatch.
Qed.

Lemma safe_get_raises (row : option Pandas.Series) (column : string)
    (default : value) (convert_func : option (value -> result value)) (e : exn) :
  DataProcessing.safe_get row column default convert_func = Raise e ->
  exists convert v, convert_func = Some convert /\ convert v = Raise e /\
                    catches_value_type e = false.
Proof.
  unfold DataProcessing.safe_get. destruct row as [r|]; [|discriminate].
  set (v := Pandas.get r column default).
  destruct convert_func as [convert|]; [|by destruct v].
  intros He. exists convert, v.
  assert (Ht : try_except_value_type (convert v) default = Raise e)
    by (by destruct v).
  unfold try_except_value_type in Ht.
  destruct (convert v) as [w|e']; [discriminate|].
  destruct (catches_value_type e') eqn:Hcatch; [discriminate|].
  injection Ht as <-. done.
Qed.

Lemma safe_get_float_total (row : option Pandas.Series) (column : string) (k : Z) :
  exists v, DataProcessing.safe_get row column (VInt k) (Some float) = Ok v /\
            v <> VNone.
Proof.
  destruct (DataProcessing.safe_get row column (VInt k) (Some float)) as [v|e] eqn:Hv.
  - exists v. split; [reflexivity|].
    unfold DataProcessing.safe_get in Hv. destruct row as [r|];
      [|injection Hv as <-; discriminate].
    destruct (Pandas.get r column (VInt k)) as [|b|z|f|s] eqn:Hg;
      [ injection Hv as <-; discriminate
      | unfold try_except_value_type in Hv;
        match type of Hv with
        | context [float ?c] =>
            destruct (float c) as [w|e'] eqn:Hf;
            [ injection Hv as <-; apply float_result in Hf as [g ->]; discriminate
            | destruct (catches_value_type e');
              [injection Hv as <-; discriminate | discriminate Hv] ]
        end .. ].
  - apply safe_get_raises in Hv as (convert & v & [= <-] & Hconv & Hcatch).
    apply float_raises_caught in Hconv. congruence.
Qed.

Lemma safe_get_bool_total (row : option Pandas.Series) (column : string)
    (default : value) :
  exists v, DataProcessing.safe_get row column default (Some bool_) = Ok v.
Proof.
  destruct (DataProcessing.safe_get row column default (Some bool_)) as [v|e] eqn:Hv;
    [eauto|].
  apply safe_get_raises in Hv as (convert & v & [= <-] & Hconv & _).
  discriminate Hconv.
Qed.

Lemma safe_get_raw_total (row : option Pandas.Series) (column : string)
    (default : value) :
  exists v, DataProcessing.safe_get row column default None = Ok v.
Proof.
  destruct (DataProcessing.safe_get row column default None) as [v|e] eqn:Hv;
    [eauto|].
  apply safe_get_raises in Hv as (convert & v & [=] & _).
Qed.

Lemma safe_get_int_total (row : option Pandas.Series) (column : string) (k : Z) :
  Spec.finite_cell (Spec.source_cell row column) ->
  exists v, DataProcessing.safe_get row column (VInt k) (Some int) = Ok v.
Proof.
  intros Hfin.
  destruct (DataProcessing.safe_get row column (VInt k) (Some int)) as [v|e] eqn:Hv;
    [eauto|].
  exfalso. unfold DataProcessing.safe_get in Hv. destruct row as [r|]; [|discriminate].
  unfold Pandas.get in Hv. simpl in Hfin.
  destruct (r !! column) as [cell|].
  - destruct cell as [|b|z|f|s]; try discriminate.
    + destruct f as [q| |n]; try discriminate. by apply (Hfin n).
    + simpl in Hv. by destruct (int_of_str s).
  - discriminate.
Qed.

Lemma mul_int_total (v : value) (k : Z) :
  v <> VNone -> exists p, mul_int v k = Ok p.
Proof. destruct v; simpl; eauto. done. Qed.

Lemma top_buyer_countries_total (trend_row : option Pandas.Series) (slots : list Z) :
  exists l, DataProcessing.top_buyer_countries_of trend_row slots = Ok l.
Proof.
  induction slots as [|i slots [l IH]]; [by eexists|].
  cbn [DataProcessing.top_buyer_countries_of].
  destruct (safe_get_raw_total trend_row (DataProcessing.top_buyer_column i "") VNone)
    as [present ->]. cbn [bind].
  destruct (truthy present); [|by eexists].
  destruct (safe_get_raw_total trend_row (DataProcessing.top_buyer_column i "")
              (VStr "")) as [c ->]. cbn [bind].
  destruct (safe_get_float_total trend_row (DataProcessing.top_buyer_column i "_PCT") 0)
    as (p & -> & Hp). cbn [bind].
  destruct (mul_int_total p 100 Hp) as [pct ->]. cbn [bind].
  rewrite IH. cbn [bind]. by eexists.
Qed.
End SafeGet.

Section BuildEvent.
Context `{Builtins}.

Lemma getitem_present (row : Pandas.Series) (column : string) :
  is_Some (row !! column) ->
  exists v, row !! column = Some v /\ Pandas.getitem row column = Ok v.
Proof. intros [v Hv]. exists v. unfold Pandas.getitem. by rewrite Hv. Qed.

Lemma getitem_absent (row : Pandas.Series) (column : string) :
  row !! column = None -> Pandas.getitem row column = Raise (KeyError column).
Proof. intros Hv. unfold Pandas.getitem. by rewrite Hv. Qed.

Lemma bind_eq {A B : Type} (m : result A) (a : A) (k : A -> result B) :
  m = Ok a -> bind m k = k a.
Proof. by intros ->. Qed.

Lemma bind_ex {A B : Type} (m : result A) (a : A) (k : A -> result B) :
  m = Ok a -> (exists b, k a = Ok b) -> exists b, bind m k = Ok b.
Proof. by intros ->. Qed.

Ltac step_with H := apply (bind_ex _ _ _ H); cbv beta.

Ltac step_float :=
  match goal with
  | |- exists _, bind (DataProcessing.safe_get ?r ?c (VInt ?k) (Some float)) _ = _ =>
      let v := fresh "v" in
      let Hv := fresh "Hv" in
      let Hn := fresh "Hn" in
      destruct (safe_get_float_total r c k) as (v & Hv & Hn);
      step_with Hv;
      try match goal with
          | |- exists _, bind (mul_int v 100) _ = _ =>
              let p := fresh "p" in
              let Hp := fresh "Hp" in
              destruct (mul_int_total v 100 Hn) as [p Hp]; step_with Hp
          end
  end.

Ltac step_raw :=
  match goal with
  | |- exists _, bind (DataProcessing.safe_get ?r ?c ?d None) _ = _ =>
      let v := fresh "v" in
      let Hv := fresh "Hv" in
      destruct (safe_get_raw_total r c d) as (v & Hv); step_with Hv
  | |- exists _, bind (DataProcessing.safe_get ?r ?c ?d (Some bool_)) _ = _ =>
      let v := fresh "v" in
      let Hv := fresh "Hv" in
      destruct (safe_get_bool_total r c d) as (v & Hv); step_with Hv
  end.

Ltac step_int Hfin :=
  match goal with
  | |- exists _, bind (DataProcessing.safe_get ?r ?c (VInt ?k) (Some int)) _ = _ =>
      let v := fresh "v" in
      let Hv := fresh "Hv" in
      destruct (safe_get_int_total r c k Hfin) as (v & Hv); step_with Hv
  end.

Ltac step_getitem :=
  match goal with
  | Hs : is_Some (?row !! ?c)
    |- exists _, bind (Pandas.getitem ?row ?c) _ = _ =>
      let v := fresh "v" in
      let Hl := fresh "Hl" in
      let Hg := fresh "Hg" in
      destruct (getitem_present row c Hs) as (v & Hl & Hg); step_with Hg
  end.

(** With its subscript columns present, a rank that converts and no
    infinite cell under [int], [_build_event_object] returns an event. *)
Lemma build_event_total (base_row : Pandas.Series)
    (hist_row trend_row market_row : option Pandas.Series) :
  Forall (fun column => is_Some (base_row !! column)) Spec.subscript_columns ->
  (forall v, base_row !! "RECENT_GMS_RANK" = Some v -> exists r, int v = Ok r) ->
  Forall Spec.finite_cell (Spec.int_cells base_row hist_row market_row) ->
  exists e,
    DataProcessing._build_event_object base_row hist_row trend_row market_row = Ok e.
Proof.
  intros Hcols Hrank Hfin.
  unfold Spec.subscript_columns in Hcols.
  repeat match goal with
         | Hc : Forall _ (_ :: _) |- _ => apply Forall_cons in Hc as [? Hc]
         end.
  unfold Spec.int_cells in Hfin.
  apply Forall_cons in Hfin as [F1 Hfin]. apply Forall_cons in Hfin as [F2 Hfin].
  apply Forall_cons in Hfin as [F3 Hfin]. apply Forall_cons in Hfin as [F4 Hfin].
  apply Forall_cons in Hfin as [F5 Hfin]. apply Forall_cons in Hfin as [F6 Hfin].
  unfold DataProcessing._build_event_object.
  do 7 step_getitem.
  match goal with
  | Hl : base_row !! "RECENT_GMS_RANK" = Some ?v |- _ =>
      destruct (Hrank v Hl) as [r Hr]; step_with Hr
  end.
  do 2 step_float. step_int F1. do 5 step_float. step_int F2. step_int F3.
  step_float. step_raw. step_float. step_int F4.
  do 2 step_float. step_raw. do 2 step_float. do 2 step_raw. step_float.
  destruct (top_buyer_countries_total trend_row [1; 2; 3]) as [l Hl']. step_with Hl'.
  step_int F5. step_int F6.
  do 2 step_raw. do 2 step_float.
  by eexists.
Qed.

Ltac solve_elem :=
  repeat (rewrite elem_of_cons; first [left; reflexivity | right]).

(** It raises a [KeyError] when a subscript column is absent. *)
Lemma build_event_key_error (base_row : Pandas.Series)
    (hist_row trend_row market_row : option Pandas.Series) (column : string) :
  column ∈ Spec.subscript_columns ->
  base_row !! column = None ->
  exists missing,
    missing ∈ Spec.subscript_columns /\ base_row !! missing = None /\
    DataProcessing._build_event_object base_row hist_row trend_row market_row
    = Raise (KeyError missing).
Proof.
  intros Hin Hnone.
  assert (Hraise : forall c,
             base_row !! c = None -> Pandas.getitem base_row c = Raise (KeyError c))
    by apply getitem_absent.
  assert (Hok : forall c v,
             base_row !! c = Some v -> Pandas.getitem base_row c = Ok v)
    by (intros c v Hc; unfold Pandas.getitem; by rewrite Hc).
  unfold Spec.subscript_columns in *.
  destruct (base_row !! "EVENT_ID") eqn:H1;
    [pose proof (Hok _ _ H1) as G1
    |exists "EVENT_ID"; split; [solve_elem|]; split; [done|];
     unfold DataProcessing._build_event_object; by rewrite (Hraise _ H1)].
  destruct (base_row !! "EVENT_NAME") eqn:H2;
    [pose proof (Hok _ _ H2) as G2
    |exists "EVENT_NAME"; split; [solve_elem|]; split; [done|];
     unfold DataProcessing._build_event_object; by rewrite G1, (Hraise _ H2)].
  destruct (base_row !! "EVENT_PARENT_CATEGORY_NAME") eqn:H3;
    [pose proof (Hok _ _ H3) as G3
    |exists "EVENT_PARENT_CATEGORY_NAME"; split; [solve_elem|]; split; [done|];
     unfold DataProcessing._build_event_object; by rewrite G1, G2, (Hraise _ H3)].
  destruct (base_row !! "VENUE_CITY") eqn:H4;
    [pose proof (Hok _ _ H4) as G4
    |exists "VENUE_CITY"; split; [solve_elem|]; split; [done|];
     unfold DataProcessing._build_event_object; by rewrite G1, G2, G3, (Hraise _ H4)].
  destruct (base_row !! "VENUE_COUNTRY_NAME") eqn:H5;
    [pose proof (Hok _ _ H5) as G5
    |exists "VENUE_COUNTRY_NAME"; split; [solve_elem|]; split; [done|];
     unfold DataProcessing._build_event_object;
     by rewrite G1, G2, G3, G4, (Hraise _ H5)].
  destruct (base_row !! "EVENT_DATE") eqn:H6;
    [pose proof (Hok _ _ H6) as G6
    |exists "EVENT_DATE"; split; [solve_elem|]; split; [done|];
     unfold DataProcessing._build_event_object;
     by rewrite G1, G2, G3, G4, G5, (Hraise _ H6)].
  destruct (base_row !! "RECENT_GMS_RANK") eqn:H7;
    [|exists "RECENT_GMS_RANK"; split; [solve_elem|]; split; [done|];
      unfold DataProcessing._build_event_object;
      by rewrite G1, G2, G3, G4, G5, G6, (Hraise _ H7)].
  exfalso. clear Hraise Hok G1 G2 G3 G4 G5 G6.
  repeat (apply elem_of_cons in Hin as [-> | Hin]; [congruence|]).
  by apply elem_of_nil in Hin.
Qed.

(** It raises what [int] raises on a rank that does not convert. *)
Lemma build_event_rank_error (base_row : Pandas.Series)
    (hist_row trend_row market_row : option Pandas.Series) (v : value) (e : exn) :
  Forall (fun column => is_Some (base_row !! column)) Spec.subscript_columns ->
  base_row !! "RECENT_GMS_RANK" = Some v ->
  int v = Raise e ->
  DataProcessing._build_event_object base_row hist_row trend_row market_row = Raise e.
Proof.
  intros Hcols Hv He.
  unfold Spec.subscript_columns in Hcols.
  repeat match goal with
         | Hc : Forall _ (_ :: _) |- _ => apply Forall_cons in Hc as [? Hc]
         end.
  unfold DataProcessing._build_event_object.
  repeat match goal with
         | Hs : is_Some (base_row !! ?c)
           |- bind (Pandas.getitem base_row ?c) _ = _ =>
             let w := fresh "w" in
             let Hl := fresh "Hl" in
             let Hg := fresh "Hg" in
             destruct (getitem_present base_row c Hs) as (w & Hl & Hg);
             etrans; [apply (bind_eq _ _ _ Hg)|]; cbv beta
         end.
  match goal with
  | Hl : base_row !! "RECENT_GMS_RANK" = Some ?w |- _ =>
      rewrite Hv in Hl; injection Hl as <-
  end.
  by rewrite He.
Qed.
End BuildEvent.

Section RowLoops.
Context `{Builtins}.

Lemma process_rows_ok (hist_df trend_df market_df : Pandas.DataFrame)
    (rows : list Pandas.Series) (events acc : list event) :
  Forall2 (fun row ev => DataProcessing.process_row hist_df trend_df market_df row = Ok ev)
          rows events ->
  DataProcessing.process_rows hist_df trend_df market_df rows acc = Ok (acc ++ events).
Proof.
  intros Hall. revert acc.
  induction Hall as [|row ev rows events Hrow _ IH]; intros acc; simpl.
  - by rewrite app_nil_r.
  - rewrite Hrow. cbn [bind]. rewrite IH. by rewrite <- app_assoc.
Qed.

Lemma process_rows_raise (hist_df trend_df market_df : Pandas.DataFrame)
    (before after : list Pandas.Series) (bad : Pandas.Series)
    (events acc : list event) (e : exn) :
  Forall2 (fun row ev => DataProcessing.process_row hist_df trend_df market_df row = Ok ev)
          before events ->
  DataProcessing.process_row hist_df trend_df market_df bad = Raise e ->
  DataProcessing.process_rows hist_df trend_df market_df (before ++ bad :: after) acc
  = Raise e.
Proof.
  intros Hall Hbad. revert acc.
  induction Hall as [|row ev rows events Hrow _ IH]; intros acc; simpl.
  - by rewrite Hbad.
  - rewrite Hrow. cbn [bind]. apply IH.
Qed.

Lemma structure_rows_ok (hist_df trend_df market_df : Pandas.DataFrame) (now : string)
    (rows : list Pandas.Series) (events acc : list event) :
  Forall2 (fun row ev =>
             SocialContentGenerator.structure_row hist_df trend_df market_df now row
             = Ok ev) rows events ->
  SocialContentGenerator.structure_rows hist_df trend_df market_df now rows acc
  = Ok (acc ++ events).
Proof.
  intros Hall. revert acc.
  induction Hall as [|row ev rows events Hrow _ IH]; intros acc; simpl.
  - by rewrite app_nil_r.
  - rewrite Hrow. cbn [bind]. rewrite IH. by rewrite <- app_assoc.
Qed.

Lemma structure_rows_raise (hist_df trend_df market_df : Pandas.DataFrame)
    (now : string) (before after : list Pandas.Series) (bad : Pandas.Series)
    (events acc : list event) (e : exn) :
  Forall2 (fun row ev =>
             SocialContentGenerator.structure_row hist_df trend_df market_df now row
             = Ok ev) before events ->
  SocialContentGenerator.structure_row hist_df trend_df market_df now bad = Raise e ->
  SocialContentGenerator.structure_rows hist_df trend_df market_df now
    (before ++ bad :: after) acc = Raise e.
Proof.
  intros Hall Hbad. revert acc.
  induction Hall as [|row ev rows events Hrow _ IH]; intros acc; simpl.
  - by rewrite Hbad.
  - rewrite Hrow. cbn [bind]. apply IH.
Qed.

(** The guard of [process_event_data] asks a frame for its truth value:
    whenever the dictionary has a ['base_events'] frame the call raises. *)
Remark process_event_data_truth_value (raw_data : gmap string Pandas.DataFrame)
    (df : Pandas.DataFrame) :
  raw_data !! "base_events" = Some df ->
  DataProcessing.process_event_data raw_data = Raise ValueError.
Proof.
  intros Hdf. unfold DataProcessing.process_event_data. by rewrite Hdf.
Qed.
End RowLoops.

(** C3 (as stated): a base table of two rows whose first rank is NULL is
    not empty, yet the extraction call raises and returns no record,
    although the second row alone is extracted; so does the row loop of
    [process_event_data]; a table without the event-name column makes the
    call raise a [KeyError]; an absent event date and an infinite ticket
    count make [_build_event_object] raise too. *)
Lemma C3_row_error_propagates :
  Pandas.empty Examples.base_two_rows = false /\
  @SocialContentGenerator.structure_event_data Examples.plain_builtins
    (Examples.frames Examples.base_two_rows) "2025-08-01T00:00:00" = Raise ValueError /\
  (exists ev,
      @SocialContentGenerator.structure_event_data Examples.plain_builtins
        (Examples.frames Examples.base_second_row) "2025-08-01T00:00:00" = Ok [ev]) /\
  @DataProcessing.process_rows Examples.plain_builtins
    Pandas.empty_frame Pandas.empty_frame Pandas.empty_frame
    (Pandas.iterrows Examples.base_two_rows) [] = Raise ValueError /\
  Pandas.empty Examples.base_without_name = false /\
  @SocialContentGenerator.structure_event_data Examples.plain_builtins
    (Examples.frames Examples.base_without_name) "2025-08-01T00:00:00"
  = Raise (KeyError "EVENT_NAME") /\
  @DataProcessing._build_event_object Examples.plain_builtins
    (delete "EVENT_DATE" Examples.base_row_1) None None None
  = Raise (KeyError "EVENT_DATE") /\
  @DataProcessing._build_event_object Examples.plain_builtins
    (<["TOTAL_TICKETS_SOLD" := VFloat (Inf false)]> Examples.base_row_1) None None None
  = Raise OverflowError.
Proof.
  split; [reflexivity|]. split; [vm_compute; reflexivity|].
  split; [eexists; vm_compute; reflexivity|].
  repeat split; vm_compute; reflexivity.
Qed.

(** C3 (amended). Safe-get never raises for an absent row, a null cell,
    or a cell whose conversion raises [ValueError] or [TypeError]: it
    yields the default; a conversion with [float] never escapes.
    [_build_event_object] returns an event whenever the seven base columns
    it reads by subscript (event id, event name, genre, venue city, venue
    country, event date, rank) are present, the rank converts to an int
    and no cell converted with [int] is infinite; it raises a [KeyError]
    when one of those columns is absent and the error of [int] when the
    rank does not convert. The row loops of both extractors have no
    handler: the first row whose extraction raises makes the whole loop
    raise that error, and when no row raises the loop returns one record
    per base row, in row order. *)
Theorem C3_extraction_errors `{Builtins} :
  (forall column default convert_func,
      DataProcessing.safe_get None column default convert_func = Ok default) /\
  (forall (row : Pandas.Series) column default convert_func,
      row !! column = Some VNone ->
      DataProcessing.safe_get (Some row) column default convert_func = Ok default) /\
  (forall (row : Pandas.Series) column default v convert e,
      row !! column = Some v -> convert v = Raise e -> catches_value_type e = true ->
      DataProcessing.safe_get (Some row) column default (Some convert) = Ok default) /\
  (forall row column k,
      exists v, DataProcessing.safe_get row column (VInt k) (Some float) = Ok v) /\
  (forall (base_row : Pandas.Series) hist_row trend_row market_row,
      Forall (fun column => is_Some (base_row !! column)) Spec.subscript_columns ->
      (forall v, base_row !! "RECENT_GMS_RANK" = Some v -> exists r, int v = Ok r) ->
      Forall Spec.finite_cell (Spec.int_cells base_row hist_row market_row) ->
      exists e,
        DataProcessing._build_event_object base_row hist_row trend_row market_row
        = Ok e) /\
  (forall (base_row : Pandas.Series) hist_row trend_row market_row column,
      column ∈ Spec.subscript_columns ->
      base_row !! column = None ->
      exists missing,
        missing ∈ Spec.subscript_columns /\ base_row !! missing = None /\
        DataProcessing._build_event_object base_row hist_row trend_row market_row
        = Raise (KeyError missing)) /\
  (forall (base_row : Pandas.Series) hist_row trend_row market_row v e,
      Forall (fun column => is_Some (base_row !! column)) Spec.subscript_columns ->
      base_row !! "RECENT_GMS_RANK" = Some v ->
      int v = Raise e ->
      DataProcessing._build_event_object base_row hist_row trend_row market_row
      = Raise e) /\
  (forall hist_df trend_df market_df rows events,
      Forall2 (fun row ev =>
                 DataProcessing.process_row hist_df trend_df market_df row = Ok ev)
              rows events ->
      DataProcessing.process_rows hist_df trend_df market_df rows [] = Ok events) /\
  (forall hist_df trend_df market_df before bad after events e,
      Forall2 (fun row ev =>
                 DataProcessing.process_row hist_df trend_df market_df row = Ok ev)
              before events ->
      DataProcessing.process_row hist_df trend_df market_df bad = Raise e ->
      DataProcessing.process_rows hist_df trend_df market_df (before ++ bad :: after) []
      = Raise e) /\
  (forall hist_df trend_df market_df now rows events,
      Forall2 (fun row ev =>
                 SocialContentGenerator.structure_row hist_df trend_df market_df now row
                 = Ok ev) rows events ->
      SocialContentGenerator.structure_rows hist_df trend_df market_df now rows []
      = Ok events) /\
  (forall hist_df trend_df market_df now before bad after events e,
      Forall2 (fun row ev =>
                 SocialContentGenerator.structure_row hist_df trend_df market_df now row
                 = Ok ev) before events ->
      SocialContentGenerator.structure_row hist_df trend_df market_df now bad = Raise e ->
      SocialContentGenerator.structure_rows hist_df trend_df market_df now
        (before ++ bad :: after) [] = Raise e).
Proof.
  split; [reflexivity|].
  split; [apply safe_get_null|].
  split; [apply safe_get_caught|].
  split; [intros row column k;
          destruct (safe_get_float_total row column k) as (v & Hv & _); eauto|].
  split; [apply build_event_total|].
  split; [apply build_event_key_error|].
  split; [apply build_event_rank_error|].
  split; [intros; by apply (process_rows_ok _ _ _ _ _ [])|].
  split; [intros; by eapply process_rows_raise|].
  split; [intros; by apply (structure_rows_ok _ _ _ _ _ _ [])|].
  intros; by eapply structure_rows_raise.
Qed.

Lemma C3_extraction_errors_witness :
  exists e,
    @DataProcessing._build_event_object Examples.plain_builtins
      Examples.base_row_1 None None None = Ok e.
Proof.
  destruct (@C3_extraction_errors Examples.plain_builtins)
    as (_ & _ & _ & _ & Htotal & _).
  apply Htotal.
  - repeat constructor; by eexists.
  - intros v Hv. vm_compute in Hv. injection Hv as <-. by eexists.
  - repeat constructor; intros negative Hc; vm_compute in Hc; discriminate Hc.
Defined.

(** ** Failures of the text-generation call *)

Lemma error_message_chosen (self : AIContextualizer.ContentGenerator) (event_data : event)
    (angle platform_ prompt error_msg : string) :
  AIContextualizer.template_func self angle event_data platform_ = Ok prompt ->
  AIContextualizer.chat_completions_create self (AIContextualizer.model self)
    (AIContextualizer._get_system_prompt self platform_) prompt
  = AIContextualizer.Failed error_msg ->
  exists p,
    AIContextualizer.create_social_post self event_data angle platform_ = Ok p /\
    AIContextualizer.error p = Some true /\
    AIContextualizer.platform p = platform_ /\
    AIContextualizer.visual_text p
    = "❌ " +:+ Spec.user_message (AIContextualizer.model self) error_msg
                  (Spec.classify_error error_msg) /\
    AIContextualizer.caption p = AIContextualizer.visual_text p.
Proof.
  intros Hprompt Hcall. unfold AIContextualizer.create_social_post.
  rewrite Hprompt. cbn [bind]. rewrite Hcall.
  unfold Spec.classify_error, Spec.cause_rules. cbn [List.find fst snd].
  destruct (contains "rate_limit" (lower error_msg));
    [eexists; repeat split|].
  destruct (contains "invalid_api_key" (lower error_msg));
    [eexists; repeat split|].
  destruct (contains "unauthorized" (lower error_msg));
    [eexists; repeat split|].
  destruct (contains "model" (lower error_msg));
    [destruct (contains "does not exist" (lower error_msg));
     [eexists; repeat split|]|];
    (destruct (contains "connection" (lower error_msg));
     [eexists; repeat split|];
     destruct (contains "network" (lower error_msg));
     [eexists; repeat split|];
     destruct (contains "timeout" (lower error_msg));
     [eexists; repeat split|];
     destruct (contains "billing" (lower error_msg));
     [eexists; repeat split|];
     destruct (contains "quota" (lower error_msg));
     eexists; repeat split).
Qed.

Lemma classify_error_unknown (error_msg : string) :
  Forall (fun r : (string -> bool) * Spec.cause => fst r (lower error_msg) = false)
         Spec.cause_rules ->
  Spec.classify_error error_msg = Spec.Unknown.
Proof.
  intros Hnone. unfold Spec.classify_error.
  destruct (List.find _ Spec.cause_rules) as [r|] eqn:Hfind; [|reflexivity].
  apply find_some in Hfind as [Hin Hr].
  rewrite Forall_forall in Hnone. apply list_elem_of_In in Hin.
  rewrite (Hnone r Hin) in Hr. discriminate Hr.
Qed.

(** C6. Whenever the text-generation call raises an exception,
    [create_social_post] returns (it does not raise) a result flagged as
    an error whose visual text and caption both carry the message of the
    cause chosen by the first rule that matches the lowercased error text
    among rate limit, invalid key, model unavailable, network, timeout and
    billing; when no rule matches, the unknown message with the error
    text. *)
Theorem C6_call_failure_classified (self : AIContextualizer.ContentGenerator)
    (event_data : event) (angle platform_ prompt error_msg : string) :
  AIContextualizer.template_func self angle event_data platform_ = Ok prompt ->
  AIContextualizer.chat_completions_create self (AIContextualizer.model self)
    (AIContextualizer._get_system_prompt self platform_) prompt
  = AIContextualizer.Failed error_msg ->
  exists p,
    AIContextualizer.create_social_post self event_data angle platform_ = Ok p /\
    AIContextualizer.error p = Some true /\
    AIContextualizer.platform p = platform_ /\
    AIContextualizer.visual_text p
    = "❌ " +:+ Spec.user_message (AIContextualizer.model self) error_msg
                  (Spec.classify_error error_msg) /\
    AIContextualizer.caption p = AIContextualizer.visual_text p /\
    (Forall (fun r : (string -> bool) * Spec.cause => fst r (lower error_msg) = false)
            Spec.cause_rules ->
     AIContextualizer.visual_text p = "❌ OpenAI API error: " +:+ error_msg).
Proof.
  intros Hprompt Hcall.
  destruct (error_message_chosen self event_data angle platform_ prompt error_msg
              Hprompt Hcall) as (p & Hp & Herr & Hplat & Hvis & Hcap).
  exists p. repeat (split; [assumption|]).
  intros Hnone. rewrite Hvis. by rewrite (classify_error_unknown _ Hnone).
Qed.

Lemma C6_call_failure_classified_witness :
  exists p,
    AIContextualizer.create_social_post
      (Examples.failing_generator "Error code: 429 - Rate_Limit_Exceeded")
      empty_event "major_spike" "tiktok" = Ok p /\
    AIContextualizer.error p = Some true /\
    AIContextualizer.visual_text p
    = "❌ Rate limit exceeded. Please wait a moment and try again.".
Proof.
  destruct (C6_call_failure_classified
              (Examples.failing_generator "Error code: 429 - Rate_Limit_Exceeded")
              empty_event "major_spike" "tiktok" "prompt"
              "Error code: 429 - Rate_Limit_Exceeded" eq_refl eq_refl)
    as (p & Hp & Herr & _ & Hvis & _).
  exists p. split; [exact Hp|]. split; [exact Herr|]. exact Hvis.
Defined.

(** ** Response parser *)

Lemma append_assoc (a b c : string) : (a +:+ b) +:+ c = a +:+ b +:+ c.
Proof.
  induction a as [|x a IH]; [reflexivity|].
  change (String x ((a +:+ b) +:+ c) = String x (a +:+ b +:+ c)). by f_equal.
Qed.

Lemma append_nil_l (a : string) : "" +:+ a = a.
Proof. reflexivity. Qed.

Lemma append_nil_r (a : string) : a +:+ "" = a.
Proof.
  induction a as [|x a IH]; [reflexivity|].
  change (String x (a +:+ "") = String x a). by f_equal.
Qed.

Lemma parse_line_accumulate (st : AIContextualizer.parser_state) (line : string) :
  AIContextualizer.parse_line st line
  = if String.eqb (strip line) "" then st else Spec.accumulate st (strip line).
Proof. reflexivity. Qed.

Lemma fold_parse_lines (raw : list string) (st : AIContextualizer.parser_state) :
  fold_left AIContextualizer.parse_line raw st
  = fold_left Spec.accumulate
      (List.filter (fun l => negb (String.eqb l "")) (map strip raw)) st.
Proof.
  revert st. induction raw as [|line raw IH]; intros st; [reflexivity|].
  cbn [fold_left map List.filter]. rewrite parse_line_accumulate.
  destruct (String.eqb (strip line) ""); cbn [negb]; apply IH.
Qed.

Lemma effective_lines_nonempty (content : string) :
  Forall (fun l => l <> "") (Spec.effective_lines content).
Proof.
  unfold Spec.effective_lines. apply Forall_forall. intros l Hin.
  apply list_elem_of_In, filter_In in Hin as [_ Hl].
  apply negb_true_iff, String.eqb_neq in Hl. exact Hl.
Qed.

(** Once a header has been seen, each line goes to the section of the
    last header. *)
Lemma accumulate_sectioned (lines : list string) (st : AIContextualizer.parser_state)
    (sec : AIContextualizer.section) :
  AIContextualizer.current_section st = Some sec ->
  AIContextualizer.visual_text_acc (fold_left Spec.accumulate lines st)
  = AIContextualizer.visual_text_acc st
      +:+ Spec.joined (Spec.following (Some sec) lines AIContextualizer.visual) /\
  AIContextualizer.caption_acc (fold_left Spec.accumulate lines st)
  = AIContextualizer.caption_acc st
      +:+ Spec.joined (Spec.following (Some sec) lines AIContextualizer.caption_section).
Proof.
  revert st sec. induction lines as [|l ls IH]; intros st sec Hsec.
  - cbn. by rewrite !append_nil_r.
  - cbn [fold_left Spec.following].
    set (st1 := Spec.accumulate st l).
    assert (Hst1 :
      exists sec1,
        AIContextualizer.current_section st1 = Some sec1 /\
        AIContextualizer.visual_text_acc st
          +:+ Spec.joined
                (if Spec.is_visual_header l
                 then Spec.following (Some AIContextualizer.visual) ls
                        AIContextualizer.visual
                 else if Spec.is_caption_header l
                 then Spec.following (Some AIContextualizer.caption_section) ls
                        AIContextualizer.visual
                 else match Some sec, AIContextualizer.visual with
                      | Some AIContextualizer.visual, AIContextualizer.visual
                      | Some AIContextualizer.caption_section,
                        AIContextualizer.caption_section =>
                          l :: Spec.following (Some sec) ls AIContextualizer.visual
                      | _, _ => Spec.following (Some sec) ls AIContextualizer.visual
                      end)
        = AIContextualizer.visual_text_acc st1
            +:+ Spec.joined (Spec.following (Some sec1) ls AIContextualizer.visual) /\
        AIContextualizer.caption_acc st
          +:+ Spec.joined
                (if Spec.is_visual_header l
                 then Spec.following (Some AIContextualizer.visual) ls
                        AIContextualizer.caption_section
                 else if Spec.is_caption_header l
                 then Spec.following (Some AIContextualizer.caption_section) ls
                        AIContextualizer.caption_section
                 else match Some sec, AIContextualizer.caption_section with
                      | Some AIContextualizer.visual, AIContextualizer.visual
                      | Some AIContextualizer.caption_section,
                        AIContextualizer.caption_section =>
                          l :: Spec.following (Some sec) ls
                                 AIContextualizer.caption_section
                      | _, _ => Spec.following (Some sec) ls
                                  AIContextualizer.caption_section
                      end)
        = AIContextualizer.caption_acc st1
            +:+ Spec.joined (Spec.following (Some sec1) ls
                               AIContextualizer.caption_section)).
    { subst st1. unfold Spec.accumulate.
      destruct (Spec.is_visual_header l);
        [by exists AIContextualizer.visual|].
      destruct (Spec.is_caption_header l);
        [by exists AIContextualizer.caption_section|].
      rewrite Hsec. exists sec.
      destruct sec; cbn [AIContextualizer.visual_text_acc AIContextualizer.caption_acc
                         AIContextualizer.current_section Spec.joined];
        rewrite ?append_assoc; done. }
    destruct Hst1 as (sec1 & Hsec1 & Hv & Hc).
    destruct (IH st1 sec1 Hsec1) as [IHv IHc].
    rewrite IHv, IHc. split; [exact (eq_sym Hv) | exact (eq_sym Hc)].
Qed.

Lemma following_None_header (l : string) (ls : list string)
    (sec : AIContextualizer.section) :
  Spec.is_header l = false ->
  Spec.following None (l :: ls) sec = Spec.following None ls sec.
Proof.
  unfold Spec.is_header. intros [Hv Hc]%orb_false_elim.
  cbn [Spec.following]. rewrite Hv, Hc. by destruct sec.
Qed.

Lemma accumulate_plain (st : AIContextualizer.parser_state) (l : string) :
  Spec.is_header l = false ->
  AIContextualizer.current_section st = None ->
  Spec.accumulate st l
  = if String.eqb (AIContextualizer.visual_text_acc st) "" && Spec.short l then
      {| AIContextualizer.visual_text_acc := l;
         AIContextualizer.caption_acc := AIContextualizer.caption_acc st;
         AIContextualizer.current_section := None |}
    else
      {| AIContextualizer.visual_text_acc := AIContextualizer.visual_text_acc st;
         AIContextualizer.caption_acc := AIContextualizer.caption_acc st +:+ l +:+ " ";
         AIContextualizer.current_section := None |}.
Proof.
  unfold Spec.is_header. intros [Hv Hc]%orb_false_elim Hsec.
  unfold Spec.accumulate. by rewrite Hv, Hc, Hsec.
Qed.

(** Before any header: the first short line becomes the visual text, the
    other lines go to the caption. *)
Lemma accumulate_leading (lines : list string) (st : AIContextualizer.parser_state) :
  AIContextualizer.current_section st = None ->
  Forall (fun l => l <> "") lines ->
  AIContextualizer.visual_text_acc (fold_left Spec.accumulate lines st)
  = (if String.eqb (AIContextualizer.visual_text_acc st) ""
     then Spec.first_short (Spec.leading lines)
     else AIContextualizer.visual_text_acc st)
      +:+ Spec.joined (Spec.following None lines AIContextualizer.visual) /\
  AIContextualizer.caption_acc (fold_left Spec.accumulate lines st)
  = AIContextualizer.caption_acc st
      +:+ Spec.joined (if String.eqb (AIContextualizer.visual_text_acc st) ""
                       then Spec.remaining (Spec.leading lines)
                       else Spec.leading lines)
      +:+ Spec.joined (Spec.following None lines AIContextualizer.caption_section).
Proof.
  revert st. induction lines as [|l ls IH]; intros st Hsec Hne.
  - cbn [fold_left Spec.leading Spec.following Spec.joined Spec.remaining].
    unfold Spec.first_short. cbn [List.find].
    destruct (String.eqb_spec (AIContextualizer.visual_text_acc st) "") as [->|_];
      by rewrite !append_nil_r.
  - apply Forall_cons in Hne as [Hl Hne].
    cbn [fold_left Spec.leading].
    destruct (Spec.is_header l) eqn:Hhead.
    + (* a header: the sectioned phase starts *)
      assert (Hst1 : exists sec1,
                 AIContextualizer.current_section (Spec.accumulate st l) = Some sec1 /\
                 AIContextualizer.visual_text_acc (Spec.accumulate st l)
                 = AIContextualizer.visual_text_acc st /\
                 AIContextualizer.caption_acc (Spec.accumulate st l)
                 = AIContextualizer.caption_acc st /\
                 forall sec, Spec.following None (l :: ls) sec
                             = Spec.following (Some sec1) ls sec).
      { unfold Spec.is_header in Hhead. unfold Spec.accumulate.
        cbn [Spec.following].
        destruct (Spec.is_visual_header l); [by exists AIContextualizer.visual|].
        destruct (Spec.is_caption_header l);
          [by exists AIContextualizer.caption_section | discriminate Hhead]. }
      destruct Hst1 as (sec1 & Hsec1 & Hv1 & Hc1 & Hfol).
      destruct (accumulate_sectioned ls _ sec1 Hsec1) as [Hv Hc].
      rewrite Hv, Hc, Hv1, Hc1, !Hfol.
      unfold Spec.first_short. cbn [List.find Spec.remaining].
      destruct (String.eqb_spec (AIContextualizer.visual_text_acc st) "") as [->|_];
        cbn [Spec.joined]; by rewrite append_nil_l.
    + rewrite !(following_None_header _ _ _ Hhead).
      rewrite (accumulate_plain _ _ Hhead Hsec).
      destruct (String.eqb_spec (AIContextualizer.visual_text_acc st) "") as [Hemp|Hfull].
      * cbn [andb]. unfold Spec.first_short. cbn [List.find Spec.remaining].
        destruct (Spec.short l).
        -- match goal with
           | |- context [fold_left Spec.accumulate ls ?s] =>
               destruct (IH s eq_refl Hne) as [Hv Hc]
           end.
           rewrite Hv, Hc. cbn [AIContextualizer.visual_text_acc AIContextualizer.caption_acc].
           apply String.eqb_neq in Hl. by rewrite Hl.
        -- match goal with
           | |- context [fold_left Spec.accumulate ls ?s] =>
               destruct (IH s eq_refl Hne) as [Hv Hc]
           end.
           rewrite Hv, Hc. cbn [AIContextualizer.visual_text_acc AIContextualizer.caption_acc
                                Spec.joined].
           rewrite Hemp. cbn [String.eqb]. unfold Spec.first_short.
           by rewrite !append_assoc.
      * cbn [andb].
        match goal with
        | |- context [fold_left Spec.accumulate ls ?s] =>
            destruct (IH s eq_refl Hne) as [Hv Hc]
        end.
        rewrite Hv, Hc. cbn [AIContextualizer.visual_text_acc AIContextualizer.caption_acc
                             Spec.joined].
        apply String.eqb_neq in Hfull. rewrite Hfull.
        by rewrite !append_assoc.
Qed.

Lemma no_header_leading (lines : list string) :
  Forall (fun l => Spec.is_header l = false) lines ->
  Spec.leading lines = lines /\
  forall sec, Spec.following None lines sec = [].
Proof.
  induction 1 as [|l ls Hl _ [IHl IHf]]; [done|]. split.
  - cbn [Spec.leading]. by rewrite Hl, IHl.
  - intros sec. by rewrite (following_None_header _ _ _ Hl).
Qed.

Lemma parse_dual_content_sections (content platform_ : string) :
  AIContextualizer.visual_text (AIContextualizer._parse_dual_content content platform_)
  = strip (Spec.first_short (Spec.leading (Spec.effective_lines content))
           +:+ Spec.joined (Spec.following None (Spec.effective_lines content)
                              AIContextualizer.visual)) /\
  AIContextualizer.caption (AIContextualizer._parse_dual_content content platform_)
  = strip (Spec.joined (Spec.remaining (Spec.leading (Spec.effective_lines content)))
           +:+ Spec.joined (Spec.following None (Spec.effective_lines content)
                              AIContextualizer.caption_section)).
Proof.
  unfold AIContextualizer._parse_dual_content.
  cbn [AIContextualizer.visual_text AIContextualizer.caption].
  rewrite fold_parse_lines. fold (Spec.effective_lines content).
  destruct (accumulate_leading (Spec.effective_lines content)
              AIContextualizer.initial_state eq_refl
              (effective_lines_nonempty content)) as [Hv Hc].
  rewrite Hv, Hc. by split.
Qed.

(** C7. For every response text, with its lines trimmed and the blank
    ones dropped: the lines that follow a line containing "visual text:",
    "on-screen text:" or "asset text:" in any letter case go to the visual
    text, those that follow a line containing "caption:", "description:"
    or "post caption:" go to the caption, up to the next header line; and
    when no line contains a header, the first line shorter than 100
    characters is the visual text and the remaining lines, joined by
    spaces, are the caption. Both outputs are trimmed. The length of a
    line is its number of characters, [len], and trimming removes the
    white space of [str.strip]. *)
Theorem C7_dual_content_parser (content platform_ : string) :
  let lines := Spec.effective_lines content in
  let p := AIContextualizer._parse_dual_content content platform_ in
  (forall l,
      Spec.is_visual_header l
      = existsb (fun h => contains h (lower l))
                ["visual text:"; "on-screen text:"; "asset text:"] /\
      Spec.is_caption_header l
      = existsb (fun h => contains h (lower l))
                ["caption:"; "description:"; "post caption:"]) /\
  AIContextualizer.visual_text p
  = strip (Spec.first_short (Spec.leading lines)
           +:+ Spec.joined (Spec.following None lines AIContextualizer.visual)) /\
  AIContextualizer.caption p
  = strip (Spec.joined (Spec.remaining (Spec.leading lines))
           +:+ Spec.joined (Spec.following None lines AIContextualizer.caption_section)) /\
  (Spec.leading lines = [] ->
   AIContextualizer.visual_text p
   = strip (Spec.joined (Spec.following None lines AIContextualizer.visual)) /\
   AIContextualizer.caption p
   = strip (Spec.joined (Spec.following None lines AIContextualizer.caption_section))) /\
  (Forall (fun l => Spec.is_header l = false) lines ->
   AIContextualizer.visual_text p = strip (Spec.first_short lines) /\
   AIContextualizer.caption p = strip (Spec.joined (Spec.remaining lines))).
Proof.
  intros lines p.
  destruct (parse_dual_content_sections content platform_) as [Hv Hc].
  fold lines in Hv, Hc. fold p in Hv, Hc.
  split; [by intros l|]. split; [exact Hv|]. split; [exact Hc|]. split.
  - intros Hlead. rewrite Hv, Hc, Hlead. by split.
  - intros Hnone. destruct (no_header_leading lines Hnone) as [Hlead Hfol].
    rewrite Hv, Hc, Hlead, !Hfol. cbn [Spec.joined]. by rewrite !append_nil_r.
Qed.

Lemma C7_dual_content_parser_witness :
  AIContextualizer._parse_dual_content Examples.headed_response "tiktok"
  = {| AIContextualizer.visual_text := "Sold out in minutes";
       AIContextualizer.caption := "The Band takes Austin by storm";
       AIContextualizer.platform := "tiktok";
       AIContextualizer.error := None;
       AIContextualizer.debug_info := None |} /\
  AIContextualizer.visual_text
    (AIContextualizer._parse_dual_content Examples.plain_response "tiktok")
  = "Sold out in minutes" /\
  AIContextualizer.caption
    (AIContextualizer._parse_dual_content Examples.plain_response "tiktok")
  = "The Band takes Austin by storm Tickets moved fast" /\
  len Examples.notes_line = 30%nat /\
  String.length Examples.notes_line = 120%nat /\
  AIContextualizer.visual_text
    (AIContextualizer._parse_dual_content Examples.notes_response "tiktok")
  = Examples.notes_line /\
  AIContextualizer.caption
    (AIContextualizer._parse_dual_content Examples.notes_response "tiktok")
  = "The Band takes Austin by storm".
Proof.
  split; [vm_compute; reflexivity|].
  destruct (C7_dual_content_parser Examples.plain_response "tiktok")
    as (_ & _ & _ & _ & Hplain).
  destruct (C7_dual_content_parser Examples.notes_response "tiktok")
    as (_ & _ & _ & _ & Hnotes).
  destruct Hplain as [Hv Hc].
  - assert (Hlines : Spec.effective_lines Examples.plain_response
                     = ["Sold out in minutes"; "The Band takes Austin by storm";
                        "Tickets moved fast"]) by (vm_compute; reflexivity).
    rewrite Hlines. repeat (constructor; [vm_compute; reflexivity|]). constructor.
  - destruct Hnotes as [Hv' Hc'].
    + assert (Hlines : Spec.effective_lines Examples.notes_response
                       = [Examples.notes_line; "The Band takes Austin by storm"])
        by (vm_compute; reflexivity).
      rewrite Hlines. repeat (constructor; [vm_compute; reflexivity|]). constructor.
    + split; [rewrite Hv; vm_compute; reflexivity|].
      split; [rewrite Hc; vm_compute; reflexivity|].
      split; [vm_compute; reflexivity|]. split; [vm_compute; reflexivity|].
      split; [rewrite Hv' | rewrite Hc']; vm_compute; reflexivity.
Defined.

(** ** Enriched events are well typed *)

Section Shapes.
Context `{Builtins}.

Lemma int_shape (v r : value) : int v = Ok r -> exists z, r = VInt z.
Proof.
  destruct v as [|b|z|f|s]; simpl; try discriminate; try (intros [= <-]; eauto).
  - destruct f; [intros [= <-]; eauto | discriminate | discriminate].
  - destruct (int_of_str s); [intros [= <-]; eauto | discriminate].
Qed.

Lemma safe_get_float_shape (row : option Pandas.Series) (column : string) (k : Z)
    (v : value) :
  DataProcessing.safe_get row column (VInt k) (Some float) = Ok v ->
  v = VInt k \/ exists f, v = VFloat f.
Proof.
  unfold DataProcessing.safe_get. destruct row as [r|]; [|intros [= <-]; by left].
  destruct (Pandas.get r column (VInt k)) as [|b|z|f|s] eqn:Hg;
    [ intros [= <-]; by left
    | unfold try_except_value_type;
      match goal with
      | |- context [float ?c] =>
          destruct (float c) as [w|e'] eqn:Hf;
          [ intros [= <-]; right; by apply float_result in Hf
          | destruct (catches_value_type e'); [intros [= <-]; by left | discriminate] ]
      end .. ].
Qed.

Lemma safe_get_int_shape (row : option Pandas.Series) (column : string) (k : Z)
    (v : value) :
  DataProcessing.safe_get row column (VInt k) (Some int) = Ok v ->
  exists z, v = VInt z.
Proof.
  unfold DataProcessing.safe_get. destruct row as [r|]; [|intros [= <-]; eauto].
  destruct (Pandas.get r column (VInt k)) as [|b|z|f|s] eqn:Hg;
    [ intros [= <-]; eauto
    | unfold try_except_value_type;
      match goal with
      | |- context [int ?c] =>
          destruct (int c) as [w|e'] eqn:Hf;
          [ intros [= <-]; by apply int_shape in Hf
          | destruct (catches_value_type e'); [intros [= <-]; eauto | discriminate] ]
      end .. ].
Qed.

Lemma scaled_number (v p : value) (k : Z) :
  (v = VInt k \/ exists f, v = VFloat f) ->
  mul_int v 100 = Ok p -> exists g, as_number p = Some g.
Proof.
  intros [-> | [f ->]]; simpl; intros [= <-]; simpl; eauto.
Qed.

Lemma number_of_shape (v : value) (k : Z) :
  (v = VInt k \/ exists f, v = VFloat f) -> exists g, as_number v = Some g.
Proof. intros [-> | [f ->]]; simpl; eauto. Qed.

(** Every event built by [_build_event_object] has numbers in the fields
    that the classifier and the scorer compare. *)
Lemma build_event_numeric (base_row : Pandas.Series)
    (hist_row trend_row market_row : option Pandas.Series) (e : event) :
  DataProcessing._build_event_object base_row hist_row trend_row market_row = Ok e ->
  (exists x, Spec.readings_of e = Some x) /\
  (exists r s m,
      as_number (rank_of e) = Some r /\
      as_number (completeness_score_of e) = Some s /\
      as_number (career_multiple_of (VInt 1) e) = Some m).
Proof.
  unfold DataProcessing._build_event_object. intros He.
  repeat inv_bind He. injection He as <-.
  unfold Spec.readings_of, rank_of, completeness_score_of, career_multiple_of,
    international_pct_of, genre_rank_of, price_appreciation_of, tour_multiple_of,
    tour_name_of.
  cbn [rank international_pct career_context market_position trend_insights
       tour_context data_completeness dict_get vs_career_avg_multiple ytd_genre_rank
       price_appreciation_pct vs_tour_avg_multiple completeness_score tour_name].
  repeat match goal with
         | Hi : int _ = Ok ?r |- _ => apply int_shape in Hi as [? ->]
         | Hs : DataProcessing.safe_get _ _ (VInt _) (Some int) = Ok _ |- _ =>
             apply safe_get_int_shape in Hs as [? ->]
         | Hs : DataProcessing.safe_get _ _ (VInt _) (Some float) = Ok _ |- _ =>
             apply safe_get_float_shape in Hs
         end.
  repeat match goal with
         | Hs : ?v = VInt _ \/ (exists f, ?v = VFloat f), Hm : mul_int ?v 100 = Ok ?p
           |- _ => destruct (scaled_number _ _ _ Hs Hm) as [? ?]; clear Hm
         end.
  repeat match goal with
         | Hs : ?v = VInt _ \/ (exists f, ?v = VFloat f) |- _ =>
             destruct (number_of_shape _ _ Hs) as [? ?]; clear Hs
         end.
  split.
  - repeat match goal with
           | Hn : as_number ?v = Some _ |- context [as_number ?v] => rewrite Hn
           end.
    cbn [as_number]. by eexists.
  - do 3 eexists. cbn [as_number int_truediv].
    repeat match goal with
           | Hn : as_number ?v = Some _ |- context [as_number ?v] => rewrite Hn
           end.
    repeat split.
Qed.
End Shapes.

Section PipelineShapes.
Context `{Builtins}.

Lemma safe_float_number (v default w : value) :
  (exists g, as_number default = Some g) ->
  SocialContentGenerator._safe_float v default = Ok w ->
  exists g, as_number w = Some g.
Proof.
  intros Hd. unfold SocialContentGenerator._safe_float, try_except_value_type.
  destruct v as [|b|z|f|s];
    [ by intros [= <-]
    | match goal with
      | |- context [float ?c] =>
          destruct (float c) as [x|e'] eqn:Hf;
          [ intros [= <-]; apply float_result in Hf as [g ->]; simpl; eauto
          | destruct (catches_value_type e'); [by intros [= <-] | discriminate] ]
      end .. ].
Qed.

Lemma safe_int_number (v default w : value) :
  (exists g, as_number default = Some g) ->
  SocialContentGenerator._safe_int v default = Ok w ->
  exists g, as_number w = Some g.
Proof.
  intros Hd. unfold SocialContentGenerator._safe_int, try_except_value_type.
  destruct v as [|b|z|f|s];
    [ by intros [= <-]
    | match goal with
      | |- context [int ?c] =>
          destruct (int c) as [x|e'] eqn:Hf;
          [ intros [= <-]; apply int_shape in Hf as [g ->]; simpl; eauto
          | destruct (catches_value_type e'); [by intros [= <-] | discriminate] ]
      end .. ].
Qed.

Lemma number_times_100 (v p : value) :
  (exists g, as_number v = Some g) -> mul_int v 100 = Ok p ->
  exists g, as_number p = Some g.
Proof.
  intros [g Hg]. destruct v; simpl in *; try discriminate; intros [= <-]; simpl; eauto.
Qed.

Lemma zero_float_number : exists g, as_number SocialContentGenerator.float_default = Some g.
Proof. by eexists. Qed.

Lemma zero_int_number : exists g, as_number SocialContentGenerator.int_default = Some g.
Proof. by eexists. Qed.

Lemma extract_career_numeric (hist_row : option Pandas.Series) (c : career_dict)
    (default : value) :
  SocialContentGenerator._extract_career_context hist_row = Ok c ->
  (exists g, as_number default = Some g) ->
  exists g, as_number (dict_get (vs_career_avg_multiple c) default) = Some g.
Proof.
  unfold SocialContentGenerator._extract_career_context.
  destruct hist_row as [row|]; [|by intros [= <-]].
  intros Hc _. inv_bind Hc. rename Hv into Hfirst. repeat inv_bind Hc.
  injection Hc as <-. cbn [vs_career_avg_multiple dict_get].
  eapply safe_float_number; [apply zero_float_number | exact Hfirst].
Qed.

Lemma extract_tour_numeric (hist_row : option Pandas.Series) (t : tour_dict)
    (default : value) :
  SocialContentGenerator._extract_tour_context hist_row = Ok t ->
  (exists g, as_number default = Some g) ->
  exists g, as_number (dict_get (vs_tour_avg_multiple t) default) = Some g.
Proof.
  unfold SocialContentGenerator._extract_tour_context.
  destruct hist_row as [row|]; [|by intros [= <-]].
  intros Ht _. inv_bind Ht. rename Hv into Hfirst. repeat inv_bind Ht.
  injection Ht as <-. cbn [vs_tour_avg_multiple dict_get].
  eapply safe_float_number; [apply zero_float_number | exact Hfirst].
Qed.

Lemma extract_trend_numeric (trend_row : option Pandas.Series) (t : trend_dict)
    (default : value) :
  SocialContentGenerator._extract_trend_insights trend_row = Ok t ->
  (exists g, as_number default = Some g) ->
  exists g, as_number (dict_get (price_appreciation_pct t) default) = Some g.
Proof.
  unfold SocialContentGenerator._extract_trend_insights.
  destruct trend_row as [row|]; [|by intros [= <-]].
  intros Ht _. repeat inv_bind Ht. injection Ht as <-.
  cbn [price_appreciation_pct dict_get].
  eapply number_times_100; [|eassumption].
  eapply safe_float_number; [apply zero_float_number | eassumption].
Qed.

Lemma extract_market_numeric (market_row : option Pandas.Series) (m : market_dict)
    (default : value) :
  SocialContentGenerator._extract_market_position market_row = Ok m ->
  (exists g, as_number default = Some g) ->
  exists g, as_number (dict_get (ytd_genre_rank m) default) = Some g.
Proof.
  unfold SocialContentGenerator._extract_market_position.
  destruct market_row as [row|]; [|by intros [= <-]].
  intros Hm _. inv_bind Hm. inv_bind Hm. rename Hv0 into Hsecond.
  repeat inv_bind Hm. injection Hm as <-. cbn [ytd_genre_rank dict_get].
  eapply safe_int_number; [apply zero_int_number | exact Hsecond].
Qed.

(** So has every event built by the pipeline extractor. *)
Lemma structure_row_numeric (hist_df trend_df market_df : Pandas.DataFrame)
    (now : string) (base_row : Pandas.Series) (e : event) :
  SocialContentGenerator.structure_row hist_df trend_df market_df now base_row = Ok e ->
  (exists x, Spec.readings_of e = Some x) /\
  (exists r s m,
      as_number (rank_of e) = Some r /\
      as_number (completeness_score_of e) = Some s /\
      as_number (career_multiple_of (VInt 1) e) = Some m).
Proof.
  unfold SocialContentGenerator.structure_row. intros He.
  repeat inv_bind He. injection He as <-.
  unfold Spec.readings_of, rank_of, completeness_score_of, career_multiple_of,
    international_pct_of, genre_rank_of, price_appreciation_of, tour_multiple_of,
    tour_name_of.
  cbn [rank international_pct career_context market_position trend_insights
       tour_context data_completeness dict_get completeness_score
       SocialContentGenerator._assess_data_completeness].
  match goal with
  | Hi : int _ = Ok ?r |- _ => apply int_shape in Hi as [zr ->]
  end.
  match goal with
  | Hc : SocialContentGenerator._extract_career_context _ = Ok ?c |- _ =>
      destruct (extract_career_numeric _ _ (VInt 0) Hc ltac:(by eexists)) as [c0 Hc0];
      destruct (extract_career_numeric _ _ (VInt 1) Hc ltac:(by eexists)) as [c1 Hc1]
  end.
  match goal with
  | Ht : SocialContentGenerator._extract_tour_context _ = Ok ?t |- _ =>
      destruct (extract_tour_numeric _ _ (VInt 0) Ht ltac:(by eexists)) as [t0 Ht0]
  end.
  match goal with
  | Ht : SocialContentGenerator._extract_trend_insights _ = Ok ?t |- _ =>
      destruct (extract_trend_numeric _ _ (VInt 0) Ht ltac:(by eexists)) as [p0 Hp0]
  end.
  match goal with
  | Hm : SocialContentGenerator._extract_market_position _ = Ok ?m |- _ =>
      destruct (extract_market_numeric _ _ (VInt 999) Hm ltac:(by eexists)) as [g0 Hg0]
  end.
  match goal with
  | Hf : SocialContentGenerator._safe_float _ (VInt 0) = Ok ?a,
    Hm : mul_int ?a 100 = Ok ?p |- _ =>
      destruct (number_times_100 a p
                  (safe_float_number _ (VInt 0) _ ltac:(by eexists) Hf) Hm) as [i0 Hi0]
  end.
  split.
  - rewrite Hc0, Hi0, Hg0, Hp0, Ht0. cbn [as_number]. by eexists.
  - do 3 eexists. rewrite Hc1. cbn [as_number int_truediv]. repeat split.
Qed.
End PipelineShapes.

Section EndToEnd.
Context `{Builtins}.

(** Hence the classifier and the scorer return, without raising, on every
    event that either extractor builds. *)
Corollary built_events_classified (base_row : Pandas.Series)
    (hist_row trend_row market_row : option Pandas.Series) (e : event) :
  DataProcessing._build_event_object base_row hist_row trend_row market_row = Ok e ->
  exists x, Spec.readings_of e = Some x /\
            BatchProcessor._identify_content_angles e = Ok (Spec.classify x).
Proof.
  intros He. destruct (build_event_numeric _ _ _ _ _ He) as [[x Hx] _].
  exists x. split; [exact Hx | by apply batch_classifier_table].
Qed.

Corollary structured_events_classified (hist_df trend_df market_df : Pandas.DataFrame)
    (now : string) (base_row : Pandas.Series) (e : event) :
  SocialContentGenerator.structure_row hist_df trend_df market_df now base_row = Ok e ->
  exists x, Spec.readings_of e = Some x /\
            SocialContentGenerator.identify_content_angles e
            = Ok (take 3 (Spec.classify x)).
Proof.
  intros He. destruct (structure_row_numeric _ _ _ _ _ _ He) as [[x Hx] _].
  exists x. split; [exact Hx | by apply pipeline_classifier_table].
Qed.

Corollary built_events_scored (base_row : Pandas.Series)
    (hist_row trend_row market_row : option Pandas.Series) (e : event) (angle : string) :
  DataProcessing._build_event_object base_row hist_row trend_row market_row = Ok e ->
  exists p, BatchProcessor._calculate_content_priority e angle = Ok p /\ 5 <= p <= 10.
Proof.
  intros He.
  destruct (build_event_numeric _ _ _ _ _ He) as [_ (r & s & m & Hr & Hs & Hm)].
  exists (Spec.priority r angle s m). split; [by apply priority_formula|].
  unfold Spec.priority. pose proof (bonus_bounds r s m angle). lia.
Qed.

Corollary structured_events_scored (hist_df trend_df market_df : Pandas.DataFrame)
    (now : string) (base_row : Pandas.Series) (e : event) (angle : string) :
  SocialContentGenerator.structure_row hist_df trend_df market_df now base_row = Ok e ->
  exists p, BatchProcessor._calculate_content_priority e angle = Ok p /\ 5 <= p <= 10.
Proof.
  intros He.
  destruct (structure_row_numeric _ _ _ _ _ _ He) as [_ (r & s & m & Hr & Hs & Hm)].
  exists (Spec.priority r angle s m). split; [by apply priority_formula|].
  unfold Spec.priority. pose proof (bonus_bounds r s m angle). lia.
Qed.
End EndToEnd.

(** ** The classifier and the scorer on every enriched event *)

(** C1 (amended). For every enriched event whose compared fields are
    numbers, which every event built by either extractor is, the batch
    classifier returns the labels of the rule table in category order
    (career spike, international, genre rank, price trend, tour standout),
    at most one per category and that of the first threshold that matches
    from the highest down, or the fallback label when no category matches;
    the pipeline classifier returns the first three labels of that list.
    On the five-angle event the batch classifier returns the five labels
    in order and the pipeline classifier the first three. *)
Theorem C1_classifier_rule_table `{Builtins} :
  (forall (e : event) (x : Spec.readings),
      Spec.readings_of e = Some x ->
      BatchProcessor._identify_content_angles e = Ok (Spec.classify x) /\
      SocialContentGenerator.identify_content_angles e
      = Ok (take 3 (Spec.classify x))) /\
  (forall x : Spec.readings,
      Forall (fun category => (length (Spec.first_match x category) <= 1)%nat)
             Spec.rule_table) /\
  (forall (base_row : Pandas.Series)
          (hist_row trend_row market_row : option Pandas.Series) (e : event),
      DataProcessing._build_event_object base_row hist_row trend_row market_row = Ok e ->
      exists x : Spec.readings,
        Spec.readings_of e = Some x /\
        BatchProcessor._identify_content_angles e = Ok (Spec.classify x) /\
        SocialContentGenerator.identify_content_angles e
        = Ok (take 3 (Spec.classify x))) /\
  (forall (hist_df trend_df market_df : Pandas.DataFrame) (now : string)
          (base_row : Pandas.Series) (e : event),
      SocialContentGenerator.structure_row hist_df trend_df market_df now base_row
      = Ok e ->
      exists x : Spec.readings,
        Spec.readings_of e = Some x /\
        BatchProcessor._identify_content_angles e = Ok (Spec.classify x) /\
        SocialContentGenerator.identify_content_angles e
        = Ok (take 3 (Spec.classify x))) /\
  BatchProcessor._identify_content_angles Examples.five_angle_event
    = Ok ["major_spike"; "international_phenomenon"; "genre_leader";
          "pricing_surge"; "tour_standout"] /\
  SocialContentGenerator.identify_content_angles Examples.five_angle_event
    = Ok ["major_spike"; "international_phenomenon"; "genre_leader"].
Proof.
  split; [|split; [|split; [|split; [|split; reflexivity]]]].
  - intros e x Hx. split;
      [by apply batch_classifier_table | by apply pipeline_classifier_table].
  - intros x. apply Forall_forall. intros category _. apply first_match_at_most_one.
  - intros base_row hist_row trend_row market_row e He.
    destruct (build_event_numeric _ _ _ _ _ He) as [[x Hx] _].
    exists x. split; [exact Hx|]. split;
      [by apply batch_classifier_table | by apply pipeline_classifier_table].
  - intros hist_df trend_df market_df now base_row e He.
    destruct (structure_row_numeric _ _ _ _ _ _ He) as [[x Hx] _].
    exists x. split; [exact Hx|]. split;
      [by apply batch_classifier_table | by apply pipeline_classifier_table].
Qed.

Lemma C1_classifier_rule_table_witness :
  BatchProcessor._identify_content_angles Examples.five_angle_event
    = Ok ["major_spike"; "international_phenomenon"; "genre_leader";
          "pricing_surge"; "tour_standout"] /\
  BatchProcessor._identify_content_angles (with_rank empty_event (Some (VInt 3)))
    = Ok ["top_performance"] /\
  BatchProcessor._identify_content_angles (with_rank empty_event (Some (VInt 9)))
    = Ok ["trending_event"] /\
  (exists e : event,
      DataProcessing._build_event_object (H := Examples.plain_builtins)
        Examples.base_row_1 None None None = Ok e /\
      BatchProcessor._identify_content_angles e = Ok ["international_phenomenon"]).
Proof.
  pose proof (C1_classifier_rule_table (H := Examples.plain_builtins))
    as (Htable & _ & Hbuilt & _).
  split; [|split; [|split]].
  - exact (proj1 (Htable Examples.five_angle_event _ eq_refl)).
  - exact (proj1 (Htable (with_rank empty_event (Some (VInt 3))) _ eq_refl)).
  - exact (proj1 (Htable (with_rank empty_event (Some (VInt 9))) _ eq_refl)).
  - destruct (DataProcessing._build_event_object (H := Examples.plain_builtins)
                Examples.base_row_1 None None None) as [e|err] eqn:He;
      [|vm_compute in He; discriminate He].
    exists e. split; [reflexivity|].
    destruct (Hbuilt _ _ _ _ _ He) as (x & Hx & Hb & _).
    rewrite Hb. vm_compute in He. injection He as <-.
    vm_compute in Hx. injection Hx as <-. reflexivity.
Defined.

(** C2. For every enriched event whose rank, completeness score and
    career multiple are numbers, which every event built by either
    extractor is, and for every angle label, the priority scorer returns
    min(10, 5 + rank bonus + angle bonus + completeness bonus + career
    bonus), an integer in [1,10]; with rank 3, angle major_spike,
    completeness 1.0 and career multiple 6.0 the sum is 13 and the result
    is 10. *)
Theorem C2_priority_formula `{Builtins} (angle : string) :
  (forall (e : event) (r s m : pyfloat),
      as_number (rank_of e) = Some r ->
      as_number (completeness_score_of e) = Some s ->
      as_number (career_multiple_of (VInt 1) e) = Some m ->
      exists p : Z,
        BatchProcessor._calculate_content_priority e angle = Ok p /\
        p = Z.min 10 (5 + Spec.rank_bonus r + Spec.angle_bonus angle
                        + Spec.completeness_bonus s + Spec.career_bonus m) /\
        1 <= p <= 10) /\
  (forall (base_row : Pandas.Series)
          (hist_row trend_row market_row : option Pandas.Series) (e : event),
      DataProcessing._build_event_object base_row hist_row trend_row market_row = Ok e ->
      exists r s m : pyfloat,
        as_number (rank_of e) = Some r /\
        as_number (completeness_score_of e) = Some s /\
        as_number (career_multiple_of (VInt 1) e) = Some m /\
        BatchProcessor._calculate_content_priority e angle
        = Ok (Spec.priority r angle s m) /\
        1 <= Spec.priority r angle s m <= 10) /\
  (forall (hist_df trend_df market_df : Pandas.DataFrame) (now : string)
          (base_row : Pandas.Series) (e : event),
      SocialContentGenerator.structure_row hist_df trend_df market_df now base_row
      = Ok e ->
      exists r s m : pyfloat,
        as_number (rank_of e) = Some r /\
        as_number (completeness_score_of e) = Some s /\
        as_number (career_multiple_of (VInt 1) e) = Some m /\
        BatchProcessor._calculate_content_priority e angle
        = Ok (Spec.priority r angle s m) /\
        1 <= Spec.priority r angle s m <= 10) /\
  5 + Spec.rank_bonus (Finite 3) + Spec.angle_bonus "major_spike"
    + Spec.completeness_bonus (Finite 1) + Spec.career_bonus (Finite 6) = 13 /\
  BatchProcessor._calculate_content_priority Examples.boundary_event "major_spike"
    = Ok 10.
Proof.
  assert (Hrange : forall r s m, 1 <= Spec.priority r angle s m <= 10).
  { intros r s m. unfold Spec.priority. pose proof (bonus_bounds r s m angle). lia. }
  split; [|split; [|split; [|split; reflexivity]]].
  - intros e r s m Hr Hs Hm. exists (Spec.priority r angle s m).
    split; [by apply priority_formula|]. split; [reflexivity | apply Hrange].
  - intros base_row hist_row trend_row market_row e He.
    destruct (build_event_numeric _ _ _ _ _ He) as [_ (r & s & m & Hr & Hs & Hm)].
    exists r, s, m. repeat split; try assumption; try apply Hrange.
    by apply priority_formula.
  - intros hist_df trend_df market_df now base_row e He.
    destruct (structure_row_numeric _ _ _ _ _ _ He) as [_ (r & s & m & Hr & Hs & Hm)].
    exists r, s, m. repeat split; try assumption; try apply Hrange.
    by apply priority_formula.
Qed.

Lemma C2_priority_formula_witness :
  exists p : Z,
    BatchProcessor._calculate_content_priority Examples.boundary_event "major_spike"
      = Ok p /\ p = Z.min 10 13 /\ 1 <= p <= 10.
Proof.
  destruct (C2_priority_formula (H := Examples.plain_builtins) "major_spike")
    as [Hformula _].
  exact (Hformula Examples.boundary_event (Finite 3) (Finite 1) (Finite 6)
           eq_refl eq_refl eq_refl).
Defined.

(** C10. For every angle string, known or not, the batch priority scorer
    returns an integer between 5 and 10: on every event whose rank,
    completeness score and career multiple are numbers where present, on
    the event with no keys at all, where every default applies, and on
    every event built by either extractor. *)
Theorem C10_priority_range `{Builtins} (angle : string) :
  (forall (e : event) (r s m : pyfloat),
      as_number (rank_of e) = Some r ->
      as_number (completeness_score_of e) = Some s ->
      as_number (career_multiple_of (VInt 1) e) = Some m ->
      exists p : Z,
        BatchProcessor._calculate_content_priority e angle = Ok p /\ 5 <= p <= 10) /\
  (exists p : Z,
      BatchProcessor._calculate_content_priority empty_event angle = Ok p /\
      5 <= p <= 10) /\
  (forall (base_row : Pandas.Series)
          (hist_row trend_row market_row : option Pandas.Series) (e : event),
      DataProcessing._build_event_object base_row hist_row trend_row market_row = Ok e ->
      exists p : Z,
        BatchProcessor._calculate_content_priority e angle = Ok p /\ 5 <= p <= 10) /\
  (forall (hist_df trend_df market_df : Pandas.DataFrame) (now : string)
          (base_row : Pandas.Series) (e : event),
      SocialContentGenerator.structure_row hist_df trend_df market_df now base_row
      = Ok e ->
      exists p : Z,
        BatchProcessor._calculate_content_priority e angle = Ok p /\ 5 <= p <= 10).
Proof.
  assert (Hgen : forall e r s m,
             as_number (rank_of e) = Some r ->
             as_number (completeness_score_of e) = Some s ->
             as_number (career_multiple_of (VInt 1) e) = Some m ->
             exists p : Z,
               BatchProcessor._calculate_content_priority e angle = Ok p /\
               5 <= p <= 10).
  { intros e r s m Hr Hs Hm.
    exists (Spec.priority r angle s m). split; [by apply priority_formula|].
    unfold Spec.priority. pose proof (bonus_bounds r s m angle). lia. }
  split; [exact Hgen|]. split; [|split].
  - by apply (Hgen empty_event (Finite 10) (Finite 0) (Finite 1)).
  - intros base_row hist_row trend_row market_row e He. by eapply built_events_scored.
  - intros hist_df trend_df market_df now base_row e He.
    by eapply structured_events_scored.
Qed.

Lemma C10_priority_range_witness :
  exists p : Z,
    BatchProcessor._calculate_content_priority
      (with_rank empty_event (Some (VInt 2))) "not_a_known_angle" = Ok p /\
    5 <= p <= 10.
Proof.
  destruct (C10_priority_range (H := Examples.plain_builtins) "not_a_known_angle")
    as [Hgen _].
  exact (Hgen (with_rank empty_event (Some (VInt 2)))
           (Finite 2) (Finite 0) (Finite 1) eq_refl eq_refl eq_refl).
Defined.

(** ** The dashboard score *)

Lemma trunc_bounds (q : Q) (a b : Z) :
  0 <= a -> (inject_Z a <= q)%Q -> (q <= inject_Z b)%Q -> a <= trunc q <= b.
Proof.
  destruct q as [n d]. unfold trunc, Qle, inject_Z. cbn [Qnum Qden].
  intros Ha Hlo Hhi. rewrite Z.mul_1_r in *.
  assert (Hn : 0 <= n) by nia.
  rewrite Z.quot_div_nonneg by lia. split.
  - apply Z.div_le_lower_bound; lia.
  - apply Z.div_le_upper_bound; lia.
Qed.

Lemma angle_score_bounds (key : string) :
  1 <= StreamlitApp.lookup_default StreamlitApp.angle_scores key 1 <= 5.
Proof.
  unfold StreamlitApp.angle_scores. cbn [StreamlitApp.lookup_default].
  repeat match goal with
         | |- context [String.eqb ?k key] => destruct (String.eqb k key)
         end; lia.
Qed.

(** The dashboard's [calculate_priority_score] is another score: five
    times the completeness plus a weight of the angle, truncated and
    capped at 10. It lies in [1,10] for a completeness in [0,1], and is 1
    where the batch scorer gives at least 5. *)

Remark dashboard_score_range `{Builtins} (item : StreamlitApp.content_item) (q : Q) :
  StreamlitApp.data_quality_score item = Some (VFloat (Finite q)) ->
  (0 <= q <= 1)%Q ->
  exists p, StreamlitApp.calculate_priority_score item = Ok p /\ 1 <= p <= 10.
Proof.
  intros Hq [H0 H1]. unfold StreamlitApp.calculate_priority_score.
  rewrite Hq. cbn [dict_get mul_int float_mul_int bind add_int int].
  set (k := StreamlitApp.lookup_default _ _ 1).
  pose proof (angle_score_bounds
                (dict_get (StreamlitApp.content_angle item) "trending_event")) as Hk.
  fold k in Hk.
  eexists. split; [reflexivity|].
  assert (Hlo : (inject_Z 1 <= q * inject_Z 5 + inject_Z k)%Q).
  { apply Qle_trans with (inject_Z k); [rewrite <- Zle_Qle; lia|].
    apply Qle_trans with (0 + inject_Z k)%Q.
    - apply Qle_lteq. right. symmetry. apply Qplus_0_l.
    - apply Qplus_le_compat; [|apply Qle_refl].
      apply Qmult_le_0_compat; [exact H0 | discriminate]. }
  assert (Hhi : (q * inject_Z 5 + inject_Z k <= inject_Z 10)%Q).
  { apply Qle_trans with (1 * inject_Z 5 + inject_Z 5)%Q; [|discriminate].
    apply Qplus_le_compat.
    - apply Qmult_le_compat_r; [exact H1 | discriminate].
    - rewrite <- Zle_Qle. lia. }
  pose proof (trunc_bounds _ 1 10 ltac:(lia) Hlo Hhi). lia.
Qed.

Remark dashboard_score_differs :
  @StreamlitApp.calculate_priority_score Examples.plain_builtins
    {| StreamlitApp.data_quality_score := Some (VFloat (Finite 0));
       StreamlitApp.content_angle := Some "trending_event" |} = Ok 1.
Proof. reflexivity. Qed.

(** * Further properties *)

Import PyMore Notions.

(** ** Slices, sorting and comprehensions *)

Lemma slice_to_length {A : Type} (l : list A) (n : Z) :
  (length (slice_to l n) <= length l)%nat /\
  (0 <= n -> length (slice_to l n) = Nat.min (Z.to_nat n) (length l)).
Proof.
  unfold slice_to. destruct (Z.leb_spec 0 n).
  - rewrite length_take. split; [lia | intros _; lia].
  - rewrite length_take. split; [lia | intros; lia].
Qed.

Lemma slice_to_prefix {A : Type} (l : list A) (n : Z) :
  exists rest, l = slice_to l n ++ rest.
Proof.
  unfold slice_to. destruct (Z.leb 0 n); eexists; symmetry; apply take_drop.
Qed.

Lemma slice_to_all {A : Type} (l : list A) (n : Z) :
  Z.of_nat (length l) <= n -> slice_to l n = l.
Proof.
  intros Hn. unfold slice_to. destruct (Z.leb_spec 0 n); [|lia].
  apply take_ge. lia.
Qed.

Section Sorting.
Context {A : Type} (key : A -> Z).

Lemma insert_desc_perm (x : A) (l : list A) : insert_desc key x l ≡ₚ x :: l.
Proof.
  induction l as [|y l IH]; simpl; [done|].
  destruct (Z.ltb (key x) (key y)); [|done].
  rewrite IH. apply Permutation_swap.
Qed.

Lemma sorted_desc_perm (l : list A) : sorted_desc key l ≡ₚ l.
Proof.
  induction l as [|x l IH]; simpl; [done|].
  rewrite insert_desc_perm. by rewrite IH.
Qed.

Lemma sorted_desc_length (l : list A) : length (sorted_desc key l) = length l.
Proof. by rewrite sorted_desc_perm. Qed.

Lemma insert_desc_descending (x : A) (l : list A) :
  descending key l -> descending key (insert_desc key x l).
Proof.
  induction l as [|y l IH]; simpl.
  - intros _. by split.
  - intros [Hy Hl]. destruct (Z.ltb_spec (key x) (key y)) as [Hlt|Hge]; simpl.
    + split; [|by apply IH].
      rewrite insert_desc_perm. constructor; [lia | exact Hy].
    + split; [|by split].
      constructor; [lia|].
      eapply Forall_impl; [exact Hy|]. simpl. intros a Ha. lia.
Qed.

Lemma sorted_desc_descending (l : list A) : descending key (sorted_desc key l).
Proof.
  induction l as [|x l IH]; simpl; [done|].
  by apply insert_desc_descending.
Qed.

(** A list that is already in order is left as it is. *)
Lemma sorted_desc_fixed (l : list A) : descending key l -> sorted_desc key l = l.
Proof.
  induction l as [|x l IH]; simpl; [done|].
  intros [Hx Hl]. rewrite IH by done. destruct l as [|y l]; simpl; [done|].
  apply Forall_cons in Hx as [Hy _].
  destruct (Z.ltb_spec (key x) (key y)); [lia | done].
Qed.

(** Stability: among the items of one key, the order is that of the
    input. *)
Lemma insert_desc_stable (k : Z) (x : A) (l : list A) :
  List.filter (fun a => Z.eqb (key a) k) (insert_desc key x l)
  = List.filter (fun a => Z.eqb (key a) k) (x :: l).
Proof.
  induction l as [|y l IH]; simpl; [done|].
  destruct (Z.ltb_spec (key x) (key y)) as [Hlt|Hge]; [|done].
  simpl in *. rewrite IH.
  destruct (Z.eqb_spec (key x) k), (Z.eqb_spec (key y) k); try done. lia.
Qed.

Lemma sorted_desc_stable (k : Z) (l : list A) :
  List.filter (fun a => Z.eqb (key a) k) (sorted_desc key l)
  = List.filter (fun a => Z.eqb (key a) k) l.
Proof.
  induction l as [|x l IH]; simpl; [done|].
  rewrite insert_desc_stable. simpl. by rewrite IH.
Qed.

Lemma descending_take (l : list A) (n : nat) :
  descending key l -> descending key (take n l).
Proof.
  revert n. induction l as [|x l IH]; intros [|n]; simpl; try done.
  intros [Hx Hl]. split; [by apply Forall_take | by apply IH].
Qed.

Lemma descending_slice_to (l : list A) (n : Z) :
  descending key l -> descending key (slice_to l n).
Proof. unfold slice_to. destruct (Z.leb 0 n); apply descending_take. Qed.
End Sorting.

Lemma filter_raising_Ok {A : Type} (p : A -> result bool) (q : A -> bool) (l : list A) :
  Forall (fun x => p x = Ok (q x)) l ->
  filter_raising p l = Ok (List.filter q l).
Proof.
  induction 1 as [|x l Hx _ IH]; simpl; [done|].
  rewrite Hx, IH. simpl. by destruct (q x).
Qed.

Lemma filter_raising_inv {A : Type} (p : A -> result bool) (l r : list A) :
  filter_raising p l = Ok r ->
  Forall (fun x => exists b, p x = Ok b) l /\ r = List.filter (holds p) l.
Proof.
  revert r. induction l as [|x l IH]; simpl; intros r Hr.
  - injection Hr as <-. by split.
  - inv_bind Hr. inv_bind Hr. injection Hr as <-.
    destruct (IH _ Hv0) as (Hall & ->). split; [constructor; eauto|].
    assert (Hx : holds p x = v) by (unfold holds; by rewrite Hv).
    simpl. by rewrite Hx.
Qed.

Lemma map_raising_Ok {A B : Type} (f : A -> result B) (g : A -> B) (l : list A) :
  Forall (fun x => f x = Ok (g x)) l -> map_raising f l = Ok (map g l).
Proof.
  induction 1 as [|x l Hx _ IH]; simpl; [done|]. by rewrite Hx, IH.
Qed.

Lemma map_raising_inv {A B : Type} (f : A -> result B) (l : list A) (r : list B) :
  map_raising f l = Ok r -> Forall2 (fun x y => f x = Ok y) l r.
Proof.
  revert r. induction l as [|x l IH]; simpl; intros r Hr.
  - injection Hr as <-. constructor.
  - inv_bind Hr. inv_bind Hr. injection Hr as <-. constructor; auto.
Qed.

(** ** The classifier and the scorer on any dictionary *)

Lemma scorer_returns_numbers (e : event) (angle : string) (p : Z) :
  BatchProcessor._calculate_content_priority e angle = Ok p ->
  exists r s m : pyfloat,
    as_number (rank_of e) = Some r /\
    as_number (completeness_score_of e) = Some s /\
    as_number (career_multiple_of (VInt 1) e) = Some m.
Proof.
  unfold BatchProcessor._calculate_content_priority, rank_of, completeness_score_of,
    career_multiple_of, le, ge.
  destruct (as_number (dict_get (rank e) (VInt 10))) as [r|]; [|discriminate].
  cbn [bind].
  intros Hp.
  destruct (as_number (dict_get (completeness_score _) (VInt 0))) as [s|].
  - destruct (as_number (dict_get (vs_career_avg_multiple _) (VInt 1))) as [m|];
      [by exists r, s, m|].
    exfalso. revert Hp.
    destruct (float_le r 3); [|destruct (float_le r 5); [|destruct (float_le r 10)]];
      cbn [bind]; destruct (float_ge s 0.8); cbn [bind]; discriminate.
  - exfalso. revert Hp.
    destruct (float_le r 3); [|destruct (float_le r 5); [|destruct (float_le r 10)]];
      cbn [bind]; discriminate.
Qed.

Lemma scorer_returns_range (e : event) (angle : string) (p : Z) :
  BatchProcessor._calculate_content_priority e angle = Ok p -> 5 <= p <= 10.
Proof.
  intros Hp. destruct (scorer_returns_numbers e angle p Hp) as (r & s & m & Hr & Hs & Hm).
  rewrite (priority_formula e angle r s m Hr Hs Hm) in Hp. injection Hp as <-.
  unfold Spec.priority. pose proof (bonus_bounds r s m angle). lia.
Qed.

Ltac case_thresholds_in H :=
  repeat match type of H with
         | context [float_ge ?f ?c] => destruct (float_ge f c)
         | context [float_gt ?f ?c] => destruct (float_gt f c)
         | context [float_le ?f ?c] => destruct (float_le f c)
         end.

Ltac case_numbers_in H :=
  repeat match type of H with
         | context [as_number ?v] =>
             destruct (as_number v); cbn [bind] in H; try discriminate H
         end.

Lemma concrete_NoDup (l : list string) : bool_decide (NoDup l) = true -> NoDup l.
Proof. apply bool_decide_eq_true_1. Qed.

Lemma batch_angles_count (e : event) (angles : list string) :
  BatchProcessor._identify_content_angles e = Ok angles ->
  (1 <= length angles <= 5)%nat /\ NoDup angles.
Proof.
  unfold BatchProcessor._identify_content_angles, ge, gt, le. intros Ha.
  destruct (truthy (dict_get (tour_name (dict_get (tour_context e) no_tour)) VNone));
    case_numbers_in Ha; case_thresholds_in Ha; cbn in Ha;
    case_numbers_in Ha; case_thresholds_in Ha; cbn in Ha;
    try discriminate Ha;
    injection Ha as <-; (split; [simpl; lia | by apply concrete_NoDup]).
Qed.

Lemma pipeline_angles_count (e : event) (angles : list string) :
  SocialContentGenerator.identify_content_angles e = Ok angles ->
  (1 <= length angles <= 3)%nat /\ NoDup angles.
Proof.
  unfold SocialContentGenerator.identify_content_angles, ge, gt, le. intros Ha.
  destruct (truthy (dict_get (tour_name (dict_get (tour_context e) no_tour)) VNone));
    case_numbers_in Ha; case_thresholds_in Ha; cbn in Ha;
    case_numbers_in Ha; case_thresholds_in Ha; cbn in Ha;
    try discriminate Ha;
    injection Ha as <-; (split; [simpl; lia | by apply concrete_NoDup]).
Qed.

(** ** Items of one event *)

Lemma create_social_post_platform (cg : AIContextualizer.ContentGenerator) (e : event)
    (angle platform_ : string) (p : AIContextualizer.post) :
  AIContextualizer.create_social_post cg e angle platform_ = Ok p ->
  AIContextualizer.platform p = platform_.
Proof.
  unfold AIContextualizer.create_social_post. intros Hp. inv_bind Hp.
  destruct (AIContextualizer.chat_completions_create _ _ _ _).
  - by injection Hp as <-.
  - repeat match type of Hp with
           | context [if ?b then _ else _] => destruct b
           end; by injection Hp as <-.
Qed.

Lemma create_social_post_returns (cg : AIContextualizer.ContentGenerator) (e : event)
    (angle platform_ prompt : string) :
  AIContextualizer.template_func cg angle e platform_ = Ok prompt ->
  exists p, AIContextualizer.create_social_post cg e angle platform_ = Ok p.
Proof.
  intros Ht. unfold AIContextualizer.create_social_post. rewrite Ht. cbn [bind].
  destruct (AIContextualizer.chat_completions_create _ _ _ _); [by eexists|].
  repeat match goal with
         | |- context [if ?b then _ else _] => destruct b
         end; by eexists.
Qed.

Lemma content_item_of_fields (cg : AIContextualizer.ContentGenerator) (e : event)
    (angle generated_at_ : string) (item : ContentItem.content_item) :
  Batch.content_item_of cg e angle generated_at_ = Ok item ->
  ContentItem.content_angle item = Some angle /\
  ContentItem.platform item = Some "tiktok" /\
  (exists p, ContentItem.content_priority item = Some p /\
             BatchProcessor._calculate_content_priority e angle = Ok p) /\
  exportable item /\
  (exists post,
      AIContextualizer.create_social_post cg e angle "tiktok" = Ok post /\
      ContentItem.visual_text item = Some (AIContextualizer.visual_text post) /\
      ContentItem.caption item = Some (AIContextualizer.caption post)) /\
  ContentItem.content item = None.
Proof.
  unfold Batch.content_item_of. intros Hi. inv_bind Hi.
  rename v into post, Hv into Hpost.
  repeat inv_bind Hi. injection Hi as <-. cbn.
  split; [done|]. split; [by rewrite (create_social_post_platform _ _ _ _ _ Hpost)|].
  split; [by eexists|]. split.
  - unfold exportable. cbn. repeat (split; [by eexists|]).
    eexists. split; [reflexivity|]. cbn. repeat split; by eexists.
  - split; [|done]. exists post. by repeat split.
Qed.

Lemma subscript_present {A : Type} (field : option A) (key : string) :
  is_Some field -> exists v, subscript field key = Ok v.
Proof. intros [v ->]. by exists v. Qed.

Lemma content_item_of_total (cg : AIContextualizer.ContentGenerator) (e : event)
    (angle generated_at_ prompt : string) (p : Z) :
  has_item_keys e ->
  BatchProcessor._calculate_content_priority e angle = Ok p ->
  AIContextualizer.template_func cg angle e "tiktok" = Ok prompt ->
  exists item, Batch.content_item_of cg e angle generated_at_ = Ok item.
Proof.
  intros (H1 & H2 & H3 & H4 & H5 & H6 & H7 & H8) Hp Ht.
  destruct (create_social_post_returns _ _ _ _ _ Ht) as [post Hpost].
  unfold Batch.content_item_of. rewrite Hpost.
  destruct H1 as [? ->], H2 as [? ->], H3 as [? ->], H4 as [? ->], H5 as [? ->],
    H6 as [? ->], H7 as [? ->], H8 as [? ->].
  cbn [bind subscript]. rewrite Hp. cbn [bind]. by eexists.
Qed.

Section AngleLoop.
Context (cg : AIContextualizer.ContentGenerator) (e : event)
        (generated_at_ : nat -> string).

Lemma angle_loop_app (angles : list string) (j : nat)
    (acc : list ContentItem.content_item) :
  Batch.angle_loop cg e generated_at_ j angles acc
  = acc ++ Batch.angle_loop cg e generated_at_ j angles [].
Proof.
  revert j acc. induction angles as [|angle angles IH]; intros j acc; simpl.
  - by rewrite app_nil_r.
  - destruct (Batch.content_item_of cg e angle (generated_at_ j)) as [item|err].
    + rewrite (IH (S j) (acc ++ [item])), (IH (S j) [item]).
      by rewrite <- app_assoc.
    + apply IH.
Qed.

(** Each angle gives at most one item, in the order of the angles. *)
Lemma angle_loop_items (angles : list string) (j : nat) :
  exists kept : list string,
    sublist kept angles /\
    Forall2 (fun angle item =>
               exists t, Batch.content_item_of cg e angle t = Ok item)
            kept (Batch.angle_loop cg e generated_at_ j angles []).
Proof.
  revert j. induction angles as [|angle angles IH]; intros j; simpl.
  - exists []. split; constructor.
  - destruct (Batch.content_item_of cg e angle (generated_at_ j)) as [item|err] eqn:Hi.
    + rewrite angle_loop_app. destruct (IH (S j)) as (kept & Hsub & Hall).
      exists (angle :: kept). split; [by constructor|].
      simpl. constructor; [by eexists | exact Hall].
    + destruct (IH (S j)) as (kept & Hsub & Hall).
      exists kept. split; [by constructor | exact Hall].
Qed.

(** When the body raises for no angle, every angle gives its item. *)
Lemma angle_loop_all (angles : list string) (j : nat) :
  Forall (fun angle => forall t, exists item,
            Batch.content_item_of cg e angle t = Ok item) angles ->
  Forall2 (fun angle item =>
             exists t, Batch.content_item_of cg e angle t = Ok item)
          angles (Batch.angle_loop cg e generated_at_ j angles []).
Proof.
  intros Hall. revert j. induction Hall as [|angle angles Ha _ IH]; intros j; simpl.
  - constructor.
  - destruct (Ha (generated_at_ j)) as [item Hi]. rewrite Hi.
    rewrite angle_loop_app. simpl. constructor; [by eexists | apply IH].
Qed.
End AngleLoop.

(** When the classifier returns, every item of the event can be
    exported. *)
Lemma single_event_exportable (cg : AIContextualizer.ContentGenerator) (e : event)
    (max_content : Z) (generated_at_ : nat -> string) (angles : list string) :
  BatchProcessor._identify_content_angles e = Ok angles ->
  exists items,
    Batch._process_single_event cg e max_content generated_at_ = Ok items /\
    Forall exportable items.
Proof.
  intros Ha. unfold Batch._process_single_event. rewrite Ha. cbn [bind].
  destruct (angle_loop_items cg e generated_at_ (slice_to angles max_content) 0)
    as (kept & _ & Hall).
  eexists. split; [reflexivity|].
  induction Hall as [|angle item kept items [t Hi] _ IH]; constructor; [|exact IH].
  by apply content_item_of_fields in Hi as (_ & _ & _ & Hx & _).
Qed.

(** X1. [_process_single_event] raises only what the classifier raises.
    When the classifier returns, it returns at most one item per
    selected angle, in the order of the angles: at most five, and at most
    [max_content] when that is not negative. Every item is for TikTok,
    has a priority between 5 and 10 and has every key that the summary,
    the filter and the export read. *)
Theorem single_event_items (cg : AIContextualizer.ContentGenerator) (e : event)
    (max_content : Z) (generated_at_ : nat -> string) :
  (forall err,
      BatchProcessor._identify_content_angles e = Raise err ->
      Batch._process_single_event cg e max_content generated_at_ = Raise err) /\
  (forall angles,
      BatchProcessor._identify_content_angles e = Ok angles ->
      exists items kept,
        Batch._process_single_event cg e max_content generated_at_ = Ok items /\
        sublist kept (slice_to angles max_content) /\
        map ContentItem.content_angle items = map Some kept /\
        (length items <= 5)%nat /\
        (0 <= max_content -> Z.of_nat (length items) <= max_content) /\
        Forall (fun item =>
                  ContentItem.platform item = Some "tiktok" /\
                  (exists p, ContentItem.content_priority item = Some p /\ 5 <= p <= 10) /\
                  exportable item) items).
Proof.
  split.
  - intros err Herr. unfold Batch._process_single_event. by rewrite Herr.
  - intros angles Ha. unfold Batch._process_single_event. rewrite Ha. cbn [bind].
    destruct (angle_loop_items cg e generated_at_ (slice_to angles max_content) 0)
      as (kept & Hsub & Hall).
    set (items := Batch.angle_loop _ _ _ _ _ _) in *.
    exists items, kept. split; [done|]. split; [exact Hsub|].
    assert (Hlen : length items = length kept) by (symmetry; by eapply Forall2_length).
    pose proof (sublist_length _ _ Hsub) as Hk.
    destruct (slice_to_length angles max_content) as [Hs1 Hs2].
    destruct (batch_angles_count e angles Ha) as [[_ H5] _].
    split; [|split; [lia|split; [intros Hmax; rewrite (Hs2 Hmax) in Hk; lia|]]].
    + clear -Hall. induction Hall as [|angle item kept items [t Hi] _ IH]; simpl; [done|].
      apply content_item_of_fields in Hi as (-> & _). by rewrite IH.
    + clear -Hall. induction Hall as [|angle item kept items [t Hi] _ IH];
        constructor; [|exact IH].
      apply content_item_of_fields in Hi as (_ & Hp & (p & Hp1 & Hp2) & Hx & _).
      split; [exact Hp|]. split; [|exact Hx].
      exists p. split; [exact Hp1|]. by eapply scorer_returns_range.
Qed.

Lemma built_event_item_keys `{Builtins} (base_row : Pandas.Series)
    (hist_row trend_row market_row : option Pandas.Series) (e : event) :
  DataProcessing._build_event_object base_row hist_row trend_row market_row = Ok e ->
  has_item_keys e.
Proof.
  unfold DataProcessing._build_event_object. intros He.
  repeat inv_bind He. injection He as <-. unfold has_item_keys. cbn.
  repeat split; by eexists.
Qed.

Lemma structured_event_item_keys `{Builtins} (hist_df trend_df market_df : Pandas.DataFrame)
    (now_ : string) (base_row : Pandas.Series) (e : event) :
  SocialContentGenerator.structure_row hist_df trend_df market_df now_ base_row = Ok e ->
  has_item_keys e.
Proof.
  unfold SocialContentGenerator.structure_row. intros He.
  repeat inv_bind He. injection He as <-. unfold has_item_keys. cbn.
  repeat split; by eexists.
Qed.

(** One item per selected angle, whatever the endpoint answers. *)
Lemma keyed_event_items (cg : AIContextualizer.ContentGenerator) (e : event)
    (max_content : Z) (generated_at_ : nat -> string) (angles : list string) :
  has_item_keys e ->
  (forall angle, exists p, BatchProcessor._calculate_content_priority e angle = Ok p) ->
  (forall angle, exists prompt,
      AIContextualizer.template_func cg angle e "tiktok" = Ok prompt) ->
  BatchProcessor._identify_content_angles e = Ok angles ->
  exists items,
    Batch._process_single_event cg e max_content generated_at_ = Ok items /\
    Forall2 (fun angle item =>
               ContentItem.content_angle item = Some angle /\
               exists post,
                 AIContextualizer.create_social_post cg e angle "tiktok" = Ok post /\
                 ContentItem.visual_text item = Some (AIContextualizer.visual_text post) /\
                 ContentItem.caption item = Some (AIContextualizer.caption post))
            (slice_to angles max_content) items.
Proof.
  intros Hkeys Hscore Htemplate Ha.
  unfold Batch._process_single_event. rewrite Ha. cbn [bind].
  eexists. split; [reflexivity|].
  eapply Forall2_impl.
  - apply angle_loop_all. apply Forall_forall. intros angle _ t.
    destruct (Hscore angle) as [p Hp]. destruct (Htemplate angle) as [prompt Hprompt].
    by eapply content_item_of_total.
  - simpl. intros angle item [t Hi].
    apply content_item_of_fields in Hi as (Hangle & _ & _ & _ & Hpost & _). by split.
Qed.

(** X2. For an event that either extractor built, and a generator whose
    prompt template returns, [_process_single_event] returns one item
    for each selected angle, in order, whatever the endpoint answers:
    when the call fails, the item carries the error message as its
    visual text and caption instead of being skipped. *)
Theorem extracted_event_items `{Builtins} (cg : AIContextualizer.ContentGenerator)
    (hist_df trend_df market_df : Pandas.DataFrame) (now_ : string)
    (base_row : Pandas.Series) (hist_row trend_row market_row : option Pandas.Series)
    (e : event) (max_content : Z) (generated_at_ : nat -> string) :
  DataProcessing._build_event_object base_row hist_row trend_row market_row = Ok e \/
  SocialContentGenerator.structure_row hist_df trend_df market_df now_ base_row = Ok e ->
  (forall angle, exists prompt,
      AIContextualizer.template_func cg angle e "tiktok" = Ok prompt) ->
  exists angles items,
    BatchProcessor._identify_content_angles e = Ok angles /\
    Batch._process_single_event cg e max_content generated_at_ = Ok items /\
    map ContentItem.content_angle items = map Some (slice_to angles max_content) /\
    (forall error_msg,
        (forall model_ system prompt,
            AIContextualizer.chat_completions_create cg model_ system prompt
            = AIContextualizer.Failed error_msg) ->
        Forall (fun item =>
                  ContentItem.visual_text item
                  = Some ("❌ " +:+ Spec.user_message (AIContextualizer.model cg) error_msg
                                     (Spec.classify_error error_msg)) /\
                  ContentItem.caption item = ContentItem.visual_text item) items).
Proof.
  intros Hbuilt Htemplate.
  assert (Hshape : has_item_keys e /\
                   (exists x, Spec.readings_of e = Some x) /\
                   exists r s m,
                     as_number (rank_of e) = Some r /\
                     as_number (completeness_score_of e) = Some s /\
                     as_number (career_multiple_of (VInt 1) e) = Some m).
  { destruct Hbuilt as [He|He].
    - split; [by eapply built_event_item_keys | by eapply build_event_numeric].
    - split; [by eapply structured_event_item_keys | by eapply structure_row_numeric]. }
  destruct Hshape as (Hkeys & [x Hx] & (r & s & m & Hr & Hs & Hm)).
  pose proof (batch_classifier_table e x Hx) as Ha.
  destruct (keyed_event_items cg e max_content generated_at_ (Spec.classify x) Hkeys)
    as (items & Hi & Hall);
    [intros angle; eexists; by apply priority_formula | exact Htemplate | exact Ha |].
  exists (Spec.classify x), items. split; [exact Ha|]. split; [exact Hi|]. split.
  - clear -Hall. induction Hall as [|angle item angles items [Hangle _] _ IH]; simpl; [done|].
    by rewrite Hangle, IH.
  - intros error_msg Hfail. clear -Hall Hfail Htemplate.
    induction Hall as [|angle item angles items (_ & post & Hpost & Hv & Hc) _ IH];
      constructor; [|exact IH].
    destruct (Htemplate angle) as [prompt Hprompt].
    destruct (error_message_chosen cg e angle "tiktok" prompt error_msg Hprompt
                (Hfail _ _ _)) as (p & Hp & _ & _ & Hvis & Hcap).
    rewrite Hpost in Hp. injection Hp as <-.
    rewrite Hv, Hc, Hcap, Hvis. by split.
Qed.

(** ** A batch of events *)

Lemma summary_reads_exportable (content : list ContentItem.content_item) :
  Forall exportable content -> Batch._print_batch_summary content = Ok tt.
Proof.
  induction 1 as [|item content Hx _ IH]; simpl; [done|].
  destruct Hx as (_ & _ & _ & _ & _ & [a ->] & _ & _ & _ & [p ->] & _).
  cbn [subscript bind]. exact IH.
Qed.

Lemma single_event_classifies (cg : AIContextualizer.ContentGenerator) (e : event)
    (max_content : Z) (generated_at_ : nat -> string) :
  (classifies e = true /\
   exists items, Batch._process_single_event cg e max_content generated_at_ = Ok items /\
                 Forall exportable items) \/
  (classifies e = false /\
   exists err, Batch._process_single_event cg e max_content generated_at_ = Raise err).
Proof.
  unfold classifies.
  destruct (BatchProcessor._identify_content_angles e) as [angles|err] eqn:Ha.
  - left. split; [done|]. by eapply single_event_exportable.
  - right. split; [done|]. exists err.
    unfold Batch._process_single_event. by rewrite Ha.
Qed.

Section BatchLoop.
Context `{Batch.Clock} (cg : AIContextualizer.ContentGenerator) (delay : value)
        (max_content : Z) (total : nat).

Lemma batch_contents_exportable (i : nat) (events : list event) :
  Forall exportable (batch_contents cg max_content i events).
Proof.
  revert i. induction events as [|e events IH]; intros i; simpl; [constructor|].
  apply Forall_app. split; [|apply IH].
  destruct (single_event_classifies cg e max_content (Batch.now i))
    as [(_ & items & -> & Hx) | (_ & err & ->)]; [exact Hx | constructor].
Qed.

Lemma batch_contents_no_content (i : nat) (events : list event) :
  Forall (fun item => ContentItem.content item = None)
         (batch_contents cg max_content i events).
Proof.
  revert i. induction events as [|e events IH]; intros i; simpl; [constructor|].
  apply Forall_app. split; [|apply IH].
  unfold Batch._process_single_event.
  destruct (BatchProcessor._identify_content_angles e) as [angles|err]; [|constructor].
  cbn [bind].
  destruct (angle_loop_items cg e (Batch.now i) (slice_to angles max_content) 0)
    as (kept & _ & Hall).
  induction Hall as [|angle item kept' items [t Hi] _ IHall]; constructor; [|exact IHall].
  by apply content_item_of_fields in Hi as (_ & _ & _ & _ & _ & Hc).
Qed.

Lemma batch_loop_content (st : Batch.batch_state) (i : nat) (events : list event) :
  Batch.all_content (Batch.batch_loop cg delay max_content total st i events)
  = Batch.all_content st ++ batch_contents cg max_content i events.
Proof.
  revert st i. induction events as [|e events IH]; intros st i; simpl.
  - by rewrite app_nil_r.
  - rewrite IH. unfold Batch.batch_step.
    destruct (Batch._process_single_event cg e max_content (Batch.now i)) as [items|err].
    + rewrite app_assoc.
      destruct (i <? total)%nat; [destruct (Batch.sleep delay)|]; reflexivity.
    + simpl. reflexivity.
Qed.

Lemma batch_loop_processed (st : Batch.batch_state) (i : nat) (events : list event) :
  Batch.processed (Batch.batch_loop cg delay max_content total st i events)
  = Batch.processed st + Z.of_nat (length (List.filter classifies events)).
Proof.
  revert st i. induction events as [|e events IH]; intros st i; simpl; [lia|].
  rewrite IH. unfold Batch.batch_step.
  destruct (single_event_classifies cg e max_content (Batch.now i))
    as [(-> & items & -> & _) | (-> & err & ->)]; simpl.
  - destruct (i <? total)%nat; [destruct (Batch.sleep delay)|]; simpl; lia.
  - lia.
Qed.

Lemma batch_loop_errors_slept (st : Batch.batch_state) (i : nat) (events : list event) :
  Batch.sleep delay = Ok tt ->
  Batch.errors (Batch.batch_loop cg delay max_content total st i events)
  = Batch.errors st
    + (Z.of_nat (length events) - Z.of_nat (length (List.filter classifies events))).
Proof.
  intros Hsleep. revert st i. induction events as [|e events IH]; intros st i; simpl; [lia|].
  rewrite IH. unfold Batch.batch_step. rewrite Hsleep.
  destruct (single_event_classifies cg e max_content (Batch.now i))
    as [(-> & items & -> & _) | (-> & err & ->)]; simpl.
  - destruct (i <? total)%nat; simpl; lia.
  - lia.
Qed.

Lemma batch_loop_errors_awake (st : Batch.batch_state) (i : nat) (events : list event)
    (err : exn) :
  Batch.sleep delay = Raise err ->
  Forall (fun e => classifies e = true) events ->
  (i + length events = S total)%nat ->
  Batch.errors (Batch.batch_loop cg delay max_content total st i events)
  = Batch.errors st + Z.max 0 (Z.of_nat (length events) - 1).
Proof.
  intros Hsleep Hall. revert st i.
  induction Hall as [|e events He _ IH]; intros st i Hi; simpl; [lia|].
  simpl in Hi. rewrite IH by lia. unfold Batch.batch_step. rewrite Hsleep.
  destruct (single_event_classifies cg e max_content (Batch.now i))
    as [(_ & items & -> & _) | (Hc & _)]; [|congruence].
  destruct (Nat.ltb_spec i total); simpl; lia.
Qed.
End BatchLoop.

Lemma process_events_batch_content `{Batch.Clock} (self : Batch.processor)
    (events : list event) (cg : AIContextualizer.ContentGenerator)
    (max_content_per_event : Z) :
  fst (Batch.process_events_batch self events cg max_content_per_event)
  = Ok (batch_contents cg max_content_per_event 1 events).
Proof.
  unfold Batch.process_events_batch. cbn [fst].
  rewrite batch_loop_content. cbn [Batch.all_content]. rewrite app_nil_l.
  by rewrite (summary_reads_exportable _ (batch_contents_exportable cg _ 1 events)).
Qed.

(** X3. [process_events_batch] never raises: it returns the items of the
    events in order, an event on which the classifier raises giving
    none, and every item has the keys that the summary, the filter and
    the export read. Afterwards [processed_count] is the number of events
    on which the classifier returned. When the sleep between two events
    returns, [processed_count + error_count] is the number of events.
    When it raises (a negative delay), every event but the last is
    counted as processed and as failed. *)
Theorem batch_counters `{Batch.Clock} (self : Batch.processor) (events : list event)
    (cg : AIContextualizer.ContentGenerator) (max_content_per_event : Z) :
  let out := Batch.process_events_batch self events cg max_content_per_event in
  let total := Z.of_nat (length events) in
  let classified := Z.of_nat (length (List.filter classifies events)) in
  fst out = Ok (batch_contents cg max_content_per_event 1 events) /\
  Forall exportable (batch_contents cg max_content_per_event 1 events) /\
  Batch.processed_count (snd out) = classified /\
  Batch.start_time (snd out) = Some Batch.started /\
  (Batch.sleep (Batch.rate_limit_delay self) = Ok tt ->
   Batch.processed_count (snd out) + Batch.error_count (snd out) = total) /\
  (forall err,
      Batch.sleep (Batch.rate_limit_delay self) = Raise err ->
      classified = total ->
      Batch.processed_count (snd out) = total /\
      Batch.error_count (snd out) = Z.max 0 (total - 1)).
Proof.
  intros out total classified. subst out. unfold Batch.process_events_batch.
  cbn [fst snd Batch.processed_count Batch.error_count Batch.start_time].
  rewrite batch_loop_content, batch_loop_processed. cbn [Batch.all_content Batch.processed].
  rewrite app_nil_l.
  pose proof (batch_contents_exportable cg max_content_per_event 1 events) as Hx.
  rewrite (summary_reads_exportable _ Hx). cbn [bind].
  split; [done|]. split; [exact Hx|]. split; [subst classified; lia|].
  split; [done|]. split.
  - intros Hsleep. rewrite (batch_loop_errors_slept _ _ _ _ _ _ _ Hsleep).
    cbn [Batch.errors]. subst total classified. lia.
  - intros err Hsleep Hall. split; [subst classified total; lia|].
    rewrite (batch_loop_errors_awake _ _ _ _ _ _ _ err Hsleep); [done| |simpl; lia].
    subst classified total.
    assert (Hlen : length (List.filter classifies events) = length events) by lia.
    clear -Hlen. induction events as [|e events IH]; [constructor|].
    simpl in Hlen. pose proof (filter_length classifies events) as Hle.
    destruct (classifies e) eqn:He; simpl in Hlen; [|lia].
    constructor; [exact He|]. apply IH. lia.
Qed.

(** ** Sorting items by priority *)

Lemma insert_desc_map {A B : Type} (key : B -> Z) (f : A -> B) (x : A) (l : list A) :
  insert_desc key (f x) (map f l) = map f (insert_desc (fun a => key (f a)) x l).
Proof.
  induction l as [|y l IH]; simpl; [done|].
  destruct (Z.ltb (key (f x)) (key (f y))); simpl; [by rewrite IH | done].
Qed.

Lemma sorted_desc_map {A B : Type} (key : B -> Z) (f : A -> B) (l : list A) :
  sorted_desc key (map f l) = map f (sorted_desc (fun a => key (f a)) l).
Proof.
  induction l as [|x l IH]; simpl; [done|]. by rewrite IH, insert_desc_map.
Qed.

Lemma sorted_by_priority_inv (content r : list ContentItem.content_item) :
  Batch.sorted_by_priority content = Ok r ->
  Forall (fun item => is_Some (ContentItem.content_priority item)) content /\
  r = sorted_desc priority_of content.
Proof.
  unfold Batch.sorted_by_priority. intros Hr. inv_bind Hr. injection Hr as <-.
  apply map_raising_inv in Hv.
  assert (Hkeyed : Forall (fun item => is_Some (ContentItem.content_priority item)) content /\
                   v = map (fun item => (priority_of item, item)) content).
  { clear -Hv. induction Hv as [|item y content keyed Hy _ [IH1 IH2]]; [by split|].
    unfold priority_of, subscript in *.
    destruct (ContentItem.content_priority item) as [p|] eqn:Hp; [|discriminate].
    cbn [bind] in Hy. injection Hy as <-. split; [constructor; [by eexists|done]|].
    simpl. rewrite Hp. simpl. by rewrite IH2. }
  destruct Hkeyed as [Hall ->]. split; [exact Hall|].
  rewrite (sorted_desc_map fst). rewrite map_map. simpl. apply map_id.
Qed.

Lemma sorted_by_priority_Ok (content : list ContentItem.content_item) :
  Forall (fun item => is_Some (ContentItem.content_priority item)) content ->
  Batch.sorted_by_priority content = Ok (sorted_desc priority_of content).
Proof.
  intros Hall. unfold Batch.sorted_by_priority.
  rewrite (map_raising_Ok _ (fun item => (priority_of item, item))).
  - cbn [bind]. f_equal. rewrite (sorted_desc_map fst). rewrite map_map. simpl.
    apply map_id.
  - eapply Forall_impl; [exact Hall|]. simpl. intros item [p Hp].
    unfold priority_of. by rewrite Hp.
Qed.

Lemma sorted_by_priority_missing (content : list ContentItem.content_item) :
  Exists (fun item => ContentItem.content_priority item = None) content ->
  Batch.sorted_by_priority content = Raise (KeyError "content_priority").
Proof.
  unfold Batch.sorted_by_priority. intros Hex.
  assert (Hraise : map_raising
                     (fun item =>
                        priority ← subscript (ContentItem.content_priority item)
                                     "content_priority";
                        mret (priority, item)) content
                   = Raise (KeyError "content_priority")).
  { induction content as [|item content IH]; [by apply Exists_nil in Hex|].
    simpl. destruct (ContentItem.content_priority item) as [p|] eqn:Hp; simpl; [|done].
    apply Exists_cons in Hex as [Hex|Hex]; [congruence|]. by rewrite IH. }
  by rewrite Hraise.
Qed.

(** ** Filtering *)

Lemma filter_all_true {A : Type} (q : A -> bool) (l : list A) :
  Forall (fun x => q x = true) l -> List.filter q l = l.
Proof. induction 1 as [|x l Hx _ IH]; simpl; [done|]. by rewrite Hx, IH. Qed.

Lemma filter_submseteq {A : Type} (q : A -> bool) (l : list A) : List.filter q l ⊆+ l.
Proof.
  induction l as [|x l IH]; simpl; [done|].
  destruct (q x); [by constructor | by apply submseteq_cons].
Qed.

Lemma slice_to_submseteq {A : Type} (l : list A) (n : Z) : slice_to l n ⊆+ l.
Proof.
  destruct (slice_to_prefix l n) as [rest Hrest].
  rewrite Hrest at 2. apply submseteq_inserts_r. done.
Qed.

Lemma Forall_sub_multiset {A : Type} (P : A -> Prop) (l r : list A) :
  r ⊆+ l -> Forall P l -> Forall P r.
Proof.
  intros Hsub Hall. apply Forall_forall. intros x Hx.
  eapply Forall_forall; [exact Hall|]. by eapply elem_of_submseteq.
Qed.

(** The steps of [filter_content_by_criteria] when it returns. *)
Lemma filter_content_steps (content : list ContentItem.content_item) (min_priority : Z)
    (max_items : option Z) (preferred_angles : option (list string))
    (r : list ContentItem.content_item) :
  Batch.filter_content_by_criteria content min_priority max_items preferred_angles = Ok r ->
  exists kept : list ContentItem.content_item,
    kept ⊆+ content /\
    Forall (fun item => exists p, ContentItem.content_priority item = Some p /\
                                  min_priority <= p) kept /\
    (forall a angles, preferred_angles = Some (a :: angles) ->
       Forall (fun item => exists x, ContentItem.content_angle item = Some x /\
                                     x ∈ a :: angles) kept) /\
    ((preferred_angles = None \/ preferred_angles = Some []) ->
     kept = List.filter (fun item => Z.leb min_priority (priority_of item)) content) /\
    r = match max_items with
        | Some m =>
            if negb (Z.eqb m 0) && Z.ltb m (Z.of_nat (length kept))
            then slice_to (sorted_desc priority_of kept) m
            else sorted_desc priority_of kept
        | None => sorted_desc priority_of kept
        end.
Proof.
  unfold Batch.filter_content_by_criteria. intros Hr.
  inv_bind Hr. rename v into f1, Hv into H1.
  inv_bind Hr. rename v into f2, Hv into H2.
  inv_bind Hr. rename v into f3, Hv into H3.
  injection Hr as <-.
  apply filter_raising_inv in H1 as [Hall1 ->].
  apply sorted_by_priority_inv in H3 as [Hp3 ->].
  rewrite sorted_desc_length.
  set (p1 := fun item : ContentItem.content_item =>
               priority ← subscript (ContentItem.content_priority item) "content_priority";
               mret (Z.leb min_priority priority)) in *.
  assert (Hf1 : Forall (fun item => exists p, ContentItem.content_priority item = Some p /\
                                              min_priority <= p)
                       (List.filter (holds p1) content)).
  { apply Forall_forall. intros item Hin. apply list_elem_of_In, filter_In in Hin as [_ Hh].
    unfold holds, p1, subscript in Hh.
    destruct (ContentItem.content_priority item) as [p|]; [|discriminate].
    cbn [bind] in Hh. exists p. split; [done|]. by apply Z.leb_le. }
  assert (Hsame : List.filter (holds p1) content
                  = List.filter (fun item => Z.leb min_priority (priority_of item)) content).
  { clear -Hall1. subst p1.
    induction Hall1 as [|item content [b Hb] _ IH]; simpl; [done|].
    rewrite IH. unfold holds, priority_of, subscript in *.
    destruct (ContentItem.content_priority item) as [p|]; [done|discriminate]. }
  exists f2. destruct preferred_angles as [[|a angles]|].
  - injection H2 as <-. split; [apply filter_submseteq|]. split; [exact Hf1|].
    split; [discriminate|]. split; [by intros _|done].
  - apply filter_raising_inv in H2 as [Hall2 ->].
    split; [etrans; apply filter_submseteq|].
    split; [eapply Forall_sub_multiset; [apply filter_submseteq|exact Hf1]|].
    split; [|split; [intros [|]; discriminate|done]].
    intros a' angles' [= <- <-]. apply Forall_forall. intros item Hin.
    apply list_elem_of_In, filter_In in Hin as [_ Hh].
    unfold holds, subscript in Hh.
    destruct (ContentItem.content_angle item) as [x|]; [|discriminate].
    cbn [bind] in Hh. exists x. split; [done|].
    apply existsb_exists in Hh as (y & Hy & Heq).
    apply String.eqb_eq in Heq as ->. by apply list_elem_of_In.
  - injection H2 as <-. split; [apply filter_submseteq|]. split; [exact Hf1|].
    split; [discriminate|]. split; [by intros _|done].
Qed.

(** What is kept is in order and meets the criteria. *)
Lemma filter_content_kept (content : list ContentItem.content_item) (min_priority : Z)
    (max_items : option Z) (preferred_angles : option (list string))
    (r : list ContentItem.content_item) :
  Batch.filter_content_by_criteria content min_priority max_items preferred_angles = Ok r ->
  descending priority_of r /\
  Forall (fun item => exists p, ContentItem.content_priority item = Some p /\
                                min_priority <= p) r /\
  (forall a angles, preferred_angles = Some (a :: angles) ->
     Forall (fun item => exists x, ContentItem.content_angle item = Some x /\
                                   x ∈ a :: angles) r) /\
  (forall m, max_items = Some m -> 0 < m -> Z.of_nat (length r) <= m).
Proof.
  intros Hr. apply filter_content_steps in Hr
    as (kept & Hsub & Hmin & Hangle & Hkept & ->).
  set (sorted := sorted_desc priority_of kept).
  assert (Hperm : sorted ≡ₚ kept) by apply sorted_desc_perm.
  assert (Hdesc : descending priority_of sorted) by apply sorted_desc_descending.
  set (r := match max_items with
            | Some m =>
                if negb (Z.eqb m 0) && Z.ltb m (Z.of_nat (length kept))
                then slice_to sorted m else sorted
            | None => sorted
            end).
  assert (Hcut : r = sorted \/ exists m, max_items = Some m /\ r = slice_to sorted m).
  { subst r. destruct max_items as [m|]; [|by left].
    destruct (negb (Z.eqb m 0) && Z.ltb m (Z.of_nat (length kept))); [right; eauto | by left]. }
  assert (Hrs : r ⊆+ sorted).
  { destruct Hcut as [->|(m & _ & ->)]; [done | apply slice_to_submseteq]. }
  assert (Hrk : r ⊆+ kept) by (by rewrite <- Hperm).
  split; [destruct Hcut as [->|(m & _ & ->)]; [done | by apply descending_slice_to]|].
  split; [eapply Forall_sub_multiset; [exact Hrk|exact Hmin]|].
  split; [intros a angles Hp;
          eapply Forall_sub_multiset; [exact Hrk|by eapply Hangle]|].
  intros m -> Hm. subst r. rewrite <- (sorted_desc_length priority_of kept). fold sorted.
  destruct (Z.eqb_spec m 0); [lia|]. cbn [negb andb].
  destruct (Z.ltb_spec m (Z.of_nat (length sorted))) as [Hlt|Hge]; [|lia].
  destruct (slice_to_length sorted m) as [_ Hlen]. rewrite Hlen by lia. lia.
Qed.

(** X4. What [filter_content_by_criteria] returns is taken from the
    content, item for item, in order of priority, highest first; every
    item has a priority of at least [min_priority] and, when preferred
    angles are given, one of those angles; a positive [max_items] bounds
    the number of items, and a [max_items] of 0 bounds nothing, like
    [None]. *)
Theorem filter_content_result (content : list ContentItem.content_item) (min_priority : Z)
    (max_items : option Z) (preferred_angles : option (list string))
    (r : list ContentItem.content_item) :
  Batch.filter_content_by_criteria content min_priority max_items preferred_angles = Ok r ->
  r ⊆+ content /\
  descending priority_of r /\
  Forall (fun item => exists p, ContentItem.content_priority item = Some p /\
                                min_priority <= p) r /\
  (forall a angles, preferred_angles = Some (a :: angles) ->
     Forall (fun item => exists x, ContentItem.content_angle item = Some x /\
                                   x ∈ a :: angles) r) /\
  (forall m, max_items = Some m -> 0 < m -> Z.of_nat (length r) <= m) /\
  ((max_items = None \/ max_items = Some 0) ->
   (preferred_angles = None \/ preferred_angles = Some []) ->
   r ≡ₚ List.filter (fun item => Z.leb min_priority (priority_of item)) content).
Proof.
  intros Hr. destruct (filter_content_kept _ _ _ _ _ Hr) as (Hdesc & Hmin & Hangle & Hlen).
  apply filter_content_steps in Hr as (kept & Hsub & _ & _ & Hkept & Hr).
  pose proof (sorted_desc_perm priority_of kept) as Hperm.
  split.
  - etrans; [|exact Hsub]. rewrite <- Hperm, Hr.
    destruct max_items as [m|]; [|done].
    destruct (negb (Z.eqb m 0) && Z.ltb m (Z.of_nat (length kept)));
      [apply slice_to_submseteq | done].
  - do 4 (split; [assumption|]).
    intros Hmax Hpref. rewrite <- (Hkept Hpref), <- Hperm, Hr.
    destruct Hmax as [->| ->]; [done|]. by cbn.
Qed.

(** X5. Filtering what [filter_content_by_criteria] returned, with the
    same criteria, returns it unchanged, as long as [max_items] is not
    negative. *)
Theorem filter_content_idempotent (content : list ContentItem.content_item)
    (min_priority : Z) (max_items : option Z) (preferred_angles : option (list string))
    (r : list ContentItem.content_item) :
  (forall m, max_items = Some m -> 0 <= m) ->
  Batch.filter_content_by_criteria content min_priority max_items preferred_angles = Ok r ->
  Batch.filter_content_by_criteria r min_priority max_items preferred_angles = Ok r.
Proof.
  intros Hmax Hr.
  destruct (filter_content_kept _ _ _ _ _ Hr) as (Hdesc & Hmin & Hangle & Hlen).
  unfold Batch.filter_content_by_criteria.
  rewrite (filter_raising_Ok _ (fun _ => true)).
  2: { eapply Forall_impl; [exact Hmin|]. simpl. intros item (p & -> & Hp).
       cbn [subscript bind]. f_equal. by apply Z.leb_le. }
  cbn [bind]. rewrite (filter_all_true (fun _ => true)) by (by apply Forall_forall).
  assert (Hsort : Batch.sorted_by_priority r = Ok r).
  { rewrite sorted_by_priority_Ok.
    - by rewrite sorted_desc_fixed.
    - eapply Forall_impl; [exact Hmin|]. simpl. intros item (p & -> & _). by eexists. }
  assert (Hlimit : match max_items with
                   | Some m =>
                       if negb (Z.eqb m 0) && Z.ltb m (Z.of_nat (length r))
                       then slice_to r m else r
                   | None => r
                   end = r).
  { destruct max_items as [m|]; [|done].
    destruct (Z.eqb_spec m 0); [done|]. cbn [negb andb].
    destruct (Z.ltb_spec m (Z.of_nat (length r))) as [Hlt|Hge]; [|done].
    specialize (Hmax m eq_refl). specialize (Hlen m eq_refl). lia. }
  destruct preferred_angles as [[|a angles]|].
  - cbn [bind]. rewrite Hsort. cbn [bind]. by rewrite Hlimit.
  - rewrite (filter_raising_Ok _ (fun _ => true)).
    2: { eapply Forall_impl; [exact (Hangle a angles eq_refl)|]. cbv beta.
         intros item (x & -> & Hx). cbn [subscript bind]. f_equal.
         apply existsb_exists. exists x. split; [by apply list_elem_of_In|].
         by apply String.eqb_eq. }
    cbn [bind]. rewrite (filter_all_true (fun _ => true)) by (by apply Forall_forall).
    rewrite Hsort. cbn [bind]. by rewrite Hlimit.
  - cbn [bind]. rewrite Hsort. cbn [bind]. by rewrite Hlimit.
Qed.

(** ** Hashtags *)

Lemma contains_space_cons (c : ascii) (s : string) :
  contains " " (String c s) = Ascii.eqb c " " || contains " " s.
Proof.
  cbn [contains String.prefix].
  destruct (Ascii.ascii_dec " " c) as [<-|Hne].
  - by destruct s.
  - destruct (Ascii.eqb_spec c " ") as [->|_]; [done|].
    reflexivity.
Qed.

Lemma contains_space_app (s t : string) :
  contains " " (s +:+ t) = contains " " s || contains " " t.
Proof.
  induction s as [|c s IH].
  - change ("" +:+ t) with t. by destruct t.
  - change (String c s +:+ t) with (String c (s +:+ t)).
    rewrite !contains_space_cons, IH. by rewrite orb_assoc.
Qed.

Lemma replace_space_spaceless (s : string) :
  contains " " (replace_char " " "" s) = false.
Proof.
  induction s as [|c s IH]; [done|]. cbn [replace_char].
  destruct (Ascii.eqb_spec c " ") as [->|Hne].
  - exact IH.
  - rewrite contains_space_cons, IH.
    destruct (Ascii.eqb_spec c " "); [done | reflexivity].
Qed.

Lemma replace_amp_spaceless (s : string) :
  contains " " s = false -> contains " " (replace_char "&" "and" s) = false.
Proof.
  induction s as [|c s IH]; [done|]. rewrite contains_space_cons.
  intros [Hc Hs]%orb_false_iff. cbn [replace_char].
  destruct (Ascii.eqb c "&").
  - rewrite contains_space_app. by rewrite IH.
  - rewrite contains_space_cons, Hc. by apply IH.
Qed.

Lemma lookup_cons {A : Type} (k key : string) (v : A) (d : list (string * A)) :
  lookup ((k, v) :: d) key = if String.eqb k key then Some v else lookup d key.
Proof. reflexivity. Qed.

Lemma angle_hashtags_pairs (angle : string) (tags : list string) :
  lookup Batch.angle_hashtags angle = Some tags ->
  tags ∈ map snd Batch.angle_hashtags.
Proof.
  unfold Batch.angle_hashtags. rewrite !lookup_cons.
  change (lookup [] angle) with (@None (list string)).
  repeat match goal with
         | |- context [String.eqb ?k angle] => destruct (String.eqb k angle)
         end; intros [= <-]; cbn [map snd]; set_solver.
Qed.

(** Whatever it returns has this shape. *)
Lemma generate_hashtags_tags (item : ContentItem.content_item) (tags : list string) :
  Batch._generate_hashtags item = Ok tags ->
  (2 <= length tags <= 6)%nat /\
  take 2 tags = ["#livemusic"; "#concerts"] /\
  Forall (fun tag => exists rest, tag = String "#" rest /\ contains " " tag = false) tags.
Proof.
  unfold Batch._generate_hashtags. set (look := lookup Batch.angle_hashtags).
  intros Ht.
  destruct (ContentItem.genre item) as [g|]; [|discriminate].
  destruct (ContentItem.content_angle item) as [angle|]; [|discriminate].
  destruct (ContentItem.artist_name item) as [a|]; [|discriminate].
  cbn [subscript bind] in Ht. injection Ht as <-.
  set (genre := replace_char " " "" (lower g)).
  set (artist := replace_char "&" "and" (replace_char " " "" a)).
  assert (Hg : contains " " (String "#" genre) = false).
  { rewrite contains_space_cons. apply replace_space_spaceless. }
  assert (Ha : contains " " (String "#" artist) = false).
  { rewrite contains_space_cons. apply replace_amp_spaceless, replace_space_spaceless. }
  change ("#" +:+ genre) with (String "#" genre).
  change ("#" +:+ artist) with (String "#" artist).
  assert (Hlook : look angle = None \/
                  exists t1 t2, look angle = Some [String "#" t1; String "#" t2] /\
                                contains " " (String "#" t1) = false /\
                                contains " " (String "#" t2) = false).
  { subst look. destruct (lookup Batch.angle_hashtags angle) as [tags|] eqn:Hl;
      [right | by left].
    apply angle_hashtags_pairs in Hl. cbn [map snd Batch.angle_hashtags] in Hl.
    repeat (apply elem_of_cons in Hl as [->|Hl];
            [by do 2 eexists; split; [reflexivity|split; reflexivity]|]).
    by apply elem_of_nil in Hl. }
  destruct Hlook as [->|(t1 & t2 & -> & H1 & H2)];
    destruct (negb (String.eqb genre ""));
    destruct (len artist <=? 20)%nat;
    cbn [app]; (rewrite slice_to_all by (cbn [length]; lia));
    (split; [cbn [length]; lia|]); (split; [reflexivity|]);
    repeat (constructor;
            [eexists; split;
             [reflexivity|first [exact Hg|exact Ha|exact H1|exact H2|reflexivity]]|]);
    constructor.
Qed.

Lemma generate_hashtags_returns (item : ContentItem.content_item) :
  is_Some (ContentItem.genre item) ->
  is_Some (ContentItem.content_angle item) ->
  is_Some (ContentItem.artist_name item) ->
  exists tags, Batch._generate_hashtags item = Ok tags.
Proof.
  intros [g Hg] [angle Hangle] [a Ha]. unfold Batch._generate_hashtags.
  rewrite Hg, Hangle, Ha. cbn [subscript bind]. by eexists.
Qed.

(** X6. [_generate_hashtags] returns between two and six hashtags, so
    its limit of eight never cuts; the first two are "#livemusic" and
    "#concerts"; every hashtag starts with "#" and none contains a
    space. It raises a [KeyError] when the item has no genre, no angle
    or no artist name, and returns otherwise. *)
Theorem generate_hashtags_shape (item : ContentItem.content_item) :
  (forall tags,
      Batch._generate_hashtags item = Ok tags ->
      (2 <= length tags <= 6)%nat /\
      take 2 tags = ["#livemusic"; "#concerts"] /\
      Forall (fun tag => exists rest, tag = String "#" rest /\ contains " " tag = false)
             tags) /\
  (is_Some (ContentItem.genre item) ->
   is_Some (ContentItem.content_angle item) ->
   is_Some (ContentItem.artist_name item) ->
   exists tags, Batch._generate_hashtags item = Ok tags) /\
  (ContentItem.genre item = None ->
   Batch._generate_hashtags item = Raise (KeyError "genre")) /\
  (is_Some (ContentItem.genre item) -> ContentItem.content_angle item = None ->
   Batch._generate_hashtags item = Raise (KeyError "content_angle")) /\
  (is_Some (ContentItem.genre item) -> is_Some (ContentItem.content_angle item) ->
   ContentItem.artist_name item = None ->
   Batch._generate_hashtags item = Raise (KeyError "artist_name")).
Proof.
  split; [|split; [|split; [|split]]].
  - intros tags. apply generate_hashtags_tags.
  - apply generate_hashtags_returns.
  - intros Hg. unfold Batch._generate_hashtags. by rewrite Hg.
  - intros [g Hg] Ha. unfold Batch._generate_hashtags. by rewrite Hg, Ha.
  - intros [g Hg] [angle Hangle] Ha. unfold Batch._generate_hashtags.
    by rewrite Hg, Hangle, Ha.
Qed.

(** ** Export *)

Lemma map_raising_total {A B : Type} (f : A -> result B) (P : A -> B -> Prop) (l : list A) :
  Forall (fun x => exists y, f x = Ok y /\ P x y) l ->
  exists r, map_raising f l = Ok r /\ Forall2 P l r.
Proof.
  induction 1 as [|x l (y & Hy & HP) _ (r & Hr & Hall)]; simpl.
  - exists []. by split.
  - rewrite Hy, Hr. cbn [bind]. exists (y :: r). split; [done | by constructor].
Qed.

Lemma descending_Forall2 {A B : Type} (key1 : A -> Z) (key2 : B -> Z)
    (l : list A) (r : list B) :
  Forall2 (fun a b => key2 b = key1 a) l r ->
  descending key1 l -> descending key2 r.
Proof.
  induction 1 as [|a b l r Hab Hall IH]; simpl; [done|].
  intros [Ha Hl]. split; [|by apply IH].
  clear -Hall Ha Hab. rewrite Hab.
  induction Hall as [|a' b' l r Hab' _ IH]; [constructor|].
  apply Forall_cons in Ha as [Ha' Hl]. constructor; [lia | by apply IH].
Qed.

Lemma zapier_post_of_exportable (item : ContentItem.content_item) :
  exportable item ->
  exists post,
    Batch.zapier_post_of item = Ok post /\
    Zapier.priority_score post = priority_of item /\
    Some (Zapier.content_angle post) = ContentItem.content_angle item /\
    (exists event_id_,
        ContentItem.event_id item = Some event_id_ /\
        Zapier.id post = event_id_ +:+ "_" +:+ Zapier.content_angle post) /\
    Batch._generate_hashtags item = Ok (Zapier.hashtags post).
Proof.
  intros ([i Hi] & [a Ha] & [n Hn] & [l Hl] & [g Hg] & [c Hc] & [p Hp] & [v Hv] &
          [t Ht] & [z Hz] & m & Hm & [r Hr] & [ip Hip] & [cm Hcm] & [pc Hpc]).
  destruct (generate_hashtags_returns item) as [tags Htags]; [by eexists..|].
  unfold Batch.zapier_post_of, priority_of.
  rewrite Hi, Hc, Ha, Hn, Hl, Hv, Ht, Hz, Hp, Htags, Hm. cbn [subscript bind].
  rewrite Hr, Hip, Hcm, Hpc. cbn [subscript bind].
  eexists. split; [reflexivity|]. cbn. split; [done|]. split; [done|].
  split; [by eexists | done].
Qed.

Lemma export_for_zapier_returns (content : list ContentItem.content_item)
    (max_items : Z) (timestamp_ : string) :
  Forall exportable content ->
  exists w, Batch.export_for_zapier content max_items timestamp_ = Ok w.
Proof.
  intros Hx. unfold Batch.export_for_zapier.
  rewrite sorted_by_priority_Ok.
  2: { eapply Forall_impl; [exact Hx|]. simpl. unfold exportable. tauto. }
  cbn [bind].
  destruct (map_raising_total Batch.zapier_post_of (fun _ _ => True)
              (slice_to (sorted_desc priority_of content) max_items))
    as (posts & -> & _); [|by eexists].
  eapply Forall_sub_multiset with (l := content).
  - etrans; [apply slice_to_submseteq|]. by rewrite sorted_desc_perm.
  - eapply Forall_impl; [exact Hx|]. simpl. intros item Hitem.
    destruct (zapier_post_of_exportable item Hitem) as (post & -> & _). by exists post.
Qed.

(** X7. On items that have the keys it reads, and so on every list that
    [process_events_batch] returns, [export_for_zapier] returns: the
    posts are those of the content in order of priority, highest first,
    cut to [max_items]; [content_count] is their number, the smaller of
    [max_items] and the number of items when [max_items] is not negative;
    every post has the identifier [event_id_angle] and between two and
    six hashtags. It raises [KeyError] when an item has no priority. *)
Theorem export_for_zapier_posts (content : list ContentItem.content_item)
    (max_items : Z) (timestamp_ : string) :
  (Forall exportable content ->
   exists w,
     Batch.export_for_zapier content max_items timestamp_ = Ok w /\
     Zapier.timestamp w = timestamp_ /\
     Zapier.content_count w = Z.of_nat (length (Zapier.posts w)) /\
     (0 <= max_items ->
      Zapier.content_count w = Z.min max_items (Z.of_nat (length content))) /\
     Forall2 (fun item post =>
                Zapier.priority_score post = priority_of item /\
                Some (Zapier.content_angle post) = ContentItem.content_angle item /\
                (exists event_id_,
                    ContentItem.event_id item = Some event_id_ /\
                    Zapier.id post = event_id_ +:+ "_" +:+ Zapier.content_angle post) /\
                (2 <= length (Zapier.hashtags post) <= 6)%nat)
             (slice_to (sorted_desc priority_of content) max_items) (Zapier.posts w) /\
     descending Zapier.priority_score (Zapier.posts w)) /\
  (Exists (fun item => ContentItem.content_priority item = None) content ->
   Batch.export_for_zapier content max_items timestamp_
   = Raise (KeyError "content_priority")).
Proof.
  split.
  - intros Hx. unfold Batch.export_for_zapier.
    rewrite sorted_by_priority_Ok.
    2: { eapply Forall_impl; [exact Hx|]. simpl. unfold exportable. tauto. }
    cbn [bind].
    set (top := slice_to (sorted_desc priority_of content) max_items).
    assert (Htop : Forall exportable top).
    { eapply Forall_sub_multiset; [|exact Hx].
      etrans; [apply slice_to_submseteq|]. by rewrite sorted_desc_perm. }
    destruct (map_raising_total Batch.zapier_post_of
                (fun item post =>
                   Zapier.priority_score post = priority_of item /\
                   Some (Zapier.content_angle post) = ContentItem.content_angle item /\
                   (exists event_id_,
                       ContentItem.event_id item = Some event_id_ /\
                       Zapier.id post = event_id_ +:+ "_" +:+ Zapier.content_angle post) /\
                   (2 <= length (Zapier.hashtags post) <= 6)%nat) top)
      as (posts & Hposts & Hall).
    { eapply Forall_impl; [exact Htop|]. simpl. intros item Hitem.
      destruct (zapier_post_of_exportable item Hitem) as (post & Hp & H1 & H2 & H3 & H4).
      exists post. split; [exact Hp|]. repeat (split; [assumption|]).
      by apply generate_hashtags_tags in H4 as [H4 _]. }
    rewrite Hposts. cbn [bind]. eexists. split; [reflexivity|].
    cbn [Zapier.timestamp Zapier.content_count Zapier.posts].
    pose proof (Forall2_length _ _ _ Hall) as Hlen.
    split; [done|]. split; [by rewrite Hlen|]. split.
    + intros Hmax. subst top. destruct (slice_to_length (sorted_desc priority_of content)
                                          max_items) as [_ Hs].
      rewrite (Hs Hmax), sorted_desc_length. lia.
    + split; [exact Hall|].
      eapply (descending_Forall2 priority_of).
      * eapply Forall2_impl; [exact Hall|]. simpl. tauto.
      * subst top. apply descending_slice_to, sorted_desc_descending.
  - intros Hex. unfold Batch.export_for_zapier.
    by rewrite (sorted_by_priority_missing _ Hex).
Qed.

(** X8. Every list that [process_events_batch] returns can be filtered
    and exported: on it neither [filter_content_by_criteria] nor
    [export_for_zapier] raises. *)
Theorem batch_output_usable `{Batch.Clock} (self : Batch.processor) (events : list event)
    (cg : AIContextualizer.ContentGenerator) (max_content_per_event : Z)
    (min_priority max_posts : Z) (max_items : option Z)
    (preferred_angles : option (list string)) (timestamp_ : string) :
  exists content filtered w,
    fst (Batch.process_events_batch self events cg max_content_per_event) = Ok content /\
    Batch.filter_content_by_criteria content min_priority max_items preferred_angles
    = Ok filtered /\
    Batch.export_for_zapier content max_posts timestamp_ = Ok w.
Proof.
  pose proof (process_events_batch_content self events cg max_content_per_event) as Hout.
  pose proof (batch_contents_exportable cg max_content_per_event 1 events) as Hx.
  set (content := batch_contents cg max_content_per_event 1 events) in *.
  destruct (export_for_zapier_returns content max_posts timestamp_ Hx) as [w Hw].
  assert (Hp : Forall (fun item => is_Some (ContentItem.content_priority item)) content).
  { eapply Forall_impl; [exact Hx|]. simpl. unfold exportable. tauto. }
  assert (Ha : Forall (fun item => is_Some (ContentItem.content_angle item)) content).
  { eapply Forall_impl; [exact Hx|]. simpl. unfold exportable. tauto. }
  exists content.
  unfold Batch.filter_content_by_criteria.
  rewrite (filter_raising_Ok _ (fun item => Z.leb min_priority (priority_of item))).
  2: { eapply Forall_impl; [exact Hp|]. simpl. intros item [p Hi].
       unfold priority_of. by rewrite Hi. }
  cbn [bind].
  set (f1 := List.filter _ content).
  assert (Hp1 : Forall (fun item => is_Some (ContentItem.content_priority item)) f1).
  { eapply Forall_sub_multiset; [apply filter_submseteq | exact Hp]. }
  assert (Ha1 : Forall (fun item => is_Some (ContentItem.content_angle item)) f1).
  { eapply Forall_sub_multiset; [apply filter_submseteq | exact Ha]. }
  destruct preferred_angles as [[|a angles]|].
  - cbn [bind]. rewrite (sorted_by_priority_Ok _ Hp1). cbn [bind].
    eexists _, w. by repeat split.
  - rewrite (filter_raising_Ok _
               (fun item => existsb (String.eqb (dict_get (ContentItem.content_angle item) ""))
                                    (a :: angles))).
    2: { eapply Forall_impl; [exact Ha1|]. cbv beta. by intros item [x ->]. }
    cbn [bind]. rewrite sorted_by_priority_Ok.
    2: { eapply Forall_sub_multiset; [apply filter_submseteq | exact Hp1]. }
    cbn [bind]. eexists _, w. by repeat split.
  - cbn [bind]. rewrite (sorted_by_priority_Ok _ Hp1). cbn [bind].
    eexists _, w. by repeat split.
Qed.

(** ** Lookups of context rows *)

Lemma head_filter_first {A : Type} (q : A -> bool) (l : list A) (x : A) :
  head (List.filter q l) = Some x ->
  exists before after,
    l = before ++ x :: after /\ q x = true /\ Forall (fun y => q y = false) before.
Proof.
  induction l as [|y l IH]; simpl; [discriminate|].
  destruct (q y) eqn:Hy; simpl.
  - intros [= <-]. exists [], l. by repeat split.
  - intros Hx. destruct (IH Hx) as (before & after & -> & Hq & Hall).
    exists (y :: before), after. repeat split; [done|]. by constructor.
Qed.

Lemma head_filter_none {A : Type} (q : A -> bool) (l : list A) :
  head (List.filter q l) = None -> Forall (fun y => q y = false) l.
Proof.
  induction l as [|y l IH]; simpl; [constructor|].
  destruct (q y) eqn:Hy; simpl; [discriminate|]. intros Hx. constructor; auto.
Qed.

Lemma filter_bool {A : Type} (q : A -> bool) (l : list A) :
  filter (fun x => q x = true) l = List.filter q l.
Proof.
  induction l as [|x l IH]; [done|]. rewrite filter_cons, IH. simpl.
  destruct (q x); by case_decide.
Qed.

Lemma cell_eq_null (a b : value) :
  b = VNone \/ b = VFloat NaN -> Pandas.cell_eq a b = false.
Proof.
  intros [-> | ->]; destruct a as [|x|z|f|s]; try reflexivity; by destruct f.
Qed.

(** X9. The two lookups of a context row are the same function. On an
    empty frame they return [None]; on a frame with rows but no
    [EVENT_ID] column they raise [KeyError]; otherwise they return the
    first row whose [EVENT_ID] equals the event id, and [None] when no
    row does. An event id that is null never finds a row. *)
Theorem matching_row_first (df : Pandas.DataFrame) (event_id_ : value) :
  DataProcessing._find_matching_row df event_id_
  = SocialContentGenerator._get_matching_row df event_id_ /\
  (Pandas.empty df = true ->
   SocialContentGenerator._get_matching_row df event_id_ = Ok None) /\
  (Pandas.empty df = false -> "EVENT_ID" ∉ Pandas.columns df ->
   SocialContentGenerator._get_matching_row df event_id_ = Raise (KeyError "EVENT_ID")) /\
  (forall row,
      SocialContentGenerator._get_matching_row df event_id_ = Ok (Some row) ->
      exists before after,
        Pandas.iterrows df = before ++ row :: after /\
        Pandas.cell_eq (Pandas.get row "EVENT_ID" VNone) event_id_ = true /\
        Forall (fun other =>
                  Pandas.cell_eq (Pandas.get other "EVENT_ID" VNone) event_id_ = false)
               before) /\
  (Pandas.empty df = false ->
   SocialContentGenerator._get_matching_row df event_id_ = Ok None ->
   Forall (fun other =>
             Pandas.cell_eq (Pandas.get other "EVENT_ID" VNone) event_id_ = false)
          (Pandas.iterrows df)) /\
  (event_id_ = VNone \/ event_id_ = VFloat NaN ->
   forall row, SocialContentGenerator._get_matching_row df event_id_ <> Ok (Some row)).
Proof.
  unfold DataProcessing._find_matching_row, SocialContentGenerator._get_matching_row.
  split; [reflexivity|]. split; [by intros ->|]. split.
  { intros -> Hcol. by rewrite bool_decide_eq_false_2. }
  split.
  { intros row. destruct (Pandas.empty df); [discriminate|].
    destruct (bool_decide _); [|discriminate]. intros [= Hrow].
    apply (head_filter_first
             (fun r => Pandas.cell_eq (Pandas.get r "EVENT_ID" VNone) event_id_)).
    rewrite <- Hrow. f_equal. symmetry.
    apply (filter_bool (fun r => Pandas.cell_eq (Pandas.get r "EVENT_ID" VNone) event_id_)). }
  split.
  { intros ->. destruct (bool_decide _); [|discriminate]. intros [= Hrow].
    apply (head_filter_none
             (fun r => Pandas.cell_eq (Pandas.get r "EVENT_ID" VNone) event_id_)).
    rewrite <- Hrow. f_equal. symmetry.
    apply (filter_bool (fun r => Pandas.cell_eq (Pandas.get r "EVENT_ID" VNone) event_id_)). }
  intros Hnull row. destruct (Pandas.empty df); [discriminate|].
  destruct (bool_decide _); [|discriminate]. intros [= Hrow].
  assert (Hin : row ∈ filter (fun r => Pandas.cell_eq (Pandas.get r "EVENT_ID" VNone)
                                         event_id_ = true) (Pandas.iterrows df)).
  { destruct (filter _ _) as [|r l]; [discriminate|]. injection Hrow as ->.
    apply elem_of_cons. by left. }
  apply list_elem_of_filter in Hin as [Hc _].
  by rewrite (cell_eq_null _ _ Hnull) in Hc.
Qed.

(** ** When the pipeline extractor returns *)

Lemma safe_float_total `{Builtins} (v default : value) :
  exists w, SocialContentGenerator._safe_float v default = Ok w /\
            (default <> VNone -> w <> VNone).
Proof.
  unfold SocialContentGenerator._safe_float, try_except_value_type.
  destruct v as [|b|z|f|s]; [exists default; by split|..];
    match goal with
    | |- context [float ?c] =>
        destruct (float c) as [x|e] eqn:Hf;
        [ exists x; split; [done|]; intros _;
          apply float_result in Hf as [g ->]; discriminate
        | rewrite (float_raises_caught _ _ Hf); exists default; by split ]
    end.
Qed.

Ltac float_step :=
  match goal with
  | |- context [bind (SocialContentGenerator._safe_float ?v ?d) _] =>
      let w := fresh "w" in
      let Hw := fresh "Hw" in
      let Hn := fresh "Hn" in
      destruct (safe_float_total v d) as (w & Hw & Hn);
      rewrite Hw; cbn [bind];
      try match goal with
          | |- context [bind (mul_int w 100) _] =>
              let p := fresh "p" in
              let Hp := fresh "Hp" in
              destruct (mul_int_total w 100 (Hn ltac:(discriminate))) as [p Hp];
              rewrite Hp; cbn [bind]
          end
  end.

Section PipelineTotal.
Context `{Builtins}.

Lemma safe_int_returns (v default : value) :
  (exists w, SocialContentGenerator._safe_int v default = Ok w) <->
  (forall negative, v <> VFloat (Inf negative)).
Proof.
  unfold SocialContentGenerator._safe_int, try_except_value_type. split.
  - intros [w Hw] negative ->. discriminate.
  - intros Hfin. destruct v as [|b|z|f|s]; try by eexists.
    + destruct f as [q| |n]; [by eexists | by eexists | by destruct (Hfin n)].
    + simpl. destruct (int_of_str s); by eexists.
Qed.

Lemma safe_int_cell (row : Pandas.Series) (column : string) (get_default default : value) :
  (forall negative, get_default <> VFloat (Inf negative)) ->
  (exists w, SocialContentGenerator._safe_int (Pandas.get row column get_default) default
             = Ok w) <->
  Spec.finite_cell (row !! column).
Proof.
  intros Hd. rewrite safe_int_returns. unfold Pandas.get, Spec.finite_cell.
  destruct (row !! column) as [cell|]; split.
  - intros Hc n [= ->]. by apply (Hc n).
  - intros Hc n ->. by apply (Hc n).
  - done.
  - intros _. exact Hd.
Qed.

Lemma bind_returns {A B : Type} (m : result A) (k : A -> result B) :
  (exists b, bind m k = Ok b) <-> exists a, m = Ok a /\ exists b, k a = Ok b.
Proof.
  destruct m as [a|e]; simpl; split.
  - intros Hb. by exists a.
  - by intros (a' & [= <-] & Hb).
  - by intros [b Hb].
  - by intros (a & Ha & _).
Qed.

Lemma bind_total {A B : Type} (m : result A) (k : A -> result B) :
  (exists a, m = Ok a) ->
  (exists b, bind m k = Ok b) <-> forall a, m = Ok a -> exists b, k a = Ok b.
Proof.
  intros [a ->]. simpl. split.
  - by intros Hb a' [= <-].
  - intros Hk. by apply Hk.
Qed.

Lemma int_default_finite (k : Z) (negative : bool) : VInt k <> VFloat (Inf negative).
Proof. discriminate. Qed.

Lemma none_finite (negative : bool) : VNone <> VFloat (Inf negative).
Proof. discriminate. Qed.

Lemma extract_career_returns (hist_row : option Pandas.Series) :
  (exists c, SocialContentGenerator._extract_career_context hist_row = Ok c) <->
  Spec.finite_cell (Spec.source_cell hist_row "CAREER_TOTAL_EVENTS") /\
  Spec.finite_cell (Spec.source_cell hist_row "CAREER_FIRST_YEAR") /\
  Spec.finite_cell (Spec.source_cell hist_row "CAREER_LAST_YEAR").
Proof.
  unfold SocialContentGenerator._extract_career_context.
  destruct hist_row as [row|]; simpl.
  2: { split; [intros _; repeat split; intros n; discriminate | by eexists]. }
  do 2 float_step.
  rewrite bind_returns.
  setoid_rewrite bind_returns. setoid_rewrite bind_returns.
  rewrite <- !(safe_int_cell row _ VNone SocialContentGenerator.int_default none_finite).
  split.
  - intros (a & Ha & b & Hb & c & Hc & _). repeat split; by eexists.
  - intros ([a Ha] & [b Hb] & [c Hc]).
    exists a. split; [done|]. exists b. split; [done|]. exists c. split; [done|].
    do 2 float_step. by eexists.
Qed.

Lemma extract_tour_returns (hist_row : option Pandas.Series) :
  (exists t, SocialContentGenerator._extract_tour_context hist_row = Ok t) <->
  Spec.finite_cell (Spec.source_cell hist_row "TOUR_TOTAL_EVENTS").
Proof.
  unfold SocialContentGenerator._extract_tour_context.
  destruct hist_row as [row|]; simpl.
  2: { split; [intros _ n; discriminate | by eexists]. }
  float_step. rewrite bind_returns.
  rewrite <- (safe_int_cell row _ VNone SocialContentGenerator.int_default none_finite).
  split.
  - intros (a & Ha & _). by eexists.
  - intros [a Ha]. exists a. split; [done|]. float_step. by eexists.
Qed.

Lemma extract_genre_returns (hist_row : option Pandas.Series) :
  exists g, SocialContentGenerator._extract_genre_context hist_row = Ok g.
Proof.
  unfold SocialContentGenerator._extract_genre_context.
  destruct hist_row as [row|]; [|by eexists]. do 2 float_step. by eexists.
Qed.

Lemma extract_trend_returns (trend_row : option Pandas.Series) :
  exists t, SocialContentGenerator._extract_trend_insights trend_row = Ok t.
Proof.
  unfold SocialContentGenerator._extract_trend_insights.
  destruct trend_row as [row|]; [|by eexists]. do 2 float_step. by eexists.
Qed.

Lemma top_countries_loop_returns (row : Pandas.Series) (slots : list Z)
    (acc : list country_dict) :
  exists l, SocialContentGenerator.top_countries_loop row slots acc = Ok l /\
            (length acc <= length l <= length acc + length slots)%nat.
Proof.
  revert acc. induction slots as [|i slots IH]; intros acc; simpl.
  - exists acc. split; [done | lia].
  - destruct (truthy _ && negb _).
    + float_step. destruct (IH (acc ++ [{| country := VStr (str (Pandas.get row
                  (SocialContentGenerator.top_buyer_column i "") VNone));
                  percentage := p |}])) as (l & -> & Hl).
      exists l. split; [done|]. rewrite length_app in Hl. simpl in Hl. lia.
    + destruct (IH acc) as (l & -> & Hl). exists l. split; [done | lia].
Qed.

Lemma extract_geographic_returns (trend_row : option Pandas.Series) :
  (exists g, SocialContentGenerator._extract_geographic_insights trend_row = Ok g) <->
  Spec.finite_cell (Spec.source_cell trend_row "UNIQUE_BUYER_COUNTRIES").
Proof.
  unfold SocialContentGenerator._extract_geographic_insights.
  destruct trend_row as [row|]; cbn [Spec.source_cell].
  2: { split; [intros _ n; discriminate | by eexists]. }
  destruct (top_countries_loop_returns row [1; 2; 3] []) as (l & -> & _). cbn [bind].
  rewrite bind_returns.
  rewrite <- (safe_int_cell row _ VNone SocialContentGenerator.int_default none_finite).
  split.
  - intros (a & Ha & _). by eexists.
  - intros [a Ha]. exists a. split; [done|]. by eexists.
Qed.

Lemma extract_pricing_returns (trend_row : option Pandas.Series) :
  exists p, SocialContentGenerator._extract_pricing_insights trend_row = Ok p.
Proof.
  unfold SocialContentGenerator._extract_pricing_insights.
  destruct trend_row as [row|]; [|by eexists]. do 5 float_step. by eexists.
Qed.

Lemma extract_market_returns (market_row : option Pandas.Series) :
  (exists m, SocialContentGenerator._extract_market_position market_row = Ok m) <->
  Spec.finite_cell (Spec.source_cell market_row "YTD_OVERALL_RANK") /\
  Spec.finite_cell (Spec.source_cell market_row "YTD_GENRE_RANK").
Proof.
  unfold SocialContentGenerator._extract_market_position.
  destruct market_row as [row|]; simpl.
  2: { split; [intros _; split; intros n; discriminate | by eexists]. }
  rewrite bind_returns. setoid_rewrite bind_returns.
  rewrite <- !(safe_int_cell row _ VNone SocialContentGenerator.int_default none_finite).
  split.
  - intros (a & Ha & b & Hb & _). split; by eexists.
  - intros ([a Ha] & [b Hb]).
    exists a. split; [done|]. exists b. split; [done|].
    do 3 float_step. by eexists.
Qed.

Lemma getitem_Ok (row : Pandas.Series) (column : string) (v : value) :
  Pandas.getitem row column = Ok v <-> row !! column = Some v.
Proof.
  unfold Pandas.getitem. destruct (row !! column); split; try discriminate; congruence.
Qed.

End PipelineTotal.

(** X10. The row body of [structure_event_data] returns an event exactly
    when the base row has the thirteen columns that it reads by
    subscript, the three lookups of context rows return, the rank
    converts to an int, and none of the nine cells that it converts with
    [_safe_int] is an infinite float. *)
Theorem structure_row_returns `{Builtins} (hist_df trend_df market_df : Pandas.DataFrame)
    (now_ : string) (base_row : Pandas.Series) :
  (exists e,
      SocialContentGenerator.structure_row hist_df trend_df market_df now_ base_row
      = Ok e) <->
  exists (event_id_ : value) (hist_row trend_row market_row : option Pandas.Series),
    base_row !! "EVENT_ID" = Some event_id_ /\
    SocialContentGenerator._get_matching_row hist_df event_id_ = Ok hist_row /\
    SocialContentGenerator._get_matching_row trend_df event_id_ = Ok trend_row /\
    SocialContentGenerator._get_matching_row market_df event_id_ = Ok market_row /\
    Forall (fun column => is_Some (base_row !! column)) pipeline_subscript_columns /\
    (exists v r, base_row !! "RECENT_GMS_RANK" = Some v /\ int v = Ok r) /\
    Forall Spec.finite_cell (pipeline_int_cells base_row hist_row trend_row market_row).
Proof.
  split.
  - intros [e He]. unfold SocialContentGenerator.structure_row in He.
    repeat inv_bind He. clear He.
    repeat match goal with
           | Hg : Pandas.getitem _ _ = Ok _ |- _ => apply getitem_Ok in Hg
           end.
    match goal with
    | H1 : SocialContentGenerator._get_matching_row hist_df ?i = Ok ?h,
      H2 : SocialContentGenerator._get_matching_row trend_df _ = Ok ?t,
      H3 : SocialContentGenerator._get_matching_row market_df _ = Ok ?m |- _ =>
        exists i, h, t, m
    end.
    do 4 (split; [assumption|]).
    split; [unfold pipeline_subscript_columns; repeat constructor; by eexists|].
    split; [by do 2 eexists|].
    unfold pipeline_int_cells.
    repeat match goal with
           | Hx : SocialContentGenerator._extract_career_context _ = Ok _ |- _ =>
               apply (fun Hc => proj1 (extract_career_returns _) (ex_intro _ _ Hc)) in Hx
                 as (? & ? & ?)
           | Hx : SocialContentGenerator._extract_tour_context _ = Ok _ |- _ =>
               apply (fun Hc => proj1 (extract_tour_returns _) (ex_intro _ _ Hc)) in Hx
           | Hx : SocialContentGenerator._extract_geographic_insights _ = Ok _ |- _ =>
               apply (fun Hc => proj1 (extract_geographic_returns _) (ex_intro _ _ Hc)) in Hx
           | Hx : SocialContentGenerator._extract_market_position _ = Ok _ |- _ =>
               apply (fun Hc => proj1 (extract_market_returns _) (ex_intro _ _ Hc)) in Hx
                 as (? & ?)
           | Hx : SocialContentGenerator._safe_int (Pandas.get _ _ _) _ = Ok _ |- _ =>
               apply (fun Hc => proj1 (safe_int_cell _ _ _ _ (int_default_finite 0))
                                  (ex_intro _ _ Hc)) in Hx
           end.
    constructor.
    { match goal with
      | Hs : SocialContentGenerator._safe_int ?c _ = Ok _,
        Hc : base_row !! "TOTAL_TICKETS_SOLD" = Some ?c |- _ =>
          rewrite Hc; intros n [= ->]; discriminate Hs
      end. }
    repeat (constructor; [assumption|]). constructor.
  - intros (event_id_ & hist_row & trend_row & market_row & Hid & Hh & Ht & Hm &
            Hcols & (v & r & Hv & Hr) & Hfin).
    unfold pipeline_subscript_columns in Hcols.
    repeat match goal with
           | Hc : Forall _ (_ :: _) |- _ => apply Forall_cons in Hc as [[? ?] Hc]
           end.
    unfold pipeline_int_cells in Hfin.
    repeat match goal with
           | Hc : Forall _ (_ :: _) |- _ => apply Forall_cons in Hc as [? Hc]
           end.
    match goal with
    | Hc : base_row !! "EVENT_ID" = Some ?x |- _ =>
        rewrite Hid in Hc; injection Hc as <-
    end.
    match goal with
    | Hc : base_row !! "RECENT_GMS_RANK" = Some ?x |- _ =>
        rewrite Hv in Hc; injection Hc as <-
    end.
    unfold SocialContentGenerator.structure_row, Pandas.getitem.
    repeat match goal with
           | Hc : base_row !! ?c = Some _ |- context [base_row !! ?c] => rewrite Hc
           end.
    cbn [bind]. rewrite Hh, Ht, Hm. cbn [bind]. rewrite Hr. cbn [bind].
    do 2 float_step.
    match goal with
    | Hf : Spec.finite_cell (base_row !! "TOTAL_TICKETS_SOLD"),
      Hc : base_row !! "TOTAL_TICKETS_SOLD" = Some ?c
      |- context [SocialContentGenerator._safe_int ?c ?d] =>
        rewrite Hc in Hf;
        destruct (proj2 (safe_int_returns c d)) as [tickets Htickets];
        [intros n ->; by apply (Hf n)|]; rewrite Htickets; cbn [bind]
    end.
    do 3 float_step.
    match goal with
    | Hf : Spec.finite_cell (base_row !! "TOTAL_SALES_WINDOW_DAYS")
      |- context [SocialContentGenerator._safe_int ?c ?d] =>
        destruct (proj2 (safe_int_cell base_row "TOTAL_SALES_WINDOW_DAYS" (VInt 0) d
                           (int_default_finite 0)) Hf) as [days Hdays];
        rewrite Hdays; cbn [bind]
    end.
    destruct (proj2 (extract_career_returns hist_row)) as [c ->]; [by repeat split|].
    destruct (proj2 (extract_tour_returns hist_row)) as [t ->]; [done|].
    destruct (extract_genre_returns hist_row) as [g ->].
    destruct (extract_trend_returns trend_row) as [tr ->].
    destruct (proj2 (extract_geographic_returns trend_row)) as [geo ->]; [done|].
    destruct (extract_pricing_returns trend_row) as [pr ->].
    destruct (proj2 (extract_market_returns market_row)) as [mk ->]; [by split|].
    cbn [bind]. by eexists.
Qed.

(** ** The views that a run loads *)

Section Views.
Context `{Builtins} `{Warehouse.Connection}.

Lemma load_views_four (query_of : string -> string) :
  Warehouse.load_views query_of 0 Warehouse.views ∅
  = <["market_rankings" :=
        Warehouse.load_view 3 (query_of "adhoc.maggieli.top_events_market_rankings")]>
    (<["trend_analysis" :=
         Warehouse.load_view 2 (query_of "adhoc.maggieli.top_events_trend_analysis")]>
     (<["historical_context" :=
          Warehouse.load_view 1 (query_of "adhoc.maggieli.top_events_historical_context")]>
      (<["base_events" :=
           Warehouse.load_view 0 (query_of "adhoc.maggieli.top_events_last_7_days")]> ∅))).
Proof. reflexivity. Qed.

Lemma load_views_lookup (query_of : string -> string) (k : nat) (name path : string) :
  Warehouse.views !! k = Some (name, path) ->
  Warehouse.load_views query_of 0 Warehouse.views ∅ !! name
  = Some (Warehouse.load_view k (query_of path)).
Proof.
  rewrite load_views_four. unfold Warehouse.views.
  destruct k as [|[|[|[|k]]]]; intros [= <- <-];
    repeat first [ rewrite lookup_insert_eq | rewrite lookup_insert_ne by done ];
    reflexivity.
Qed.

Lemma load_views_keys (query_of : string -> string) (name : string) :
  is_Some (Warehouse.load_views query_of 0 Warehouse.views ∅ !! name) <->
  name ∈ map fst Warehouse.views.
Proof.
  rewrite load_views_four. rewrite !lookup_insert_is_Some, lookup_empty.
  cbn [map fst Warehouse.views]. rewrite !elem_of_cons, elem_of_nil.
  split.
  - intros [<-|[_ [<-|[_ [<-|[_ [<-|[_ []%is_Some_None]]]]]]]]; tauto.
  - intros [->|[->|[->|[->|[]]]]].
    + do 3 (right; split; [done|]). by left.
    + do 2 (right; split; [done|]). by left.
    + right. split; [done|]. by left.
    + by left.
Qed.

Lemma load_view_failed (k : nat) (query : string) (err : exn) :
  Warehouse.execute_query k query = Raise err ->
  Warehouse.load_view k query = Pandas.empty_frame.
Proof. intros Hq. unfold Warehouse.load_view. by rewrite Hq. Qed.

Lemma matching_row_empty_frame (event_id_ : value) :
  SocialContentGenerator._get_matching_row Pandas.empty_frame event_id_ = Ok None.
Proof. reflexivity. Qed.

Lemma structure_row_rows (hist_df trend_df market_df : Pandas.DataFrame) (now_ : string)
    (base_row : Pandas.Series) (e : event) :
  SocialContentGenerator.structure_row hist_df trend_df market_df now_ base_row = Ok e ->
  exists (event_id_ : value) (hist_row trend_row market_row : option Pandas.Series),
    SocialContentGenerator._get_matching_row hist_df event_id_ = Ok hist_row /\
    SocialContentGenerator._get_matching_row trend_df event_id_ = Ok trend_row /\
    SocialContentGenerator._get_matching_row market_df event_id_ = Ok market_row /\
    data_completeness e
    = Some (SocialContentGenerator._assess_data_completeness hist_row trend_row market_row).
Proof.
  unfold SocialContentGenerator.structure_row. intros He.
  inv_bind He. inv_bind He. inv_bind He. inv_bind He.
  exists v, v0, v1, v2. do 3 (split; [assumption|]).
  repeat inv_bind He. by injection He as <-.
Qed.

Lemma structure_rows_inv (hist_df trend_df market_df : Pandas.DataFrame) (now_ : string)
    (rows : list Pandas.Series) (acc events : list event) :
  SocialContentGenerator.structure_rows hist_df trend_df market_df now_ rows acc
  = Ok events ->
  exists built,
    events = acc ++ built /\
    Forall2 (fun row e =>
               SocialContentGenerator.structure_row hist_df trend_df market_df now_ row
               = Ok e) rows built.
Proof.
  revert acc. induction rows as [|row rows IH]; intros acc; simpl.
  - intros [= <-]. exists []. split; [by rewrite app_nil_r | constructor].
  - intros He. inv_bind He. apply IH in He as (built & -> & Hall).
    exists (v :: built). split; [by rewrite <- app_assoc | by constructor].
Qed.
End Views.

(** X11. [query_top_events_views] always returns the four frames, each
    under its name: the frame of the view, or an empty frame when its
    query raised. So [structure_event_data] always finds the base frame;
    when the base query raised it returns no event, and when the query of
    a context view raised, every event comes out with the flag of that
    context false. *)
Theorem pipeline_views_degrade `{Builtins} `{Warehouse.Connection} (now_ : string) :
  let dataframes := Warehouse.query_top_events_views in
  let frame k path := Warehouse.load_view k (Warehouse.pipeline_query path) in
  let base_df := frame 0%nat "adhoc.maggieli.top_events_last_7_days" in
  (forall name, is_Some (dataframes !! name) <-> name ∈ map fst Warehouse.views) /\
  (forall k name path,
      Warehouse.views !! k = Some (name, path) ->
      dataframes !! name = Some (frame k path)) /\
  SocialContentGenerator.structure_event_data dataframes now_
  = (if Pandas.empty base_df then Ok []
     else SocialContentGenerator.structure_rows
            (frame 1%nat "adhoc.maggieli.top_events_historical_context")
            (frame 2%nat "adhoc.maggieli.top_events_trend_analysis")
            (frame 3%nat "adhoc.maggieli.top_events_market_rankings")
            now_ (Pandas.iterrows base_df) []) /\
  (forall err,
      Warehouse.execute_query 0
        (Warehouse.pipeline_query "adhoc.maggieli.top_events_last_7_days") = Raise err ->
      SocialContentGenerator.structure_event_data dataframes now_ = Ok []) /\
  (forall events,
      SocialContentGenerator.structure_event_data dataframes now_ = Ok events ->
      (forall err,
          Warehouse.execute_query 1
            (Warehouse.pipeline_query "adhoc.maggieli.top_events_historical_context")
          = Raise err ->
          Forall (fun e => exists d, data_completeness e = Some d /\
                                     has_historical_context d = Some false) events) /\
      (forall err,
          Warehouse.execute_query 2
            (Warehouse.pipeline_query "adhoc.maggieli.top_events_trend_analysis")
          = Raise err ->
          Forall (fun e => exists d, data_completeness e = Some d /\
                                     has_trend_analysis d = Some false) events) /\
      (forall err,
          Warehouse.execute_query 3
            (Warehouse.pipeline_query "adhoc.maggieli.top_events_market_rankings")
          = Raise err ->
          Forall (fun e => exists d, data_completeness e = Some d /\
                                     has_market_positioning d = Some false) events)).
Proof.
  intros dataframes frame base_df.
  assert (Hlookup : forall k name path,
             Warehouse.views !! k = Some (name, path) ->
             dataframes !! name = Some (frame k path)).
  { intros k name path. apply load_views_lookup. }
  assert (Hstructure :
            SocialContentGenerator.structure_event_data dataframes now_
            = (if Pandas.empty base_df then Ok []
               else SocialContentGenerator.structure_rows
                      (frame 1%nat "adhoc.maggieli.top_events_historical_context")
                      (frame 2%nat "adhoc.maggieli.top_events_trend_analysis")
                      (frame 3%nat "adhoc.maggieli.top_events_market_rankings")
                      now_ (Pandas.iterrows base_df) [])).
  { unfold SocialContentGenerator.structure_event_data.
    rewrite (Hlookup 0%nat _ _ eq_refl), (Hlookup 1%nat _ _ eq_refl),
      (Hlookup 2%nat _ _ eq_refl), (Hlookup 3%nat _ _ eq_refl). reflexivity. }
  split; [apply load_views_keys|]. split; [exact Hlookup|]. split; [exact Hstructure|].
  split.
  - intros err Hq. rewrite Hstructure. subst base_df frame. cbv beta.
    by rewrite (load_view_failed _ _ _ Hq).
  - intros events He. rewrite Hstructure in He.
    assert (Hbuilt : Forall (fun e => exists row,
                        SocialContentGenerator.structure_row
                          (frame 1%nat "adhoc.maggieli.top_events_historical_context")
                          (frame 2%nat "adhoc.maggieli.top_events_trend_analysis")
                          (frame 3%nat "adhoc.maggieli.top_events_market_rankings")
                          now_ row = Ok e) events).
    { destruct (Pandas.empty base_df); [injection He as <-; constructor|].
      apply structure_rows_inv in He as (built & -> & Hall). simpl.
      clear -Hall. induction Hall; constructor; eauto. }
    clear He. subst frame. cbv beta in Hbuilt.
    split; [|split]; intros err Hq; rewrite (load_view_failed _ _ _ Hq) in Hbuilt;
      (eapply Forall_impl; [exact Hbuilt|]); cbv beta; intros e [row Hrow];
      apply structure_row_rows in Hrow as (i & h & t & m & Hh & Ht & Hm & ->);
      rewrite matching_row_empty_frame in *; eexists; (split; [reflexivity|]).
    + by injection Hh as <-.
    + by injection Ht as <-.
    + by injection Hm as <-.
Qed.

(** X12. [get_top_events_data] always returns the four frames too, and on
    what it returns [process_event_data] never returns: its guard asks
    the base frame for its truth value and raises [ValueError]. *)
Theorem connector_views_unprocessed `{Builtins} `{Warehouse.Connection} :
  let raw_data := Warehouse.get_top_events_data in
  (forall name, is_Some (raw_data !! name) <-> name ∈ map fst Warehouse.views) /\
  (forall k name path,
      Warehouse.views !! k = Some (name, path) ->
      raw_data !! name = Some (Warehouse.load_view k (Warehouse.connector_query path))) /\
  DataProcessing.process_event_data raw_data = Raise ValueError.
Proof.
  intros raw_data. split; [apply load_views_keys|].
  split; [intros k name path; apply load_views_lookup|].
  subst raw_data. unfold DataProcessing.process_event_data, Warehouse.get_top_events_data.
  by rewrite (load_views_lookup Warehouse.connector_query 0 _ _ eq_refl).
Qed.

(** ** Content for the structured events *)

Lemma pipeline_item_fields (cg : AIContextualizer.ContentGenerator) (e : event)
    (angle generated_at_ : string) (item : ContentItem.content_item) :
  Pipeline.content_item_of cg e angle generated_at_ = Ok item ->
  ContentItem.content_angle item = Some angle /\
  ContentItem.platform item = Some "tiktok" /\
  ContentItem.content_priority item = None /\
  ContentItem.event_data item = Some e /\
  exists post,
    AIContextualizer.create_social_post cg e angle "twitter" = Ok post /\
    AIContextualizer.platform post = "twitter" /\
    ContentItem.visual_text item = Some (AIContextualizer.visual_text post) /\
    ContentItem.caption item = Some (AIContextualizer.caption post).
Proof.
  unfold Pipeline.content_item_of. intros Hi. inv_bind Hi.
  rename v into post, Hv into Hpost.
  repeat inv_bind Hi. injection Hi as <-. cbn.
  do 4 (split; [done|]). exists post.
  split; [done|]. split; [by eapply create_social_post_platform | by split].
Qed.

Lemma pipeline_item_total (cg : AIContextualizer.ContentGenerator) (e : event)
    (angle generated_at_ prompt : string) :
  has_pipeline_keys e ->
  AIContextualizer.template_func cg angle e "twitter" = Ok prompt ->
  exists item, Pipeline.content_item_of cg e angle generated_at_ = Ok item.
Proof.
  intros ([? H1] & [? H2] & [? H3] & d & Hd & [? H4]) Ht.
  destruct (create_social_post_returns _ _ _ _ _ Ht) as [post Hpost].
  unfold Pipeline.content_item_of. rewrite Hpost, H1, H2, H3, Hd. cbn [bind subscript].
  rewrite H4. cbn [bind subscript]. by eexists.
Qed.

Section PipelineAngleLoop.
Context (cg : AIContextualizer.ContentGenerator) (e : event)
        (generated_at_ : nat -> string).

Lemma pipeline_angle_loop_app (angles : list string) (j : nat)
    (acc : list ContentItem.content_item) :
  Pipeline.angle_loop cg e generated_at_ j angles acc
  = acc ++ Pipeline.angle_loop cg e generated_at_ j angles [].
Proof.
  revert j acc. induction angles as [|angle angles IH]; intros j acc; simpl.
  - by rewrite app_nil_r.
  - destruct (Pipeline.content_item_of cg e angle (generated_at_ j)) as [item|err].
    + rewrite (IH (S j) (acc ++ [item])), (IH (S j) [item]).
      by rewrite <- app_assoc.
    + apply IH.
Qed.

Lemma pipeline_angle_loop_items (angles : list string) (j : nat) :
  exists kept : list string,
    sublist kept angles /\
    Forall2 (fun angle item =>
               exists t, Pipeline.content_item_of cg e angle t = Ok item)
            kept (Pipeline.angle_loop cg e generated_at_ j angles []).
Proof.
  revert j. induction angles as [|angle angles IH]; intros j; simpl.
  - exists []. split; constructor.
  - destruct (Pipeline.content_item_of cg e angle (generated_at_ j)) as [item|err] eqn:Hi.
    + rewrite pipeline_angle_loop_app. destruct (IH (S j)) as (kept & Hsub & Hall).
      exists (angle :: kept). split; [by constructor|].
      simpl. constructor; [by eexists | exact Hall].
    + destruct (IH (S j)) as (kept & Hsub & Hall).
      exists kept. split; [by constructor | exact Hall].
Qed.

Lemma pipeline_angle_loop_all (angles : list string) (j : nat) :
  Forall (fun angle => forall t, exists item,
            Pipeline.content_item_of cg e angle t = Ok item) angles ->
  Forall2 (fun angle item =>
             exists t, Pipeline.content_item_of cg e angle t = Ok item)
          angles (Pipeline.angle_loop cg e generated_at_ j angles []).
Proof.
  intros Hall. revert j. induction Hall as [|angle angles Ha _ IH]; intros j; simpl.
  - constructor.
  - destruct (Ha (generated_at_ j)) as [item Hi]. rewrite Hi.
    rewrite pipeline_angle_loop_app. simpl. constructor; [by eexists | apply IH].
Qed.
End PipelineAngleLoop.

Lemma event_loop_returns (cg : AIContextualizer.ContentGenerator)
    (now : nat -> nat -> string) (events : list event) (i : nat)
    (acc : list ContentItem.content_item) :
  Forall announced events ->
  Pipeline.event_loop cg now i events acc = Ok (acc ++ pipeline_contents cg now i events).
Proof.
  intros Hall. revert i acc.
  induction Hall as [|e events ([name Hn] & [en He] & [angles Ha]) _ IH]; intros i acc; simpl.
  - by rewrite app_nil_r.
  - rewrite Hn, He. cbn [bind subscript]. rewrite Ha. cbn [bind].
    rewrite IH. unfold pipeline_angles. rewrite Ha.
    by rewrite pipeline_angle_loop_app, <- app_assoc.
Qed.

Lemma event_loop_inv (cg : AIContextualizer.ContentGenerator)
    (now : nat -> nat -> string) (events : list event) (i : nat)
    (acc items : list ContentItem.content_item) :
  Pipeline.event_loop cg now i events acc = Ok items -> Forall announced events.
Proof.
  revert i acc. induction events as [|e events IH]; intros i acc; simpl; [constructor|].
  intros Hi. inv_bind Hi. inv_bind Hi. inv_bind Hi.
  constructor; [|by eapply IH].
  split; [by eexists|]. split; [|by eexists].
  destruct (Event.event_name e); [by eexists | discriminate].
Qed.

Lemma pipeline_contents_items (cg : AIContextualizer.ContentGenerator)
    (now : nat -> nat -> string) (events : list event) (i : nat) :
  (length (pipeline_contents cg now i events) <= 3 * length events)%nat /\
  Forall (fun item =>
            exists e angle t,
              e ∈ events /\ angle ∈ pipeline_angles e /\
              Pipeline.content_item_of cg e angle t = Ok item)
         (pipeline_contents cg now i events).
Proof.
  revert i. induction events as [|e events IH]; intros i; simpl; [by split|].
  destruct (IH (S i)) as [Hlen Hall].
  destruct (pipeline_angle_loop_items cg e (now i) (pipeline_angles e) 0)
    as (kept & Hsub & Hitems).
  assert (H3 : (length (pipeline_angles e) <= 3)%nat).
  { unfold pipeline_angles.
    destruct (SocialContentGenerator.identify_content_angles e) as [angles|] eqn:Ha;
      [|simpl; lia].
    by destruct (pipeline_angles_count e angles Ha) as [[_ ?] _]. }
  split.
  - rewrite length_app. pose proof (Forall2_length _ _ _ Hitems) as Hl.
    pose proof (sublist_length _ _ Hsub). lia.
  - apply Forall_app. split.
    + assert (Hin : Forall (fun angle => angle ∈ pipeline_angles e) kept).
      { apply Forall_forall. intros angle Hk. by eapply elem_of_sublist. }
      clear -Hitems Hin.
      induction Hitems as [|angle item kept items [t Hi] _ IH]; constructor.
      * apply Forall_cons in Hin as [Hin _].
        exists e, angle, t. split; [by left | by split].
      * apply Forall_cons in Hin as [_ Hin]. by apply IH.
    + eapply Forall_impl; [exact Hall|]. cbv beta.
      intros item (e' & angle & t & He' & Hrest). exists e', angle, t.
      split; [by right | exact Hrest].
Qed.

Lemma structured_event_pipeline_keys `{Builtins}
    (hist_df trend_df market_df : Pandas.DataFrame) (now_ : string)
    (base_row : Pandas.Series) (e : event) :
  SocialContentGenerator.structure_row hist_df trend_df market_df now_ base_row = Ok e ->
  has_pipeline_keys e /\ announced e.
Proof.
  intros He.
  destruct (structured_events_classified _ _ _ _ _ _ He) as (x & _ & Ha).
  destruct (structure_row_names _ _ _ _ _ _ He) as [Hc Hn].
  unfold SocialContentGenerator.structure_row in He.
  repeat inv_bind He. injection He as <-.
  split.
  - unfold has_pipeline_keys. cbn. repeat (split; [by eexists|]).
    eexists. split; [reflexivity | by eexists].
  - split; [|split; [by eexists | by eexists]].
    unfold SocialContentGenerator.display_name. cbn in Hc, Hn |- *.
    match goal with
    | |- context [if ?b then _ else _] => destruct b
    end; by eexists.
Qed.

Lemma pipeline_contents_all (cg : AIContextualizer.ContentGenerator)
    (now : nat -> nat -> string) (events : list event) (i : nat) :
  Forall has_pipeline_keys events ->
  (forall e angle, exists prompt,
      AIContextualizer.template_func cg angle e "twitter" = Ok prompt) ->
  map ContentItem.content_angle (pipeline_contents cg now i events)
  = map Some (concat (map pipeline_angles events)).
Proof.
  intros Hkeys Htemplate. revert i.
  induction Hkeys as [|e events He _ IH]; intros i; simpl; [done|].
  rewrite !map_app, IH. f_equal.
  assert (Hall : Forall2 (fun angle item =>
                            exists t, Pipeline.content_item_of cg e angle t = Ok item)
                   (pipeline_angles e)
                   (Pipeline.angle_loop cg e (now i) 0 (pipeline_angles e) [])).
  { apply pipeline_angle_loop_all. apply Forall_forall. intros angle _ t.
    destruct (Htemplate e angle) as [prompt Hp]. by eapply pipeline_item_total. }
  clear -Hall. induction Hall as [|angle item angles items [t Hi] _ IH]; simpl; [done|].
  apply pipeline_item_fields in Hi as (-> & _). by rewrite IH.
Qed.

(** X13. [generate_content_for_events] returns exactly when, for every
    event, the name that it prints can be read and the classifier
    returns. It then returns at most three items per event, in the order
    of the events and of their angles; every item is recorded for TikTok
    although its texts were generated for Twitter, carries its event, and
    has no priority. For the events that [structure_event_data] builds,
    and a generator whose prompt template returns, it returns one item
    for every angle of every event. *)
Theorem pipeline_content_items `{Builtins} (cg : AIContextualizer.ContentGenerator)
    (now : nat -> nat -> string) (events : list event) :
  ((exists items, Pipeline.generate_content_for_events cg now events = Ok items) <->
   Forall announced events) /\
  (forall items,
      Pipeline.generate_content_for_events cg now events = Ok items ->
      items = pipeline_contents cg now 0 events /\
      (length items <= 3 * length events)%nat /\
      Forall (fun item =>
                ContentItem.platform item = Some "tiktok" /\
                ContentItem.content_priority item = None /\
                exists e angle post,
                  e ∈ events /\ angle ∈ pipeline_angles e /\
                  ContentItem.event_data item = Some e /\
                  ContentItem.content_angle item = Some angle /\
                  AIContextualizer.create_social_post cg e angle "twitter" = Ok post /\
                  AIContextualizer.platform post = "twitter" /\
                  ContentItem.visual_text item = Some (AIContextualizer.visual_text post) /\
                  ContentItem.caption item = Some (AIContextualizer.caption post))
             items) /\
  (forall (hist_df trend_df market_df : Pandas.DataFrame) (now_ : string),
      Forall (fun e => exists base_row,
                SocialContentGenerator.structure_row hist_df trend_df market_df now_
                  base_row = Ok e) events ->
      (forall e angle, exists prompt,
          AIContextualizer.template_func cg angle e "twitter" = Ok prompt) ->
      exists items,
        Pipeline.generate_content_for_events cg now events = Ok items /\
        map ContentItem.content_angle items
        = map Some (concat (map pipeline_angles events)) /\
        Forall (fun e => (1 <= length (pipeline_angles e) <= 3)%nat) events).
Proof.
  unfold Pipeline.generate_content_for_events. split; [|split].
  - split.
    + intros [items Hi]. by eapply event_loop_inv.
    + intros Hall. rewrite (event_loop_returns _ _ _ _ _ Hall). by eexists.
  - intros items Hi.
    pose proof (event_loop_inv _ _ _ _ _ _ Hi) as Hall.
    rewrite (event_loop_returns _ _ _ _ _ Hall) in Hi. injection Hi as <-.
    cbn [app]. split; [done|].
    destruct (pipeline_contents_items cg now events 0) as [Hlen Hitems].
    split; [exact Hlen|].
    eapply Forall_impl; [exact Hitems|]. cbv beta.
    intros item (e & angle & t & He & Ha & Hi).
    apply pipeline_item_fields in Hi as (Hangle & Hp & Hprio & Hdata & post & Hpost).
    split; [exact Hp|]. split; [exact Hprio|].
    exists e, angle, post. by repeat (split; [assumption|]).
  - intros hist_df trend_df market_df now_ Hbuilt Htemplate.
    assert (Hkeys : Forall (fun e => has_pipeline_keys e /\ announced e) events).
    { eapply Forall_impl; [exact Hbuilt|]. cbv beta. intros e [row Hrow].
      by eapply structured_event_pipeline_keys. }
    rewrite (event_loop_returns cg now events 0 []).
    2: { eapply Forall_impl; [exact Hkeys|]. cbv beta. tauto. }
    eexists. split; [reflexivity|]. cbn [app]. split.
    + apply pipeline_contents_all; [|exact Htemplate].
      eapply Forall_impl; [exact Hkeys|]. cbv beta. tauto.
    + eapply Forall_impl; [exact Hkeys|]. cbv beta.
      intros e (_ & _ & _ & angles & Ha). unfold pipeline_angles. rewrite Ha.
      by destruct (pipeline_angles_count e angles Ha) as [? _].
Qed.

(** ** Totals over a dictionary *)

Section MapTotal.
Context `{Countable K} {V : Type} (f : V -> Z).

Lemma map_total_empty : map_total f (∅ : gmap K V) = 0.
Proof. unfold map_total. by rewrite map_fold_empty. Qed.

Lemma map_total_insert_fresh (m : gmap K V) (k : K) (v : V) :
  m !! k = None -> map_total f (<[k := v]> m) = f v + map_total f m.
Proof.
  intros Hk. unfold map_total. rewrite map_fold_insert_L; [done| |done].
  intros. lia.
Qed.

Lemma map_total_insert (m : gmap K V) (k : K) (v : V) :
  map_total f (<[k := v]> m)
  = map_total f m - match m !! k with Some w => f w | None => 0 end + f v.
Proof.
  destruct (m !! k) as [w|] eqn:Hk.
  - rewrite <- (insert_delete_id m k w Hk) at 2.
    rewrite <- (insert_delete_eq m k v).
    rewrite !map_total_insert_fresh by apply lookup_delete_eq. lia.
  - rewrite map_total_insert_fresh by done. lia.
Qed.

Lemma map_total_size (m : gmap K V) :
  map_Forall (fun _ v => 1 <= f v) m -> Z.of_nat (size m) <= map_total f m.
Proof.
  induction m as [|k v m Hk IH] using map_ind.
  - intros _. rewrite map_size_empty, map_total_empty. lia.
  - intros Hall. apply map_Forall_insert in Hall as [Hv Hall]; [|done].
    rewrite map_size_insert_None by done. rewrite map_total_insert_fresh by done.
    specialize (IH Hall). lia.
Qed.
End MapTotal.

(** ** The posting schedule *)

Section PostingSchedule.
Context `{Batch.Calendar}.

Lemma schedule_step_no_content (posts_per_day_ : Z)
    (st : gmap string (list Schedule.scheduled_post) * Batch.datetime)
    (item : ContentItem.content_item) :
  ContentItem.content item = None ->
  exists err, Batch.schedule_step posts_per_day_ st item = Raise err.
Proof.
  intros Hc. destruct st as [schedule_ current_date]. unfold Batch.schedule_step.
  destruct (Batch.add_hours _ _); [|by eexists]. cbn [bind].
  destruct (ContentItem.event_id item); [|by eexists].
  destruct (ContentItem.content_angle item); [|by eexists].
  destruct (ContentItem.artist_name item); [|by eexists].
  destruct (ContentItem.event_name item); [|by eexists].
  destruct (ContentItem.content_priority item); [|by eexists].
  rewrite Hc. by eexists.
Qed.

Lemma schedule_first_content_error (posts_per_day_ : Z) (current_date d : Batch.datetime)
    (item : ContentItem.content_item) :
  exportable item ->
  ContentItem.content item = None ->
  Batch.add_hours current_date 0 = Ok d ->
  Batch.schedule_step posts_per_day_ (∅, current_date) item = Raise (KeyError "content").
Proof.
  intros ([i Hi] & [a Ha] & [n Hn] & _ & _ & [c Hc] & _ & _ & _ & [p Hp] & _) Hnone Hd.
  unfold Batch.schedule_step. rewrite lookup_empty, lookup_insert_eq.
  cbn [dict_get length]. change (Z.of_nat 0 * 8) with 0. rewrite Hd.
  by rewrite Hi, Hc, Ha, Hn, Hp, Hnone.
Qed.

Lemma schedule_step_keeps (posts_per_day_ : Z)
    (st st' : gmap string (list Schedule.scheduled_post) * Batch.datetime)
    (item : ContentItem.content_item) :
  Batch.schedule_step posts_per_day_ st item = Ok st' ->
  is_Some (ContentItem.content item) /\
  map_total (fun day => Z.of_nat (length day)) (fst st')
  = map_total (fun day => Z.of_nat (length day)) (fst st) + 1 /\
  (map_Forall (fun _ day => 1 <= Z.of_nat (length day)) (fst st) ->
   map_Forall (fun _ day => 1 <= Z.of_nat (length day)) (fst st')).
Proof.
  destruct st as [schedule_ current_date]. unfold Batch.schedule_step. intros Hs.
  repeat inv_bind Hs.
  split; [destruct (ContentItem.content item); [by eexists | discriminate]|].
  assert (Hst : exists day_key post date',
             st' = (<[day_key := dict_get (schedule_ !! day_key) [] ++ [post]]> schedule_,
                    date')).
  { destruct (schedule_ !! Batch.strftime current_date "%Y-%m-%d") as [day|] eqn:Hday.
    - rewrite Hday in Hs. cbn [dict_get] in Hs.
      destruct (Z.leb _ _); repeat inv_bind Hs; injection Hs as <-;
        do 3 eexists; by rewrite Hday.
    - rewrite lookup_insert_eq in Hs. cbn [dict_get] in Hs.
      rewrite insert_insert_eq in Hs.
      destruct (Z.leb _ _); repeat inv_bind Hs; injection Hs as <-;
        do 3 eexists; by rewrite Hday. }
  destruct Hst as (day_key & post & date' & ->). cbn [fst]. split.
  - rewrite map_total_insert. rewrite length_app. cbn [length].
    destruct (schedule_ !! day_key); cbn [dict_get length]; lia.
  - intros Hall. apply map_Forall_insert_2; [|exact Hall].
    rewrite length_app. cbn [length]. lia.
Qed.

Lemma schedule_loop_keeps (posts_per_day_ : Z) (sorted_content : list ContentItem.content_item)
    (st st' : gmap string (list Schedule.scheduled_post) * Batch.datetime) :
  Batch.schedule_loop posts_per_day_ st sorted_content = Ok st' ->
  Forall (fun item => is_Some (ContentItem.content item)) sorted_content /\
  map_total (fun day => Z.of_nat (length day)) (fst st')
  = map_total (fun day => Z.of_nat (length day)) (fst st)
    + Z.of_nat (length sorted_content) /\
  (map_Forall (fun _ day => 1 <= Z.of_nat (length day)) (fst st) ->
   map_Forall (fun _ day => 1 <= Z.of_nat (length day)) (fst st')).
Proof.
  revert st. induction sorted_content as [|item rest IH]; intros st; simpl.
  - intros [= <-]. split; [constructor|]. split; [lia | done].
  - intros Hs. inv_bind Hs. apply schedule_step_keeps in Hv as (Hc & Hv & Hd).
    apply IH in Hs as (Hall & Hs & Hd'). split; [by constructor|]. split; [lia | auto].
Qed.

(** A non-empty content in which no item has the ['content'] key is
    never scheduled. *)
Lemma schedule_needs_content (content : list ContentItem.content_item)
    (posts_per_day_ : Z) (start_date_ : option Batch.datetime) :
  content <> [] ->
  Forall (fun item => ContentItem.content item = None) content ->
  exists err, Batch.create_posting_schedule content posts_per_day_ start_date_ = Raise err.
Proof.
  intros Hne Hnone. unfold Batch.create_posting_schedule.
  destruct content as [|item0 content0] eqn:Hcontent; [done|]. cbn [is_empty].
  rewrite <- Hcontent in *. clear Hne.
  destruct (Batch.sorted_by_priority content) as [sorted|err] eqn:Hsorted;
    [|by eexists].
  cbn [bind]. apply sorted_by_priority_inv in Hsorted as [_ ->].
  pose proof (sorted_desc_perm priority_of content) as Hperm.
  destruct (sorted_desc priority_of content) as [|item rest] eqn:Hs.
  { apply Permutation_nil_l in Hperm. congruence. }
  assert (Hitem : ContentItem.content item = None).
  { apply (proj1 (Forall_forall _ _) Hnone). rewrite <- Hperm. by left. }
  cbn [Batch.schedule_loop].
  destruct (schedule_step_no_content posts_per_day_
              (∅, dict_get start_date_ Batch.datetime_now) item Hitem) as [err ->].
  by eexists.
Qed.

Lemma schedule_content_error (content : list ContentItem.content_item)
    (posts_per_day_ : Z) (start_date_ : option Batch.datetime) (d : Batch.datetime) :
  content <> [] ->
  Forall exportable content ->
  Forall (fun item => ContentItem.content item = None) content ->
  Batch.add_hours (dict_get start_date_ Batch.datetime_now) 0 = Ok d ->
  Batch.create_posting_schedule content posts_per_day_ start_date_
  = Raise (KeyError "content").
Proof.
  intros Hne Hx Hnone Hd. unfold Batch.create_posting_schedule.
  destruct content as [|item0 content0] eqn:Hcontent; [done|]. cbn [is_empty].
  rewrite <- Hcontent in *. clear Hne.
  rewrite sorted_by_priority_Ok.
  2: { eapply Forall_impl; [exact Hx|]. simpl. unfold exportable. tauto. }
  cbn [bind]. pose proof (sorted_desc_perm priority_of content) as Hperm.
  destruct (sorted_desc priority_of content) as [|item rest] eqn:Hs.
  { apply Permutation_nil_l in Hperm. congruence. }
  assert (Hin : item ∈ content) by (rewrite <- Hperm; by left).
  cbn [Batch.schedule_loop].
  rewrite (schedule_first_content_error _ _ d); [done| | |exact Hd].
  - by apply (proj1 (Forall_forall _ _) Hx).
  - by apply (proj1 (Forall_forall _ _) Hnone).
Qed.
End PostingSchedule.

(** X14. [create_posting_schedule] returns the empty dictionary for an empty
    content and only for it. When it returns a schedule, every item had
    the keys ['content'] and ['content_priority'], every item is
    scheduled on exactly one day, [total_posts] is the number of items,
    and [total_days] is at least one and at most that number. A non-empty
    content in which no item has the ['content'] key is never
    scheduled. *)
Theorem posting_schedule_posts `{Batch.Calendar} (content : list ContentItem.content_item)
    (posts_per_day_ : Z) (start_date_ : option Batch.datetime) :
  (content = [] <->
   Batch.create_posting_schedule content posts_per_day_ start_date_ = Ok None) /\
  (forall s,
      Batch.create_posting_schedule content posts_per_day_ start_date_ = Ok (Some s) ->
      Forall (fun item => is_Some (ContentItem.content item) /\
                          is_Some (ContentItem.content_priority item)) content /\
      Schedule.total_posts s = Z.of_nat (length content) /\
      map_total (fun day => Z.of_nat (length day)) (Schedule.schedule s)
      = Z.of_nat (length content) /\
      Schedule.total_days s = Z.of_nat (size (Schedule.schedule s)) /\
      1 <= Schedule.total_days s <= Schedule.total_posts s /\
      Schedule.posts_per_day s = posts_per_day_ /\
      Schedule.start_date s
      = Batch.strftime (dict_get start_date_ Batch.datetime_now) "%Y-%m-%d") /\
  (content <> [] ->
   Forall (fun item => ContentItem.content item = None) content ->
   exists err,
     Batch.create_posting_schedule content posts_per_day_ start_date_ = Raise err).
Proof.
  split; [|split].
  - unfold Batch.create_posting_schedule. split; [by intros ->|].
    destruct content as [|item content]; [done|]. cbn [is_empty].
    intros Hs. repeat inv_bind Hs. discriminate.
  - unfold Batch.create_posting_schedule. intros s Hs.
    destruct content as [|item0 content0] eqn:Hcontent; [discriminate|]. cbn [is_empty] in Hs.
    rewrite <- Hcontent in *.
    inv_bind Hs. rename v into sorted, Hv into Hsorted.
    inv_bind Hs. rename v into st, Hv into Hloop.
    injection Hs as <-. cbn.
    apply sorted_by_priority_inv in Hsorted as [Hprio ->].
    pose proof (sorted_desc_perm priority_of content) as Hperm.
    apply schedule_loop_keeps in Hloop as (Hall & Htotal & Hdays).
    cbn [fst] in Htotal, Hdays. rewrite map_total_empty in Htotal.
    rewrite sorted_desc_length in *.
    assert (Hsize : Z.of_nat (size st.1)
                    <= map_total (fun day => Z.of_nat (length day)) st.1).
    { apply map_total_size. apply Hdays. apply map_Forall_empty. }
    assert (Hpos : 0 < Z.of_nat (size st.1)).
    { destruct (decide (size st.1 = 0%nat)) as [Hz|Hz]; [|lia].
      apply map_size_empty_inv in Hz. rewrite Hz, map_total_empty in Htotal.
      rewrite Hcontent in Htotal. cbn [length] in Htotal. lia. }
    split.
    { rewrite Hperm in Hall. apply Forall_forall. intros item Hin.
      split; [by apply (proj1 (Forall_forall _ _) Hall) |
              by apply (proj1 (Forall_forall _ _) Hprio)]. }
    repeat split; try done; lia.
  - apply schedule_needs_content.
Qed.

(** X15. What [process_events_batch] returns cannot be scheduled: on an empty
    list [create_posting_schedule] returns the empty dictionary, and on
    every other it raises, a [KeyError] for ['content'] when the first
    date computation returns, since no item has that key. *)
Theorem batch_output_unscheduled `{Batch.Clock} `{Batch.Calendar} (self : Batch.processor)
    (events : list event) (cg : AIContextualizer.ContentGenerator)
    (max_content_per_event posts_per_day_ : Z) (start_date_ : option Batch.datetime) :
  exists content,
    fst (Batch.process_events_batch self events cg max_content_per_event) = Ok content /\
    (content = [] ->
     Batch.create_posting_schedule content posts_per_day_ start_date_ = Ok None) /\
    (content <> [] ->
     exists err,
       Batch.create_posting_schedule content posts_per_day_ start_date_ = Raise err /\
       ((exists d, Batch.add_hours (dict_get start_date_ Batch.datetime_now) 0 = Ok d) ->
        err = KeyError "content")).
Proof.
  exists (batch_contents cg max_content_per_event 1 events).
  split; [apply process_events_batch_content|]. split; [by intros ->|].
  intros Hne.
  pose proof (batch_contents_exportable cg max_content_per_event 1 events) as Hx.
  pose proof (batch_contents_no_content cg max_content_per_event 1 events) as Hnone.
  destruct (schedule_needs_content _ posts_per_day_ start_date_ Hne Hnone) as [err Herr].
  exists err. split; [exact Herr|]. intros [d Hd].
  rewrite (schedule_content_error _ _ _ d Hne Hx Hnone Hd) in Herr. congruence.
Qed.

(** ** Distributions *)

Section Counting.
Context `{Countable K}.

Lemma count_one_lookup (d : gmap K Z) (key k : K) :
  dict_get (Dashboard.count_one d key !! k) 0
  = dict_get (d !! k) 0 + (if decide (key = k) then 1 else 0).
Proof.
  unfold Dashboard.count_one. destruct (decide (key = k)) as [->|Hne].
  - by rewrite lookup_insert_eq.
  - rewrite lookup_insert_ne by done. lia.
Qed.

Lemma count_one_is_Some (d : gmap K Z) (key k : K) :
  is_Some (Dashboard.count_one d key !! k) <-> is_Some (d !! k) \/ key = k.
Proof.
  unfold Dashboard.count_one. rewrite lookup_insert_is_Some. split.
  - intros [->|[_ Hs]]; [by right | by left].
  - intros [Hs| ->]; [|by left].
    destruct (decide (key = k)) as [->|]; [by left | by right].
Qed.

Lemma count_one_total (d : gmap K Z) (key : K) :
  map_total id (Dashboard.count_one d key) = map_total id d + 1.
Proof.
  unfold Dashboard.count_one. rewrite map_total_insert.
  destruct (d !! key); cbn [dict_get id]; unfold id; lia.
Qed.

Lemma count_one_positive (d : gmap K Z) (key : K) :
  map_Forall (fun _ n => 1 <= n) d ->
  map_Forall (fun _ n => 1 <= n) (Dashboard.count_one d key).
Proof.
  intros Hall. unfold Dashboard.count_one. apply map_Forall_insert_2; [|exact Hall].
  destruct (d !! key) as [n|] eqn:Hn; cbn [dict_get]; [|lia].
  specialize (Hall key n Hn). simpl in Hall. lia.
Qed.

Lemma count_loop (keys : list K) (d : gmap K Z) :
  let d' := fold_left Dashboard.count_one keys d in
  (forall k, dict_get (d' !! k) 0 = dict_get (d !! k) 0 + occurrences k keys) /\
  (forall k, is_Some (d' !! k) <-> is_Some (d !! k) \/ k ∈ keys) /\
  map_total id d' = map_total id d + Z.of_nat (length keys) /\
  (map_Forall (fun _ n => 1 <= n) d -> map_Forall (fun _ n => 1 <= n) d').
Proof.
  revert d. induction keys as [|key keys IH]; intros d; simpl.
  - split; [intros k; unfold occurrences; simpl; lia|].
    split; [intros k; rewrite elem_of_nil; tauto|]. split; [lia | done].
  - destruct (IH (Dashboard.count_one d key)) as (Hl & Hs & Ht & Hp).
    split; [|split; [|split]].
    + intros k. rewrite Hl, count_one_lookup. unfold occurrences.
      rewrite filter_cons. destruct (decide (key = k)); simpl; lia.
    + intros k. rewrite Hs, count_one_is_Some, elem_of_cons.
      split; [intros [[?|<-]|?] | intros [?|[->|?]]]; auto.
    + rewrite Ht, count_one_total. lia.
    + intros Hd. by apply Hp, count_one_positive.
Qed.
End Counting.

Lemma fold_left_keys {A : Type} `{Countable K} (key : A -> K) (l : list A) (d : gmap K Z) :
  fold_left (fun distribution item => Dashboard.count_one distribution (key item)) l d
  = fold_left Dashboard.count_one (map key l) d.
Proof. revert d. induction l as [|x l IH]; intros d; simpl; [done | apply IH]. Qed.

Lemma priority_loop_inv `{Builtins} (content_data : list StreamlitApp.content_item)
    (d by_score : gmap Z Z) :
  Dashboard.priority_distribution_loop content_data d = Ok by_score ->
  exists scores,
    Forall2 (fun item score => StreamlitApp.calculate_priority_score item = Ok score)
            content_data scores /\
    by_score = fold_left Dashboard.count_one scores d.
Proof.
  revert d. induction content_data as [|item rest IH]; intros d; simpl.
  - intros [= <-]. exists []. split; [constructor | done].
  - intros Hd. inv_bind Hd. apply IH in Hd as (scores & Hall & ->).
    exists (v :: scores). split; [by constructor | done].
Qed.

Lemma priority_loop_raises `{Builtins} (content_data : list StreamlitApp.content_item)
    (d : gmap Z Z) (err : exn) :
  Dashboard.priority_distribution_loop content_data d = Raise err ->
  exists item, item ∈ content_data /\
               StreamlitApp.calculate_priority_score item = Raise err.
Proof.
  revert d. induction content_data as [|item rest IH]; intros d; simpl; [discriminate|].
  destruct (StreamlitApp.calculate_priority_score item) as [score|err'] eqn:Hs; cbn [bind].
  - intros Hd. apply IH in Hd as (item' & Hin & Hi). exists item'.
    split; [by right | exact Hi].
  - intros [= <-]. exists item. split; [by left | exact Hs].
Qed.

Lemma dashboard_score_at_most_10 `{Builtins} (item : StreamlitApp.content_item) (score : Z) :
  StreamlitApp.calculate_priority_score item = Ok score -> score <= 10.
Proof.
  unfold StreamlitApp.calculate_priority_score. intros Hs. repeat inv_bind Hs.
  match type of Hs with
  | match ?t with _ => _ end = _ => destruct t; try discriminate
  end.
  injection Hs as <-. lia.
Qed.

(** X16. The angle distribution counts every item once, under its angle or
    under ['unknown'] when it has none: the count of an angle is the
    number of its items, the angles listed are those that occur, and the
    counts add up to the number of items. The priority distribution
    raises what the first failing score raises; when it returns, it
    counts every item once under its score, no score is above 10, and no
    count is below 1. *)
Theorem distributions_count `{Builtins} (content_data : list StreamlitApp.content_item) :
  let angles :=
    map (fun item => dict_get (StreamlitApp.content_angle item) "unknown") content_data in
  let by_angle := Dashboard.calculate_angle_distribution content_data in
  (forall angle, dict_get (by_angle !! angle) 0 = occurrences angle angles) /\
  (forall angle, is_Some (by_angle !! angle) <-> angle ∈ angles) /\
  map_total id by_angle = Z.of_nat (length content_data) /\
  (forall by_score,
      Dashboard.calculate_priority_distribution content_data = Ok by_score ->
      exists scores,
        Forall2 (fun item score =>
                   StreamlitApp.calculate_priority_score item = Ok score)
                content_data scores /\
        (forall score, dict_get (by_score !! score) 0 = occurrences score scores) /\
        map_total id by_score = Z.of_nat (length content_data) /\
        (forall score n, by_score !! score = Some n -> score <= 10 /\ 1 <= n)) /\
  (forall err,
      Dashboard.calculate_priority_distribution content_data = Raise err ->
      exists item, item ∈ content_data /\
                   StreamlitApp.calculate_priority_score item = Raise err).
Proof.
  intros angles by_angle. subst by_angle. unfold Dashboard.calculate_angle_distribution.
  rewrite fold_left_keys. fold angles.
  destruct (count_loop angles ∅) as (Hl & Hs & Ht & _).
  split; [intros angle; rewrite Hl, lookup_empty; cbn [dict_get]; lia|].
  split; [intros angle; rewrite Hs, lookup_empty; split;
          [intros [Hempty|Hin]; [by apply is_Some_None in Hempty | done] | by right]|].
  split; [rewrite Ht, map_total_empty; subst angles; rewrite length_map; lia|].
  split.
  - intros by_score Hd. apply priority_loop_inv in Hd as (scores & Hall & ->).
    exists scores. split; [exact Hall|].
    destruct (count_loop scores ∅) as (Hl' & Hs' & Ht' & Hp').
    split; [intros score; rewrite Hl', lookup_empty; cbn [dict_get]; lia|].
    split; [rewrite Ht', map_total_empty, (Forall2_length _ _ _ Hall); lia|].
    intros score n Hn. split.
    + assert (Hin : score ∈ scores).
      { destruct (proj1 (Hs' score) (ex_intro _ n Hn)) as [Hempty|Hin]; [|done].
        rewrite lookup_empty in Hempty. by apply is_Some_None in Hempty. }
      clear -Hall Hin. induction Hall as [|item s rest scores Hi _ IH].
      * by apply elem_of_nil in Hin.
      * apply elem_of_cons in Hin as [->|Hin]; [by eapply dashboard_score_at_most_10 | auto].
    + by apply (Hp' (map_Forall_empty _) score n).
  - apply priority_loop_raises.
Qed.

(** ** Top buyer countries *)

Lemma top_countries_loop_listed `{Builtins} (row : Pandas.Series) (slots : list Z)
    (acc l : list country_dict) :
  SocialContentGenerator.top_countries_loop row slots acc = Ok l ->
  exists new,
    l = acc ++ new /\
    map country new
    = map (fun i => VStr (str (Pandas.get row
                                 (SocialContentGenerator.top_buyer_column i "") VNone)))
          (List.filter (listed row) slots).
Proof.
  revert acc. induction slots as [|i slots IH]; intros acc; simpl.
  - intros [= <-]. exists []. by rewrite app_nil_r.
  - unfold listed at 1.
    destruct (truthy _ && negb _).
    + intros Hl. inv_bind Hl. inv_bind Hl.
      apply IH in Hl as (new & -> & Hnew).
      eexists (_ :: new). split; [by rewrite <- app_assoc|].
      simpl. by rewrite Hnew.
    + apply IH.
Qed.

(** X17. Without a trend row [_extract_geographic_insights] returns the empty
    dictionary. With one, the countries that it lists are those of the
    three slots whose country cell is true and whose share cell is not
    [None], in slot order, and the appeal score is their number, at most
    three. A country cell that is NaN is true, so such a slot is listed
    under the name "nan". *)
Theorem geographic_top_countries `{Builtins} :
  SocialContentGenerator._extract_geographic_insights None = Ok no_geographic /\
  (forall (row : Pandas.Series) (g : geographic_dict),
      SocialContentGenerator._extract_geographic_insights (Some row) = Ok g ->
      exists l,
        top_buyer_countries g = Some l /\
        map country l
        = map (fun i => VStr (str (Pandas.get row
                                     (SocialContentGenerator.top_buyer_column i "") VNone)))
              (List.filter (listed row) [1; 2; 3]) /\
        (length l <= 3)%nat /\
        international_appeal_score g = Some (VInt (Z.of_nat (length l))) /\
        (forall i,
            i ∈ [1; 2; 3] ->
            Pandas.get row (SocialContentGenerator.top_buyer_column i "") VNone
            = VFloat NaN ->
            Pandas.get row (SocialContentGenerator.top_buyer_column i "_PCT") VNone
            <> VNone ->
            VStr "nan" ∈ map country l)).
Proof.
  split; [reflexivity|]. intros row g Hg.
  unfold SocialContentGenerator._extract_geographic_insights in Hg.
  inv_bind Hg. rename v into l, Hv into Hl. inv_bind Hg. injection Hg as <-.
  apply top_countries_loop_listed in Hl as (new & -> & Hnew). cbn [app] in *.
  exists new. cbn [top_buyer_countries international_appeal_score].
  split; [done|]. split; [exact Hnew|].
  assert (Hlen : (length new <= 3)%nat).
  { rewrite <- (length_map country), Hnew, length_map.
    pose proof (filter_length (listed row) [1; 2; 3]) as Hf.
    cbn [length] in Hf. lia. }
  split; [exact Hlen|]. split; [done|].
  intros i Hi Hc Hp. rewrite Hnew.
  apply list_elem_of_In, in_map_iff. exists i. split; [by rewrite Hc|].
  apply filter_In. split; [by apply list_elem_of_In|].
  unfold listed. rewrite Hc. cbn [truthy andb].
  destruct (Pandas.get row (SocialContentGenerator.top_buyer_column i "_PCT") VNone);
    [by destruct Hp | reflexivity..].
Qed.

(** ** The classifiers and the scorer on any dictionary *)

(** X18. Whenever a classifier returns, on any dictionary, it returns at
    least one angle and no angle twice: at most five in the batch
    processor and at most three in the pipeline. *)
Theorem classifier_angle_counts (e : event) :
  (forall angles,
      BatchProcessor._identify_content_angles e = Ok angles ->
      (1 <= length angles <= 5)%nat /\ NoDup angles) /\
  (forall angles,
      SocialContentGenerator.identify_content_angles e = Ok angles ->
      (1 <= length angles <= 3)%nat /\ NoDup angles).
Proof.
  split; intros angles Ha.
  - by apply (batch_angles_count e).
  - by apply (pipeline_angles_count e).
Qed.

(** X19. The batch scorer returns exactly when the rank, the completeness
    score and the career multiple that it reads are numbers, and raises
    a [TypeError] otherwise, also when only the last of them is not a
    number. Whatever it returns is between 5 and 10, although its
    docstring announces 1 to 10. *)
Theorem scorer_returns_on_numbers (e : event) (angle : string) :
  ((exists p, BatchProcessor._calculate_content_priority e angle = Ok p) <->
   is_Some (as_number (rank_of e)) /\
   is_Some (as_number (completeness_score_of e)) /\
   is_Some (as_number (career_multiple_of (VInt 1) e))) /\
  (forall err,
      BatchProcessor._calculate_content_priority e angle = Raise err -> err = TypeError) /\
  (forall p, BatchProcessor._calculate_content_priority e angle = Ok p -> 5 <= p <= 10).
Proof.
  split; [|split].
  - split.
    + intros [p Hp].
      destruct (scorer_returns_numbers e angle p Hp) as (r & s & m & -> & -> & ->).
      by repeat split.
    + intros ([r Hr] & [s Hs] & [m Hm]). eexists. by apply priority_formula.
  - unfold BatchProcessor._calculate_content_priority, le, ge. intros err Herr.
    repeat match type of Herr with
           | context [as_number ?v] => destruct (as_number v); cbn [bind] in Herr
           | context [float_le ?f ?c] => destruct (float_le f c); cbn [bind] in Herr
           | context [float_ge ?f ?c] => destruct (float_ge f c); cbn [bind] in Herr
           end; congruence.
  - intros p. apply scorer_returns_range.
Qed.

(** ** The metadata of a batch *)

Lemma count_key_total `{EqDecision K} (d : list (K * Z)) (key : K) :
  pair_total (count_key d key) = pair_total d + 1.
Proof.
  induction d as [|[k n] d IH]; simpl; [lia|].
  destruct (decide (k = key)); simpl; lia.
Qed.

Lemma pair_total_perm {K : Type} (d d' : list (K * Z)) :
  d ≡ₚ d' -> pair_total d = pair_total d'.
Proof. induction 1; simpl; lia. Qed.

Lemma count_distinct_bounds `{EqDecision A} (l : list A) :
  l <> [] -> 1 <= count_distinct l <= Z.of_nat (length l).
Proof.
  intros Hne. unfold count_distinct. split.
  - destruct l as [|x l]; [done|].
    assert (Hx : x ∈ remove_dups (x :: l)) by (apply elem_of_remove_dups; by left).
    destruct (remove_dups (x :: l)); [by apply elem_of_nil in Hx | simpl; lia].
  - clear Hne. apply inj_le. induction l as [|x l IH]; simpl; [lia|].
    destruct (decide_rel elem_of x l); simpl; lia.
Qed.

Lemma distributions_loop_totals (content : list ContentItem.content_item)
    (st st' : list (string * Z) * list (Z * Z) * list (string * Z)) :
  Batch.distributions_loop content st = Ok st' ->
  pair_total st'.1.1 = pair_total st.1.1 + Z.of_nat (length content) /\
  pair_total st'.1.2 = pair_total st.1.2 + Z.of_nat (length content) /\
  pair_total st'.2 = pair_total st.2 + Z.of_nat (length content).
Proof.
  revert st. induction content as [|item rest IH]; intros [[a p] g]; simpl.
  - intros [= <-]. simpl. lia.
  - intros Hs. repeat inv_bind Hs. apply IH in Hs as (Ha & Hp & Hg). simpl in *.
    rewrite count_key_total in Ha. rewrite count_key_total in Hp.
    rewrite count_key_total in Hg. lia.
Qed.

Lemma top_event_of_gms (item : ContentItem.content_item) (t : Metadata.top_event) :
  Batch.top_event_of item = Ok t ->
  exists m, ContentItem.event_metrics item = Some m /\ is_Some (Metrics.recent_7d_gms m).
Proof.
  unfold Batch.top_event_of. intros Ht. repeat inv_bind Ht.
  destruct (ContentItem.event_metrics item) as [m|]; [|discriminate].
  exists m. split; [done|]. injection Hv1 as <-.
  destruct (Metrics.recent_7d_gms m); [by eexists | discriminate].
Qed.

Lemma top_event_of_no_gms (item : ContentItem.content_item) :
  no_gms item -> exists err, Batch.top_event_of item = Raise err.
Proof.
  intros Hno. destruct (Batch.top_event_of item) as [t|err] eqn:Ht; [|by eexists].
  apply top_event_of_gms in Ht as (m & Hm & [g Hg]).
  rewrite (Hno m Hm) in Hg. discriminate.
Qed.

Lemma top_event_of_gms_error (item : ContentItem.content_item) :
  exportable item -> no_gms item ->
  Batch.top_event_of item = Raise (KeyError "recent_7d_gms").
Proof.
  intros (_ & [a Ha] & [n Hn] & _ & _ & _ & _ & _ & _ & _ & m & Hm & _) Hno.
  unfold Batch.top_event_of. rewrite Ha, Hn, Hm. cbn [subscript bind].
  by rewrite (Hno m Hm).
Qed.

Lemma distributions_loop_returns (content : list ContentItem.content_item)
    (st : list (string * Z) * list (Z * Z) * list (string * Z)) :
  Forall exportable content ->
  exists st', Batch.distributions_loop content st = Ok st'.
Proof.
  intros Hx. revert st. induction Hx as [|item rest Hitem _ IH]; intros [[a p] g]; simpl.
  - by eexists.
  - destruct Hitem as (_ & _ & _ & _ & [ge ->] & [c ->] & _ & _ & _ & [pr ->] & _).
    cbn [subscript bind]. apply IH.
Qed.

Lemma sum_scores_returns (content : list ContentItem.content_item) (acc : value)
    (f : pyfloat) :
  as_number acc = Some f ->
  Forall scored content ->
  exists total g, Batch.sum_scores content acc = Ok total /\ as_number total = Some g.
Proof.
  intros Hacc Hs. revert acc f Hacc.
  induction Hs as [|item rest (v & fv & Hv & Hnum) _ IH]; intros acc f Hacc; simpl.
  - by exists acc, f.
  - rewrite Hv. cbn [subscript bind].
    assert (Hadd : exists a g, add_to_number acc v = Ok a /\ as_number a = Some g).
    { unfold add_to_number. rewrite Hacc, Hnum.
      destruct acc as [|b|x|x|x], v as [|c|y|y|y]; try discriminate; by do 2 eexists. }
    destruct Hadd as (a & g & -> & Hg). cbn [bind]. by eapply IH.
Qed.

Lemma truediv_int_returns (x : value) (n : Z) (f : pyfloat) :
  as_number x = Some f -> exists q, truediv_int x n = Ok q.
Proof.
  destruct x as [|b|z|[| |]|s]; try discriminate; intros _; by eexists.
Qed.

Section Metadata.
Context `{Batch.Reporting}.

Lemma metadata_inv (self : Batch.processor) (content : list ContentItem.content_item)
    (r : option Metadata.metadata) :
  Batch._generate_content_metadata self content = Ok r ->
  (content = [] /\ r = None) \/
  (content <> [] /\
   exists m,
     r = Some m /\
     Metadata.total_content_items (Metadata.summary m) = Z.of_nat (length content) /\
     1 <= Metadata.unique_events (Metadata.summary m) <= Z.of_nat (length content) /\
     1 <= Metadata.unique_artists (Metadata.summary m) <= Z.of_nat (length content) /\
     pair_total (Metadata.by_angle (Metadata.distribution m)) = Z.of_nat (length content) /\
     pair_total (Metadata.by_priority (Metadata.distribution m))
     = Z.of_nat (length content) /\
     pair_total (Metadata.by_genre (Metadata.distribution m)) = Z.of_nat (length content) /\
     descending snd (Metadata.by_angle (Metadata.distribution m)) /\
     descending fst (Metadata.by_priority (Metadata.distribution m)) /\
     descending snd (Metadata.by_genre (Metadata.distribution m)) /\
     0 <= Metadata.high_priority_items (Metadata.quality m) <= Z.of_nat (length content) /\
     (length (Metadata.top_events_by_gms m) <= 5)%nat /\
     Forall2 (fun item event_id_ => ContentItem.event_id item = Some event_id_)
             (slice_to content 10) (Metadata.recommended_posting_order m) /\
     Forall (fun item =>
               exists metrics,
                 ContentItem.event_metrics item = Some metrics /\
                 is_Some (Metrics.recent_7d_gms metrics)) content).
Proof.
  unfold Batch._generate_content_metadata.
  destruct content as [|item0 content0] eqn:Hcontent; [intros [= <-]; by left|].
  cbn [is_empty]. rewrite <- Hcontent.
  assert (Hne : content <> []) by (rewrite Hcontent; discriminate).
  clear Hcontent item0 content0.
  intros Hm. right. split; [exact Hne|].
  inv_bind Hm. rename v into event_ids, Hv into Hids.
  inv_bind Hm. rename v into artists, Hv into Hartists.
  inv_bind Hm. rename v into distributions, Hv into Hdist.
  destruct distributions as [[angles_d priority_d] genre_d].
  inv_bind Hm. rename v into priorities, Hv into Hprio.
  inv_bind Hm. rename v into scores_total, Hv into Hscores.
  inv_bind Hm. rename v into avg_data_quality, Hv into Havg.
  inv_bind Hm. rename v into high, Hv into Hhigh.
  inv_bind Hm. rename v into top_events, Hv into Htop.
  inv_bind Hm. rename v into sorted_events, Hv into Hsorted.
  inv_bind Hm. inv_bind Hm. inv_bind Hm. inv_bind Hm.
  inv_bind Hm. rename v3 into recommended, Hv3 into Hrec.
  injection Hm as <-. eexists. split; [reflexivity|].
  cbn [Metadata.summary Metadata.total_content_items Metadata.unique_events
       Metadata.unique_artists Metadata.distribution Metadata.by_angle
       Metadata.by_priority Metadata.by_genre Metadata.quality
       Metadata.high_priority_items Metadata.top_events_by_gms
       Metadata.recommended_posting_order].
  apply map_raising_inv in Hids, Hartists, Htop, Hrec.
  pose proof (Forall2_length _ _ _ Hids) as Hlids.
  pose proof (Forall2_length _ _ _ Hartists) as Hlartists.
  apply distributions_loop_totals in Hdist as (Ha & Hp & Hg). cbn in Ha, Hp, Hg.
  apply filter_raising_inv in Hhigh as [_ ->].
  split; [done|].
  split.
  { rewrite Hlids. apply count_distinct_bounds. intros ->.
    destruct content; [done | discriminate Hlids]. }
  split.
  { rewrite Hlartists. apply count_distinct_bounds. intros ->.
    destruct content; [done | discriminate Hlartists]. }
  split; [by rewrite (pair_total_perm _ _ (sorted_desc_perm snd angles_d))|].
  split; [by rewrite (pair_total_perm _ _ (sorted_desc_perm fst priority_d))|].
  split; [by rewrite (pair_total_perm _ _ (sorted_desc_perm snd genre_d))|].
  do 3 (split; [apply sorted_desc_descending|]).
  split; [pose proof (filter_length (holds (fun item =>
            priority ← subscript (ContentItem.content_priority item) "content_priority";
            mret (Z.leb 8 priority))) content); lia|].
  split; [destruct (slice_to_length sorted_events 5) as [_ Hl]; rewrite Hl; lia|].
  split.
  { eapply Forall2_impl; [exact Hrec|]. cbv beta. intros item i Hi.
    destruct (ContentItem.event_id item); [by injection Hi as -> | discriminate]. }
  clear -Htop. induction Htop as [|item t content tops Ht _ IH]; constructor; [|exact IH].
  by eapply top_event_of_gms.
Qed.

Lemma metadata_needs_gms (self : Batch.processor) (content : list ContentItem.content_item) :
  content <> [] ->
  Forall no_gms content ->
  exists err, Batch._generate_content_metadata self content = Raise err.
Proof.
  intros Hne Hno.
  destruct (Batch._generate_content_metadata self content) as [r|err] eqn:Hm;
    [|by eexists].
  apply metadata_inv in Hm as [[-> _]|(_ & m & _ & Hgms)]; [done|].
  do 12 destruct Hgms as [_ Hgms].
  destruct content as [|item rest]; [done|].
  apply Forall_cons in Hno as [Hno _]. apply Forall_cons in Hgms as [(mt & Hmt & [g Hg]) _].
  rewrite (Hno mt Hmt) in Hg. discriminate.
Qed.

Lemma metadata_gms_error (self : Batch.processor) (content : list ContentItem.content_item) :
  content <> [] ->
  Forall exportable content ->
  Forall scored content ->
  Forall no_gms content ->
  Batch._generate_content_metadata self content = Raise (KeyError "recent_7d_gms").
Proof.
  intros Hne Hx Hs Hno. unfold Batch._generate_content_metadata.
  destruct content as [|item0 content0] eqn:Hcontent; [done|].
  cbn [is_empty]. rewrite <- Hcontent in *.
  destruct (map_raising_total
              (fun item => subscript (ContentItem.event_id item) "event_id")
              (fun _ _ => True) content) as (ids & -> & _).
  { eapply Forall_impl; [exact Hx|]. cbv beta. intros item ([i ->] & _). by exists i. }
  cbn [bind].
  destruct (map_raising_total
              (fun item => subscript (ContentItem.artist_name item) "artist_name")
              (fun _ _ => True) content) as (artists & -> & _).
  { eapply Forall_impl; [exact Hx|]. cbv beta. intros item (_ & [a ->] & _). by exists a. }
  cbn [bind].
  destruct (distributions_loop_returns content ([], [], []) Hx) as [[[ad pd] gd] ->].
  cbn [bind].
  destruct (map_raising_total
              (fun item => subscript (ContentItem.content_priority item) "content_priority")
              (fun _ _ => True) content) as (priorities & -> & _).
  { eapply Forall_impl; [exact Hx|]. cbv beta.
    intros item (_ & _ & _ & _ & _ & _ & _ & _ & _ & [p ->] & _). by exists p. }
  cbn [bind].
  destruct (sum_scores_returns content (VInt 0) _ eq_refl Hs) as (total & g & -> & Hg).
  cbn [bind].
  destruct (truediv_int_returns total (Z.of_nat (length content)) g Hg) as [avg ->].
  cbn [bind].
  rewrite (filter_raising_Ok _ (fun item => Z.leb 8 (priority_of item))).
  2: { eapply Forall_impl; [exact Hx|]. cbv beta.
       intros item (_ & _ & _ & _ & _ & _ & _ & _ & _ & [p Hp] & _).
       unfold priority_of. by rewrite Hp. }
  cbn [bind]. rewrite Hcontent at 1. cbn [map_raising].
  rewrite Hcontent in Hx, Hno.
  apply Forall_cons in Hx as [Hx0 _]. apply Forall_cons in Hno as [Hno0 _].
  by rewrite (top_event_of_gms_error item0 Hx0 Hno0).
Qed.
End Metadata.

Lemma content_item_of_metrics (cg : AIContextualizer.ContentGenerator) (e : event)
    (angle generated_at_ : string) (item : ContentItem.content_item) :
  Batch.content_item_of cg e angle generated_at_ = Ok item ->
  ContentItem.data_quality_score item = Some (completeness_score_of e) /\
  no_gms item.
Proof.
  unfold Batch.content_item_of. intros Hi. repeat inv_bind Hi. injection Hi as <-.
  split; [reflexivity|]. intros m [= <-]. reflexivity.
Qed.

Lemma batch_contents_items `{Batch.Clock} (cg : AIContextualizer.ContentGenerator)
    (max_content : Z) (i : nat) (events : list event) :
  Forall (fun item =>
            exists e angle t,
              e ∈ events /\ Batch.content_item_of cg e angle t = Ok item)
         (batch_contents cg max_content i events).
Proof.
  revert i. induction events as [|e events IH]; intros i; simpl; [constructor|].
  apply Forall_app. split.
  - unfold Batch._process_single_event.
    destruct (BatchProcessor._identify_content_angles e) as [angles|err]; [|constructor].
    cbn [bind].
    destruct (angle_loop_items cg e (Batch.now i) (slice_to angles max_content) 0)
      as (kept & _ & Hall).
    induction Hall as [|angle item kept' items [t Hi] _ IHall]; constructor; [|exact IHall].
    exists e, angle, t. split; [by left | exact Hi].
  - eapply Forall_impl; [apply IH|]. cbv beta.
    intros item (e' & angle & t & He' & Hi). exists e', angle, t.
    split; [by right | exact Hi].
Qed.

(** X20. [_generate_content_metadata] returns the empty dictionary
    exactly for an empty content. When it returns metadata, the total is
    the number of items, the numbers of distinct events and artists are
    between one and that total, each of the three distributions counts
    every item once and is listed from the highest count (or priority)
    down, at most five top events are listed, the posting order is that
    of the first ten items, and every item had the key ['recent_7d_gms']
    in its metrics. A non-empty content in which no item has that key is
    refused: the call raises. *)
Theorem content_metadata_counts `{Batch.Reporting} (self : Batch.processor)
    (content : list ContentItem.content_item) :
  (content = [] <-> Batch._generate_content_metadata self content = Ok None) /\
  (forall m,
      Batch._generate_content_metadata self content = Ok (Some m) ->
      let total := Z.of_nat (length content) in
      Metadata.total_content_items (Metadata.summary m) = total /\
      1 <= Metadata.unique_events (Metadata.summary m) <= total /\
      1 <= Metadata.unique_artists (Metadata.summary m) <= total /\
      pair_total (Metadata.by_angle (Metadata.distribution m)) = total /\
      pair_total (Metadata.by_priority (Metadata.distribution m)) = total /\
      pair_total (Metadata.by_genre (Metadata.distribution m)) = total /\
      descending snd (Metadata.by_angle (Metadata.distribution m)) /\
      descending fst (Metadata.by_priority (Metadata.distribution m)) /\
      descending snd (Metadata.by_genre (Metadata.distribution m)) /\
      0 <= Metadata.high_priority_items (Metadata.quality m) <= total /\
      (length (Metadata.top_events_by_gms m) <= 5)%nat /\
      Forall2 (fun item event_id_ => ContentItem.event_id item = Some event_id_)
              (slice_to content 10) (Metadata.recommended_posting_order m) /\
      Forall (fun item =>
                exists metrics,
                  ContentItem.event_metrics item = Some metrics /\
                  is_Some (Metrics.recent_7d_gms metrics)) content) /\
  (content <> [] ->
   Forall no_gms content ->
   exists err, Batch._generate_content_metadata self content = Raise err).
Proof.
  split; [|split].
  - split.
    + by intros ->.
    + intros Hm. apply metadata_inv in Hm as [[-> _]|(_ & m & Hr & _)]; [done|discriminate].
  - intros m Hm. apply metadata_inv in Hm as [[_ Hr]|(_ & m' & [= <-] & Hall)];
      [discriminate | exact Hall].
  - apply metadata_needs_gms.
Qed.

(** X21. What [process_events_batch] returns cannot be saved, which is the
    composition in the [main] of the batch processor: on a non-empty list
    [save_content_with_metadata] raises before it writes, with a
    [KeyError] for ['recent_7d_gms'] when the completeness score of every
    event is a number, as it is for the events that the extractors build,
    because the metrics that [_process_single_event] builds have no such
    key. *)
Theorem batch_output_unsaved `{Batch.Clock} `{Batch.Reporting} (self saver : Batch.processor)
    (events : list event) (cg : AIContextualizer.ContentGenerator)
    (max_content_per_event : Z) :
  exists content,
    fst (Batch.process_events_batch self events cg max_content_per_event) = Ok content /\
    (content = [] -> Batch.save_content_with_metadata saver content = Ok (None, [])) /\
    (content <> [] ->
     exists err,
       Batch.save_content_with_metadata saver content = Raise err /\
       (Forall (fun e => is_Some (as_number (completeness_score_of e))) events ->
        err = KeyError "recent_7d_gms")).
Proof.
  exists (batch_contents cg max_content_per_event 1 events).
  split; [apply process_events_batch_content|]. split; [by intros ->|].
  intros Hne.
  pose proof (batch_contents_exportable cg max_content_per_event 1 events) as Hx.
  pose proof (batch_contents_items cg max_content_per_event 1 events) as Hitems.
  set (content := batch_contents cg max_content_per_event 1 events) in *.
  unfold Batch.save_content_with_metadata.
  rewrite sorted_by_priority_Ok.
  2: { eapply Forall_impl; [exact Hx|]. simpl. unfold exportable. tauto. }
  cbn [bind].
  pose proof (sorted_desc_perm priority_of content) as Hperm.
  set (sorted := sorted_desc priority_of content) in *.
  assert (Hsne : sorted <> []).
  { intros Hs. rewrite Hs in Hperm. by apply Permutation_nil_l in Hperm. }
  assert (Hsx : Forall exportable sorted) by (by rewrite Hperm).
  assert (Hsno : Forall no_gms sorted).
  { rewrite Hperm. eapply Forall_impl; [exact Hitems|]. cbv beta.
    intros item (e & angle & t & _ & Hi). by apply content_item_of_metrics in Hi as [_ ?]. }
  destruct (metadata_needs_gms saver sorted Hsne Hsno) as [err Herr].
  exists err. rewrite Herr. split; [done|]. intros Hscores.
  assert (Hss : Forall scored sorted).
  { rewrite Hperm. eapply Forall_impl; [exact Hitems|]. cbv beta.
    intros item (e & angle & t & He & Hi).
    apply content_item_of_metrics in Hi as [Hq _].
    destruct (proj1 (Forall_forall _ _) Hscores e He) as [f Hf].
    by exists (completeness_score_of e), f. }
  rewrite (metadata_gms_error saver sorted Hsne Hsx Hss Hsno) in Herr. congruence.
Qed.

(** ** The quality report *)

Lemma sum_completeness_returns (events : list event) (acc : value) (f : pyfloat) :
  as_number acc = Some f ->
  Forall (fun e => exists s g, DataQuality.completeness_of e = Ok s /\
                               as_number s = Some g) events ->
  exists total g, DataQuality.sum_completeness events acc = Ok total /\
                  as_number total = Some g.
Proof.
  intros Hacc Hs. revert acc f Hacc.
  induction Hs as [|e rest (s & fs & Hv & Hnum) _ IH]; intros acc f Hacc; simpl.
  - by exists acc, f.
  - rewrite Hv. cbn [bind].
    assert (Hadd : exists a g, add_to_number acc s = Ok a /\ as_number a = Some g).
    { unfold add_to_number. rewrite Hacc, Hnum.
      destruct acc as [|b|x|x|x], s as [|c|y|y|y]; try discriminate; by do 2 eexists. }
    destruct Hadd as (a & g & -> & Hg). cbn [bind]. by eapply IH.
Qed.

Lemma mul_float_returns (v : value) (c : Q) (f : pyfloat) :
  as_number v = Some f ->
  exists w g, DataQuality.mul_float v c = Ok (VFloat w) /\ as_number (VFloat w) = Some g.
Proof.
  intros Hf. unfold DataQuality.mul_float. rewrite Hf.
  destruct f; by do 2 eexists.
Qed.

Lemma truediv_int_number (x : value) (n : Z) (f : pyfloat) :
  as_number x = Some f -> exists q g, truediv_int x n = Ok q /\ as_number q = Some g.
Proof.
  destruct x as [|b|z|[| |]|s]; try discriminate; intros _; by do 2 eexists.
Qed.

Lemma completeness_of_assessed (e : event)
    (hist_row trend_row market_row : option Pandas.Series) :
  data_completeness e
  = Some (SocialContentGenerator._assess_data_completeness hist_row trend_row market_row) ->
  exists s g, DataQuality.completeness_of e = Ok s /\ as_number s = Some g.
Proof.
  intros Hd. unfold DataQuality.completeness_of. rewrite Hd. cbn. by do 2 eexists.
Qed.

Lemma validate_inv (events : list event) (r : DataQuality.report) :
  DataQuality.validate_data_quality events = Ok r ->
  (events = [] /\ r = DataQuality.Error "No events to validate") \/
  (events <> [] /\
   exists complete avg score,
     r = DataQuality.Success (Z.of_nat (length events)) (Z.of_nat (length complete)) avg
           (Z.of_nat (length (List.filter DataQuality.missing_required events))) score /\
     Forall2 (fun e s => DataQuality.completeness_of e = Ok s)
             events (map (fun e => match DataQuality.completeness_of e with
                                   | Ok s => s
                                   | Raise _ => VNone
                                   end) events) /\
     complete = List.filter
                  (fun e => match DataQuality.completeness_of e with
                            | Ok s => DataQuality.eq_float s 1
                            | Raise _ => false
                            end) events).
Proof.
  unfold DataQuality.validate_data_quality.
  destruct events as [|e0 events0] eqn:He; [intros [= <-]; by left|].
  cbn [is_empty]. rewrite <- He.
  assert (Hne : events <> []) by (rewrite He; discriminate). clear He e0 events0.
  intros Hr. right. split; [exact Hne|].
  inv_bind Hr. rename v into complete, Hv into Hc.
  repeat inv_bind Hr. injection Hr as <-.
  apply filter_raising_inv in Hc as [Hall ->].
  eexists _, _, _. split; [reflexivity|]. split.
  - clear -Hall. induction Hall as [|e events [b Hb] _ IH]; simpl; constructor; [|exact IH].
    destruct (DataQuality.completeness_of e); [done | discriminate].
  - clear -Hall. induction Hall as [|e events [b Hb] _ IH]; simpl; [done|].
    rewrite IH. unfold holds.
    destruct (DataQuality.completeness_of e); [done | discriminate].
Qed.

(** X22. [validate_data_quality] reports an error for an empty list and for
    nothing else. When it reports success, every event had a
    completeness score, [total_events] is the number of events,
    [complete_data_events] the number of those whose score equals 1.0,
    and [events_missing_required_fields] the number of those in which one
    of the four required fields is absent or false, so that an event
    whose GMS is zero counts as missing a field. On the events that
    either extractor builds it reports success. When the first event has
    no ['data_completeness'] key it raises a [KeyError]. *)
Theorem quality_report_counts `{Builtins} (events : list event) :
  (events = [] <->
   DataQuality.validate_data_quality events
   = Ok (DataQuality.Error "No events to validate")) /\
  (forall total complete avg missing score,
      DataQuality.validate_data_quality events
      = Ok (DataQuality.Success total complete avg missing score) ->
      Forall (fun e => exists s, DataQuality.completeness_of e = Ok s) events /\
      total = Z.of_nat (length events) /\
      complete
      = Z.of_nat (length (List.filter
                            (fun e => match DataQuality.completeness_of e with
                                      | Ok s => DataQuality.eq_float s 1
                                      | Raise _ => false
                                      end) events)) /\
      missing = Z.of_nat (length (List.filter DataQuality.missing_required events)) /\
      0 <= complete <= total /\ 0 <= missing <= total) /\
  (forall e v,
      (total_gms e = Some v \/ recent_7d_gms e = Some v) ->
      truthy v = false ->
      DataQuality.missing_required e = true) /\
  (events <> [] ->
   Forall (fun e =>
             exists (base_row : Pandas.Series)
                    (hist_row trend_row market_row : option Pandas.Series),
               DataProcessing._build_event_object base_row hist_row trend_row market_row
               = Ok e \/
               exists hist_df trend_df market_df now_,
                 SocialContentGenerator.structure_row hist_df trend_df market_df now_
                   base_row = Ok e) events ->
   exists total complete avg missing score,
     DataQuality.validate_data_quality events
     = Ok (DataQuality.Success total complete avg missing score)) /\
  (forall e rest,
      events = e :: rest -> data_completeness e = None ->
      DataQuality.validate_data_quality events = Raise (KeyError "data_completeness")).
Proof.
  split; [|split; [|split; [|split]]].
  - split; [by intros ->|].
    intros Hr. apply validate_inv in Hr as [[-> _]|(_ & c & a & s & Hr & _)];
      [done | discriminate].
  - intros total complete avg missing score Hr.
    apply validate_inv in Hr as [[_ Hr]|(_ & c & a & s & [= -> -> -> -> ->] & Hall & ->)];
      [discriminate|].
    split.
    { clear -Hall. induction events as [|e events IH]; [constructor|].
      simpl in Hall. apply Forall2_cons in Hall as [He Hall].
      constructor; [by eexists | by apply IH]. }
    do 3 (split; [reflexivity|]).
    split; (split; [lia|]); apply Nat2Z.inj_le, List.filter_length_le.
  - intros e v [Hv|Hv] Hf; unfold DataQuality.missing_required; rewrite Hv;
      cbn [dict_get]; rewrite Hf; cbn [negb]; by rewrite ?orb_true_r.
  - intros Hne Hbuilt. unfold DataQuality.validate_data_quality.
    destruct events as [|e0 events0] eqn:He; [done|]. cbn [is_empty]. rewrite <- He in *.
    clear He e0 events0.
    assert (Hscores : Forall (fun e => exists s g, DataQuality.completeness_of e = Ok s /\
                                                   as_number s = Some g) events).
    { eapply Forall_impl; [exact Hbuilt|]. cbv beta.
      intros e (base_row & h & t & m & [Hb|(hd & td & md & now_ & Hs)]).
      - eapply completeness_of_assessed. by eapply build_event_completeness.
      - apply structure_row_rows in Hs as (i & h' & t' & m' & _ & _ & _ & Hd).
        by eapply completeness_of_assessed. }
    rewrite (filter_raising_Ok _ (fun e => match DataQuality.completeness_of e with
                                           | Ok s => DataQuality.eq_float s 1
                                           | Raise _ => false
                                           end)).
    2: { eapply Forall_impl; [exact Hscores|]. cbv beta. by intros e (s & g & -> & _). }
    cbn [bind].
    destruct (sum_completeness_returns events (VInt 0) _ eq_refl Hscores)
      as (total & g & -> & Hg).
    cbn [bind].
    destruct (truediv_int_number total (Z.of_nat (length events)) g Hg)
      as (avg & ga & -> & Hga).
    cbn [bind].
    destruct (mul_float_returns avg 0.7 ga Hga) as (w & gw & -> & Hgw). cbn [bind].
    destruct (mul_float_returns
                (int_truediv
                   (Z.of_nat (length events)
                    - Z.of_nat (length (List.filter DataQuality.missing_required events)))
                   (Z.of_nat (length events))) 0.3 _ eq_refl) as (p & gp & -> & Hgp).
    cbn [bind]. cbn [add_to_number as_number]. by do 5 eexists.
  - intros e rest -> Hd. unfold DataQuality.validate_data_quality. cbn [is_empty].
    cbn [filter_raising]. unfold DataQuality.completeness_of at 1. by rewrite Hd.
Qed.

(** ** The theorems at concrete inputs *)

Lemma extracted_event_items_witness :
  exists (e : event) (angles : list string) (items : list ContentItem.content_item),
    SocialContentGenerator.structure_row (H := Examples.plain_builtins)
      Pandas.empty_frame Pandas.empty_frame Pandas.empty_frame "2025-08-01T00:00:00"
      Examples.base_row_1 = Ok e /\
    BatchProcessor._identify_content_angles e = Ok angles /\
    Batch._process_single_event (Examples.failing_generator "timeout") e 2
      (fun _ => "2025-08-01T00:00:00") = Ok items /\
    map ContentItem.content_angle items = map Some (slice_to angles 2).
Proof.
  destruct (SocialContentGenerator.structure_row (H := Examples.plain_builtins)
              Pandas.empty_frame Pandas.empty_frame Pandas.empty_frame
              "2025-08-01T00:00:00" Examples.base_row_1) as [e|err] eqn:He;
    [|vm_compute in He; discriminate He].
  destruct (extracted_event_items (H := Examples.plain_builtins)
              (Examples.failing_generator "timeout")
              Pandas.empty_frame Pandas.empty_frame Pandas.empty_frame
              "2025-08-01T00:00:00" Examples.base_row_1 None None None e 2
              (fun _ => "2025-08-01T00:00:00") (or_intror He)
              (fun _ => ex_intro _ "prompt" eq_refl))
    as (angles & items & Ha & Hi & Hm & _).
  exists e, angles, items. by repeat split.
Defined.

Lemma filter_content_result_witness :
  Batch.filter_content_by_criteria Samples.three_items 7 (Some 1) None
  = Ok [Samples.item_of "major_spike" 9 None] /\
  [Samples.item_of "major_spike" 9 None] ⊆+ Samples.three_items /\
  Forall (fun item => exists p, ContentItem.content_priority item = Some p /\ 7 <= p)
         [Samples.item_of "major_spike" 9 None].
Proof.
  assert (Hr : Batch.filter_content_by_criteria Samples.three_items 7 (Some 1) None
               = Ok [Samples.item_of "major_spike" 9 None]) by reflexivity.
  split; [exact Hr|].
  destruct (filter_content_result _ _ _ _ _ Hr) as (Hsub & _ & Hmin & _).
  by split.
Defined.

Lemma filter_content_idempotent_witness :
  Batch.filter_content_by_criteria Samples.three_items 7 (Some 1) None
  = Ok [Samples.item_of "major_spike" 9 None] /\
  Batch.filter_content_by_criteria [Samples.item_of "major_spike" 9 None] 7 (Some 1) None
  = Ok [Samples.item_of "major_spike" 9 None].
Proof.
  assert (Hr : Batch.filter_content_by_criteria Samples.three_items 7 (Some 1) None
               = Ok [Samples.item_of "major_spike" 9 None]) by reflexivity.
  split; [exact Hr|].
  apply (filter_content_idempotent Samples.three_items 7 (Some 1) None); [|exact Hr].
  intros m [= <-]. lia.
Defined.

Lemma posting_schedule_posts_witness :
  exists s : Schedule.posting_schedule,
    Batch.create_posting_schedule (H := Samples.hour_calendar) Samples.two_texts 1 None
    = Ok (Some s) /\
    Schedule.total_posts s = 2 /\
    1 <= Schedule.total_days s <= 2.
Proof.
  destruct (Batch.create_posting_schedule (H := Samples.hour_calendar)
              Samples.two_texts 1 None) as [[s|]|err] eqn:Hs;
    [|vm_compute in Hs; discriminate Hs..].
  exists s. split; [reflexivity|].
  destruct (posting_schedule_posts (H := Samples.hour_calendar) Samples.two_texts 1 None)
    as (_ & Hposts & _).
  destruct (Hposts s Hs) as (_ & Htotal & _ & _ & Hdays & _).
  rewrite Htotal in Hdays. by split.
Defined.

Lemma pipeline_content_items_witness :
  exists (e : event) (items : list ContentItem.content_item),
    SocialContentGenerator.structure_row (H := Examples.plain_builtins)
      Pandas.empty_frame Pandas.empty_frame Pandas.empty_frame "2025-08-01T00:00:00"
      Examples.base_row_1 = Ok e /\
    Pipeline.generate_content_for_events (Examples.failing_generator "timeout")
      (fun _ _ => "2025-08-01T00:00:00") [e] = Ok items /\
    map ContentItem.content_angle items = map Some (pipeline_angles e ++ []).
Proof.
  destruct (SocialContentGenerator.structure_row (H := Examples.plain_builtins)
              Pandas.empty_frame Pandas.empty_frame Pandas.empty_frame
              "2025-08-01T00:00:00" Examples.base_row_1) as [e|err] eqn:He;
    [|vm_compute in He; discriminate He].
  destruct (pipeline_content_items (H := Examples.plain_builtins)
              (Examples.failing_generator "timeout")
              (fun _ _ => "2025-08-01T00:00:00") [e]) as (_ & _ & Hbuilt).
  destruct (Hbuilt Pandas.empty_frame Pandas.empty_frame Pandas.empty_frame
              "2025-08-01T00:00:00")
    as (items & Hi & Hm & _).
  - constructor; [by exists Examples.base_row_1 | constructor].
  - intros e' angle. by exists "prompt".
  - exists e, items. by repeat split.
Defined.

Lemma geographic_top_countries_witness :
  exists (g : geographic_dict) (l : list country_dict),
    SocialContentGenerator._extract_geographic_insights (H := Examples.plain_builtins)
      (Some Samples.trend_row_1) = Ok g /\
    top_buyer_countries g = Some l /\
    international_appeal_score g = Some (VInt (Z.of_nat (length l))) /\
    VStr "nan" ∈ map country l.
Proof.
  destruct (SocialContentGenerator._extract_geographic_insights
              (H := Examples.plain_builtins) (Some Samples.trend_row_1))
    as [g|err] eqn:Hg; [|vm_compute in Hg; discriminate Hg].
  destruct (geographic_top_countries (H := Examples.plain_builtins)) as [_ Hrow].
  destruct (Hrow Samples.trend_row_1 g Hg) as (l & Hl & _ & _ & Hscore & Hnan).
  exists g, l. split; [reflexivity|]. split; [exact Hl|]. split; [exact Hscore|].
  apply (Hnan 1); [by left | reflexivity | discriminate].
Defined.

Lemma content_metadata_counts_witness :
  exists m : Metadata.metadata,
    Batch._generate_content_metadata (H := Samples.plain_reporting)
      (Batch.__init__ 3 (VFloat (Finite 1))) Samples.two_with_gms = Ok (Some m) /\
    Metadata.total_content_items (Metadata.summary m) = 2 /\
    pair_total (Metadata.by_angle (Metadata.distribution m)) = 2 /\
    (length (Metadata.top_events_by_gms m) <= 5)%nat.
Proof.
  destruct (Batch._generate_content_metadata (H := Samples.plain_reporting)
              (Batch.__init__ 3 (VFloat (Finite 1))) Samples.two_with_gms)
    as [[m|]|err] eqn:Hm; [|vm_compute in Hm; discriminate Hm..].
  exists m. split; [reflexivity|].
  destruct (content_metadata_counts (H := Samples.plain_reporting)
              (Batch.__init__ 3 (VFloat (Finite 1))) Samples.two_with_gms)
    as (_ & Hcounts & _).
  destruct (Hcounts m Hm) as (Ht & _ & _ & Ha & _ & _ & _ & _ & _ & _ & Htop & _).
  by repeat split.
Defined.

Lemma quality_report_counts_witness :
  exists (e : event) (complete : Z) (avg : value) (missing : Z) (score : value),
    SocialContentGenerator.structure_row (H := Examples.plain_builtins)
      Pandas.empty_frame Pandas.empty_frame Pandas.empty_frame "2025-08-01T00:00:00"
      Examples.base_row_1 = Ok e /\
    DataQuality.validate_data_quality [e]
    = Ok (DataQuality.Success 1 complete avg missing score).
Proof.
  destruct (SocialContentGenerator.structure_row (H := Examples.plain_builtins)
              Pandas.empty_frame Pandas.empty_frame Pandas.empty_frame
              "2025-08-01T00:00:00" Examples.base_row_1) as [e|err] eqn:He;
    [|vm_compute in He; discriminate He].
  destruct (quality_report_counts (H := Examples.plain_builtins) [e])
    as (_ & Hcounts & _ & Hbuilt & _).
  destruct Hbuilt as (total & complete & avg & missing & score & Hr); [discriminate| |].
  - constructor; [|constructor].
    exists Examples.base_row_1, None, None, None. right.
    by exists Pandas.empty_frame, Pandas.empty_frame, Pandas.empty_frame,
      "2025-08-01T00:00:00".
  - exists e, complete, avg, missing, score. split; [reflexivity|].
    destruct (Hcounts _ _ _ _ _ Hr) as (_ & Ht & _). rewrite Hr. by rewrite Ht.
Defined.
